(** * An inventory store with two persistence strategies

    A shallow embedding of the two programs [Manipulación.py] (line-delimited
    backing file) and [Manipulación1.py] (JSON backing file with a
    write-to-temporary-then-rename save), and the properties of their record
    store: codec round trips, the add / remove / update contract, name search,
    load-time and save-time failures.

    Layout: the part of the Python runtime the programs rely on ([Py], and
    [Unicode] for [str.lower] on texts of any code points), the class
    [Producto] the two files share and the state the programs run in,
    one module per source file ([Manipulacion], [Manipulacion1]), the search
    by name on texts of any code points ([BuscarUnicode]), the console
    programs the two files share ([Consola]), a model of the float and JSON
    interfaces and of a part of the character database, the vocabulary of the
    statements and some concrete stores;
    then the lemmas, the properties of the store, and the properties on the
    concrete stores; then the same for the further properties of the store
    and for the console programs. *)

From Stdlib Require Import ZArith String Ascii List Lia Bool.
From Stdlib Require Import DecimalString DecimalZ DecimalN DecimalPos DecimalFacts.
From stdpp Require Import base option list strings gmap.

Local Open Scope string_scope.
Local Open Scope Z_scope.
Local Set Warnings "-register-all".
#[local] Arguments String.append : simpl nomatch.

(* ===================================================================== *)
(** * The Python runtime, as far as the programs use it *)
(* ===================================================================== *)

Module Py.

(** ** Exceptions

    The exception classes the programs name in an [except] clause or can
    meet while they run. [OSError] stands for an [OSError] that is neither
    of its two subclasses above it ([IOError] is an alias of [OSError]);
    [JSONDecodeError] and [UnicodeError] are subclasses of [ValueError].
    Every class here derives from [Exception]. *)
Inductive exn : Type :=
| FileNotFoundError
| PermissionError
| OSError
| ValueError
| UnicodeError
| JSONDecodeError
| KeyError
| TypeError
| AttributeError.

#[global] Instance exn_eq_dec : EqDecision exn.
Proof. solve_decision. Defined.

(** [isinstance(e, OSError)]. *)
Definition is_OSError (e : exn) : bool :=
  match e with
  | FileNotFoundError | PermissionError | OSError => true
  | _ => false
  end.

(** ** Results

    A call returns a value or raises. The third outcome, [Untyped], marks a
    run in which Python would bind a field of a record to a value outside the
    field's type (a string where the quantity is expected, say): the typed
    records of this development have no such inhabitant, so the run is kept
    apart, and nothing is stated about what follows it. *)
Inductive result (A : Type) : Type :=
| Ok (a : A)
| Raise (e : exn)
| Untyped.

Arguments Ok {A} a.
Arguments Raise {A} e.
Arguments Untyped {A}.

(** ** Strings

    A Python [str] is modelled by a [string]: a sequence of the code points
    below 256, the range of [ascii]. The character classes below are the ones
    Python gives to these code points. What is stated of a [string] is
    stated of the texts of these code points, and of no other: [str.lower]
    in particular is character by character on them and is not so beyond
    them (see [Unicode.lower], which [lower] is the restriction of). *)

Definition LF : ascii := ascii_of_nat 10.
Definition CR : ascii := ascii_of_nat 13.
Definition newline : string := String LF EmptyString.

(** [c.isspace()]. *)
Definition is_space (c : ascii) : bool :=
  let n := N_of_ascii c in
  ((9 <=? n) && (n <=? 13) || (28 <=? n) && (n <=? 32)
   || (n =? 133) || (n =? 160))%N.

(** [c.lower()]: the letters A-Z, and the upper-case letters of Latin-1
    (U+00C0 to U+00DE, the multiplication sign U+00D7 apart), move 32 code
    points up. *)
Definition lower_char (c : ascii) : ascii :=
  let n := N_of_ascii c in
  if ((65 <=? n) && (n <=? 90)
      || (192 <=? n) && (n <=? 222) && negb (n =? 215))%N
  then ascii_of_N (n + 32) else c.

Fixpoint string_map (f : ascii -> ascii) (s : string) : string :=
  match s with
  | EmptyString => EmptyString
  | String c r => String (f c) (string_map f r)
  end.

(** [s.lower()]. *)
Definition lower (s : string) : string := string_map lower_char s.

Fixpoint string_forallb (p : ascii -> bool) (s : string) : bool :=
  match s with
  | EmptyString => true
  | String c r => p c && string_forallb p r
  end.

Definition is_empty (s : string) : bool :=
  match s with EmptyString => true | _ => false end.

(** [s.lstrip()], [s.rstrip()] and [s.strip()], without argument: white
    space goes from the ends. *)
Fixpoint lstrip (s : string) : string :=
  match s with
  | EmptyString => EmptyString
  | String c r => if is_space c then lstrip r else s
  end.

Fixpoint rstrip (s : string) : string :=
  match s with
  | EmptyString => EmptyString
  | String c r =>
      let r' := rstrip r in
      if is_empty r' && is_space c then EmptyString else String c r'
  end.

Definition strip (s : string) : string := rstrip (lstrip s).

(** [s.split(sep)] for a separator of one character: one more field than
    there are separators, so at least one. *)
Fixpoint split (sep : ascii) (s : string) : list string :=
  match s with
  | EmptyString => [EmptyString]
  | String c r =>
      if Ascii.eqb c sep then EmptyString :: split sep r
      else match split sep r with
           | f :: fs => String c f :: fs
           | [] => [String c EmptyString]
           end
  end.

(** [needle in hay], on strings: [needle] occurs in [hay] as a substring. *)
Fixpoint contains (needle hay : string) : bool :=
  String.prefix needle hay
  || match hay with
     | EmptyString => false
     | String _ r => contains needle r
     end.

(** A character that ends no line. *)
Definition no_eol (c : ascii) : bool := negb (Ascii.eqb c LF) && negb (Ascii.eqb c CR).

(** Iterating over a text file opened with the default [newline=None]: the
    line ends [CR], [LF] and [CR LF] are read as [LF], and every line is
    yielded with its end; a last line without one is yielded as it is.
    (Written text keeps its [LF] as it is, as on POSIX; the encoding of the
    file is not modelled: a file holds a [str].) *)
Fixpoint readlines (s : string) : list string :=
  match s with
  | EmptyString => []
  | String c r =>
      if Ascii.eqb c LF then newline :: readlines r
      else if Ascii.eqb c CR then
        newline :: match r with
                   | String c' r' => if Ascii.eqb c' LF then readlines r' else readlines r
                   | EmptyString => []
                   end
      else match readlines r with
           | l :: ls => String c l :: ls
           | [] => [String c EmptyString]
           end
  end.

(** ** Integers

    [str(n)] is the decimal numeral of [n], with a minus sign below zero. *)
Definition int_str (n : Z) : string := NilZero.string_of_int (Z.to_int n).

Definition is_digit (c : ascii) : bool :=
  let n := N_of_ascii c in ((48 <=? n) && (n <=? 57))%N.

Definition digit_value (c : ascii) : Z := Z.of_N (N_of_ascii c) - 48.

(** The digits of an [int] literal: decimal digits, with single underscores
    allowed between two of them. [seen] tells whether the previous character
    was a digit. *)
Fixpoint digits_value (s : string) (acc : Z) (seen : bool) : option Z :=
  match s with
  | EmptyString => if seen then Some acc else None
  | String c r =>
      if is_digit c then digits_value r (10 * acc + digit_value c) true
      else if Ascii.eqb c "_" then
        if seen then digits_value r acc false else None
      else None
  end.

(** The white space [int] and [float] drop around a numeral. It is not
    that of [str.strip]: a text outside ASCII has its white space turned
    into blanks first, and then the ASCII white space goes from the ends, so
    that U+0085 and U+00A0 are dropped and the separators U+001C to U+001F,
    which [str.isspace] takes, are not. *)
Definition is_num_space (c : ascii) : bool :=
  let n := N_of_ascii c in
  ((9 <=? n) && (n <=? 13) || (n =? 32) || (n =? 133) || (n =? 160))%N.

Fixpoint ltrim (p : ascii -> bool) (s : string) : string :=
  match s with
  | EmptyString => EmptyString
  | String c r => if p c then ltrim p r else s
  end.

Fixpoint rtrim (p : ascii -> bool) (s : string) : string :=
  match s with
  | EmptyString => EmptyString
  | String c r =>
      let r' := rtrim p r in
      if is_empty r' && p c then EmptyString else String c r'
  end.

(** The numeral of [int(s)] and [float(s)]: [s] without that white
    space. *)
Definition num_strip (s : string) : string := rtrim is_num_space (ltrim is_num_space s).

(** [int(s)] on a string: the white space around the literal is dropped,
    one sign is allowed; anything else raises [ValueError]. (The limit
    CPython puts on the number of digits, which [sys.set_int_max_str_digits]
    moves or lifts, is no part of this.) *)
Definition int_parse (s : string) : result Z :=
  let t := num_strip s in
  let '(neg, body) :=
    match t with
    | String c r =>
        if Ascii.eqb c "-" then (true, r)
        else if Ascii.eqb c "+" then (false, r)
        else (false, t)
    | EmptyString => (false, t)
    end in
  match digits_value body 0 false with
  | Some n => Ok (if neg then - n else n)
  | None => Raise ValueError
  end.

(** The characters of [str(n)]. *)
Definition int_char (c : ascii) : bool := is_digit c || Ascii.eqb c "-".

(** ** Floats

    The programs only carry a [float] around, print it with [str] and read
    it back with [float]; the type is kept abstract behind that interface.
    [float_parse_str] is the guarantee of Python that the text [str] gives
    denotes the float it was given; [float_str_chars] says what such a text
    is made of (digits, sign, point, exponent mark, and the letters of
    [inf] and [nan]). *)
Definition float_char (c : ascii) : bool :=
  is_digit c || contains (String c EmptyString) "+-.einfa".

Class PyFloat (F : Type) : Type := {
  float_str : F -> string;
  float_parse : string -> option F;
  float_parse_str : forall x : F, float_parse (float_str x) = Some x;
  float_str_chars : forall x : F, string_forallb float_char (float_str x) = true
}.

(** [float(s)] on a string: [ValueError] when [s] is no float literal. *)
Definition float_of_str {F : Type} `{PyFloat F} (s : string) : result F :=
  match float_parse s with
  | Some x => Ok x
  | None => Raise ValueError
  end.

(** ** Dictionaries

    A [dict] with string keys keeps its entries in insertion order, which is
    the order [values()] and [items()] iterate in. A key occurs once: see
    [dict_wf], which every operation below preserves. *)
Definition dict (V : Type) : Type := list (string * V).

Section Dict.
Context {V : Type}.

(** [d.get(k)]. *)
Fixpoint dict_get (k : string) (d : dict V) : option V :=
  match d with
  | [] => None
  | (k', v) :: r => if decide (k = k') then Some v else dict_get k r
  end.

(** [k in d]. *)
Definition dict_in (k : string) (d : dict V) : bool :=
  match dict_get k d with Some _ => true | None => false end.

(** [d[k] = v]: the entry of [k] gets the new value where it stands; a new
    key goes to the end. *)
Fixpoint dict_set (k : string) (v : V) (d : dict V) : dict V :=
  match d with
  | [] => [(k, v)]
  | (k', v') :: r =>
      if decide (k = k') then (k', v) :: r else (k', v') :: dict_set k v r
  end.

(** [del d[k]], for a key that is present. *)
Fixpoint dict_del (k : string) (d : dict V) : dict V :=
  match d with
  | [] => []
  | (k', v') :: r => if decide (k = k') then r else (k', v') :: dict_del k r
  end.

(** [d.values()] and [d.keys()]. *)
Definition dict_values (d : dict V) : list V := map snd d.
Definition dict_keys (d : dict V) : list string := map fst d.

Definition dict_wf (d : dict V) : Prop := NoDup (dict_keys d).

End Dict.

(** ** The [json] module

    The Python values [json] writes and reads: [None], [bool], [int],
    [float], [str], [list], and [dict] with string keys, in the order of its
    entries. *)
Inductive json (F : Type) : Type :=
| JNull
| JBool (b : bool)
| JInt (n : Z)
| JFloat (x : F)
| JStr (s : string)
| JList (l : list (json F))
| JDict (d : dict (json F)).

Arguments JNull {F}.
Arguments JBool {F} b.
Arguments JInt {F} n.
Arguments JFloat {F} x.
Arguments JStr {F} s.
Arguments JList {F} l.
Arguments JDict {F} d.

(** The values that are Python values: no key twice in a [dict]. *)
Inductive json_wf {F : Type} : json F -> Prop :=
| wf_JNull : json_wf JNull
| wf_JBool b : json_wf (JBool b)
| wf_JInt n : json_wf (JInt n)
| wf_JFloat x : json_wf (JFloat x)
| wf_JStr s : json_wf (JStr s)
| wf_JList l : Forall json_wf l -> json_wf (JList l)
| wf_JDict d :
    dict_wf d -> Forall (fun kv => json_wf (snd kv)) d ->
    json_wf (JDict d).

(** [json.dump(obj, file, indent=4)] gives the text [json_dump obj];
    [json.load(file)] reads a text, [None] standing for [JSONDecodeError].
    [json_load_dump] is the guarantee of the module on the values above:
    what was dumped loads back as it was. *)
Class JsonLib (F : Type) : Type := {
  json_dump : json F -> string;
  json_load : string -> option (json F);
  json_load_dump : forall j : json F, json_wf j -> json_load (json_dump j) = Some j
}.

(** [json.load] as a call. *)
Definition json_loads {F : Type} `{JsonLib F} (text : string) : result (json F) :=
  match json_load text with
  | Some j => Ok j
  | None => Raise JSONDecodeError
  end.

(** [data[k]] for a string [k]: the entry of a [dict], [KeyError] without
    one; [TypeError] on any other value (a list or a string takes integer
    indices, the rest takes none). *)
Definition subscript {F : Type} (data : json F) (k : string) : result (json F) :=
  match data with
  | JDict d =>
      match dict_get k d with
      | Some v => Ok v
      | None => Raise KeyError
      end
  | _ => Raise TypeError
  end.

(** [data.items()]: [AttributeError] on a value that is no [dict]. *)
Definition items {F : Type} (data : json F) : result (dict (json F)) :=
  match data with
  | JDict d => Ok d
  | _ => Raise AttributeError
  end.

End Py.

Import Py.

(* ===================================================================== *)
(** * Texts of any code points *)
(* ===================================================================== *)

(** [str.lower] and [in] on a [str] that is not held to the code points
    below 256: what [buscar_por_nombre] does to the names and to the text
    that is searched. *)
Module Unicode.

(** A [str], as the sequence of its code points. *)
Definition str : Type := list N.

(** What [str.lower] reads of the Unicode character database: the
    lower-case mapping of a code point, which can be more than one code
    point, and the properties Cased and Case_Ignorable. *)
Class Database : Type := {
  to_lower_full : N -> list N;
  is_cased : N -> bool;
  is_case_ignorable : N -> bool
}.

(** U+03A3, U+03C3 and U+03C2. *)
Definition capital_sigma : N := 931.
Definition small_sigma : N := 963.
Definition small_final_sigma : N := 962.

Section Lower.
Context `{Database}.

(** The first code point of [s] that is not case-ignorable is there and is
    cased. *)
Fixpoint cased_next (s : str) : bool :=
  match s with
  | [] => false
  | c :: r => if is_case_ignorable c then cased_next r else is_cased c
  end.

(** The lower case of a capital sigma: the final form after a cased letter
    and before none, case-ignorable code points apart. [antes] holds the code
    points before the sigma, the nearest first; [despues] those after it. *)
Definition handle_capital_sigma (antes despues : str) : N :=
  if cased_next antes && negb (cased_next despues) then small_final_sigma
  else small_sigma.

(** The lower case of [s], which stands after the code points [antes]:
    code point by code point, the capital sigma by its context. *)
Fixpoint lower_desde (antes s : str) : str :=
  match s with
  | [] => []
  | c :: r =>
      ((if (c =? capital_sigma)%N then [handle_capital_sigma antes r]
        else to_lower_full c)
       ++ lower_desde (c :: antes) r)%list
  end.

(** [s.lower()]. *)
Definition lower (s : str) : str := lower_desde [] s.

End Lower.

Fixpoint starts_with (needle hay : str) : bool :=
  match needle, hay with
  | [], _ => true
  | c :: n, c' :: h => (c =? c')%N && starts_with n h
  | _ :: _, [] => false
  end.

(** [needle in hay]. *)
Fixpoint contains (needle hay : str) : bool :=
  starts_with needle hay
  || match hay with
     | [] => false
     | _ :: r => contains needle r
     end.

(** The [str] a [string] stands for. *)
Definition de_latin1 (s : string) : str := map N_of_ascii (list_ascii_of_string s).

End Unicode.

(* ===================================================================== *)
(** * The classes of both files and the state they run in *)
(* ===================================================================== *)

(** [class Producto]: the same four attributes in both files. [mkProducto]
    is [Producto.__init__]. *)
Record Producto (F : Type) : Type := mkProducto {
  id : string;
  nombre : string;
  cantidad : Z;
  precio : F
}.

Arguments mkProducto {F} id nombre cantidad precio.
Arguments id {F} p.
Arguments nombre {F} p.
Arguments cantidad {F} p.
Arguments precio {F} p.

(** [producto.cantidad = c] and [producto.precio = x], on the attributes. *)
Definition con_cantidad {F : Type} (c : Z) (p : Producto F) : Producto F :=
  mkProducto (id p) (nombre p) c (precio p).

Definition con_precio {F : Type} (x : F) (p : Producto F) : Producto F :=
  mkProducto (id p) (nombre p) (cantidad p) x.

(** A reference to a [Producto] object. *)
Definition loc : Type := nat.

(** [class Inventario]: its two attributes. The dictionary holds references:
    the objects are in the heap of the state, where a caller that kept a
    reference to one of them sees what [actualizar_producto] does to it. *)
Record Inventario : Type := mkInventario {
  productos : dict loc;
  archivo : string
}.

(** The calls to the operating system the programs make. *)
Inductive syscall : Type :=
| SysOpenRead (path : string)
| SysOpenWrite (path : string)
| SysWrite (path : string)
| SysRemove (path : string)
| SysRename (src dst : string).

(** The state of a run.
    - [self]: the one [Inventario] object of the program;
    - [objs], [next]: the [Producto] objects, and the next fresh reference;
    - [fs]: the files, by path, with their text;
    - [fault]: what the environment answers to a system call in this state,
      [Some e] when the call raises [e] (no permission, disk full, ...);
      [torn]: how many characters reach the file when a write raises;
    - [out]: what has been printed, oldest first. *)
Record state (F Msg : Type) : Type := mkState {
  self : Inventario;
  objs : loc -> Producto F;
  next : loc;
  fs : gmap string string;
  fault : syscall -> option exn;
  torn : nat;
  out : list Msg
}.

Arguments mkState {F Msg} self objs next fs fault torn out.
Arguments self {F Msg} s.
Arguments objs {F Msg} s.
Arguments next {F Msg} s.
Arguments fs {F Msg} s.
Arguments fault {F Msg} s.
Arguments torn {F Msg} s.
Arguments out {F Msg} s.

(** The environment in which no system call fails for a reason of its own. *)
Definition no_fault : syscall -> option exn := fun _ => None.

Module Run.
Section Run.
Context {F Msg : Type}.

(** A statement: from a state to the state after it, with the value it
    returns or the exception it raises. *)
Definition M (A : Type) : Type := state F Msg -> state F Msg * result A.

Definition ret {A : Type} (a : A) : M A := fun s => (s, Ok a).

Definition raise {A : Type} (e : exn) : M A := fun s => (s, Raise e).

Definition bind {A B : Type} (m : M A) (k : A -> M B) : M B :=
  fun s =>
    match m s with
    | (s', Ok a) => k a s'
    | (s', Raise e) => (s', Raise e)
    | (s', Untyped) => (s', Untyped)
    end.

(** [try: body except Exception as e: handler e]. A handler that does not
    take [e] re-raises it (see the [except] clauses of each function). *)
Definition try_except {A : Type} (body : M A) (handler : exn -> M A) : M A :=
  fun s =>
    match body s with
    | (s', Raise e) => handler e s'
    | r => r
    end.

(** The outcome of a computation that does not touch the state. *)
Definition lift {A : Type} (r : result A) : M A := fun s => (s, r).

Definition gets {A : Type} (f : state F Msg -> A) : M A := fun s => (s, Ok (f s)).

Definition modify (f : state F Msg -> state F Msg) : M unit := fun s => (f s, Ok tt).

(** [for x in xs: body x]. *)
Fixpoint for_each {A : Type} (xs : list A) (body : A -> M unit) : M unit :=
  match xs with
  | [] => ret tt
  | x :: r => bind (body x) (fun _ => for_each r body)
  end.

Definition set_self (i : Inventario) (s : state F Msg) : state F Msg :=
  mkState i (objs s) (next s) (fs s) (fault s) (torn s) (out s).

Definition set_fs (fs' : gmap string string) (s : state F Msg) : state F Msg :=
  mkState (self s) (objs s) (next s) fs' (fault s) (torn s) (out s).

Definition set_obj (l : loc) (p : Producto F) (s : state F Msg) : state F Msg :=
  mkState (self s) (fun l' => if decide (l' = l) then p else objs s l')
          (next s) (fs s) (fault s) (torn s) (out s).

(** [print(m)]. *)
Definition print (m : Msg) : M unit :=
  modify (fun s => mkState (self s) (objs s) (next s) (fs s) (fault s) (torn s)
                           (out s ++ [m])).

(** [Producto(...)]: a new object, at a fresh reference. *)
Definition new_Producto (p : Producto F) : M loc :=
  fun s =>
    (mkState (self s) (fun l' => if decide (l' = next s) then p else objs s l')
             (S (next s)) (fs s) (fault s) (torn s) (out s),
     Ok (next s)).

(** [self.productos = d]; also what [self.productos[k] = v] and
    [del self.productos[k]] come to, with [d] the dictionary after them. *)
Definition set_productos (d : dict loc) : M unit :=
  modify (fun s => set_self (mkInventario d (archivo (self s))) s).

(** [self.productos[k]]: [KeyError] on a key that is absent. *)
Definition getitem (k : string) : M loc :=
  fun s =>
    match dict_get k (productos (self s)) with
    | Some l => (s, Ok l)
    | None => (s, Raise KeyError)
    end.

(** The records of the store, as [(key, attributes)] in the order of the
    dictionary: what the references stand for in state [s]. *)
Definition records (s : state F Msg) : list (string * Producto F) :=
  map (fun kl => (fst kl, objs s (snd kl))) (productos (self s)).

(** [os.path.exists(path)]. *)
Definition os_path_exists (path : string) : M bool :=
  gets (fun s => bool_decide (is_Some (fs s !! path))).

(** [with open(path, 'r') as file], then reading [file] to its end. *)
Definition read_file (path : string) : M string :=
  fun s =>
    match fault s (SysOpenRead path) with
    | Some e => (s, Raise e)
    | None =>
        match fs s !! path with
        | Some text => (s, Ok text)
        | None => (s, Raise FileNotFoundError)
        end
    end.

(** [with open(path, 'w') as file], then writing [text] to [file]. Opening
    truncates the file; a write that raises leaves the characters that had
    reached it. *)
Definition write_file (path text : string) : M unit :=
  fun s =>
    match fault s (SysOpenWrite path) with
    | Some e => (s, Raise e)
    | None =>
        match fault s (SysWrite path) with
        | Some e =>
            (set_fs (<[path := string_of_list_ascii
                                 (take (torn s) (list_ascii_of_string text))]> (fs s)) s,
             Raise e)
        | None => (set_fs (<[path := text]> (fs s)) s, Ok tt)
        end
    end.

(** [os.remove(path)]. *)
Definition os_remove (path : string) : M unit :=
  fun s =>
    match fault s (SysRemove path) with
    | Some e => (s, Raise e)
    | None =>
        match fs s !! path with
        | Some _ => (set_fs (delete path (fs s)) s, Ok tt)
        | None => (s, Raise FileNotFoundError)
        end
    end.

(** [os.rename(src, dst)]: [dst] gets the text of [src], which is gone. *)
Definition os_rename (src dst : string) : M unit :=
  fun s =>
    match fault s (SysRename src dst) with
    | Some e => (s, Raise e)
    | None =>
        match fs s !! src with
        | Some text => (set_fs (<[dst := text]> (delete src (fs s))) s, Ok tt)
        | None => (s, Raise FileNotFoundError)
        end
    end.

End Run.
End Run.

Import Run.

Notation "x <- m ;; k" := (bind m (fun x => k))
  (at level 100, m at next level, right associativity, only parsing).
Notation "m ;;; k" := (bind m (fun _ => k))
  (at level 100, right associativity, only parsing).

(* ===================================================================== *)
(** * [Manipulación.py]: the line-delimited backing file *)
(* ===================================================================== *)

Module Manipulacion.

(** What the two [print] calls of [class Inventario] show. *)
Inductive Msg : Type :=
| Error_al_cargar (e : exn)
| Error_al_guardar (e : exn).

Section Manipulacion.
Context {F : Type} `{PyFloat F}.

(** The body of the [for] loop of [cargar_inventario]: the line is stripped
    and split on the bar, the unpacking into four names raises [ValueError]
    on any other number of fields, [int] and [float] raise it on a field
    that is no number; the new object goes under its id. *)
Definition cargar_linea (linea : string) : M (F := F) (Msg := Msg) unit :=
  match split "|" (strip linea) with
  | [id_producto; nombre; cantidad; precio] =>
      c <- lift (int_parse cantidad) ;;
      p <- lift (float_of_str precio) ;;
      l <- new_Producto (mkProducto id_producto nombre c p) ;;
      d <- gets (fun s => productos (self s)) ;;
      set_productos (dict_set id_producto l d)
  | _ => raise ValueError
  end.

(** [cargar_inventario]: nothing to do without the file; the clause
    [except (FileNotFoundError, PermissionError)] prints, and any other
    exception goes on to the caller. *)
Definition cargar_inventario : M (F := F) (Msg := Msg) unit :=
  a <- gets (fun s => archivo (self s)) ;;
  ex <- os_path_exists a ;;
  if ex : bool then
    try_except
      (text <- read_file a ;;
       for_each (readlines text) cargar_linea)
      (fun e =>
         match e with
         | FileNotFoundError | PermissionError => print (Error_al_cargar e)
         | _ => raise e
         end)
  else ret tt.

(** The line [guardar_inventario] writes for one object. *)
Definition linea_de (p : Producto F) : string :=
  id p ++ "|" ++ nombre p ++ "|" ++ int_str (cantidad p) ++ "|"
  ++ float_str (precio p) ++ newline.

(** The text of the whole file: one line per value of the dictionary. *)
Definition texto (s : state F Msg) : string :=
  fold_right String.append EmptyString
    (map (fun l => linea_de (objs s l)) (dict_values (productos (self s)))).

(** [guardar_inventario]: the file is opened for writing, which empties it,
    and the lines are written; the clause [except (PermissionError, IOError)]
    takes every [OSError] and prints it. *)
Definition guardar_inventario : M (F := F) (Msg := Msg) unit :=
  try_except
    (a <- gets (fun s => archivo (self s)) ;;
     text <- gets texto ;;
     write_file a text)
    (fun e => if is_OSError e then print (Error_al_guardar e) else raise e).

(** [Inventario.__init__]: an empty dictionary, the path, then the load. *)
Definition __init__ (archivo : string) : M (F := F) (Msg := Msg) unit :=
  modify (set_self (mkInventario [] archivo)) ;;;
  cargar_inventario.

(** The operations of the store. [producto] is the reference the caller
    passes; [None] for [cantidad] or [precio] is the default of the
    source. *)
Definition agregar_producto (producto : loc) : M (F := F) (Msg := Msg) bool :=
  p <- gets (fun s => objs s producto) ;;
  d <- gets (fun s => productos (self s)) ;;
  if dict_in (id p) d then ret false
  else
    set_productos (dict_set (id p) producto d) ;;;
    guardar_inventario ;;;
    ret true.

Definition eliminar_producto (id_producto : string) : M (F := F) (Msg := Msg) bool :=
  d <- gets (fun s => productos (self s)) ;;
  if dict_in id_producto d then
    set_productos (dict_del id_producto d) ;;;
    guardar_inventario ;;;
    ret true
  else ret false.

Definition actualizar_producto (id_producto : string)
    (cantidad : option Z) (precio : option F) : M (F := F) (Msg := Msg) bool :=
  d <- gets (fun s => productos (self s)) ;;
  if negb (dict_in id_producto d) then ret false
  else
    producto <- getitem id_producto ;;
    match cantidad with
    | Some c => modify (fun s => set_obj producto (con_cantidad c (objs s producto)) s)
    | None => ret tt
    end ;;;
    match precio with
    | Some x => modify (fun s => set_obj producto (con_precio x (objs s producto)) s)
    | None => ret tt
    end ;;;
    guardar_inventario ;;;
    ret true.

(** The searches return references to the objects of the store. *)
Definition buscar_por_id (id_producto : string) : M (F := F) (Msg := Msg) (option loc) :=
  gets (fun s => dict_get id_producto (productos (self s))).

Definition buscar_por_nombre (nombre_buscado : string) : M (F := F) (Msg := Msg) (list loc) :=
  let nombre_buscado := lower nombre_buscado in
  gets (fun s =>
          filter (fun p => contains nombre_buscado (lower (nombre (objs s p))) = true)
                 (dict_values (productos (self s)))).

Definition obtener_todos : M (F := F) (Msg := Msg) (list loc) :=
  gets (fun s => dict_values (productos (self s))).

End Manipulacion.
End Manipulacion.

(* ===================================================================== *)
(** * [Manipulación1.py]: the JSON backing file *)
(* ===================================================================== *)

Module Manipulacion1.

(** What the [print] calls of [class Inventario] show, in the order of the
    source. *)
Inductive Msg : Type :=
| Archivo_no_encontrado (archivo : string)
| Error_de_permisos_al_leer (archivo : string) (e : exn)
| Archivo_corrupto (archivo : string)
| Error_inesperado_al_cargar (e : exn)
| Error_de_permisos_al_guardar (e : exn)
| Error_de_ES_al_guardar (e : exn)
| Error_inesperado_al_guardar (e : exn)
| Producto_ya_existe (id : string)
| Producto_no_encontrado (id : string)
| Error_al_agregar (e : exn)
| Error_al_eliminar (e : exn)
| Error_al_actualizar (e : exn).

Section Manipulacion1.
Context {F : Type} `{PyFloat F} `{JsonLib F}.

(** [Producto.to_dict]. *)
Definition to_dict (p : Producto F) : json F :=
  JDict [("id", JStr (id p)); ("nombre", JStr (nombre p));
         ("cantidad", JInt (cantidad p)); ("precio", JFloat (precio p))].

(** [Producto.from_dict]: the four subscripts, in this order, then the
    constructor. Python takes the four values as they come; the records here
    are typed, and a value of another type than its field ends the run as
    [Untyped]. *)
Definition from_dict (data : json F) : result (Producto F) :=
  match subscript data "id" with
  | Ok v_id =>
  match subscript data "nombre" with
  | Ok v_nombre =>
  match subscript data "cantidad" with
  | Ok v_cantidad =>
  match subscript data "precio" with
  | Ok v_precio =>
      match v_id, v_nombre, v_cantidad, v_precio with
      | JStr i, JStr n, JInt c, JFloat x => Ok (mkProducto i n c x)
      | _, _, _, _ => Untyped
      end
  | Raise e => Raise e | Untyped => Untyped end
  | Raise e => Raise e | Untyped => Untyped end
  | Raise e => Raise e | Untyped => Untyped end
  | Raise e => Raise e | Untyped => Untyped end.

(** [{k: Producto.from_dict(v) for k, v in data.items()}], from the entries
    that are left and the dictionary built so far. *)
Fixpoint comprension (entradas : dict (json F)) (d : dict loc)
  : M (F := F) (Msg := Msg) (dict loc) :=
  match entradas with
  | [] => ret d
  | (k, v) :: r =>
      p <- lift (from_dict v) ;;
      l <- new_Producto p ;;
      comprension r (dict_set k l d)
  end.

(** The [try] block of [cargar_inventario]. *)
Definition cargar_try (a : string) : M (F := F) (Msg := Msg) unit :=
  ex <- os_path_exists a ;;
  if ex : bool then
    text <- read_file a ;;
    data <- lift (json_loads text) ;;
    entradas <- lift (items data) ;;
    d <- comprension entradas [] ;;
    set_productos d
  else ret tt.

(** Its [except] clauses, in the order of the source: the first that takes
    [e] runs. The second one raises [e] again. *)
Definition cargar_except (a : string) (e : exn) : M (F := F) (Msg := Msg) unit :=
  match e with
  | FileNotFoundError => print (Archivo_no_encontrado a)
  | PermissionError => print (Error_de_permisos_al_leer a e) ;;; raise e
  | JSONDecodeError => print (Archivo_corrupto a)
  | _ => print (Error_inesperado_al_cargar e) ;;; set_productos []
  end.

(** [cargar_inventario]. *)
Definition cargar_inventario : M (F := F) (Msg := Msg) unit :=
  a <- gets (fun s => archivo (self s)) ;;
  try_except (cargar_try a) (cargar_except a).

(** [{k: v.to_dict() for k, v in self.productos.items()}]. *)
Definition a_json (s : state F Msg) : json F :=
  JDict (map (fun kl => (fst kl, to_dict (objs s (snd kl)))) (productos (self s))).

(** The three statements of the [try] block of [guardar_inventario]:
    the dump into the temporary file, ... *)
Definition escribir_temporal : M (F := F) (Msg := Msg) unit :=
  a <- gets (fun s => archivo (self s)) ;;
  obj <- gets a_json ;;
  write_file (a ++ ".tmp") (json_dump obj).

(** ... [if os.path.exists(self.archivo): os.remove(self.archivo)], ... *)
Definition quitar_destino : M (F := F) (Msg := Msg) unit :=
  a <- gets (fun s => archivo (self s)) ;;
  ex <- os_path_exists a ;;
  if ex : bool then os_remove a else ret tt.

(** ... and [os.rename(temp_file, self.archivo)]. *)
Definition renombrar : M (F := F) (Msg := Msg) unit :=
  a <- gets (fun s => archivo (self s)) ;;
  os_rename (a ++ ".tmp") a.

(** The three of them, in the order of the source. *)
Definition pasos_de_guardar : list (M (F := F) (Msg := Msg) unit) :=
  [escribir_temporal; quitar_destino; renombrar].

(** The [try] block of [guardar_inventario]: the three statements, in
    turn. *)
Definition guardar_try : M (F := F) (Msg := Msg) unit :=
  for_each pasos_de_guardar (fun paso => paso).

(** The [try] block cut after its first [n] statements: the files it
    leaves are those a process that is killed at that point leaves. *)
Definition guardar_hasta (n : nat) : M (F := F) (Msg := Msg) unit :=
  for_each (take n pasos_de_guardar) (fun paso => paso).

(** The three [except] clauses differ in the line they print only: each
    removes the temporary file when it is there and raises [e] again. *)
Definition guardar_except (a : string) (e : exn) : M (F := F) (Msg := Msg) unit :=
  print (match e with
         | PermissionError => Error_de_permisos_al_guardar e
         | FileNotFoundError | OSError => Error_de_ES_al_guardar e
         | _ => Error_inesperado_al_guardar e
         end) ;;;
  ex <- os_path_exists (a ++ ".tmp") ;;
  (if ex : bool then os_remove (a ++ ".tmp") else ret tt) ;;;
  raise e.

(** [guardar_inventario], with [temp_file = self.archivo + '.tmp']. *)
Definition guardar_inventario : M (F := F) (Msg := Msg) unit :=
  a <- gets (fun s => archivo (self s)) ;;
  try_except guardar_try (guardar_except a).

(** [Inventario.__init__]: the path, an empty dictionary, then the load. *)
Definition __init__ (archivo : string) : M (F := F) (Msg := Msg) unit :=
  modify (set_self (mkInventario [] archivo)) ;;;
  cargar_inventario.

(** The operations of the store: each is one [try] block, whose clause
    [except Exception] prints and returns [False]. *)
Definition agregar_producto (producto : loc) : M (F := F) (Msg := Msg) bool :=
  try_except
    (p <- gets (fun s => objs s producto) ;;
     d <- gets (fun s => productos (self s)) ;;
     if dict_in (id p) d then
       print (Producto_ya_existe (id p)) ;;;
       ret false
     else
       set_productos (dict_set (id p) producto d) ;;;
       guardar_inventario ;;;
       ret true)
    (fun e => print (Error_al_agregar e) ;;; ret false).

Definition eliminar_producto (id_producto : string) : M (F := F) (Msg := Msg) bool :=
  try_except
    (d <- gets (fun s => productos (self s)) ;;
     if negb (dict_in id_producto d) then
       print (Producto_no_encontrado id_producto) ;;;
       ret false
     else
       set_productos (dict_del id_producto d) ;;;
       guardar_inventario ;;;
       ret true)
    (fun e => print (Error_al_eliminar e) ;;; ret false).

Definition actualizar_producto (id_producto : string)
    (cantidad : option Z) (precio : option F) : M (F := F) (Msg := Msg) bool :=
  try_except
    (d <- gets (fun s => productos (self s)) ;;
     if negb (dict_in id_producto d) then
       print (Producto_no_encontrado id_producto) ;;;
       ret false
     else
       producto <- getitem id_producto ;;
       match cantidad with
       | Some c => modify (fun s => set_obj producto (con_cantidad c (objs s producto)) s)
       | None => ret tt
       end ;;;
       match precio with
       | Some x => modify (fun s => set_obj producto (con_precio x (objs s producto)) s)
       | None => ret tt
       end ;;;
       guardar_inventario ;;;
       ret true)
    (fun e => print (Error_al_actualizar e) ;;; ret false).

Definition buscar_por_id (id_producto : string) : M (F := F) (Msg := Msg) (option loc) :=
  gets (fun s => dict_get id_producto (productos (self s))).

Definition buscar_por_nombre (nombre_buscado : string) : M (F := F) (Msg := Msg) (list loc) :=
  let nombre_buscado := lower nombre_buscado in
  gets (fun s =>
          filter (fun p => contains nombre_buscado (lower (nombre (objs s p))) = true)
                 (dict_values (productos (self s)))).

Definition obtener_todos : M (F := F) (Msg := Msg) (list loc) :=
  gets (fun s => dict_values (productos (self s))).

End Manipulacion1.
End Manipulacion1.

(* ===================================================================== *)
(** * [buscar_por_nombre] on names of any code points *)
(* ===================================================================== *)

(** [buscar_por_nombre] has the same text in both files. It is written
    here for names and a searched text of any code points: [values] stands
    for [self.productos.values()] and [nombre] for the attribute of the
    objects. On the texts of code points below 256 it is the function of
    [Manipulacion] and [Manipulacion1] (see [buscar_por_nombre_latin1]). *)
Module BuscarUnicode.
Section BuscarUnicode.
Context `{Unicode.Database} {P : Type}.

Definition buscar_por_nombre (nombre : P -> Unicode.str) (values : list P)
    (nombre_buscado : Unicode.str) : list P :=
  let nombre_buscado := Unicode.lower nombre_buscado in
  filter (fun p => Unicode.contains nombre_buscado (Unicode.lower (nombre p)) = true) values.

End BuscarUnicode.
End BuscarUnicode.

(* ===================================================================== *)
(** * The console programs of both files *)
(* ===================================================================== *)

(** [mostrar_menu], [solicitar_datos_producto], [main] and
    [Producto.__str__] have the same text in [Manipulación.py] and in
    [Manipulación1.py]; they differ in the [class Inventario] they call.
    They are written once here, over the methods of that class. *)

(** What the console programs ask of a [float] beyond [PyFloat]: the test
    [x >= 0] and the format [f"{x:.2f}"]. *)
Class PyFloatConsole (F : Type) : Type := {
  float_ge_0 : F -> bool;
  float_format_2f : F -> string
}.

(** The methods of [class Inventario] that [main] calls, and the default
    of the parameter [archivo] of its constructor. *)
Class Almacen (F Msg : Type) : Type := {
  archivo_por_defecto : string;
  nuevo_Inventario : string -> M (F := F) (Msg := Msg) unit;
  agregar : loc -> M (F := F) (Msg := Msg) bool;
  eliminar : string -> M (F := F) (Msg := Msg) bool;
  actualizar : string -> option Z -> option F -> M (F := F) (Msg := Msg) bool;
  por_id : string -> M (F := F) (Msg := Msg) (option loc);
  por_nombre : string -> M (F := F) (Msg := Msg) (list loc);
  todos : M (F := F) (Msg := Msg) (list loc)
}.

#[export] Instance Almacen_txt {F : Type} `{PyFloat F} : Almacen F Manipulacion.Msg := {|
  archivo_por_defecto := "inventario.txt";
  nuevo_Inventario := Manipulacion.__init__;
  agregar := Manipulacion.agregar_producto;
  eliminar := Manipulacion.eliminar_producto;
  actualizar := Manipulacion.actualizar_producto;
  por_id := Manipulacion.buscar_por_id;
  por_nombre := Manipulacion.buscar_por_nombre;
  todos := Manipulacion.obtener_todos
|}.

#[export] Instance Almacen_json {F : Type} `{PyFloat F} `{JsonLib F}
  : Almacen F Manipulacion1.Msg := {|
  archivo_por_defecto := "inventario.json";
  nuevo_Inventario := Manipulacion1.__init__;
  agregar := Manipulacion1.agregar_producto;
  eliminar := Manipulacion1.eliminar_producto;
  actualizar := Manipulacion1.actualizar_producto;
  por_id := Manipulacion1.buscar_por_id;
  por_nombre := Manipulacion1.buscar_por_nombre;
  todos := Manipulacion1.obtener_todos
|}.

Module Consola.

(** The texts [input] is called with, in the order of the source. *)
Inductive Prompt : Type :=
| ID_del_producto
| Nombre_del_producto
| Cantidad_en_inventario
| Precio_unitario
| Seleccione_una_opcion
| ID_a_eliminar
| ID_a_actualizar
| Nueva_cantidad
| Nuevo_precio
| ID_a_buscar
| Nombre_a_buscar
| Presione_Enter.

(** What the console shows: the lines of the [print] calls of the three
    functions, the prompts of [input], and the lines the methods of
    [Inventario] print. *)
Inductive Linea (Msg : Type) : Type :=
| Titulo_del_menu
| Opcion_del_menu (n : nat)
| Pide (p : Prompt)
| Ingreso_de_nuevo_producto
| El_ID_no_puede_estar_vacio
| La_cantidad_debe_ser_0_o_mayor
| Debe_ingresar_un_numero_entero
| El_precio_debe_ser_0_o_mayor
| Debe_ingresar_un_numero_valido
| Producto_agregado
| Ya_existe_un_producto_con_ese_ID
| Producto_eliminado
| No_se_encontro_el_producto
| Producto_actual (texto : string)
| Producto_actualizado
| Error_al_actualizar_el_producto
| Ingrese_valores_numericos_validos
| Error_producto_no_encontrado
| Producto_encontrado
| Muestra (texto : string)
| Producto_no_encontrado
| Se_encontraron (n : nat)
| No_se_encontraron_productos
| Listado_de_productos
| Total (n : nat)
| El_inventario_esta_vacio
| Saliendo_del_sistema
| Opcion_no_valida
| Del_inventario (m : Msg).

Arguments Titulo_del_menu {Msg}.
Arguments Opcion_del_menu {Msg} n.
Arguments Pide {Msg} p.
Arguments Ingreso_de_nuevo_producto {Msg}.
Arguments El_ID_no_puede_estar_vacio {Msg}.
Arguments La_cantidad_debe_ser_0_o_mayor {Msg}.
Arguments Debe_ingresar_un_numero_entero {Msg}.
Arguments El_precio_debe_ser_0_o_mayor {Msg}.
Arguments Debe_ingresar_un_numero_valido {Msg}.
Arguments Producto_agregado {Msg}.
Arguments Ya_existe_un_producto_con_ese_ID {Msg}.
Arguments Producto_eliminado {Msg}.
Arguments No_se_encontro_el_producto {Msg}.
Arguments Producto_actual {Msg} texto.
Arguments Producto_actualizado {Msg}.
Arguments Error_al_actualizar_el_producto {Msg}.
Arguments Ingrese_valores_numericos_validos {Msg}.
Arguments Error_producto_no_encontrado {Msg}.
Arguments Producto_encontrado {Msg}.
Arguments Muestra {Msg} texto.
Arguments Producto_no_encontrado {Msg}.
Arguments Se_encontraron {Msg} n.
Arguments No_se_encontraron_productos {Msg}.
Arguments Listado_de_productos {Msg}.
Arguments Total {Msg} n.
Arguments El_inventario_esta_vacio {Msg}.
Arguments Saliendo_del_sistema {Msg}.
Arguments Opcion_no_valida {Msg}.
Arguments Del_inventario {Msg} m.

(** A run at the console: the state of the store, the lines that will be
    typed (each without its line end), and what the console has shown,
    oldest first. *)
Record sesion (F Msg : Type) : Type := mkSesion {
  estado : state F Msg;
  entrada : list string;
  pantalla : list (Linea Msg)
}.

Arguments mkSesion {F Msg} estado entrada pantalla.
Arguments estado {F Msg} _.
Arguments entrada {F Msg} _.
Arguments pantalla {F Msg} _.

(** What ends a call at the console: beside the exceptions of the store,
    the [EOFError] of [input] when nothing is left to read. *)
Inductive error : Type :=
| De (e : exn)
| EOFError.

(** [isinstance(e, ValueError)]. *)
Definition is_ValueError (e : error) : bool :=
  match e with
  | De ValueError | De UnicodeError | De JSONDecodeError => true
  | _ => false
  end.

(** The outcome of a call: as in [result], and [Agotado] for a loop that
    was given too few turns (see [bucle]). *)
Inductive fin (A : Type) : Type :=
| Da (a : A)
| Lanza (e : error)
| Sin_tipo
| Agotado.

Arguments Da {A} a.
Arguments Lanza {A} e.
Arguments Sin_tipo {A}.
Arguments Agotado {A}.

Section Consola.
Context {F Msg : Type} `{PyFloat F} `{PyFloatConsole F} `{Almacen F Msg}.

Definition U (A : Type) : Type := sesion F Msg -> sesion F Msg * fin A.

Definition da {A : Type} (a : A) : U A := fun t => (t, Da a).

Definition lanza {A : Type} (e : error) : U A := fun t => (t, Lanza e).

Definition luego {A B : Type} (m : U A) (k : A -> U B) : U B :=
  fun t =>
    match m t with
    | (t', Da a) => k a t'
    | (t', Lanza e) => (t', Lanza e)
    | (t', Sin_tipo) => (t', Sin_tipo)
    | (t', Agotado) => (t', Agotado)
    end.

(** [try: cuerpo except ValueError: manejo]. *)
Definition salvo_ValueError {A : Type} (cuerpo manejo : U A) : U A :=
  fun t =>
    match cuerpo t with
    | (t', Lanza e) => if is_ValueError e then manejo t' else (t', Lanza e)
    | r => r
    end.

(** [print(linea)]. *)
Definition mostrar (linea : Linea Msg) : U unit :=
  fun t => (mkSesion (estado t) (entrada t) (pantalla t ++ [linea]), Da tt).

(** [input(p)]: the prompt is shown and the next line is read; [EOFError]
    when there is none. *)
Definition input (p : Prompt) : U string :=
  fun t =>
    let pant := (pantalla t ++ [Pide p])%list in
    match entrada t with
    | [] => (mkSesion (estado t) [] pant, Lanza EOFError)
    | x :: r => (mkSesion (estado t) r pant, Da x)
    end.

(** A call of a method of the store, or of [Producto(...)]: it runs on the
    state of the store, and the lines it printed go to the console. *)
Definition correr {A : Type} (m : M (F := F) (Msg := Msg) A) : U A :=
  fun t =>
    let sr := m (estado t) in
    (mkSesion (fst sr) (entrada t)
       (pantalla t ++ map Del_inventario (drop (length (out (estado t))) (out (fst sr)))),
     match snd sr with
     | Ok a => Da a
     | Raise e => Lanza (De e)
     | Untyped => Sin_tipo
     end).

(** The outcome of [int(x)] and [float(x)]. *)
Definition de_resultado {A : Type} (r : result A) : U A :=
  fun t =>
    (t, match r with
        | Ok a => Da a
        | Raise e => Lanza (De e)
        | Untyped => Sin_tipo
        end).

(** [while True: cuerpo], where [cuerpo] gives [Some a] when it reaches
    [break], [a] standing for the variables the loop leaves. [mientras]
    takes at most [n] turns. *)
Fixpoint mientras {A : Type} (n : nat) (cuerpo : U (option A)) : U A :=
  match n with
  | O => fun t => (t, Agotado)
  | S n' =>
      luego cuerpo (fun r =>
        match r with
        | Some a => da a
        | None => mientras n' cuerpo
        end)
  end.

(** Every loop of the programs reads a line at each turn that does not end
    it, so it takes no more turns than there are lines left, and one: [bucle]
    gives it these. *)
Definition bucle {A : Type} (cuerpo : U (option A)) : U A :=
  fun t => mientras (S (length (entrada t))) cuerpo t.

Fixpoint para_cada {A : Type} (xs : list A) (cuerpo : A -> U unit) : U unit :=
  match xs with
  | [] => da tt
  | x :: r => luego (cuerpo x) (fun _ => para_cada r cuerpo)
  end.

(** [Producto.__str__]. *)
Definition __str__ (p : Producto F) : string :=
  "ID: " ++ id p ++ " | Nombre: " ++ nombre p ++ " | Cantidad: " ++ int_str (cantidad p)
  ++ " | Precio: $" ++ float_format_2f (precio p).

(** [str(producto)], on a reference. *)
Definition str (producto : loc) : U string :=
  fun t => (t, Da (__str__ (objs (estado t) producto))).

Notation "x <~ m ;; k" := (luego m (fun x => k))
  (at level 100, m at next level, right associativity, only parsing).
Notation "m ;;~ k" := (luego m (fun _ => k))
  (at level 100, right associativity, only parsing).

(** [mostrar_menu]. *)
Definition mostrar_menu : U unit :=
  mostrar Titulo_del_menu ;;~
  para_cada [1; 2; 3; 4; 5; 6; 7]%nat (fun n => mostrar (Opcion_del_menu n)).

(** The bodies of the three loops of [solicitar_datos_producto]: the id, ... *)
Definition pedir_id : U (option string) :=
  x <~ input ID_del_producto ;;
  let id_producto := strip x in
  if negb (is_empty id_producto) then da (Some id_producto)
  else mostrar El_ID_no_puede_estar_vacio ;;~ da None.

(** ... the quantity, ... *)
Definition pedir_cantidad : U (option Z) :=
  salvo_ValueError
    (x <~ input Cantidad_en_inventario ;;
     cantidad <~ de_resultado (int_parse x) ;;
     if 0 <=? cantidad then da (Some cantidad)
     else mostrar La_cantidad_debe_ser_0_o_mayor ;;~ da None)
    (mostrar Debe_ingresar_un_numero_entero ;;~ da None).

(** ... and the price. *)
Definition pedir_precio : U (option F) :=
  salvo_ValueError
    (x <~ input Precio_unitario ;;
     precio <~ de_resultado (float_of_str x) ;;
     if float_ge_0 precio then da (Some precio)
     else mostrar El_precio_debe_ser_0_o_mayor ;;~ da None)
    (mostrar Debe_ingresar_un_numero_valido ;;~ da None).

(** [solicitar_datos_producto]: the new object, by its reference. *)
Definition solicitar_datos_producto : U loc :=
  mostrar Ingreso_de_nuevo_producto ;;~
  id_producto <~ bucle pedir_id ;;
  x <~ input Nombre_del_producto ;;
  let nombre := strip x in
  cantidad <~ bucle pedir_cantidad ;;
  precio <~ bucle pedir_precio ;;
  correr (new_Producto (mkProducto id_producto nombre cantidad precio)).

(** [input("\nPresione Enter para continuar...")], the last statement of a
    turn of the loop of [main] that does not leave it. *)
Definition pausa : U (option unit) :=
  input Presione_Enter ;;~ da None.

(** The branches of [main], by the option typed. *)
Definition opcion_1 : U unit :=
  producto <~ solicitar_datos_producto ;;
  ok <~ correr (agregar producto) ;;
  if ok : bool then mostrar Producto_agregado
  else mostrar Ya_existe_un_producto_con_ese_ID.

Definition opcion_2 : U unit :=
  id_producto <~ input ID_a_eliminar ;;
  ok <~ correr (eliminar id_producto) ;;
  if ok : bool then mostrar Producto_eliminado
  else mostrar No_se_encontro_el_producto.

Definition opcion_3 : U unit :=
  id_producto <~ input ID_a_actualizar ;;
  producto <~ correr (por_id id_producto) ;;
  match producto with
  | Some l =>
      texto <~ str l ;;
      mostrar (Producto_actual texto) ;;~
      salvo_ValueError
        (nueva_cantidad <~ input Nueva_cantidad ;;
         cantidad <~ (if negb (is_empty nueva_cantidad)
                      then c <~ de_resultado (int_parse nueva_cantidad) ;; da (Some c)
                      else da None) ;;
         nuevo_precio <~ input Nuevo_precio ;;
         precio <~ (if negb (is_empty nuevo_precio)
                    then x <~ de_resultado (float_of_str nuevo_precio) ;; da (Some x)
                    else da None) ;;
         ok <~ correr (actualizar id_producto cantidad precio) ;;
         if ok : bool then mostrar Producto_actualizado
         else mostrar Error_al_actualizar_el_producto)
        (mostrar Ingrese_valores_numericos_validos)
  | None => mostrar Error_producto_no_encontrado
  end.

Definition opcion_4 : U unit :=
  id_producto <~ input ID_a_buscar ;;
  producto <~ correr (por_id id_producto) ;;
  match producto with
  | Some l =>
      mostrar Producto_encontrado ;;~
      texto <~ str l ;;
      mostrar (Muestra texto)
  | None => mostrar Producto_no_encontrado
  end.

Definition opcion_5 : U unit :=
  nombre <~ input Nombre_a_buscar ;;
  resultados <~ correr (por_nombre nombre) ;;
  match resultados with
  | _ :: _ =>
      mostrar (Se_encontraron (length resultados)) ;;~
      para_cada resultados (fun producto => texto <~ str producto ;; mostrar (Muestra texto))
  | [] => mostrar No_se_encontraron_productos
  end.

Definition opcion_6 : U unit :=
  productos <~ correr todos ;;
  match productos with
  | _ :: _ =>
      mostrar Listado_de_productos ;;~
      para_cada productos (fun producto => texto <~ str producto ;; mostrar (Muestra texto)) ;;~
      mostrar (Total (length productos))
  | [] => mostrar El_inventario_esta_vacio
  end.

(** The [if] chain of the loop of [main], by the option that was typed,
    with the [input] that ends the turn: [Some tt] when it reaches
    [break]. *)
Definition rama (opcion : string) : U (option unit) :=
  if String.eqb opcion "1" then opcion_1 ;;~ pausa
  else if String.eqb opcion "2" then opcion_2 ;;~ pausa
  else if String.eqb opcion "3" then opcion_3 ;;~ pausa
  else if String.eqb opcion "4" then opcion_4 ;;~ pausa
  else if String.eqb opcion "5" then opcion_5 ;;~ pausa
  else if String.eqb opcion "6" then opcion_6 ;;~ pausa
  else if String.eqb opcion "7" then mostrar Saliendo_del_sistema ;;~ da (Some tt)
  else mostrar Opcion_no_valida ;;~ pausa.

(** One turn of the loop of [main]. *)
Definition turno : U (option unit) :=
  mostrar_menu ;;~
  opcion <~ input Seleccione_una_opcion ;;
  rama opcion.

(** [main]. *)
Definition main : U unit :=
  correr (nuevo_Inventario archivo_por_defecto) ;;~
  bucle turno.

End Consola.
End Consola.

(* ===================================================================== *)
(** * Models of the two interfaces *)
(* ===================================================================== *)

(** One instance of [PyFloat] and one of [JsonLib], on which the programs
    run on concrete stores: floats of integral value, and a writer and a
    reader of JSON in its compact form. They show that the laws of the two
    interfaces can be met; the general statements do not depend on them. *)

(** Floats of integral value, printed with one decimal: [str(3.0)] is
    ["3.0"]. *)
Module FloatZ.

Definition str (x : Z) : string := int_str x ++ ".0".

Definition parse (s : string) : option Z :=
  match split "." (num_strip s) with
  | [a; b] =>
      if String.eqb b "0" && string_forallb int_char a then
        match int_parse a with
        | Ok n => Some n
        | _ => None
        end
      else None
  | _ => None
  end.

End FloatZ.

(** JSON texts over these floats. *)
Module JsonZ.

Definition dquote : ascii := ascii_of_nat 34.
Definition bslash : ascii := ascii_of_nat 92.

(** A string between quotes, the quote and the backslash escaped. *)
Fixpoint escape (s : string) : string :=
  match s with
  | EmptyString => EmptyString
  | String c r =>
      if Ascii.eqb c dquote || Ascii.eqb c bslash
      then String bslash (String c (escape r))
      else String c (escape r)
  end.

Definition dump_str (s : string) : string :=
  String dquote (escape s ++ String dquote EmptyString).

(** The compact form: no white space between the tokens. *)
Fixpoint dump (j : json Z) : string :=
  match j with
  | JNull => "null"
  | JBool b => if b then "true" else "false"
  | JInt n => int_str n
  | JFloat x => FloatZ.str x
  | JStr s => dump_str s
  | JList l =>
      "[" ++ (fix elems (l : list (json Z)) : string :=
                match l with
                | [] => "]"
                | x :: r => dump x ++ match r with
                                      | [] => "]"
                                      | _ => "," ++ elems r
                                      end
                end) l
  | JDict d =>
      "{" ++ (fix members (d : dict (json Z)) : string :=
                match d with
                | [] => "}"
                | (k, v) :: r => dump_str k ++ ":" ++ dump v
                                 ++ match r with
                                    | [] => "}"
                                    | _ => "," ++ members r
                                    end
                end) d
  end.

(** The text of a string up to its closing quote, and what follows. *)
Fixpoint unescape (s : string) : option (string * string) :=
  match s with
  | EmptyString => None
  | String c r =>
      if Ascii.eqb c dquote then Some (EmptyString, r)
      else if Ascii.eqb c bslash then
        match r with
        | String c' r' =>
            if Ascii.eqb c' dquote || Ascii.eqb c' bslash then
              match unescape r' with
              | Some (t, rest) => Some (String c' t, rest)
              | None => None
              end
            else None
        | EmptyString => None
        end
      else
        match unescape r with
        | Some (t, rest) => Some (String c t, rest)
        | None => None
        end
  end.

Definition num_char (c : ascii) : bool := int_char c || Ascii.eqb c ".".

(** The longest prefix made of [p], and the rest. *)
Fixpoint span (p : ascii -> bool) (s : string) : string * string :=
  match s with
  | EmptyString => (EmptyString, EmptyString)
  | String c r =>
      if p c then let '(a, b) := span p r in (String c a, b)
      else (EmptyString, s)
  end.

Definition parse_number (s : string) : option (json Z * string) :=
  let '(tok, rest) := span num_char s in
  if string_forallb int_char tok then
    match int_parse tok with
    | Ok n => Some (JInt n, rest)
    | _ => None
    end
  else
    match FloatZ.parse tok with
    | Some x => Some (JFloat x, rest)
    | None => None
    end.

(** [expect lit s]: what follows [lit] at the start of [s]. *)
Fixpoint expect (lit s : string) : option string :=
  match lit, s with
  | EmptyString, _ => Some s
  | String c l, String c' r => if Ascii.eqb c c' then expect l r else None
  | String _ _, EmptyString => None
  end.

Fixpoint parse (fuel : nat) (s : string) {struct fuel} : option (json Z * string) :=
  match fuel with
  | O => None
  | S fuel =>
      match s with
      | EmptyString => None
      | String c r =>
          if num_char c then parse_number s
          else if Ascii.eqb c "n" then
            match expect "ull" r with Some rest => Some (JNull, rest) | None => None end
          else if Ascii.eqb c "t" then
            match expect "rue" r with Some rest => Some (JBool true, rest) | None => None end
          else if Ascii.eqb c "f" then
            match expect "alse" r with Some rest => Some (JBool false, rest) | None => None end
          else if Ascii.eqb c dquote then
            match unescape r with Some (t, rest) => Some (JStr t, rest) | None => None end
          else if Ascii.eqb c "[" then
            match r with
            | String c' r' =>
                if Ascii.eqb c' "]" then Some (JList [], r')
                else match parse_elems fuel r with
                     | Some (l, rest) => Some (JList l, rest)
                     | None => None
                     end
            | EmptyString => None
            end
          else if Ascii.eqb c "{" then
            match r with
            | String c' r' =>
                if Ascii.eqb c' "}" then Some (JDict [], r')
                else match parse_members fuel r with
                     | Some (d, rest) => Some (JDict d, rest)
                     | None => None
                     end
            | EmptyString => None
            end
          else None
      end
  end
with parse_elems (fuel : nat) (s : string) {struct fuel}
  : option (list (json Z) * string) :=
  match fuel with
  | O => None
  | S fuel =>
      match parse fuel s with
      | Some (x, String c r) =>
          if Ascii.eqb c "," then
            match parse_elems fuel r with
            | Some (xs, rest) => Some (x :: xs, rest)
            | None => None
            end
          else if Ascii.eqb c "]" then Some ([x], r)
          else None
      | _ => None
      end
  end
with parse_members (fuel : nat) (s : string) {struct fuel}
  : option (dict (json Z) * string) :=
  match fuel with
  | O => None
  | S fuel =>
      match s with
      | String q r =>
          if Ascii.eqb q dquote then
            match unescape r with
            | Some (k, String c r1) =>
                if Ascii.eqb c ":" then
                  match parse fuel r1 with
                  | Some (v, String c2 r2) =>
                      if Ascii.eqb c2 "," then
                        match parse_members fuel r2 with
                        | Some (kvs, rest) => Some ((k, v) :: kvs, rest)
                        | None => None
                        end
                      else if Ascii.eqb c2 "}" then Some ([(k, v)], r2)
                      else None
                  | _ => None
                  end
                else None
            | _ => None
            end
          else None
      | EmptyString => None
      end
  end.

(** A text is read whole: nothing may follow the value. *)
Definition load (s : string) : option (json Z) :=
  match parse (S (String.length s)) s with
  | Some (j, EmptyString) => Some j
  | _ => None
  end.

(** What may follow a number: nothing, or a character that is not part of
    one. *)
Definition ok_rest (rest : string) : Prop :=
  match rest with
  | EmptyString => True
  | String c _ => num_char c = false
  end.

(** The number of nodes of a value: the fuel its text needs. *)
Fixpoint size (j : json Z) : nat :=
  match j with
  | JList l =>
      S ((fix sizes (l : list (json Z)) : nat :=
            match l with
            | [] => O
            | x :: r => S (size x + sizes r)
            end) l)
  | JDict d =>
      S ((fix sizes (d : dict (json Z)) : nat :=
            match d with
            | [] => O
            | kv :: r => S (size (snd kv) + sizes r)
            end) d)
  | _ => 1%nat
  end.

(** The local recursions of [size] and [dump], by name. *)
Definition sizes_list (l : list (json Z)) : nat :=
  (fix sizes (l : list (json Z)) : nat :=
     match l with
     | [] => O
     | x :: r => S (size x + sizes r)
     end) l.

Definition sizes_dict (d : dict (json Z)) : nat :=
  (fix sizes (d : dict (json Z)) : nat :=
     match d with
     | [] => O
     | kv :: r => S (size (snd kv) + sizes r)
     end) d.

Definition dump_elems (l : list (json Z)) : string :=
  (fix elems (l : list (json Z)) : string :=
     match l with
     | [] => "]"
     | x :: r => dump x ++ match r with
                           | [] => "]"
                           | _ => "," ++ elems r
                           end
     end) l.

Definition dump_members (d : dict (json Z)) : string :=
  (fix members (d : dict (json Z)) : string :=
     match d with
     | [] => "}"
     | (k, v) :: r => dump_str k ++ ":" ++ dump v
                      ++ match r with
                         | [] => "}"
                         | _ => "," ++ members r
                         end
     end) d.

End JsonZ.
(** The test [x >= 0] and the format with two decimals on these floats:
    [f"{3.0:.2f}"] is ["3.00"]. *)
Module FloatZConsole.

Definition ge_0 (x : Z) : bool := 0 <=? x.

Definition format_2f (x : Z) : string := int_str x ++ ".00".

End FloatZConsole.

#[export] Instance PyFloatConsole_Z : PyFloatConsole Z := {|
  float_ge_0 := FloatZConsole.ge_0;
  float_format_2f := FloatZConsole.format_2f
|}.

(** The entries of the character database for the code points below 256
    and for the Greek letters U+0391 to U+03A9 and U+03B1 to U+03C9; a code
    point beyond these stands as it is, with no case. *)
Module Griego.

Definition entre (a b n : N) : bool := ((a <=? n) && (n <=? b))%N.

Definition to_lower_full (n : N) : list N :=
  if (n <? 256)%N then [N_of_ascii (lower_char (ascii_of_N n))]
  else if entre 913 937 n && negb (n =? 930)%N then [(n + 32)%N]
  else [n].

Definition is_cased (n : N) : bool :=
  entre 65 90 n || entre 97 122 n || (n =? 170)%N || (n =? 181)%N || (n =? 186)%N
  || entre 192 214 n || entre 216 246 n || entre 248 255 n
  || entre 913 937 n && negb (n =? 930)%N || entre 945 969 n.

Definition is_case_ignorable (n : N) : bool :=
  existsb (N.eqb n) [39; 46; 58; 94; 96; 168; 173; 175; 180; 183; 184]%N.

End Griego.

#[export] Instance Database_Griego : Unicode.Database := {|
  Unicode.to_lower_full := Griego.to_lower_full;
  Unicode.is_cased := Griego.is_cased;
  Unicode.is_case_ignorable := Griego.is_case_ignorable
|}.

(* ===================================================================== *)
(** * The vocabulary of the statements *)
(* ===================================================================== *)

(** The value of a numeral read from the left, as [digits_value] reads it. *)
Fixpoint uint_value (d : Decimal.uint) (acc : Z) : Z :=
  match d with
  | Decimal.Nil => acc
  | Decimal.D0 l => uint_value l (10 * acc)
  | Decimal.D1 l => uint_value l (10 * acc + 1)
  | Decimal.D2 l => uint_value l (10 * acc + 2)
  | Decimal.D3 l => uint_value l (10 * acc + 3)
  | Decimal.D4 l => uint_value l (10 * acc + 4)
  | Decimal.D5 l => uint_value l (10 * acc + 5)
  | Decimal.D6 l => uint_value l (10 * acc + 6)
  | Decimal.D7 l => uint_value l (10 * acc + 7)
  | Decimal.D8 l => uint_value l (10 * acc + 8)
  | Decimal.D9 l => uint_value l (10 * acc + 9)
  end.

(** A character a field of the delimited file can hold: no bar and no line
    end. *)
Definition campo_char (c : ascii) : bool := negb (Ascii.eqb c "|") && no_eol c.

Definition sin_espacio_inicial (s : string) : bool :=
  match s with
  | EmptyString => true
  | String c _ => negb (is_space c)
  end.

(** Two texts that differ in the case of their letters only. *)
Inductive eq_ignore_case : string -> string -> Prop :=
| eic_nil : eq_ignore_case EmptyString EmptyString
| eic_cons c1 c2 s1 s2 :
    lower_char c1 = lower_char c2 -> eq_ignore_case s1 s2 ->
    eq_ignore_case (String c1 s1) (String c2 s2).

(** [needle] occurs in [hay], the case of the letters apart. *)
Definition ci_occurs (needle hay : string) : Prop :=
  exists pre mid post, hay = pre ++ mid ++ post /\ eq_ignore_case mid needle.

(** The assignment [d[k] = v] of the entry [(k, v)]. *)
Definition poner {V : Type} (d : dict V) (kv : string * V) : dict V :=
  dict_set (fst kv) (snd kv) d.

Section Vocabulary.
Context {F : Type} `{PyFloat F}.

(** No system call fails in [s] for a reason of the environment. *)
Definition quiet {Msg : Type} (s : state F Msg) : Prop :=
  forall c, fault s c = None.

(** The store and the objects are the same in [s'] as in [s]. *)
Definition same_mem {Msg : Type} (s s' : state F Msg) : Prop :=
  self s' = self s /\ objs s' = objs s /\ next s' = next s.

(** A statement that leaves the store and the objects alone. *)
Definition keeps_mem {Msg A : Type} (m : M (F := F) (Msg := Msg) A) : Prop :=
  forall s, same_mem s (fst (m s)).

(** The state in which [self.productos] is [d]. *)
Definition con_productos {Msg : Type} (d : dict loc) (s : state F Msg) : state F Msg :=
  set_self (mkInventario d (archivo (self s))) s.

(** The attribute assignments of [actualizar_producto] on the object [l]. *)
Definition asignar (cantidad : option Z) (precio : option F) (p : Producto F) : Producto F :=
  let p1 := match cantidad with Some c => con_cantidad c p | None => p end in
  match precio with Some x => con_precio x p1 | None => p1 end.

(** The state after the two assignments of [actualizar_producto] to the
    object [l]: [producto.cantidad = cantidad] and [producto.precio =
    precio], each when its value is not [None]. *)
Definition asignado {Msg : Type} (l : loc) (cantidad : option Z) (precio : option F)
    (s : state F Msg) : state F Msg :=
  let s1 := match cantidad with
            | Some c => set_obj l (con_cantidad c (objs s l)) s
            | None => s
            end in
  match precio with
  | Some x => set_obj l (con_precio x (objs s1 l)) s1
  | None => s1
  end.

(** The files in [s'], after a save from [s] that did not go through: the
    backing file holds what it held in [s], or it is gone; the files other
    than it and the temporary one are as in [s]. *)
Definition sin_guardar {Msg : Type} (s s' : state F Msg) : Prop :=
  let a := archivo (self s) in
  (fs s' !! a = fs s !! a \/ fs s' !! a = None)
  /\ forall p, p <> a -> p <> a ++ ".tmp" -> fs s' !! p = fs s !! p.

(** The key of every entry is the id of its record. *)
Definition ids_match {Msg : Type} (s : state F Msg) : Prop :=
  forall k l, (k, l) ∈ productos (self s) -> id (objs s l) = k.

(** The records the delimited file can hold: no bar and no line end in the
    id and in the name, no white space at the start of the id. *)
Definition escribible (p : Producto F) : Prop :=
  string_forallb campo_char (id p) = true
  /\ string_forallb campo_char (nombre p) = true
  /\ sin_espacio_inicial (id p) = true.

(** What [Producto(...)] leaves: the object [p] at the fresh reference. *)
Definition alloc {Msg : Type} (p : Producto F) (s : state F Msg) : state F Msg :=
  fst (new_Producto p s).

(** The objects [ps] created one after the other. *)
Fixpoint alojar {Msg : Type} (ps : list (Producto F)) (s : state F Msg) : state F Msg :=
  match ps with
  | [] => s
  | p :: r => alojar r (alloc p s)
  end.

(** The dictionary after [d[k] = n], [d[k'] = n + 1], ... for the keys in
    turn. *)
Fixpoint indexar (keys : list string) (n : loc) (d : dict loc) : dict loc :=
  match keys with
  | [] => d
  | k :: r => indexar r (S n) (dict_set k n d)
  end.

(** What the body of the loop of [Manipulacion.cargar_inventario] makes of
    a line, the state apart. *)
Definition leer_linea (linea : string) : result (Producto F) :=
  match split "|" (strip linea) with
  | [id_producto; nombre; cantidad; precio] =>
      match int_parse cantidad with
      | Ok c =>
          match float_of_str precio with
          | Ok x => Ok (mkProducto id_producto nombre c x)
          | Raise e => Raise e
          | Untyped => Untyped
          end
      | Raise e => Raise e
      | Untyped => Untyped
      end
  | _ => Raise ValueError
  end.

(** A line that does not split on the bar into exactly four fields, or
    whose third field is no integer, or whose fourth field is no float. *)
Definition malformed (linea : string) : Prop :=
  let campos := split "|" (strip linea) in
  length campos <> 4%nat
  \/ exists i n c x, campos = [i; n; c; x]
                     /\ (int_parse c = Raise ValueError \/ float_parse (F := F) x = None).

End Vocabulary.

(** ** The vocabulary of the further statements *)

(** The first [n] characters of a text: what a write that raises had
    written. *)
Definition primeros (n : nat) (text : string) : string :=
  string_of_list_ascii (take n (list_ascii_of_string text)).

(** The references of the dictionary are those of objects that were
    created. *)
Definition alojados {F Msg : Type} (s : state F Msg) : Prop :=
  forall k l, (k, l) ∈ productos (self s) -> (l < next s)%nat.

(** A character database with the entries of the code points below 256:
    each has one code point for its lower case, the one [lower_char]
    gives. *)
Definition con_latin1 `{Unicode.Database} : Prop :=
  forall c : ascii, Unicode.to_lower_full (N_of_ascii c) = [N_of_ascii (lower_char c)].

Section ConsoleVocabulary.
Context {F Msg : Type} `{PyFloat F} `{PyFloatConsole F}.

(** The quantity a line gives, when [solicitar_datos_producto] takes it:
    an integer that is not below zero. *)
Definition cantidad_valida (x : string) : option Z :=
  match int_parse x with
  | Ok c => if 0 <=? c then Some c else None
  | _ => None
  end.

(** The price a line gives, when it is taken. *)
Definition precio_valido (x : string) : option F :=
  match float_parse x with
  | Some p => if float_ge_0 p then Some p else None
  | None => None
  end.

(** The line shown for a quantity, or a price, that is not taken. *)
Definition queja_cantidad (x : string) : Consola.Linea Msg :=
  match int_parse x with
  | Ok _ => Consola.La_cantidad_debe_ser_0_o_mayor
  | _ => Consola.Debe_ingresar_un_numero_entero
  end.

Definition queja_precio (x : string) : Consola.Linea Msg :=
  match float_parse (F := F) x with
  | Some _ => Consola.El_precio_debe_ser_0_o_mayor
  | None => Consola.Debe_ingresar_un_numero_valido
  end.

(** What the console shows while lines are refused: the prompt and the
    complaint, for each of them. *)
Definition rechazos (p : Consola.Prompt) (queja : string -> Consola.Linea Msg)
    (lineas : list string) : list (Consola.Linea Msg) :=
  flat_map (fun x => [Consola.Pide p; queja x]) lineas.

End ConsoleVocabulary.

(** The id a line gives, when [solicitar_datos_producto] takes it: the
    line without the white space around it, when something is left. *)
Definition id_valido (x : string) : option string :=
  if is_empty (strip x) then None else Some (strip x).

Section Reading.
Context {F Msg : Type}.

(** A loop body that reads a line whenever it asks for another turn. *)
Definition lee {A : Type} (cuerpo : Consola.U (F := F) (Msg := Msg) (option A)) : Prop :=
  forall t t', cuerpo t = (t', Consola.Da None) ->
               (length (Consola.entrada t') < length (Consola.entrada t))%nat.

(** A call that reads lines from the front of those that are left, and in
    which no loop is short of turns. *)
Definition mansa {A : Type} (m : Consola.U (F := F) (Msg := Msg) A) : Prop :=
  forall t, suffix (Consola.entrada (fst (m t))) (Consola.entrada t)
            /\ snd (m t) <> Consola.Agotado.

(** A call that lets out only the exceptions of the store that [P]
    holds of. *)
Definition solo {A : Type} (P : exn -> Prop) (m : Consola.U (F := F) (Msg := Msg) A)
  : Prop :=
  forall t e, snd (m t) = Consola.Lanza (Consola.De e) -> P e.

End Reading.

Section Parsing.
Context {F : Type} `{PyFloat F}.

(** [int(x) if x else None] and [float(x) if x else None], when they
    return. *)
Definition entero_o_nada (x : string) : option (option Z) :=
  if is_empty x then Some None
  else match int_parse x with Ok n => Some (Some n) | _ => None end.

Definition numero_o_nada (x : string) : option (option F) :=
  if is_empty x then Some None
  else match float_parse x with Some p => Some (Some p) | None => None end.

End Parsing.

(* ===================================================================== *)
(** * Concrete stores *)
(* ===================================================================== *)

Module Ejemplos.

Definition bolt : Producto Z := mkProducto "P1" "Bolt" 10 5.
Definition widget : Producto Z := mkProducto "W1" "Widget A" 3 2.
Definition gadget : Producto Z := mkProducto "G1" "gadget B" 7 4.
Definition con_barra : Producto Z := mkProducto "P1" "Bolt|M8" 10 5.
Definition con_salto : Producto Z := mkProducto "P1" ("Bolt" ++ newline ++ "M8") 10 5.

(** The objects at the references 0, 1, 2; [bolt] elsewhere. *)
Definition objetos (p0 p1 p2 : Producto Z) (l : loc) : Producto Z :=
  match l with
  | O => p0
  | S O => p1
  | S (S O) => p2
  | _ => bolt
  end.

(** A store of [Manipulación.py] and one of [Manipulación1.py], over the
    given dictionary, objects and files, in an environment that does not
    fail. *)
Definition tienda (d : dict loc) (o : loc -> Producto Z) (files : gmap string string)
  : state Z Manipulacion.Msg :=
  mkState (mkInventario d "inventario.txt") o 3%nat files no_fault 0%nat [].

Definition tienda1 (d : dict loc) (o : loc -> Producto Z) (files : gmap string string)
  : state Z Manipulacion1.Msg :=
  mkState (mkInventario d "inventario.json") o 3%nat files no_fault 0%nat [].

(** The environment in which the given call raises [e]. *)
Definition falla (c : syscall) (e : exn) : syscall -> option exn :=
  fun c' =>
    match c, c' with
    | SysOpenRead p, SysOpenRead p' | SysOpenWrite p, SysOpenWrite p'
    | SysWrite p, SysWrite p' | SysRemove p, SysRemove p' =>
        if String.eqb p p' then Some e else None
    | SysRename p q, SysRename p' q' =>
        if String.eqb p p' && String.eqb q q' then Some e else None
    | _, _ => None
    end.

Definition con_falla {Msg : Type} (c : syscall) (e : exn) (s : state Z Msg) : state Z Msg :=
  mkState (self s) (objs s) (next s) (fs s) (falla c e) (torn s) (out s).

(** Two records and no file. *)
Definition dos : state Z Manipulacion.Msg :=
  tienda [("P1", 0%nat); ("W1", 1%nat)] (objetos bolt widget gadget) ∅.

Definition dos1 : state Z Manipulacion1.Msg :=
  tienda1 [("P1", 0%nat); ("W1", 1%nat)] (objetos bolt widget gadget) ∅.

(** [Widget A] and [gadget B]. *)
Definition wg : state Z Manipulacion.Msg :=
  tienda [("W1", 1%nat); ("G1", 2%nat)] (objetos bolt widget gadget) ∅.

Definition wg1 : state Z Manipulacion1.Msg :=
  tienda1 [("W1", 1%nat); ("G1", 2%nat)] (objetos bolt widget gadget) ∅.

(** One record whose name holds a bar, and one whose name holds a line
    end. *)
Definition barra : state Z Manipulacion.Msg :=
  tienda [("P1", 0%nat)] (objetos con_barra widget gadget) ∅.

Definition salto : state Z Manipulacion.Msg :=
  tienda [("P1", 0%nat)] (objetos con_salto widget gadget) ∅.

(** An empty store next to a file whose second line has a quantity that
    is no integer. *)
Definition mala_linea : state Z Manipulacion.Msg :=
  tienda [] (objetos bolt widget gadget)
         {[ "inventario.txt" := "P1|Bolt|10|5.0" ++ newline ++ "P2|Nut|x|1.0" ++ newline ]}.

(** An empty store next to a file that is no JSON. *)
Definition corrupto : state Z Manipulacion1.Msg :=
  tienda1 [] (objetos bolt widget gadget) {[ "inventario.json" := "{" ]}.

(** An empty store in a directory where no file can be created, and a
    store whose file cannot be read. *)
Definition sin_permiso : state Z Manipulacion1.Msg :=
  con_falla (SysOpenWrite "inventario.json.tmp") PermissionError
            (tienda1 [] (objetos bolt widget gadget) ∅).

Definition sin_lectura : state Z Manipulacion1.Msg :=
  con_falla (SysOpenRead "inventario.json") PermissionError corrupto.

(** The store [dos1] in a directory where no file can be created. *)
Definition dos1_sin_permiso : state Z Manipulacion1.Msg :=
  con_falla (SysOpenWrite "inventario.json.tmp") PermissionError dos1.

(** A store with one record, saved before with none. *)
Definition guardada : state Z Manipulacion1.Msg :=
  tienda1 [("P1", 0%nat)] (objetos bolt widget gadget) {[ "inventario.json" := "{}" ]}.

Definition nut : Producto Z := mkProducto "P1" "Nut" 3 1.

(** The store [dos] next to a file that cannot be opened for writing. *)
Definition solo_lectura : state Z Manipulacion.Msg :=
  con_falla (SysOpenWrite "inventario.txt") PermissionError dos.

(** The store [guardada] in a directory where the temporary file cannot be
    renamed. *)
Definition sin_renombrar : state Z Manipulacion1.Msg :=
  con_falla (SysRename "inventario.json.tmp" "inventario.json") OSError guardada.

(** An empty store next to a file with the id P1 on two lines, and next to
    one whose second line is empty. *)
Definition repetida : state Z Manipulacion.Msg :=
  tienda [] (objetos bolt widget gadget)
         {[ "inventario.txt" := "P1|Bolt|10|5.0" ++ newline ++ "P1|Nut|3|1.0" ++ newline ]}.

Definition en_blanco : state Z Manipulacion.Msg :=
  tienda [] (objetos bolt widget gadget)
         {[ "inventario.txt" := "P1|Bolt|10|5.0" ++ newline ++ newline ]}.

(** An empty store next to a JSON file that holds [bolt] under the key X,
    and next to one that holds a list. *)
Definition otra_clave : state Z Manipulacion1.Msg :=
  tienda1 [] (objetos bolt widget gadget)
          {[ "inventario.json" := JsonZ.dump (JDict [("X", Manipulacion1.to_dict bolt)]) ]}.

Definition lista : state Z Manipulacion1.Msg :=
  tienda1 [] (objetos bolt widget gadget) {[ "inventario.json" := "[]" ]}.

(** A run at the console on the store [s], with the lines that will be
    typed. *)
Definition consola {Msg : Type} (s : state Z Msg) (lineas : list string)
  : Consola.sesion Z Msg :=
  Consola.mkSesion s lineas [].

End Ejemplos.

Import Ejemplos.


(* ===================================================================== *)
(** * Facts about the runtime *)
(* ===================================================================== *)

(** ** Strings *)

Lemma append_nil_r (s : string) : s ++ "" = s.
Proof. induction s as [|c s IH]; simpl; [reflexivity | now rewrite IH]. Qed.

Lemma append_assoc (a b c : string) : (a ++ b) ++ c = a ++ (b ++ c).
Proof. induction a as [|x a IH]; simpl; [reflexivity | now rewrite IH]. Qed.

Lemma length_append (a b : string) :
  String.length (a ++ b) = (String.length a + String.length b)%nat.
Proof. induction a as [|c a IH]; simpl; [reflexivity | now rewrite IH]. Qed.

Lemma string_forallb_app (p : ascii -> bool) (a b : string) :
  string_forallb p (a ++ b) = string_forallb p a && string_forallb p b.
Proof.
  induction a as [|c a IH]; simpl; [reflexivity|].
  rewrite IH. now rewrite andb_assoc.
Qed.

Lemma string_forallb_impl (p q : ascii -> bool) (s : string) :
  (forall c, p c = true -> q c = true) ->
  string_forallb p s = true -> string_forallb q s = true.
Proof.
  intros Hpq. induction s as [|c s IH]; simpl; [reflexivity|].
  rewrite !andb_true_iff. intros [Hc Hs]. split; [now apply Hpq | now apply IH].
Qed.

(** A field without the separator is one field, and a separator after it
    starts the next one. *)
Lemma split_no_sep (sep : ascii) (a : string) :
  string_forallb (fun c => negb (Ascii.eqb c sep)) a = true ->
  split sep a = [a].
Proof.
  induction a as [|c a IH]; simpl; [reflexivity|].
  rewrite andb_true_iff. intros [Hc Ha].
  apply negb_true_iff in Hc. rewrite Hc, (IH Ha). reflexivity.
Qed.

Lemma split_app_sep (sep : ascii) (a b : string) :
  string_forallb (fun c => negb (Ascii.eqb c sep)) a = true ->
  split sep (a ++ String sep b) = a :: split sep b.
Proof.
  induction a as [|c a IH]; simpl.
  - intros _. now rewrite Ascii.eqb_refl.
  - rewrite andb_true_iff. intros [Hc Ha].
    apply negb_true_iff in Hc. rewrite Hc, (IH Ha). reflexivity.
Qed.

Lemma split_nonempty (sep : ascii) (s : string) : split sep s <> [].
Proof.
  induction s as [|c s IH]; simpl; [discriminate|].
  destruct (Ascii.eqb c sep); [discriminate|].
  destruct (split sep s); [contradiction | discriminate].
Qed.

(** Stripping leaves alone a text that neither starts nor ends in white
    space. *)
Lemma lstrip_no_space (c : ascii) (s : string) :
  is_space c = false -> lstrip (String c s) = String c s.
Proof. intros Hc. simpl. now rewrite Hc. Qed.

Lemma rstrip_app (a b : string) :
  rstrip b <> "" -> rstrip (a ++ b) = a ++ rstrip b.
Proof.
  intros Hb. induction a as [|c a IH]; simpl; [reflexivity|].
  rewrite IH. destruct (a ++ rstrip b) eqn:E; [|reflexivity].
  destruct a; simpl in E; [contradiction | discriminate].
Qed.

Lemma rstrip_newline (b : string) :
  string_forallb (fun c => negb (is_space c)) b = true ->
  rstrip (b ++ newline) = b.
Proof.
  induction b as [|c b IH]; simpl; [reflexivity|].
  rewrite andb_true_iff. intros [Hc Hb].
  apply negb_true_iff in Hc. rewrite (IH Hb), Hc, andb_false_r. reflexivity.
Qed.

Lemma rstrip_no_space (b : string) :
  string_forallb (fun c => negb (is_space c)) b = true -> rstrip b = b.
Proof.
  induction b as [|c b IH]; simpl; [reflexivity|].
  rewrite andb_true_iff. intros [Hc Hb].
  apply negb_true_iff in Hc. rewrite (IH Hb), Hc, andb_false_r. reflexivity.
Qed.

Lemma readlines_app_newline (l rest : string) :
  string_forallb no_eol l = true ->
  readlines (l ++ newline ++ rest) = (l ++ newline) :: readlines rest.
Proof.
  induction l as [|c l IH]; simpl.
  - intros _. reflexivity.
  - rewrite andb_true_iff. intros [Hc Hl].
    unfold no_eol in Hc. apply andb_true_iff in Hc as [H1 H2].
    apply negb_true_iff in H1, H2. rewrite H1, H2.
    simpl in IH. rewrite (IH Hl). reflexivity.
Qed.

(** [needle in hay] holds exactly when [hay] is [needle] between two
    texts. *)
Lemma prefix_spec (a b : string) :
  String.prefix a b = true <-> exists post, b = a ++ post.
Proof.
  revert b. induction a as [|c a IH]; intros b; simpl.
  - split; [intros _; now exists b | intros _; now destruct b].
  - destruct b as [|c' b].
    + split; [discriminate | intros [post Hp]; discriminate].
    + simpl. destruct (ascii_dec c c') as [->|Hne].
      * rewrite IH. split; intros [post Hp]; exists post; congruence.
      * split; [discriminate | intros [post Hp]; congruence].
Qed.

Lemma contains_spec (needle hay : string) :
  contains needle hay = true <-> exists pre post, hay = pre ++ needle ++ post.
Proof.
  induction hay as [|c hay IH].
  - change (contains needle "") with (String.prefix needle "" || false).
    rewrite orb_false_r, prefix_spec. split.
    + intros [post Hp]. now exists "", post.
    + intros (pre & post & Hp). exists post.
      destruct pre; simpl in Hp; [assumption | discriminate].
  - change (contains needle (String c hay))
      with (String.prefix needle (String c hay) || contains needle hay).
    rewrite orb_true_iff, prefix_spec, IH. split.
    + intros [[post Hp] | (pre & post & Hp)].
      * now exists "", post.
      * exists (String c pre), post. simpl. now rewrite Hp.
    + intros (pre & post & Hp). destruct pre as [|c' pre]; simpl in Hp.
      * left. now exists post.
      * right. exists pre, post. congruence.
Qed.


(** ** Integers: [int(str(n)) == n] *)

Lemma digits_value_uint (d : Decimal.uint) (acc : Z) (seen : bool) :
  d <> Decimal.Nil \/ seen = true ->
  digits_value (NilEmpty.string_of_uint d) acc seen = Some (uint_value d acc).
Proof.
  revert acc seen.
  induction d as [|d IH|d IH|d IH|d IH|d IH|d IH|d IH|d IH|d IH|d IH];
    intros acc seen Hd;
    [ destruct Hd as [Hd | ->]; [contradiction | reflexivity] | .. ];
    cbn [NilEmpty.string_of_uint digits_value uint_value];
    (change (is_digit _) with true; cbv iota;
     rewrite IH by (now right); f_equal; f_equal; unfold digit_value; simpl; lia).
Qed.

Lemma uint_value_acc (d : Decimal.uint) (acc : positive) :
  Z.pos (Pos.of_uint_acc d acc) = uint_value d (Z.pos acc).
Proof.
  revert acc. induction d; intros acc; simpl; [reflexivity | rewrite IHd; f_equal; lia ..].
Qed.

Lemma uint_value_of_uint (d : Decimal.uint) : Z.of_uint d = uint_value d 0.
Proof.
  unfold Z.of_uint.
  induction d; simpl; [reflexivity | assumption | rewrite uint_value_acc; reflexivity ..].
Qed.

Lemma string_of_uint_digits (d : Decimal.uint) :
  string_forallb is_digit (NilEmpty.string_of_uint d) = true.
Proof. induction d; simpl; [reflexivity | assumption ..]. Qed.

Lemma to_uint_nonnil (p : positive) : Pos.to_uint p <> Decimal.Nil.
Proof.
  intros E. pose proof (DecimalPos.Unsigned.of_to p) as Hp.
  rewrite E in Hp. discriminate.
Qed.

Lemma int_str_chars (n : Z) : string_forallb int_char (int_str n) = true.
Proof.
  assert (Hu : forall d, string_forallb int_char (NilZero.string_of_uint d) = true).
  { intros d. destruct d; try reflexivity;
      apply (string_forallb_impl is_digit);
      try (intros c Hc; unfold int_char; now rewrite Hc);
      apply (string_of_uint_digits (_ _)). }
  unfold int_str. destruct (Z.to_int n); simpl; [apply Hu | apply Hu].
Qed.

Lemma int_char_no_space (c : ascii) : int_char c = true -> is_space c = false.
Proof. destruct c as [[] [] [] [] [] [] [] []]; vm_compute; congruence. Qed.

Lemma strip_no_space (s : string) :
  string_forallb (fun c => negb (is_space c)) s = true -> strip s = s.
Proof.
  intros Hs. unfold strip.
  assert (lstrip s = s) as ->.
  { destruct s as [|c s]; [reflexivity|]. simpl in Hs.
    apply andb_true_iff in Hs as [Hc _]. apply negb_true_iff in Hc.
    now apply lstrip_no_space. }
  now apply rstrip_no_space.
Qed.

(** The white space of a numeral is white space of [str.strip]. *)
Lemma num_space_space (c : ascii) : is_num_space c = true -> is_space c = true.
Proof. destruct c as [[] [] [] [] [] [] [] []]; vm_compute; congruence. Qed.

Lemma rtrim_none (p : ascii -> bool) (s : string) :
  string_forallb (fun c => negb (p c)) s = true -> rtrim p s = s.
Proof.
  induction s as [|c s IH]; simpl; [reflexivity|].
  rewrite andb_true_iff. intros [Hc Hs].
  apply negb_true_iff in Hc. rewrite (IH Hs), Hc, andb_false_r. reflexivity.
Qed.

Lemma num_strip_no_space (s : string) :
  string_forallb (fun c => negb (is_space c)) s = true -> num_strip s = s.
Proof.
  intros Hs.
  assert (Hn : string_forallb (fun c => negb (is_num_space c)) s = true).
  { revert Hs. apply string_forallb_impl. intros c Hc.
    destruct (is_num_space c) eqn:E; [|reflexivity].
    apply num_space_space in E. now rewrite E in Hc. }
  unfold num_strip.
  assert (ltrim is_num_space s = s) as ->.
  { destruct s as [|c s]; [reflexivity|]. simpl in Hn.
    apply andb_true_iff in Hn as [Hc _]. apply negb_true_iff in Hc.
    simpl. now rewrite Hc. }
  now apply rtrim_none.
Qed.

Lemma string_of_uint_head (d : Decimal.uint) :
  d <> Decimal.Nil ->
  exists c r, NilEmpty.string_of_uint d = String c r
              /\ Ascii.eqb c "-" = false /\ Ascii.eqb c "+" = false.
Proof.
  destruct d; intros Hd; try contradiction; eexists _, _; simpl; repeat split.
Qed.

Lemma int_parse_int_str (n : Z) : int_parse (int_str n) = Ok n.
Proof.
  unfold int_parse.
  rewrite num_strip_no_space.
  2:{ apply (string_forallb_impl int_char); [|apply int_str_chars].
      intros c Hc. now rewrite (int_char_no_space c Hc). }
  pose proof (DecimalZ.of_to n) as Hn. unfold int_str.
  assert (Hd : match Z.to_int n with Decimal.Pos d | Decimal.Neg d => d <> Decimal.Nil end).
  { destruct n; simpl; [discriminate | apply to_uint_nonnil ..]. }
  destruct (Z.to_int n) as [d|d]; simpl in Hn; rewrite uint_value_of_uint in Hn;
    unfold NilZero.string_of_int;
    assert (NilZero.string_of_uint d = NilEmpty.string_of_uint d) as ->
      by (destruct d; try contradiction; reflexivity).
  - destruct (string_of_uint_head d Hd) as (c & r & Hs & H1 & H2).
    rewrite Hs, H1, H2, <- Hs.
    rewrite digits_value_uint by (now left). now rewrite Hn.
  - change (Ascii.eqb "-" "-") with true. cbv iota.
    rewrite digits_value_uint by (now left). now rewrite Hn.
Qed.

(** ** Dictionaries *)

Section DictFacts.
Context {V : Type}.
Implicit Types (d : dict V) (k : string) (v : V).

Lemma dict_in_get k d : dict_in k d = true <-> is_Some (dict_get k d).
Proof.
  unfold dict_in. destruct (dict_get k d); split; intros Hs;
    try reflexivity; try discriminate; [eauto | destruct Hs; discriminate].
Qed.

Lemma dict_in_keys k d : dict_in k d = true <-> k ∈ dict_keys d.
Proof.
  unfold dict_in. induction d as [|[k' v'] d IH]; simpl.
  - split; [discriminate | intros Hk; inversion Hk].
  - destruct (decide (k = k')) as [->|Hne].
    + split; [intros _; apply list_elem_of_here | reflexivity].
    + rewrite IH. split; [apply list_elem_of_further|].
      intros Hk. inversion Hk; subst; [contradiction | assumption].
Qed.

Lemma dict_get_elem k v d : dict_get k d = Some v -> (k, v) ∈ d.
Proof.
  induction d as [|[k' v'] d IH]; simpl; [discriminate|].
  destruct (decide (k = k')) as [->|Hne].
  - intros [= ->]. apply list_elem_of_here.
  - intros Hg. apply list_elem_of_further. now apply IH.
Qed.

Lemma dict_elem_get k v d : dict_wf d -> (k, v) ∈ d -> dict_get k d = Some v.
Proof.
  unfold dict_wf. induction d as [|[k' v'] d IH]; simpl; intros Hwf Hin.
  - inversion Hin.
  - apply NoDup_cons in Hwf as [Hk' Hwf].
    apply elem_of_cons in Hin as [[= -> ->]|Hin].
    + now rewrite decide_True.
    + destruct (decide (k = k')) as [->|Hne]; [|now apply IH].
      exfalso. apply Hk'. apply list_elem_of_fmap. now exists (k', v).
Qed.

(** A new key goes to the end. *)
Lemma dict_set_fresh k v d : dict_in k d = false -> dict_set k v d = (d ++ [(k, v)])%list.
Proof.
  unfold dict_in. induction d as [|[k' v'] d IH]; simpl; [reflexivity|].
  destruct (decide (k = k')); [discriminate|].
  intros Hd. now rewrite IH.
Qed.

Lemma dict_set_elem k v k' v' d :
  (k', v') ∈ dict_set k v d -> (k', v') ∈ d \/ (k', v') = (k, v).
Proof.
  induction d as [|[k0 v0] d IH]; simpl.
  - intros Hin. apply list_elem_of_singleton in Hin. now right.
  - destruct (decide (k = k0)) as [->|Hne]; intros Hin;
      apply elem_of_cons in Hin as [->|Hin].
    + now right.
    + left. now apply list_elem_of_further.
    + left. apply list_elem_of_here.
    + destruct (IH Hin) as [Hd|Heq]; [left; now apply list_elem_of_further | now right].
Qed.

Lemma dict_get_set k v d : dict_get k (dict_set k v d) = Some v.
Proof.
  induction d as [|[k0 v0] d IH]; simpl.
  - now rewrite decide_True.
  - destruct (decide (k = k0)) as [->|Hne]; simpl.
    + now rewrite decide_True.
    + now rewrite decide_False.
Qed.

Lemma dict_get_set_ne k k' v d : k' <> k -> dict_get k' (dict_set k v d) = dict_get k' d.
Proof.
  intros Hne. induction d as [|[k0 v0] d IH]; simpl.
  - now rewrite decide_False.
  - destruct (decide (k = k0)) as [->|Hne0]; simpl.
    + now rewrite !decide_False.
    + destruct (decide (k' = k0)); [reflexivity | assumption].
Qed.

Lemma dict_del_elem k k' v' d : (k', v') ∈ dict_del k d -> (k', v') ∈ d.
Proof.
  induction d as [|[k0 v0] d IH]; simpl; [trivial|].
  destruct (decide (k = k0)) as [->|Hne]; intros Hin.
  - now apply list_elem_of_further.
  - apply elem_of_cons in Hin as [->|Hin];
      [apply list_elem_of_here | apply list_elem_of_further; now apply IH].
Qed.

Lemma dict_keys_set_fresh k v d :
  dict_in k d = false -> dict_keys (dict_set k v d) = (dict_keys d ++ [k])%list.
Proof.
  intros Hk. rewrite dict_set_fresh by assumption.
  unfold dict_keys. now rewrite map_app.
Qed.

Lemma dict_wf_set k v d : dict_wf d -> dict_wf (dict_set k v d).
Proof.
  unfold dict_wf. induction d as [|[k0 v0] d IH]; simpl; intros Hwf.
  - apply NoDup_singleton.
  - apply NoDup_cons in Hwf as [Hk0 Hwf].
    destruct (decide (k = k0)) as [->|Hne]; simpl.
    + now apply NoDup_cons.
    + apply NoDup_cons. split; [|now apply IH].
      intros Hin. apply list_elem_of_fmap in Hin as [[k1 v1] [Hk1 Hin]].
      simpl in Hk1. subst k1.
      destruct (dict_set_elem _ _ _ _ _ Hin) as [Hd|[= -> ->]]; [|contradiction].
      apply Hk0. apply list_elem_of_fmap. now exists (k0, v1).
Qed.

Lemma dict_wf_del k d : dict_wf d -> dict_wf (dict_del k d).
Proof.
  unfold dict_wf. induction d as [|[k0 v0] d IH]; simpl; intros Hwf; [assumption|].
  apply NoDup_cons in Hwf as [Hk0 Hwf].
  destruct (decide (k = k0)) as [->|Hne]; simpl; [assumption|].
  apply NoDup_cons. split; [|now apply IH].
  intros Hin. apply list_elem_of_fmap in Hin as [[k1 v1] [Hk1 Hin]].
  simpl in Hk1. subst k1. apply Hk0.
  apply list_elem_of_fmap. exists (k0, v1). split; [reflexivity|].
  now apply dict_del_elem in Hin.
Qed.

End DictFacts.

Lemma dict_map_set {V W : Type} (f : V -> W) (k : string) (v : V) (d : dict V) :
  map (fun kv => (fst kv, f (snd kv))) (dict_set k v d)
  = dict_set k (f v) (map (fun kv => (fst kv, f (snd kv))) d).
Proof.
  induction d as [|[k0 v0] d IH]; simpl; [reflexivity|].
  destruct (decide (k = k0)); simpl; [reflexivity | now rewrite IH].
Qed.

Lemma dict_map_in {V W : Type} (f : V -> W) (k : string) (d : dict V) :
  dict_in k (map (fun kv => (fst kv, f (snd kv))) d) = dict_in k d.
Proof.
  unfold dict_in. induction d as [|[k0 v0] d IH]; simpl; [reflexivity|].
  destruct (decide (k = k0)); [reflexivity | assumption].
Qed.

(* ===================================================================== *)
(** * The models satisfy the interfaces *)
(* ===================================================================== *)


Lemma int_char_not_dot (c : ascii) : int_char c = true -> negb (Ascii.eqb c ".") = true.
Proof. destruct c as [[] [] [] [] [] [] [] []]; vm_compute; congruence. Qed.

Lemma int_char_float_char (c : ascii) : int_char c = true -> float_char c = true.
Proof. destruct c as [[] [] [] [] [] [] [] []]; vm_compute; congruence. Qed.

Lemma float_char_no_space (c : ascii) : float_char c = true -> negb (is_space c) = true.
Proof. destruct c as [[] [] [] [] [] [] [] []]; vm_compute; congruence. Qed.

Lemma FloatZ_str_chars (x : Z) : string_forallb float_char (FloatZ.str x) = true.
Proof.
  unfold FloatZ.str. rewrite string_forallb_app.
  rewrite (string_forallb_impl int_char float_char _ int_char_float_char (int_str_chars x)).
  reflexivity.
Qed.

Lemma FloatZ_parse_str (x : Z) : FloatZ.parse (FloatZ.str x) = Some x.
Proof.
  unfold FloatZ.parse.
  rewrite num_strip_no_space.
  2:{ apply (string_forallb_impl float_char); [apply float_char_no_space|].
      apply FloatZ_str_chars. }
  unfold FloatZ.str.
  change (int_str x ++ ".0") with (int_str x ++ String "." "0").
  rewrite split_app_sep.
  2:{ apply (string_forallb_impl int_char); [apply int_char_not_dot | apply int_str_chars]. }
  simpl. rewrite int_str_chars, int_parse_int_str. reflexivity.
Qed.

#[export] Instance PyFloat_Z : PyFloat Z := {|
  float_str := FloatZ.str;
  float_parse := FloatZ.parse;
  float_parse_str := FloatZ_parse_str;
  float_str_chars := FloatZ_str_chars
|}.

Section JsonZFacts.
Import JsonZ.

Lemma unescape_escape (s rest : string) :
  unescape (escape s ++ String dquote rest) = Some (s, rest).
Proof.
  induction s as [|c s IH]; simpl.
  - reflexivity.
  - destruct (Ascii.eqb c dquote) eqn:Eq; simpl.
    + rewrite Eq. simpl. now rewrite IH.
    + destruct (Ascii.eqb c bslash) eqn:Eb; simpl.
      * rewrite Eq, Eb. simpl. now rewrite IH.
      * rewrite Eq, Eb. now rewrite IH.
Qed.

Lemma span_app (p : ascii -> bool) (a rest : string) :
  string_forallb p a = true ->
  match rest with EmptyString => True | String c _ => p c = false end ->
  span p (a ++ rest) = (a, rest).
Proof.
  intros Ha Hr. induction a as [|c a IH]; simpl.
  - destruct rest as [|c r]; [reflexivity|]. simpl. now rewrite Hr.
  - simpl in Ha. apply andb_true_iff in Ha as [Hc Ha].
    rewrite Hc, (IH Ha). reflexivity.
Qed.

Lemma int_char_num_char (c : ascii) : int_char c = true -> num_char c = true.
Proof. intros Hc. unfold num_char. now rewrite Hc. Qed.

Lemma parse_number_int (n : Z) (rest : string) :
  ok_rest rest -> parse_number (int_str n ++ rest) = Some (JInt n, rest).
Proof.
  intros Hr. unfold parse_number.
  rewrite span_app; [| |exact Hr].
  - now rewrite int_str_chars, int_parse_int_str.
  - apply (string_forallb_impl int_char); [apply int_char_num_char | apply int_str_chars].
Qed.

Lemma parse_number_float (x : Z) (rest : string) :
  ok_rest rest -> parse_number (FloatZ.str x ++ rest) = Some (JFloat x, rest).
Proof.
  intros Hr. unfold parse_number.
  rewrite span_app; [| |exact Hr].
  - assert (string_forallb int_char (FloatZ.str x) = false) as ->.
    { unfold FloatZ.str. rewrite string_forallb_app. simpl. apply andb_false_r. }
    now rewrite FloatZ_parse_str.
  - unfold FloatZ.str. rewrite string_forallb_app.
    rewrite (string_forallb_impl int_char num_char _ int_char_num_char (int_str_chars x)).
    reflexivity.
Qed.

Lemma int_str_head (n : Z) :
  exists c r, int_str n = String c r /\ int_char c = true.
Proof.
  pose proof (int_str_chars n) as Hc. unfold int_str in *.
  destruct (Z.to_int n) as [d|d]; simpl in *.
  - destruct d; simpl in *; eexists _, _; (split; [reflexivity | reflexivity]).
  - eexists _, _. split; reflexivity.
Qed.

End JsonZFacts.

(** Induction on a value, with the hypothesis on every element of a list
    and every value of a dictionary. *)
Section JsonInd.
Context {F : Type} (P : json F -> Prop).
Hypothesis (HNull : P JNull) (HBool : forall b, P (JBool b)) (HInt : forall n, P (JInt n)).
Hypothesis (HFloat : forall x, P (JFloat x)) (HStr : forall s, P (JStr s)).
Hypothesis (HList : forall l, Forall P l -> P (JList l)).
Hypothesis (HDict : forall d, Forall (fun kv => P (snd kv)) d -> P (JDict d)).

Fixpoint json_nested_ind (j : json F) : P j :=
  match j with
  | JNull => HNull
  | JBool b => HBool b
  | JInt n => HInt n
  | JFloat x => HFloat x
  | JStr s => HStr s
  | JList l =>
      HList l ((fix go (l : list (json F)) : Forall P l :=
                  match l with
                  | [] => List.Forall_nil P
                  | x :: r => List.Forall_cons P x r (json_nested_ind x) (go r)
                  end) l)
  | JDict d =>
      HDict d ((fix go (d : dict (json F)) : Forall (fun kv => P (snd kv)) d :=
                  match d with
                  | [] => List.Forall_nil _
                  | kv :: r => List.Forall_cons _ kv r (json_nested_ind (snd kv)) (go r)
                  end) d)
  end.

End JsonInd.

Section JsonZRoundTrip.
Import JsonZ.

Lemma dump_JList (l : list (json Z)) : dump (JList l) = "[" ++ dump_elems l.
Proof. reflexivity. Qed.

Lemma dump_JDict (d : dict (json Z)) : dump (JDict d) = "{" ++ dump_members d.
Proof. reflexivity. Qed.

Lemma dump_elems_cons (x : json Z) (r : list (json Z)) :
  dump_elems (x :: r)
  = dump x ++ match r with [] => "]" | _ => "," ++ dump_elems r end.
Proof. reflexivity. Qed.

Lemma dump_members_cons (k : string) (v : json Z) (r : dict (json Z)) :
  dump_members ((k, v) :: r)
  = dump_str k ++ ":" ++ dump v
    ++ match r with [] => "}" | _ => "," ++ dump_members r end.
Proof. reflexivity. Qed.

(** The first character of a text tells a value from a closing bracket. *)
Lemma dump_head (j : json Z) :
  exists c r, dump j = String c r /\ Ascii.eqb c "]" = false.
Proof.
  destruct j as [|[]|n|x|s|l|d]; try (eexists _, _; split; reflexivity).
  - destruct (int_str_head n) as (c & r & Hs & Hc). exists c, r. split; [exact Hs|].
    revert Hc. clear. destruct c as [[] [] [] [] [] [] [] []]; vm_compute; congruence.
  - destruct (int_str_head x) as (c & r & Hs & Hc). exists c, (r ++ ".0").
    split; [simpl; unfold FloatZ.str; now rewrite Hs|].
    revert Hc. clear. destruct c as [[] [] [] [] [] [] [] []]; vm_compute; congruence.
Qed.

Lemma parse_elems_dump (l : list (json Z)) :
  Forall (fun j => forall fuel rest, (size j < fuel)%nat -> ok_rest rest ->
                   parse fuel (dump j ++ rest) = Some (j, rest)) l ->
  l <> [] ->
  forall fuel rest, (sizes_list l < fuel)%nat ->
    parse_elems fuel (dump_elems l ++ rest) = Some (l, rest).
Proof.
  induction 1 as [|x r Hx Hr IH]; intros Hne fuel rest Hf; [contradiction|].
  destruct fuel as [|fuel]; [lia|].
  rewrite dump_elems_cons, append_assoc.
  change (sizes_list (x :: r)) with (S (size x + sizes_list r)) in Hf.
  cbn [parse_elems].
  destruct r as [|y r].
  - rewrite Hx; [|lia|reflexivity]. reflexivity.
  - rewrite Hx; [|lia|reflexivity].
    change (("," ++ dump_elems (y :: r)) ++ rest)
      with (String "," (dump_elems (y :: r) ++ rest)).
    cbv iota beta. change (Ascii.eqb "," ",") with true. cbv iota.
    rewrite IH; [reflexivity | discriminate | lia].
Qed.

Lemma parse_members_dump (d : dict (json Z)) :
  Forall (fun kv => forall fuel rest, (size (snd kv) < fuel)%nat -> ok_rest rest ->
                    parse fuel (dump (snd kv) ++ rest) = Some (snd kv, rest)) d ->
  d <> [] ->
  forall fuel rest, (sizes_dict d < fuel)%nat ->
    parse_members fuel (dump_members d ++ rest) = Some (d, rest).
Proof.
  induction 1 as [|[k v] r Hx Hr IH]; intros Hne fuel rest Hf; [contradiction|].
  destruct fuel as [|fuel]; [lia|].
  rewrite dump_members_cons.
  change (sizes_dict ((k, v) :: r)) with (S (size v + sizes_dict r)) in Hf.
  unfold dump_str. rewrite !append_assoc.
  change (String dquote (escape k ++ String dquote "") ++ ?x)
    with (String dquote ((escape k ++ String dquote "") ++ x)).
  cbn [parse_members]. change (Ascii.eqb dquote dquote) with true. cbv iota.
  rewrite append_assoc.
  change (String dquote "" ++ ?x) with (String dquote x).
  rewrite unescape_escape.
  change (":" ++ ?x) with (String ":" x).
  cbv iota beta. change (Ascii.eqb ":" ":") with true. cbv iota.
  simpl in Hx.
  destruct r as [|y r].
  - rewrite Hx; [|lia|reflexivity]. reflexivity.
  - rewrite Hx; [|lia|reflexivity].
    change (("," ++ dump_members (y :: r)) ++ rest)
      with (String "," (dump_members (y :: r) ++ rest)).
    cbv iota beta. change (Ascii.eqb "," ",") with true. cbv iota.
    rewrite IH; [reflexivity | discriminate | lia].
Qed.


Lemma parse_dump (j : json Z) :
  forall fuel rest, (size j < fuel)%nat -> ok_rest rest ->
    parse fuel (dump j ++ rest) = Some (j, rest).
Proof.
  induction j as [|b|n|x|s|l IH|d IH] using json_nested_ind;
    intros fuel rest Hf Hr; (destruct fuel as [|fuel]; [simpl in Hf; lia|]).
  - reflexivity.
  - destruct b; reflexivity.
  - destruct (int_str_head n) as (c & r & Hs & Hc).
    cbn [dump parse]. rewrite Hs. cbn [String.append].
    rewrite (int_char_num_char c Hc).
    change (String c (r ++ rest)) with (String c r ++ rest). rewrite <- Hs.
    now apply parse_number_int.
  - destruct (int_str_head x) as (c & r & Hs & Hc).
    cbn [dump parse]. unfold FloatZ.str at 1. rewrite Hs. cbn [String.append].
    rewrite (int_char_num_char c Hc).
    now apply parse_number_float.
  - cbn [dump parse]. unfold dump_str. cbn [String.append].
    change (num_char dquote) with false. cbv iota.
    change (Ascii.eqb dquote "n") with false.
    change (Ascii.eqb dquote "t") with false.
    change (Ascii.eqb dquote "f") with false.
    change (Ascii.eqb dquote dquote) with true. cbv iota.
    rewrite append_assoc. cbn [String.append].
    now rewrite unescape_escape.
  - rewrite dump_JList. cbn [String.append parse].
    change (num_char "[") with false. cbv iota.
    change (Ascii.eqb "[" "n") with false.
    change (Ascii.eqb "[" "t") with false.
    change (Ascii.eqb "[" "f") with false.
    change (Ascii.eqb "[" dquote) with false.
    change (Ascii.eqb "[" "[") with true. cbv iota.
    destruct l as [|x l]; [reflexivity|].
    destruct (dump_head x) as (c & r & Hs & Hc).
    rewrite dump_elems_cons at 1. rewrite Hs at 1. cbn [String.append].
    rewrite Hc.
    rewrite (parse_elems_dump _ IH); [reflexivity | discriminate |].
    change (size (JList (x :: l))) with (S (sizes_list (x :: l))) in Hf. lia.
  - rewrite dump_JDict. cbn [String.append parse].
    change (num_char "{") with false. cbv iota.
    change (Ascii.eqb "{" "n") with false.
    change (Ascii.eqb "{" "t") with false.
    change (Ascii.eqb "{" "f") with false.
    change (Ascii.eqb "{" dquote) with false.
    change (Ascii.eqb "{" "[") with false.
    change (Ascii.eqb "{" "{") with true. cbv iota.
    destruct d as [|[k v] d]; [reflexivity|].
    assert (Hk : exists r, dump_members ((k, v) :: d) = String dquote r).
    { rewrite dump_members_cons. unfold dump_str. cbn [String.append]. eauto. }
    destruct Hk as [r Hk]. rewrite Hk. cbn [String.append].
    change (Ascii.eqb dquote "}") with false. cbv iota.
    change (String dquote (r ++ rest)) with (String dquote r ++ rest).
    rewrite <- Hk.
    rewrite (parse_members_dump _ IH); [reflexivity | discriminate |].
    change (size (JDict ((k, v) :: d))) with (S (sizes_dict ((k, v) :: d))) in Hf. lia.
Qed.

Lemma int_str_length (n : Z) : (1 <= String.length (int_str n))%nat.
Proof. destruct (int_str_head n) as (c & r & -> & _). simpl. lia. Qed.

Lemma size_dump (j : json Z) : (size j <= String.length (dump j))%nat.
Proof.
  induction j as [|b|n|x|s|l IH|d IH] using json_nested_ind.
  - simpl. lia.
  - destruct b; simpl; lia.
  - apply int_str_length.
  - simpl. unfold FloatZ.str. rewrite length_append.
    pose proof (int_str_length x). lia.
  - simpl. lia.
  - rewrite dump_JList. cbn [String.append String.length].
    change (size (JList l)) with (S (sizes_list l)).
    apply le_n_S.
    induction IH as [|x r Hx Hr IHr]; [simpl; lia|].
    rewrite dump_elems_cons, length_append.
    change (sizes_list (x :: r)) with (S (size x + sizes_list r)).
    destruct r as [|y r]; [simpl in *; lia|].
    cbn [String.append String.length]. lia.
  - rewrite dump_JDict. cbn [String.append String.length].
    change (size (JDict d)) with (S (sizes_dict d)).
    apply le_n_S.
    induction IH as [|[k v] r Hx Hr IHr]; [simpl; lia|].
    rewrite dump_members_cons, !length_append.
    change (sizes_dict ((k, v) :: r)) with (S (size v + sizes_dict r)).
    simpl in Hx.
    destruct r as [|y r]; [simpl in *; lia|].
    cbn [String.append String.length]. cbn [String.length] in IHr. lia.
Qed.

Lemma load_dump (j : json Z) : load (dump j) = Some j.
Proof.
  unfold load. pose proof (parse_dump j (S (String.length (dump j))) "") as Hp.
  rewrite append_nil_r in Hp. rewrite Hp; [reflexivity | | exact I].
  pose proof (size_dump j). lia.
Qed.

End JsonZRoundTrip.

#[export] Instance JsonLib_Z : JsonLib Z := {|
  json_dump := JsonZ.dump;
  json_load := JsonZ.load;
  json_load_dump := fun j _ => load_dump j
|}.

(* ===================================================================== *)
(** * Facts about statements *)
(* ===================================================================== *)

Section Frames.
Context {F Msg : Type}.
Implicit Types (s : state F Msg).

Lemma same_mem_refl s : same_mem s s.
Proof. now repeat split. Qed.

Lemma same_mem_trans s1 s2 s3 : same_mem s1 s2 -> same_mem s2 s3 -> same_mem s1 s3.
Proof. intros (?&?&?) (?&?&?). repeat split; congruence. Qed.

Lemma same_mem_records s s' : same_mem s s' -> records s' = records s.
Proof. intros (Hs & Ho & _). unfold records. now rewrite Hs, Ho. Qed.

Lemma keeps_mem_ret {A : Type} (a : A) : keeps_mem (F := F) (Msg := Msg) (ret a).
Proof. intros s. apply same_mem_refl. Qed.

Lemma keeps_mem_raise {A : Type} (e : exn) : keeps_mem (F := F) (Msg := Msg) (raise (A := A) e).
Proof. intros s. apply same_mem_refl. Qed.

Lemma keeps_mem_lift {A : Type} (r : result A) : keeps_mem (F := F) (Msg := Msg) (lift r).
Proof. intros s. apply same_mem_refl. Qed.

Lemma keeps_mem_gets {A : Type} (f : state F Msg -> A) : keeps_mem (F := F) (Msg := Msg) (gets f).
Proof. intros s. apply same_mem_refl. Qed.

Lemma keeps_mem_print (m : Msg) : keeps_mem (F := F) (Msg := Msg) (print m).
Proof. intros s. now repeat split. Qed.

Lemma keeps_mem_exists (path : string) : keeps_mem (F := F) (Msg := Msg) (os_path_exists path).
Proof. intros s. apply same_mem_refl. Qed.

Lemma keeps_mem_read (path : string) : keeps_mem (F := F) (Msg := Msg) (read_file path).
Proof.
  intros s. unfold read_file.
  destruct (fault s _); [apply same_mem_refl|].
  destruct (fs s !! path); apply same_mem_refl.
Qed.

Lemma keeps_mem_write (path text : string) : keeps_mem (F := F) (Msg := Msg) (write_file path text).
Proof.
  intros s. unfold write_file.
  destruct (fault s (SysOpenWrite path)); [apply same_mem_refl|].
  destruct (fault s (SysWrite path)); now repeat split.
Qed.

Lemma keeps_mem_remove (path : string) : keeps_mem (F := F) (Msg := Msg) (os_remove path).
Proof.
  intros s. unfold os_remove.
  destruct (fault s _); [apply same_mem_refl|].
  destruct (fs s !! path); now repeat split.
Qed.

Lemma keeps_mem_rename (src dst : string) : keeps_mem (F := F) (Msg := Msg) (os_rename src dst).
Proof.
  intros s. unfold os_rename.
  destruct (fault s _); [apply same_mem_refl|].
  destruct (fs s !! src); now repeat split.
Qed.

Lemma keeps_mem_bind {A B : Type} (m : M A) (k : A -> M B) :
  keeps_mem (F := F) (Msg := Msg) m -> (forall a, keeps_mem (F := F) (Msg := Msg) (k a)) -> keeps_mem (F := F) (Msg := Msg) (bind m k).
Proof.
  intros Hm Hk s. unfold bind. specialize (Hm s).
  destruct (m s) as [s1 [a|e|]]; simpl in *; try assumption.
  eapply same_mem_trans; [exact Hm | apply Hk].
Qed.

Lemma keeps_mem_try {A : Type} (m : M A) (h : exn -> M A) :
  keeps_mem (F := F) (Msg := Msg) m -> (forall e, keeps_mem (F := F) (Msg := Msg) (h e)) -> keeps_mem (F := F) (Msg := Msg) (try_except m h).
Proof.
  intros Hm Hh s. unfold try_except. specialize (Hm s).
  destruct (m s) as [s1 [a|e|]]; simpl in *; try assumption.
  eapply same_mem_trans; [exact Hm | apply Hh].
Qed.

Lemma keeps_mem_if {A : Type} (b : bool) (m1 m2 : M A) :
  keeps_mem (F := F) (Msg := Msg) m1 -> keeps_mem (F := F) (Msg := Msg) m2 -> keeps_mem (F := F) (Msg := Msg) (if b then m1 else m2).
Proof. now destruct b. Qed.

Lemma keeps_mem_for_each {A : Type} (xs : list A) (body : A -> M unit) :
  (forall x, keeps_mem (F := F) (Msg := Msg) (body x)) -> keeps_mem (F := F) (Msg := Msg) (for_each xs body).
Proof.
  intros Hb. induction xs as [|x xs IH]; simpl.
  - apply keeps_mem_ret.
  - apply keeps_mem_bind; [apply Hb | intros _; exact IH].
Qed.

End Frames.

Create HintDb frames.

#[local] Hint Resolve keeps_mem_ret keeps_mem_raise keeps_mem_lift keeps_mem_gets
  keeps_mem_print keeps_mem_exists keeps_mem_read keeps_mem_write
  keeps_mem_remove keeps_mem_rename : frames.

Ltac frames :=
  repeat first
    [ apply keeps_mem_bind; [|intros ?]
    | apply keeps_mem_try; [|intros ?]
    | apply keeps_mem_for_each; intros ?
    | apply keeps_mem_if
    | match goal with |- keeps_mem (match ?e with _ => _ end) => destruct e end
    | solve [auto with frames] ].

Lemma guardar_keeps_mem {F : Type} `{PyFloat F} :
  keeps_mem (Manipulacion.guardar_inventario (F := F)).
Proof. unfold Manipulacion.guardar_inventario. frames. Qed.

Lemma guardar1_keeps_mem {F : Type} `{PyFloat F} `{JsonLib F} :
  keeps_mem (Manipulacion1.guardar_inventario (F := F)).
Proof.
  unfold Manipulacion1.guardar_inventario, Manipulacion1.guardar_try,
    Manipulacion1.guardar_except, Manipulacion1.pasos_de_guardar,
    Manipulacion1.escribir_temporal, Manipulacion1.quitar_destino,
    Manipulacion1.renombrar.
  frames.
Qed.

(** ** Saving *)

Lemma tmp_ne (a : string) : a ++ ".tmp" <> a.
Proof.
  intros E. apply (f_equal String.length) in E.
  rewrite length_append in E. simpl in E. lia.
Qed.

Section Saving.
Context {F : Type} `{PyFloat F} `{JsonLib F}.

(** [Manipulación.py]: a save writes the text of the store over the file,
    and returns. *)
Lemma guardar_ok (s : state F Manipulacion.Msg) :
  fault s (SysOpenWrite (archivo (self s))) = None ->
  fault s (SysWrite (archivo (self s))) = None ->
  Manipulacion.guardar_inventario s
  = (set_fs (<[archivo (self s) := Manipulacion.texto s]> (fs s)) s, Ok tt).
Proof.
  intros H1 H2.
  unfold Manipulacion.guardar_inventario, try_except, bind, gets, write_file.
  simpl. now rewrite H1, H2.
Qed.

(** An [OSError] of the save is printed and goes no further; nothing
    returns [Untyped]. *)
Lemma guardar_result (s : state F Manipulacion.Msg) :
  snd (Manipulacion.guardar_inventario s) = Ok tt
  \/ exists e, is_OSError e = false
               /\ snd (Manipulacion.guardar_inventario s) = Raise e.
Proof.
  unfold Manipulacion.guardar_inventario, try_except, bind, gets, write_file.
  simpl.
  destruct (fault s (SysOpenWrite _)) as [e|].
  - destruct (is_OSError e) eqn:E; [now left | right; now exists e].
  - destruct (fault s (SysWrite _)) as [e|]; [|now left].
    destruct (is_OSError e) eqn:E; [now left | right; now exists e].
Qed.

(** [Manipulación1.py]: with no failure, a save leaves the dump of the
    store in the file and no temporary file. *)
Lemma guardar1_ok (s : state F Manipulacion1.Msg) :
  quiet s ->
  Manipulacion1.guardar_inventario s
  = (set_fs (<[archivo (self s) := json_dump (Manipulacion1.a_json s)]>
               (delete (archivo (self s) ++ ".tmp") (fs s))) s, Ok tt).
Proof.
  intros Hq.
  unfold Manipulacion1.guardar_inventario, Manipulacion1.guardar_try,
    Manipulacion1.guardar_except, Manipulacion1.pasos_de_guardar,
    Manipulacion1.escribir_temporal, Manipulacion1.quitar_destino,
    Manipulacion1.renombrar, try_except, for_each, bind, gets, write_file,
    os_path_exists, os_remove, os_rename, ret, set_fs.
  cbn. rewrite !Hq. cbn.
  set (a := archivo (self s)). set (text := json_dump _).
  assert (Hne : a ++ ".tmp" <> a) by apply tmp_ne.
  assert (Hne' : a <> a ++ ".tmp") by (intros E; now apply Hne).
  assert (Hmap : forall m1 m2 : gmap string string,
             (forall k, k <> a -> k <> a ++ ".tmp" -> m1 !! k = m2 !! k) ->
             <[a := text]> (delete (a ++ ".tmp") m1)
             = <[a := text]> (delete (a ++ ".tmp") m2)).
  { intros m1 m2 Hm. apply map_eq. intros k.
    destruct (decide (k = a)) as [->|Hka]; [now rewrite !lookup_insert_eq|].
    rewrite !lookup_insert_ne by congruence.
    destruct (decide (k = a ++ ".tmp")) as [->|Hkt]; [now rewrite !lookup_delete_eq|].
    rewrite !lookup_delete_ne by congruence. now apply Hm. }
  case_bool_decide as Hex; cbn; rewrite ?Hq; cbn.
  - rewrite lookup_insert_ne in Hex by assumption.
    rewrite lookup_insert_ne by assumption.
    destruct Hex as [old Hold]. rewrite Hold. cbn. rewrite Hq. cbn.
    rewrite lookup_delete_ne by assumption. rewrite lookup_insert_eq. cbn.
    do 2 f_equal. apply Hmap. intros k Hka Hkt.
    rewrite lookup_delete_ne by congruence. now rewrite lookup_insert_ne by congruence.
  - rewrite lookup_insert_eq. cbn.
    do 2 f_equal. apply Hmap. intros k Hka Hkt.
    now rewrite lookup_insert_ne by congruence.
Qed.

(** A save returns or raises. *)
Lemma guardar1_result (s : state F Manipulacion1.Msg) :
  snd (Manipulacion1.guardar_inventario s) <> Untyped.
Proof.
  unfold Manipulacion1.guardar_inventario, Manipulacion1.guardar_try,
    Manipulacion1.guardar_except, Manipulacion1.pasos_de_guardar,
    Manipulacion1.escribir_temporal, Manipulacion1.quitar_destino,
    Manipulacion1.renombrar, try_except, for_each, bind, gets, write_file,
    os_path_exists, os_remove, os_rename, ret, print, modify, raise.
  cbn.
  repeat (match goal with
          | |- context [match ?x with _ => _ end] =>
              lazymatch x with
              | context [match _ with _ => _ end] => fail
              | _ => destruct x eqn:?
              end
          | |- context [if ?x then _ else _] =>
              lazymatch x with
              | context [match _ with _ => _ end] => fail
              | _ => destruct x eqn:?
              end
          end; cbn; try discriminate).
Qed.

(** A save that raises has not written the backing file. *)
Lemma guardar1_raise_fs (s : state F Manipulacion1.Msg) (e : exn) :
  snd (Manipulacion1.guardar_inventario s) = Raise e ->
  sin_guardar s (fst (Manipulacion1.guardar_inventario s)).
Proof.
  assert (Hne : archivo (self s) <> archivo (self s) ++ ".tmp")
    by (intros E; symmetry in E; now apply tmp_ne in E).
  unfold sin_guardar.
  unfold Manipulacion1.guardar_inventario, Manipulacion1.guardar_try,
    Manipulacion1.guardar_except, Manipulacion1.pasos_de_guardar,
    Manipulacion1.escribir_temporal, Manipulacion1.quitar_destino,
    Manipulacion1.renombrar, try_except, for_each, bind, gets, write_file,
    os_path_exists, os_remove, os_rename, ret, print, modify, raise, set_fs.
  cbn.
  repeat (match goal with
          | |- context [match ?x with _ => _ end] =>
              lazymatch x with
              | context [match _ with _ => _ end] => fail
              | _ => destruct x eqn:?
              end
          | |- context [if ?x then _ else _] =>
              lazymatch x with
              | context [match _ with _ => _ end] => fail
              | _ => destruct x eqn:?
              end
          end; cbn); try discriminate; intros _;
    (split; [| intros p Hp Hpt;
               rewrite ?lookup_delete_ne, ?lookup_insert_ne, ?lookup_delete_ne,
                 ?lookup_insert_ne by congruence; reflexivity]).
  all: try (rewrite lookup_delete_ne by exact (tmp_ne _)).
  all: try (rewrite lookup_insert_ne by exact (tmp_ne _)).
  all: try (left; reflexivity).
  all: try (right; apply lookup_delete_eq).
Qed.

End Saving.

(** ** The operations, in terms of the save *)

#[local] Arguments Manipulacion.guardar_inventario : simpl never.
#[local] Arguments Manipulacion1.guardar_inventario : simpl never.
#[local] Arguments Manipulacion.cargar_inventario : simpl never.
#[local] Arguments Manipulacion1.cargar_inventario : simpl never.

Section Ops.
Context {F : Type} `{PyFloat F} `{JsonLib F}.

Lemma agregar_dup (s : state F Manipulacion.Msg) (l : loc) :
  dict_in (id (objs s l)) (productos (self s)) = true ->
  Manipulacion.agregar_producto l s = (s, Ok false).
Proof.
  intros Hin. unfold Manipulacion.agregar_producto, bind, gets. cbn.
  now rewrite Hin.
Qed.

Lemma agregar_new (s : state F Manipulacion.Msg) (l : loc) :
  dict_in (id (objs s l)) (productos (self s)) = false ->
  Manipulacion.agregar_producto l s
  = let sr := Manipulacion.guardar_inventario
                (con_productos (dict_set (id (objs s l)) l (productos (self s))) s) in
    (fst sr, match snd sr with Ok _ => Ok true | Raise e => Raise e | Untyped => Untyped end).
Proof.
  intros Hin. unfold Manipulacion.agregar_producto, bind, gets. cbn.
  rewrite Hin. unfold set_productos, modify. cbn.
  unfold con_productos.
  destruct (Manipulacion.guardar_inventario _) as [s' [[]|e|]]; reflexivity.
Qed.

Lemma agregar1_dup (s : state F Manipulacion1.Msg) (l : loc) :
  dict_in (id (objs s l)) (productos (self s)) = true ->
  Manipulacion1.agregar_producto l s
  = (fst (print (Manipulacion1.Producto_ya_existe (id (objs s l))) s), Ok false).
Proof.
  intros Hin. unfold Manipulacion1.agregar_producto, try_except, bind, gets. cbn.
  now rewrite Hin.
Qed.

Lemma agregar1_new (s : state F Manipulacion1.Msg) (l : loc) :
  dict_in (id (objs s l)) (productos (self s)) = false ->
  Manipulacion1.agregar_producto l s
  = let sr := Manipulacion1.guardar_inventario
                (con_productos (dict_set (id (objs s l)) l (productos (self s))) s) in
    match snd sr with
    | Ok _ => (fst sr, Ok true)
    | Raise e => (fst (print (Manipulacion1.Error_al_agregar e) (fst sr)), Ok false)
    | Untyped => (fst sr, Untyped)
    end.
Proof.
  intros Hin. unfold Manipulacion1.agregar_producto, try_except, bind, gets. cbn.
  rewrite Hin. unfold set_productos, modify. cbn.
  unfold con_productos.
  destruct (Manipulacion1.guardar_inventario _) as [s' [[]|e|]]; reflexivity.
Qed.


Lemma eliminar_absent (s : state F Manipulacion.Msg) (k : string) :
  dict_in k (productos (self s)) = false ->
  Manipulacion.eliminar_producto k s = (s, Ok false).
Proof.
  intros Hin. unfold Manipulacion.eliminar_producto, bind, gets. cbn.
  now rewrite Hin.
Qed.

Lemma eliminar_present (s : state F Manipulacion.Msg) (k : string) :
  dict_in k (productos (self s)) = true ->
  Manipulacion.eliminar_producto k s
  = let sr := Manipulacion.guardar_inventario
                (con_productos (dict_del k (productos (self s))) s) in
    (fst sr, match snd sr with Ok _ => Ok true | Raise e => Raise e | Untyped => Untyped end).
Proof.
  intros Hin. unfold Manipulacion.eliminar_producto, bind, gets. cbn.
  rewrite Hin. unfold set_productos, modify. cbn.
  unfold con_productos.
  destruct (Manipulacion.guardar_inventario _) as [s' [[]|e|]]; reflexivity.
Qed.

Lemma eliminar1_absent (s : state F Manipulacion1.Msg) (k : string) :
  dict_in k (productos (self s)) = false ->
  Manipulacion1.eliminar_producto k s
  = (fst (print (Manipulacion1.Producto_no_encontrado k) s), Ok false).
Proof.
  intros Hin. unfold Manipulacion1.eliminar_producto, try_except, bind, gets. cbn.
  now rewrite Hin.
Qed.

Lemma eliminar1_present (s : state F Manipulacion1.Msg) (k : string) :
  dict_in k (productos (self s)) = true ->
  Manipulacion1.eliminar_producto k s
  = let sr := Manipulacion1.guardar_inventario
                (con_productos (dict_del k (productos (self s))) s) in
    match snd sr with
    | Ok _ => (fst sr, Ok true)
    | Raise e => (fst (print (Manipulacion1.Error_al_eliminar e) (fst sr)), Ok false)
    | Untyped => (fst sr, Untyped)
    end.
Proof.
  intros Hin. unfold Manipulacion1.eliminar_producto, try_except, bind, gets. cbn.
  rewrite Hin. unfold set_productos, modify. cbn.
  unfold con_productos.
  destruct (Manipulacion1.guardar_inventario _) as [s' [[]|e|]]; reflexivity.
Qed.

Lemma actualizar_absent (s : state F Manipulacion.Msg) (k : string) c x :
  dict_in k (productos (self s)) = false ->
  Manipulacion.actualizar_producto k c x s = (s, Ok false).
Proof.
  intros Hin. unfold Manipulacion.actualizar_producto, bind, gets. cbn.
  now rewrite Hin.
Qed.

Lemma actualizar_present (s : state F Manipulacion.Msg) (k : string) c x (l : loc) :
  dict_get k (productos (self s)) = Some l ->
  exists s1, self s1 = self s /\ next s1 = next s /\ fs s1 = fs s
    /\ fault s1 = fault s /\ torn s1 = torn s /\ out s1 = out s
    /\ (forall l', objs s1 l' = if decide (l' = l) then asignar c x (objs s l) else objs s l')
    /\ Manipulacion.actualizar_producto k c x s
       = let sr := Manipulacion.guardar_inventario s1 in
         (fst sr, match snd sr with Ok _ => Ok true | Raise e => Raise e | Untyped => Untyped end).
Proof.
  intros Hg. unfold Manipulacion.actualizar_producto, bind, gets, getitem. cbn.
  assert (Hin : dict_in k (productos (self s)) = true) by (unfold dict_in; now rewrite Hg).
  rewrite Hin. cbn. rewrite Hg. cbn.
  destruct c as [c|], x as [x|]; unfold modify, ret; cbn;
    match goal with
    | |- context [Manipulacion.guardar_inventario ?X] => exists X
    end;
    (repeat split;
     [..| destruct (Manipulacion.guardar_inventario _) as [s' [[]|e|]]; reflexivity]);
    cbn; try reflexivity; intros l'; unfold asignar; cbn;
    repeat case_decide; try reflexivity; try congruence.
Qed.

Lemma actualizar1_absent (s : state F Manipulacion1.Msg) (k : string) c x :
  dict_in k (productos (self s)) = false ->
  Manipulacion1.actualizar_producto k c x s
  = (fst (print (Manipulacion1.Producto_no_encontrado k) s), Ok false).
Proof.
  intros Hin. unfold Manipulacion1.actualizar_producto, try_except, bind, gets. cbn.
  now rewrite Hin.
Qed.

Lemma actualizar1_present (s : state F Manipulacion1.Msg) (k : string) c x (l : loc) :
  dict_get k (productos (self s)) = Some l ->
  exists s1, self s1 = self s /\ next s1 = next s /\ fs s1 = fs s
    /\ fault s1 = fault s /\ torn s1 = torn s /\ out s1 = out s
    /\ (forall l', objs s1 l' = if decide (l' = l) then asignar c x (objs s l) else objs s l')
    /\ Manipulacion1.actualizar_producto k c x s
       = let sr := Manipulacion1.guardar_inventario s1 in
         match snd sr with
         | Ok _ => (fst sr, Ok true)
         | Raise e => (fst (print (Manipulacion1.Error_al_actualizar e) (fst sr)), Ok false)
         | Untyped => (fst sr, Untyped)
         end.
Proof.
  intros Hg. unfold Manipulacion1.actualizar_producto, try_except, bind, gets, getitem. cbn.
  assert (Hin : dict_in k (productos (self s)) = true) by (unfold dict_in; now rewrite Hg).
  rewrite Hin. cbn. rewrite Hg. cbn.
  destruct c as [c|], x as [x|]; unfold modify, ret; cbn;
    match goal with
    | |- context [Manipulacion1.guardar_inventario ?X] => exists X
    end;
    (repeat split;
     [..| destruct (Manipulacion1.guardar_inventario _) as [s' [[]|e|]]; reflexivity]);
    cbn; try reflexivity; intros l'; unfold asignar; cbn;
    repeat case_decide; try reflexivity; try congruence.
Qed.

(** The same, with the state after the assignments written out. *)
Lemma asignado_objs {Msg : Type} (l : loc) c x (s : state F Msg) :
  self (asignado l c x s) = self s /\ fs (asignado l c x s) = fs s
  /\ next (asignado l c x s) = next s
  /\ forall l', objs (asignado l c x s) l'
                = if decide (l' = l) then asignar c x (objs s l) else objs s l'.
Proof.
  destruct c as [c|], x as [x|]; cbn; repeat split; intros l'; unfold asignar; cbn;
    repeat case_decide; try reflexivity; try congruence.
Qed.

Lemma actualizar1_asignado (s : state F Manipulacion1.Msg) (k : string) c x (l : loc) :
  dict_get k (productos (self s)) = Some l ->
  Manipulacion1.actualizar_producto k c x s
  = let sr := Manipulacion1.guardar_inventario (asignado l c x s) in
    match snd sr with
    | Ok _ => (fst sr, Ok true)
    | Raise e => (fst (print (Manipulacion1.Error_al_actualizar e) (fst sr)), Ok false)
    | Untyped => (fst sr, Untyped)
    end.
Proof.
  intros Hg. unfold Manipulacion1.actualizar_producto, try_except, bind, gets, getitem. cbn.
  assert (Hin : dict_in k (productos (self s)) = true) by (unfold dict_in; now rewrite Hg).
  rewrite Hin. cbn. rewrite Hg. cbn.
  destruct c as [c|], x as [x|]; unfold modify, ret, asignado; cbn;
    destruct (Manipulacion1.guardar_inventario _) as [s' [[]|e|]]; reflexivity.
Qed.

End Ops.

(** ** Adding a record *)

Section Adding.
Context {F : Type} `{PyFloat F} `{JsonLib F}.

Lemma dict_in_set {V : Type} (k : string) (v : V) (d : dict V) :
  dict_in k (dict_set k v d) = true.
Proof. unfold dict_in. now rewrite dict_get_set. Qed.

(** C5, [Manipulación.py]. *)
Lemma agregar_contract (s : state F Manipulacion.Msg) (l : loc) :
  let k := id (objs s l) in
  (dict_in k (productos (self s)) = true ->
   Manipulacion.agregar_producto l s = (s, Ok false))
  /\ (dict_in k (productos (self s)) = false -> quiet s ->
      exists s', Manipulacion.agregar_producto l s = (s', Ok true)
        /\ productos (self s') = (productos (self s) ++ [(k, l)])%list
        /\ archivo (self s') = archivo (self s)
        /\ objs s' = objs s
        /\ fs s' !! archivo (self s) = Some (Manipulacion.texto s')
        /\ dict_in k (productos (self s')) = true).
Proof.
  intros k. split.
  - apply agregar_dup.
  - intros Hk Hq. rewrite agregar_new by assumption.
    rewrite guardar_ok by apply Hq. cbn.
    eexists. split; [reflexivity|]. cbn.
    rewrite dict_set_fresh by assumption. repeat split.
    + now rewrite lookup_insert_eq.
    + fold k. rewrite <- (dict_set_fresh k l) by assumption. apply dict_in_set.
Qed.

Lemma agregar1_contract (s : state F Manipulacion1.Msg) (l : loc) :
  let k := id (objs s l) in
  (dict_in k (productos (self s)) = true ->
   exists s', Manipulacion1.agregar_producto l s = (s', Ok false)
     /\ same_mem s s' /\ fs s' = fs s)
  /\ (dict_in k (productos (self s)) = false -> quiet s ->
      exists s', Manipulacion1.agregar_producto l s = (s', Ok true)
        /\ productos (self s') = (productos (self s) ++ [(k, l)])%list
        /\ archivo (self s') = archivo (self s)
        /\ objs s' = objs s
        /\ fs s' !! archivo (self s) = Some (json_dump (Manipulacion1.a_json s'))
        /\ dict_in k (productos (self s')) = true).
Proof.
  intros k. split.
  - intros Hk. rewrite agregar1_dup by assumption.
    eexists. split; [reflexivity|]. now repeat split.
  - intros Hk Hq. rewrite agregar1_new by assumption.
    rewrite guardar1_ok by apply Hq. cbn.
    eexists. split; [reflexivity|]. cbn.
    rewrite dict_set_fresh by assumption. repeat split.
    + now rewrite lookup_insert_eq.
    + fold k. rewrite <- (dict_set_fresh k l) by assumption. apply dict_in_set.
Qed.
End Adding.

Section Loading.
Context {F : Type} `{PyFloat F} `{JsonLib F}.

Lemma cargar_linea_eq (linea : string) (s : state F Manipulacion.Msg) :
  Manipulacion.cargar_linea linea s
  = match leer_linea linea with
    | Ok p => (con_productos (dict_set (id p) (next s) (productos (self s))) (alloc p s), Ok tt)
    | Raise e => (s, Raise e)
    | Untyped => (s, Untyped)
    end.
Proof.
  unfold Manipulacion.cargar_linea, leer_linea.
  destruct (split "|" (strip linea)) as [|f1 [|f2 [|f3 [|f4 [|f5 fs]]]]]; try reflexivity.
  unfold bind, lift.
  destruct (int_parse f3) as [c|e|]; try reflexivity.
  destruct (float_of_str f4) as [x|e|]; reflexivity.
Qed.

Lemma leer_linea_cases (linea : string) :
  (exists p, leer_linea linea = Ok p) \/ leer_linea linea = Raise ValueError.
Proof.
  unfold leer_linea.
  destruct (split "|" (strip linea)) as [|f1 [|f2 [|f3 [|f4 [|f5 fs]]]]]; try (now right).
  unfold int_parse.
  destruct (num_strip f3) as [|c r]; cbn zeta.
  - simpl. now right.
  - destruct (if Ascii.eqb c "-" then _ else _) as [neg body].
    destruct (digits_value body 0 false); [|now right].
    unfold float_of_str. destruct (float_parse f4); [left; eauto | now right].
Qed.

Lemma alojar_con_productos {Msg : Type} (ps : list (Producto F)) (d : dict loc)
    (s : state F Msg) :
  alojar ps (con_productos d s) = con_productos d (alojar ps s).
Proof.
  revert s. induction ps as [|p ps IH]; intros s; [reflexivity|].
  exact (IH (alloc p s)).
Qed.

Lemma for_each_cargar (ps : list (Producto F)) :
  forall (lineas : list string) (s : state F Manipulacion.Msg),
    Forall2 (fun linea p => leer_linea linea = Ok p) lineas ps ->
    for_each lineas Manipulacion.cargar_linea s
    = (con_productos (indexar (map id ps) (next s) (productos (self s))) (alojar ps s),
       Ok tt).
Proof.
  induction ps as [|p ps IH]; intros lineas s Hl; inversion Hl; subst.
  - destruct s as [[d a] ? ? ? ? ? ?]. reflexivity.
  - cbn [for_each]. unfold bind at 1. rewrite cargar_linea_eq.
    match goal with Hp : leer_linea _ = Ok p |- _ => rewrite Hp end.
    rewrite IH by assumption. rewrite alojar_con_productos. reflexivity.
Qed.

Lemma for_each_cargar_bad (ps : list (Producto F)) :
  forall (lineas resto : list string) (mala : string) (e : exn) (s : state F Manipulacion.Msg),
    Forall2 (fun linea p => leer_linea linea = Ok p) lineas ps ->
    leer_linea mala = Raise e ->
    for_each (lineas ++ mala :: resto)%list Manipulacion.cargar_linea s
    = (con_productos (indexar (map id ps) (next s) (productos (self s))) (alojar ps s),
       Raise e).
Proof.
  induction ps as [|p ps IH]; intros lineas resto mala e s Hl Hm; inversion Hl; subst.
  - cbn [app for_each]. unfold bind at 1. rewrite cargar_linea_eq, Hm.
    destruct s as [[d a] ? ? ? ? ? ?]. reflexivity.
  - cbn [app for_each]. unfold bind at 1. rewrite cargar_linea_eq.
    match goal with Hp : leer_linea _ = Ok p |- _ => rewrite Hp end.
    rewrite (IH _ _ _ e) by assumption. rewrite alojar_con_productos. reflexivity.
Qed.


Lemma records_con_productos {Msg : Type} (d : dict loc) (s : state F Msg) :
  records (con_productos d s) = map (fun kl => (fst kl, objs s (snd kl))) d.
Proof. reflexivity. Qed.

Lemma records_cargados {Msg : Type} (ps : list (Producto F)) :
  forall (keys : list string) (s : state F Msg) (d0 : dict loc),
    length keys = length ps ->
    (forall k l, (k, l) ∈ d0 -> (l < next s)%nat) ->
    records (con_productos (indexar keys (next s) d0) (alojar ps s))
    = fold_left poner (zip keys ps) (map (fun kl => (fst kl, objs s (snd kl))) d0).
Proof.
  induction ps as [|p ps IH]; intros [|k keys] s d0 Hlen Hd0; try discriminate.
  - reflexivity.
  - cbn [indexar alojar zip zip_with fold_left].
    assert (Hd1 : forall k' l, (k', l) ∈ dict_set k (next s) d0 -> (l < next (alloc p s))%nat).
    { intros k' l Hin. apply dict_set_elem in Hin as [Hin|[= -> ->]].
      - apply Hd0 in Hin. simpl. lia.
      - simpl. lia. }
    specialize (IH keys (alloc p s) (dict_set k (next s) d0)
                  ltac:(simpl in Hlen; lia) Hd1).
    change (next (alloc p s)) with (S (next s)) in IH.
    rewrite IH. f_equal. rewrite dict_map_set. unfold poner. cbn [fst snd].
    f_equal.
    + simpl. now rewrite decide_True.
    + apply map_ext_in. intros [k' l] Hin. simpl. f_equal.
      apply list_elem_of_In, Hd0 in Hin.
      rewrite decide_False by lia. reflexivity.
Qed.

(** Filling an empty dictionary with entries of distinct keys gives the
    entries, in their order. *)
Lemma fold_poner_fresh {V : Type} (kvs : list (string * V)) :
  forall acc : dict V,
    NoDup (map fst (acc ++ kvs)%list) ->
    fold_left poner kvs acc = (acc ++ kvs)%list.
Proof.
  induction kvs as [|[k v] kvs IH]; intros acc Hnd; simpl.
  - now rewrite app_nil_r.
  - assert (Hk : dict_in k acc = false).
    { destruct (dict_in k acc) eqn:E; [|reflexivity]. exfalso.
      apply dict_in_keys in E. unfold dict_keys in E.
      rewrite map_app in Hnd. apply NoDup_app in Hnd as (_ & Hd & _).
      apply (Hd k E). simpl. apply list_elem_of_here. }
    unfold poner at 2. cbn [fst snd]. rewrite dict_set_fresh by assumption.
    rewrite IH.
    + now rewrite <- app_assoc.
    + now rewrite <- app_assoc.
Qed.

End Loading.

Lemma campo_char_no_bar (c : ascii) : campo_char c = true -> negb (Ascii.eqb c "|") = true.
Proof. unfold campo_char. intros Hc. now apply andb_true_iff in Hc as [? _]. Qed.

Lemma campo_char_no_eol (c : ascii) : campo_char c = true -> no_eol c = true.
Proof. unfold campo_char. intros Hc. now apply andb_true_iff in Hc as [_ ?]. Qed.

Lemma int_char_campo (c : ascii) : int_char c = true -> campo_char c = true.
Proof. destruct c as [[] [] [] [] [] [] [] []]; vm_compute; congruence. Qed.

Lemma float_char_campo (c : ascii) : float_char c = true -> campo_char c = true.
Proof. destruct c as [[] [] [] [] [] [] [] []]; vm_compute; congruence. Qed.

Section Delimited.
Context {F : Type} `{PyFloat F}.

Lemma float_str_campo (x : F) : string_forallb campo_char (float_str x) = true.
Proof. exact (string_forallb_impl _ _ _ float_char_campo (float_str_chars x)). Qed.

Lemma int_str_campo (n : Z) : string_forallb campo_char (int_str n) = true.
Proof. exact (string_forallb_impl _ _ _ int_char_campo (int_str_chars n)). Qed.

Lemma lstrip_linea (a b : string) :
  sin_espacio_inicial a = true -> lstrip (a ++ String "|" b) = a ++ String "|" b.
Proof.
  destruct a as [|c a]; simpl; [reflexivity|].
  intros Hc. apply negb_true_iff in Hc. now rewrite Hc.
Qed.

Lemma rstrip_linea (pre fl : string) :
  string_forallb (fun c => negb (is_space c)) fl = true ->
  rstrip (pre ++ String "|" (fl ++ newline)) = pre ++ String "|" fl.
Proof.
  intros Hfl.
  assert (Hr : rstrip (String "|" (fl ++ newline)) = String "|" fl).
  { change (String "|" (fl ++ newline)) with (String "|" fl ++ newline).
    now apply rstrip_newline. }
  rewrite rstrip_app by (rewrite Hr; discriminate). now rewrite Hr.
Qed.

Lemma leer_linea_de (p : Producto F) :
  escribible p -> leer_linea (Manipulacion.linea_de p) = Ok p.
Proof.
  intros (Hid & Hnom & Hini). unfold leer_linea, Manipulacion.linea_de, strip.
  destruct p as [i n c x]. cbn [id nombre cantidad precio] in *.
  change (i ++ "|" ++ n ++ "|" ++ int_str c ++ "|" ++ float_str x ++ newline)
    with (i ++ String "|" (n ++ String "|" (int_str c ++ String "|" (float_str x ++ newline)))).
  rewrite lstrip_linea by assumption.
  assert (Hre : i ++ String "|" (n ++ String "|" (int_str c ++ String "|" (float_str x ++ newline)))
                = (i ++ String "|" (n ++ String "|" (int_str c))) ++ String "|" (float_str x ++ newline)).
  { repeat (rewrite append_assoc; cbn [String.append]). reflexivity. }
  rewrite Hre, rstrip_linea
    by exact (string_forallb_impl _ _ _ float_char_no_space (float_str_chars x)).
  repeat (rewrite append_assoc; cbn [String.append]).
  rewrite split_app_sep by exact (string_forallb_impl _ _ _ campo_char_no_bar Hid).
  rewrite split_app_sep by exact (string_forallb_impl _ _ _ campo_char_no_bar Hnom).
  rewrite split_app_sep
    by exact (string_forallb_impl _ _ _ campo_char_no_bar (int_str_campo c)).
  rewrite split_no_sep
    by exact (string_forallb_impl _ _ _ campo_char_no_bar (float_str_campo x)).
  rewrite int_parse_int_str. unfold float_of_str. rewrite float_parse_str.
  reflexivity.
Qed.

Lemma linea_de_no_eol (p : Producto F) :
  escribible p ->
  exists body, Manipulacion.linea_de p = body ++ newline
               /\ string_forallb no_eol body = true.
Proof.
  intros (Hid & Hnom & _).
  exists (id p ++ "|" ++ nombre p ++ "|" ++ int_str (cantidad p) ++ "|" ++ float_str (precio p)).
  split.
  - unfold Manipulacion.linea_de. repeat (rewrite append_assoc; cbn [String.append]).
    reflexivity.
  - rewrite !string_forallb_app. cbn [string_forallb].
    rewrite (string_forallb_impl _ _ _ campo_char_no_eol Hid).
    rewrite (string_forallb_impl _ _ _ campo_char_no_eol Hnom).
    rewrite (string_forallb_impl _ _ _ campo_char_no_eol (int_str_campo (cantidad p))).
    rewrite (string_forallb_impl _ _ _ campo_char_no_eol (float_str_campo (precio p))).
    reflexivity.
Qed.

Lemma readlines_lineas (ps : list (Producto F)) :
  Forall escribible ps ->
  readlines (fold_right String.append EmptyString (map Manipulacion.linea_de ps))
  = map Manipulacion.linea_de ps.
Proof.
  induction 1 as [|p ps Hp Hps IH]; [reflexivity|].
  cbn [map fold_right].
  destruct (linea_de_no_eol p Hp) as (body & -> & Hb).
  rewrite append_assoc, readlines_app_newline by assumption.
  now rewrite IH.
Qed.

Lemma zip_map_fst {A B : Type} (f : A -> B) (l : list A) :
  zip (map f l) l = map (fun x => (f x, x)) l.
Proof. induction l as [|x l IH]; simpl; [reflexivity | now rewrite IH]. Qed.

(** The constructor on a file that holds the lines of [ps]. *)
Lemma init_lineas (a : string) (ps : list (Producto F)) (s : state F Manipulacion.Msg) :
  fs s !! a = Some (fold_right String.append EmptyString (map Manipulacion.linea_de ps)) ->
  fault s (SysOpenRead a) = None ->
  Forall escribible ps ->
  Manipulacion.__init__ a s
  = (con_productos (indexar (map id ps) (next s) [])
       (alojar ps (set_self (mkInventario [] a) s)), Ok tt).
Proof.
  intros Hfs Hf Hps.
  unfold Manipulacion.__init__, Manipulacion.cargar_inventario, bind, modify, gets,
    os_path_exists, try_except, read_file.
  cbn. rewrite Hfs. cbn. rewrite Hf, Hfs. cbn.
  rewrite readlines_lineas by assumption.
  rewrite (for_each_cargar ps).
  - reflexivity.
  - clear Hfs. induction Hps as [|p ps Hp Hps IH]; constructor; [|exact IH].
    now apply leer_linea_de.
Qed.

(** [Manipulación.py]: a store whose records the file can hold is read back
    as it was written. *)
Lemma delimited_round_trip (s : state F Manipulacion.Msg) :
  dict_wf (productos (self s)) ->
  ids_match s ->
  (forall k l, (k, l) ∈ productos (self s) -> escribible (objs s l)) ->
  quiet s ->
  exists s1 s2,
    Manipulacion.guardar_inventario s = (s1, Ok tt)
    /\ Manipulacion.__init__ (archivo (self s)) s1 = (s2, Ok tt)
    /\ records s2 = records s.
Proof.
  intros Hwf Hids Hesc Hq.
  rewrite guardar_ok by apply Hq.
  eexists _, _. split; [reflexivity|].
  set (ps := map (objs s) (dict_values (productos (self s)))).
  assert (Hps : Forall escribible ps).
  { apply Forall_forall. intros p Hp. apply list_elem_of_In in Hp.
    unfold ps, dict_values in Hp. rewrite map_map in Hp.
    apply in_map_iff in Hp as ([k l] & <- & Hin).
    apply list_elem_of_In in Hin. now apply (Hesc k). }
  rewrite (init_lineas _ ps).
  - split; [reflexivity|]. fold ps.
    match goal with
    | |- records (con_productos _ (alojar ps ?S0)) = _ =>
        transitivity (fold_left poner (zip (map id ps) ps)
                        (map (fun kl => (fst kl, objs S0 (snd kl))) []));
        [ apply (records_cargados ps (map id ps) S0 []);
          [ now rewrite length_map | intros k l Hin; inversion Hin ] |]
    end.
    cbn [map]. rewrite fold_poner_fresh.
    + cbn [app]. rewrite zip_map_fst. unfold ps, dict_values, records.
      rewrite !map_map. apply map_ext_in. intros [k l] Hin. cbn [fst snd].
      apply list_elem_of_In in Hin. now rewrite (Hids k l Hin).
    + cbn [app]. rewrite zip_map_fst, map_map. cbn [fst].
      unfold ps, dict_values. rewrite !map_map.
      unfold dict_wf, dict_keys in Hwf.
      erewrite map_ext_in; [exact Hwf|].
      intros [k l] Hin. cbn [fst snd]. apply list_elem_of_In in Hin.
      now apply Hids.
  - cbn. rewrite lookup_insert_eq. f_equal. unfold Manipulacion.texto, ps.
    now rewrite map_map.
  - apply Hq.
  - exact Hps.
Qed.
End Delimited.
Section JsonLoading.
Context {F : Type} `{PyFloat F} `{JsonLib F}.

Lemma from_dict_to_dict (p : Producto F) :
  Manipulacion1.from_dict (Manipulacion1.to_dict p) = Ok p.
Proof. destruct p. reflexivity. Qed.

Lemma to_dict_wf (p : Producto F) : json_wf (Manipulacion1.to_dict p).
Proof.
  apply wf_JDict.
  - unfold dict_wf, dict_keys. cbn [map fst].
    repeat (apply NoDup_cons; split;
            [ rewrite ?elem_of_cons, ?elem_of_nil; intros Hin;
              repeat destruct Hin as [Hin|Hin]; try discriminate; exact Hin |]).
    apply NoDup_nil. exact I.
  - repeat constructor.
Qed.

Lemma a_json_wf (s : state F Manipulacion1.Msg) :
  dict_wf (productos (self s)) -> json_wf (Manipulacion1.a_json s).
Proof.
  intros Hwf. apply wf_JDict.
  - unfold dict_wf, dict_keys in *. now rewrite map_map.
  - apply Forall_forall. intros kv Hin. apply list_elem_of_In, in_map_iff in Hin.
    destruct Hin as (kl & <- & _). apply to_dict_wf.
Qed.

Lemma comprension_ok (ps : list (Producto F)) :
  forall (entradas : dict (json F)) (d : dict loc) (s : state F Manipulacion1.Msg),
    Forall2 (fun kv p => Manipulacion1.from_dict (snd kv) = Ok p) entradas ps ->
    Manipulacion1.comprension entradas d s
    = (alojar ps s, Ok (indexar (map fst entradas) (next s) d)).
Proof.
  induction ps as [|p ps IH]; intros entradas d s He; inversion He as [|[k v] ? ? ? Hp Hr]; subst.
  - reflexivity.
  - cbn [Manipulacion1.comprension]. unfold bind at 1, lift. simpl in Hp. rewrite Hp.
    unfold bind at 1. cbn [new_Producto].
    rewrite (IH _ _ _ Hr). reflexivity.
Qed.

Lemma comprension_bad (ps : list (Producto F)) :
  forall (entradas resto : dict (json F)) (k : string) (v : json F) (e : exn)
         (d : dict loc) (s : state F Manipulacion1.Msg),
    Forall2 (fun kv p => Manipulacion1.from_dict (snd kv) = Ok p) entradas ps ->
    Manipulacion1.from_dict v = Raise e ->
    exists s', Manipulacion1.comprension (entradas ++ (k, v) :: resto)%list d s = (s', Raise e)
               /\ same_mem (alojar ps s) s' /\ fs s' = fs s /\ out s' = out s
               /\ fault s' = fault s.
Proof.
  induction ps as [|p ps IH]; intros entradas resto k v e d s He Hv;
    inversion He as [|[k0 v0] ? ? ? Hp Hr]; subst.
  - cbn [app Manipulacion1.comprension]. unfold bind at 1, lift. rewrite Hv.
    eexists. split; [reflexivity|]. repeat split.
  - cbn [app Manipulacion1.comprension]. unfold bind at 1, lift. simpl in Hp. rewrite Hp.
    unfold bind at 1. cbn [new_Producto].
    destruct (IH _ resto k v e (dict_set k0 (next s) d)
                (mkState (self s) (fun l' => if decide (l' = next s) then p else objs s l')
                         (S (next s)) (fs s) (fault s) (torn s) (out s)) Hr Hv)
      as (s' & -> & Hmem & Hfs & Hout & Hfault).
    exists s'. split; [reflexivity|]. repeat split; try assumption; apply Hmem.
Qed.


Lemma zip_map_both {A B C : Type} (f : A -> B) (g : A -> C) (l : list A) :
  zip (map f l) (map g l) = map (fun x => (f x, g x)) l.
Proof. induction l as [|x l IH]; simpl; [reflexivity | now rewrite IH]. Qed.

(** [Manipulación1.py]: a store is read back as it was written. *)
Lemma json_round_trip (s : state F Manipulacion1.Msg) :
  dict_wf (productos (self s)) ->
  quiet s ->
  exists s1 s2,
    Manipulacion1.guardar_inventario s = (s1, Ok tt)
    /\ Manipulacion1.__init__ (archivo (self s)) s1 = (s2, Ok tt)
    /\ records s2 = records s.
Proof.
  intros Hwf Hq.
  rewrite guardar1_ok by assumption.
  eexists _, _. split; [reflexivity|].
  set (ps := map (fun kl : string * loc => objs s (snd kl)) (productos (self s))).
  set (entradas := map (fun kl : string * loc =>
                          (fst kl, Manipulacion1.to_dict (objs s (snd kl))))
                       (productos (self s))).
  assert (He : Forall2 (fun kv p => Manipulacion1.from_dict (snd kv) = Ok p) entradas ps).
  { unfold entradas, ps. clear. induction (productos (self s)) as [|kl d IH]; constructor.
    - apply from_dict_to_dict.
    - exact IH. }
  unfold Manipulacion1.__init__, Manipulacion1.cargar_inventario,
    Manipulacion1.cargar_try, bind, modify, gets,
    os_path_exists, try_except, read_file, lift, json_loads, set_productos.
  repeat first [rewrite lookup_insert_eq | rewrite Hq | progress cbn].
  rewrite json_load_dump by now apply a_json_wf.
  cbn. fold entradas.
  rewrite (comprension_ok ps) by exact He. cbn.
  split; [reflexivity|].
  match goal with
  | |- records (set_self (mkInventario (indexar ?KS _ _) _) (alojar ?PS ?S0)) = _ =>
      transitivity (fold_left poner (zip KS PS)
                      (map (fun kl => (fst kl, objs S0 (snd kl))) []));
      [ apply (records_cargados PS KS S0 []);
        [ now rewrite !length_map | intros k l Hin; inversion Hin ] |]
  end.
  assert (Hz : zip (map fst entradas) ps = records s).
  { unfold entradas, ps, records. rewrite map_map. cbn [fst].
    apply (zip_map_both fst (fun kl => objs s (snd kl))). }
  fold entradas ps.
  cbn [map]. rewrite fold_poner_fresh; cbn [app]; rewrite Hz; [reflexivity|].
  unfold records. rewrite map_map. exact Hwf.
Qed.

End JsonLoading.

Section JsonLoadFailures.
Context {F : Type} `{PyFloat F} `{JsonLib F}.

Lemma comprension_self (entradas : dict (json F)) :
  forall (d : dict loc) (s : state F Manipulacion1.Msg),
    self (fst (Manipulacion1.comprension entradas d s)) = self s
    /\ fs (fst (Manipulacion1.comprension entradas d s)) = fs s
    /\ out (fst (Manipulacion1.comprension entradas d s)) = out s.
Proof.
  induction entradas as [|[k v] r IH]; intros d s; [now repeat split|].
  cbn [Manipulacion1.comprension]. unfold bind at 1 3 5, lift.
  destruct (Manipulacion1.from_dict v) as [p|e|]; [|now repeat split ..].
  unfold bind. cbn [new_Producto].
  match goal with |- context [Manipulacion1.comprension r ?D ?S] =>
    destruct (IH D S) as (H1 & H2 & H3) end.
  now rewrite H1, H2, H3.
Qed.

(** A [try] block that raises has not yet assigned [self.productos]. *)
Lemma cargar_try_raise (a : string) (s s1 : state F Manipulacion1.Msg) (e : exn) :
  Manipulacion1.cargar_try a s = (s1, Raise e) ->
  self s1 = self s /\ fs s1 = fs s /\ out s1 = out s.
Proof.
  unfold Manipulacion1.cargar_try, bind, os_path_exists, gets, read_file, lift,
    json_loads, set_productos, modify, ret.
  cbn.
  case_bool_decide; [|discriminate].
  destruct (fault s (SysOpenRead a)); [intros [= <- _]; now repeat split|].
  destruct (fs s !! a); [|intros [= <- _]; now repeat split].
  destruct (json_load _) as [data|]; [|intros [= <- _]; now repeat split].
  destruct (items data) as [entradas| |]; [|intros [= <- _]; now repeat split|discriminate].
  pose proof (comprension_self entradas [] s) as Hc.
  destruct (Manipulacion1.comprension entradas [] s) as [s2 [d| |]];
    [discriminate | | discriminate].
  intros [= <- _]. exact Hc.
Qed.

(** The constructor when the [try] block raises [e]. *)
Lemma init1_raise (a : string) (s s1 : state F Manipulacion1.Msg) (e : exn) :
  Manipulacion1.cargar_try a (set_self (mkInventario [] a) s) = (s1, Raise e) ->
  Manipulacion1.__init__ a s = Manipulacion1.cargar_except a e s1.
Proof.
  intros Ht. unfold Manipulacion1.__init__, Manipulacion1.cargar_inventario,
    bind, modify, gets, try_except.
  cbn -[Manipulacion1.cargar_try Manipulacion1.cargar_except]. now rewrite Ht.
Qed.

Lemma init1_absent (a : string) (s : state F Manipulacion1.Msg) :
  fs s !! a = None ->
  Manipulacion1.__init__ a s = (set_self (mkInventario [] a) s, Ok tt).
Proof.
  intros Hfs. unfold Manipulacion1.__init__, Manipulacion1.cargar_inventario,
    Manipulacion1.cargar_try, bind, modify, gets, try_except, os_path_exists.
  cbn. rewrite Hfs. reflexivity.
Qed.

Lemma cargar_try_corrupt (a text : string) (s : state F Manipulacion1.Msg) :
  fs s !! a = Some text -> fault s (SysOpenRead a) = None -> json_load text = None ->
  Manipulacion1.cargar_try a s = (s, Raise JSONDecodeError).
Proof.
  intros Hfs Hf Hj. unfold Manipulacion1.cargar_try, bind, gets, os_path_exists,
    read_file, lift, json_loads.
  cbn. rewrite Hfs. cbn. rewrite Hf, Hfs, Hj. reflexivity.
Qed.

Lemma cargar_try_fault (a : string) (e : exn) (s : state F Manipulacion1.Msg) :
  is_Some (fs s !! a) -> fault s (SysOpenRead a) = Some e ->
  Manipulacion1.cargar_try a s = (s, Raise e).
Proof.
  intros [text Hfs] Hf. unfold Manipulacion1.cargar_try, bind, gets, os_path_exists,
    read_file.
  cbn. rewrite Hfs. cbn. rewrite Hf. reflexivity.
Qed.

(** Every exception of the [try] block but [PermissionError] ends in a
    normal return with an empty store. *)
Lemma init1_degrade (a : string) (s s1 : state F Manipulacion1.Msg) (e : exn) :
  Manipulacion1.cargar_try a (set_self (mkInventario [] a) s) = (s1, Raise e) ->
  e <> PermissionError ->
  exists s', Manipulacion1.__init__ a s = (s', Ok tt)
             /\ productos (self s') = [] /\ archivo (self s') = a /\ fs s' = fs s.
Proof.
  intros Ht He. rewrite (init1_raise _ _ _ _ Ht).
  apply cargar_try_raise in Ht as (Hself & Hfs & _).
  unfold Manipulacion1.cargar_except.
  destruct e; try contradiction;
    (eexists; split; [reflexivity|]); cbn; rewrite ?Hself, ?Hfs; now repeat split.
Qed.

Lemma init1_permission (a : string) (s s1 : state F Manipulacion1.Msg) :
  Manipulacion1.cargar_try a (set_self (mkInventario [] a) s) = (s1, Raise PermissionError) ->
  exists s', Manipulacion1.__init__ a s = (s', Raise PermissionError)
             /\ out s' = (out s ++ [Manipulacion1.Error_de_permisos_al_leer a PermissionError])%list.
Proof.
  intros Ht. rewrite (init1_raise _ _ _ _ Ht).
  apply cargar_try_raise in Ht as (_ & _ & Hout).
  eexists. split; [reflexivity|]. cbn. now rewrite Hout.
Qed.

End JsonLoadFailures.
Section DelimitedLoadFailures.
Context {F : Type} `{PyFloat F}.

Lemma int_parse_cases (s : string) :
  (exists n, int_parse s = Ok n) \/ int_parse s = Raise ValueError.
Proof.
  unfold int_parse.
  destruct (num_strip s) as [|c r]; cbn zeta.
  - simpl. now right.
  - destruct (if Ascii.eqb c "-" then _ else _) as [neg body].
    destruct (digits_value body 0 false); [left; eauto | now right].
Qed.

Lemma leer_linea_malformed (linea : string) :
  malformed linea <-> leer_linea (F := F) linea = Raise ValueError.
Proof.
  unfold malformed, leer_linea.
  destruct (split "|" (strip linea)) as [|f1 [|f2 [|f3 [|f4 [|f5 fs]]]]]; cbn [length];
    try (split; [reflexivity | intros _; left; lia]).
  unfold float_of_str.
  destruct (int_parse_cases f3) as [[c Hc3] | Hc3]; rewrite Hc3.
  - destruct (float_parse f4) eqn:E.
    + split; [|discriminate].
      intros [Hl | (i & n & c' & x & [= <- <- <- <-] & [Hc|Hx])];
        [lia | congruence | congruence].
    + split; [reflexivity|]. intros _. right. exists f1, f2, f3, f4. split; [reflexivity|].
      now right.
  - split; [reflexivity|]. intros _. right. exists f1, f2, f3, f4. split; [reflexivity|].
    now left.
Qed.

Lemma leer_linea_wellformed (lineas : list string) :
  Forall (fun linea => ~ malformed linea) lineas ->
  exists ps : list (Producto F),
    Forall2 (fun linea p => leer_linea linea = Ok p) lineas ps.
Proof.
  induction 1 as [|linea lineas Hl Hls (ps & IH)]; [exists []; constructor|].
  destruct (leer_linea_cases (F := F) linea) as [[p Hp] | Hbad].
  - exists (p :: ps). now constructor.
  - exfalso. apply Hl. now apply leer_linea_malformed.
Qed.

(** The constructor of [Manipulación.py] on a file whose first malformed
    line is [mala]: [ValueError] leaves [cargar_inventario] and the
    constructor, nothing is printed, and [self.productos] holds what the
    lines before gave. *)
Lemma init_malformed (a text : string) (buenas resto : list string) (mala : string)
    (s : state F Manipulacion.Msg) :
  fs s !! a = Some text ->
  fault s (SysOpenRead a) = None ->
  readlines text = (buenas ++ mala :: resto)%list ->
  Forall (fun linea => ~ malformed linea) buenas ->
  malformed mala ->
  exists s' ps,
    Manipulacion.__init__ a s = (s', Raise ValueError)
    /\ out s' = out s /\ fs s' = fs s
    /\ Forall2 (fun linea p => leer_linea linea = Ok p) buenas ps
    /\ records s' = fold_left poner (map (fun p => (id p, p)) ps) [].
Proof.
  intros Hfs Hf Hlines Hb Hm.
  destruct (leer_linea_wellformed _ Hb) as [ps Hps].
  apply leer_linea_malformed in Hm.
  unfold Manipulacion.__init__, Manipulacion.cargar_inventario, bind, modify, gets,
    os_path_exists, try_except, read_file.
  cbn. rewrite Hfs. cbn. rewrite Hf, Hfs. cbn. rewrite Hlines.
  rewrite (for_each_cargar_bad ps _ _ _ ValueError) by assumption.
  cbn.
  eexists _, ps. split; [reflexivity|].
  assert (Hal : forall (qs : list (Producto F)) (s0 : state F Manipulacion.Msg),
             out (alojar qs s0) = out s0 /\ fs (alojar qs s0) = fs s0).
  { induction qs as [|q qs IH]; intros s0; [now split|]. apply (IH (alloc q s0)). }
  repeat split.
  - cbn. exact (proj1 (Hal ps _)).
  - cbn. exact (proj2 (Hal ps _)).
  - exact Hps.
  - match goal with
    | |- records (con_productos _ (alojar ps ?S0)) = _ =>
        transitivity (fold_left poner (zip (map id ps) ps)
                        (map (fun kl => (fst kl, objs S0 (snd kl))) []));
        [ apply (records_cargados ps (map id ps) S0 []);
          [ now rewrite length_map | intros k l Hin; inversion Hin ] |]
    end.
    now rewrite zip_map_fst.
Qed.

End DelimitedLoadFailures.

Section Updates.
Context {F : Type} `{PyFloat F} `{JsonLib F}.

(** [actualizar_producto] on a key that is present: the object of the key
    gets the attributes that were given, every other object and the
    dictionary stay as they were. *)
Lemma actualizar_frame (s : state F Manipulacion.Msg) (k : string) c x (l : loc) :
  dict_get k (productos (self s)) = Some l ->
  let s' := fst (Manipulacion.actualizar_producto k c x s) in
  objs s' l = asignar c x (objs s l)
  /\ (forall l', l' <> l -> objs s' l' = objs s l')
  /\ self s' = self s.
Proof.
  intros Hg. destruct (actualizar_present s k c x l Hg)
    as (s1 & Hself & _ & _ & _ & _ & _ & Hobjs & ->).
  cbn zeta. cbn [fst].
  destruct (guardar_keeps_mem s1) as (Hs & Ho & _).
  rewrite Hs, Ho, Hself. repeat split.
  - rewrite Hobjs. now rewrite decide_True.
  - intros l' Hne. rewrite Hobjs. now rewrite decide_False.
Qed.

Lemma actualizar1_frame (s : state F Manipulacion1.Msg) (k : string) c x (l : loc) :
  dict_get k (productos (self s)) = Some l ->
  let s' := fst (Manipulacion1.actualizar_producto k c x s) in
  objs s' l = asignar c x (objs s l)
  /\ (forall l', l' <> l -> objs s' l' = objs s l')
  /\ self s' = self s.
Proof.
  intros Hg. destruct (actualizar1_present s k c x l Hg)
    as (s1 & Hself & _ & _ & _ & _ & _ & Hobjs & ->).
  cbn zeta.
  destruct (guardar1_keeps_mem s1) as (Hs & Ho & _).
  assert (Hst : self (fst (Manipulacion1.guardar_inventario s1)) = self s
                /\ objs (fst (Manipulacion1.guardar_inventario s1)) = objs s1)
    by (now rewrite Hs, Ho).
  destruct Hst as [Hs' Ho'].
  destruct (snd (Manipulacion1.guardar_inventario s1)); cbn [fst print modify self objs];
    rewrite ?Hs', ?Ho'; (repeat split;
    [ rewrite Hobjs; now rewrite decide_True
    | intros l' Hne; rewrite Hobjs; now rewrite decide_False ]).
Qed.

(** A save that raises inside an operation of [Manipulación1.py]: the
    operation prints, returns [False], and keeps what it had done to the
    store; the backing file was not written. *)
Lemma agregar1_save_fails (s : state F Manipulacion1.Msg) (l : loc) (e : exn) :
  let k := id (objs s l) in
  let s1 := con_productos (dict_set k l (productos (self s))) s in
  dict_in k (productos (self s)) = false ->
  snd (Manipulacion1.guardar_inventario s1) = Raise e ->
  exists s', Manipulacion1.agregar_producto l s = (s', Ok false)
             /\ same_mem s1 s'
             /\ last (out s') = Some (Manipulacion1.Error_al_agregar e)
             /\ sin_guardar s s'.
Proof.
  intros k s1 Hk Hg. rewrite agregar1_new by assumption. fold k. fold s1.
  cbn zeta. rewrite Hg.
  eexists. split; [reflexivity|]. split; [|split].
  - apply (same_mem_trans _ (fst (Manipulacion1.guardar_inventario s1)));
      [apply guardar1_keeps_mem | now repeat split].
  - cbn. apply last_snoc.
  - exact (guardar1_raise_fs s1 e Hg).
Qed.

Lemma eliminar1_save_fails (s : state F Manipulacion1.Msg) (k : string) (e : exn) :
  let s1 := con_productos (dict_del k (productos (self s))) s in
  dict_in k (productos (self s)) = true ->
  snd (Manipulacion1.guardar_inventario s1) = Raise e ->
  exists s', Manipulacion1.eliminar_producto k s = (s', Ok false)
             /\ same_mem s1 s'
             /\ last (out s') = Some (Manipulacion1.Error_al_eliminar e)
             /\ sin_guardar s s'.
Proof.
  intros s1 Hk Hg. rewrite eliminar1_present by assumption. fold s1.
  cbn zeta. rewrite Hg.
  eexists. split; [reflexivity|]. split; [|split].
  - apply (same_mem_trans _ (fst (Manipulacion1.guardar_inventario s1)));
      [apply guardar1_keeps_mem | now repeat split].
  - cbn. apply last_snoc.
  - exact (guardar1_raise_fs s1 e Hg).
Qed.

Lemma actualizar1_save_fails (s : state F Manipulacion1.Msg) (k : string) c x (l : loc)
    (e : exn) :
  let s1 := asignado l c x s in
  dict_get k (productos (self s)) = Some l ->
  snd (Manipulacion1.guardar_inventario s1) = Raise e ->
  exists s', Manipulacion1.actualizar_producto k c x s = (s', Ok false)
             /\ same_mem s1 s'
             /\ objs s' l = asignar c x (objs s l)
             /\ last (out s') = Some (Manipulacion1.Error_al_actualizar e)
             /\ sin_guardar s s'.
Proof.
  intros s1 Hk Hg. rewrite (actualizar1_asignado s k c x l Hk). fold s1.
  cbn zeta. rewrite Hg.
  destruct (asignado_objs l c x s) as (Hself & Hfs & _ & Hobjs). fold s1 in Hself, Hfs, Hobjs.
  assert (Hm : same_mem s1 (fst (print (Manipulacion1.Error_al_actualizar e)
                                   (fst (Manipulacion1.guardar_inventario s1))))).
  { apply (same_mem_trans _ (fst (Manipulacion1.guardar_inventario s1)));
      [apply guardar1_keeps_mem | now repeat split]. }
  eexists. split; [reflexivity|]. split; [exact Hm|]. split; [|split].
  - destruct Hm as (_ & Ho & _). rewrite Ho, Hobjs. now rewrite decide_True.
  - cbn. apply last_snoc.
  - pose proof (guardar1_raise_fs s1 e Hg) as Hsg. unfold sin_guardar in *.
    rewrite Hself, Hfs in Hsg. exact Hsg.
Qed.

End Updates.

(** ** Search by name *)

Lemma eq_ignore_case_lower (a b : string) : eq_ignore_case a b <-> lower a = lower b.
Proof.
  split.
  - induction 1 as [|c1 c2 s1 s2 Hc _ IH]; [reflexivity|].
    unfold lower in *. simpl. now rewrite Hc, IH.
  - revert b. induction a as [|c a IH]; intros [|c' b] Hl; try discriminate.
    + constructor.
    + unfold lower in Hl. simpl in Hl. injection Hl as Hc Hl.
      constructor; [assumption | now apply IH].
Qed.

Lemma lower_app (a b : string) : lower (a ++ b) = lower a ++ lower b.
Proof.
  unfold lower. induction a as [|c a IH]; simpl; [reflexivity | now rewrite IH].
Qed.

Lemma lower_app_inv (s x y : string) :
  lower s = x ++ y -> exists a b, s = a ++ b /\ lower a = x /\ lower b = y.
Proof.
  revert s. induction x as [|c x IH]; intros s Hs.
  - exists EmptyString, s. now repeat split.
  - destruct s as [|c' s]; [discriminate|].
    unfold lower in Hs. simpl in Hs. injection Hs as Hc Hs.
    destruct (IH s Hs) as (a & b & -> & Ha & Hb).
    exists (String c' a), b. repeat split; [|assumption].
    unfold lower in *. simpl. now rewrite Hc, Ha.
Qed.

(** The test of [buscar_por_nombre] is the occurrence up to case. *)
Lemma contains_lower (needle hay : string) :
  contains (lower needle) (lower hay) = true <-> ci_occurs needle hay.
Proof.
  rewrite contains_spec. unfold ci_occurs. split.
  - intros (pre & post & Hh).
    apply lower_app_inv in Hh as (a & b & -> & Ha & Hb).
    apply lower_app_inv in Hb as (m & p & -> & Hm & Hp).
    exists a, m, p. split; [reflexivity|]. now apply eq_ignore_case_lower.
  - intros (pre & mid & post & -> & Hm).
    apply eq_ignore_case_lower in Hm.
    exists (lower pre), (lower post). now rewrite !lower_app, Hm.
Qed.

Section Search.
Context {F : Type} `{PyFloat F} `{JsonLib F}.



End Search.

(** ** The ids of the records *)

Section Ids.
Context {F : Type} `{PyFloat F} `{JsonLib F}.

Lemma ids_match_same_mem {Msg : Type} (s s' : state F Msg) :
  same_mem s s' -> ids_match s -> ids_match s'.
Proof. intros (Hs & Ho & _) Hi k l. rewrite Hs, Ho. apply Hi. Qed.

Lemma ids_match_set {Msg : Type} (s : state F Msg) (l : loc) :
  ids_match s ->
  ids_match (con_productos (dict_set (id (objs s l)) l (productos (self s))) s).
Proof.
  intros Hi k l' Hin. cbn in Hin.
  apply dict_set_elem in Hin as [Hin | [= -> ->]]; [now apply Hi | reflexivity].
Qed.

Lemma ids_match_del {Msg : Type} (s : state F Msg) (k : string) :
  ids_match s -> ids_match (con_productos (dict_del k (productos (self s))) s).
Proof. intros Hi k' l' Hin. cbn in Hin. apply dict_del_elem in Hin. now apply Hi. Qed.

Lemma asignar_id (c : option Z) (x : option F) (p : Producto F) : id (asignar c x p) = id p.
Proof. now destruct c, x. Qed.

Lemma ids_match_print {Msg : Type} (s : state F Msg) (m : Msg) :
  ids_match s -> ids_match (fst (print m s)).
Proof. intros Hi. exact Hi. Qed.

Lemma agregar_ids (s : state F Manipulacion.Msg) (l : loc) :
  ids_match s -> ids_match (fst (Manipulacion.agregar_producto l s)).
Proof.
  intros Hi. destruct (dict_in (id (objs s l)) (productos (self s))) eqn:E.
  - now rewrite agregar_dup.
  - rewrite agregar_new by assumption. cbn zeta. cbn [fst].
    eapply ids_match_same_mem; [apply guardar_keeps_mem | now apply ids_match_set].
Qed.

Lemma eliminar_ids (s : state F Manipulacion.Msg) (k : string) :
  ids_match s -> ids_match (fst (Manipulacion.eliminar_producto k s)).
Proof.
  intros Hi. destruct (dict_in k (productos (self s))) eqn:E.
  - rewrite eliminar_present by assumption. cbn zeta. cbn [fst].
    eapply ids_match_same_mem; [apply guardar_keeps_mem | now apply ids_match_del].
  - now rewrite eliminar_absent.
Qed.

Lemma actualizar_ids (s : state F Manipulacion.Msg) (k : string) c x :
  ids_match s -> ids_match (fst (Manipulacion.actualizar_producto k c x s)).
Proof.
  intros Hi. destruct (dict_get k (productos (self s))) as [l|] eqn:E.
  - destruct (actualizar_frame s k c x l E) as (Hl & Hother & Hself).
    intros k' l' Hin. rewrite Hself in Hin.
    destruct (decide (l' = l)) as [->|Hne].
    + rewrite Hl, asignar_id. now apply Hi.
    + rewrite Hother by assumption. now apply Hi.
  - rewrite actualizar_absent; [assumption|]. unfold dict_in. now rewrite E.
Qed.

Lemma agregar1_ids (s : state F Manipulacion1.Msg) (l : loc) :
  ids_match s -> ids_match (fst (Manipulacion1.agregar_producto l s)).
Proof.
  intros Hi. destruct (dict_in (id (objs s l)) (productos (self s))) eqn:E.
  - now rewrite agregar1_dup.
  - rewrite agregar1_new by assumption. cbn zeta.
    assert (Hg : ids_match (fst (Manipulacion1.guardar_inventario
                (con_productos (dict_set (id (objs s l)) l (productos (self s))) s)))).
    { eapply ids_match_same_mem; [apply guardar1_keeps_mem | now apply ids_match_set]. }
    destruct (snd (Manipulacion1.guardar_inventario _)); exact Hg.
Qed.

Lemma eliminar1_ids (s : state F Manipulacion1.Msg) (k : string) :
  ids_match s -> ids_match (fst (Manipulacion1.eliminar_producto k s)).
Proof.
  intros Hi. destruct (dict_in k (productos (self s))) eqn:E.
  - rewrite eliminar1_present by assumption. cbn zeta.
    assert (Hg : ids_match (fst (Manipulacion1.guardar_inventario
                (con_productos (dict_del k (productos (self s))) s)))).
    { eapply ids_match_same_mem; [apply guardar1_keeps_mem | now apply ids_match_del]. }
    destruct (snd (Manipulacion1.guardar_inventario _)); exact Hg.
  - now rewrite eliminar1_absent.
Qed.

Lemma actualizar1_ids (s : state F Manipulacion1.Msg) (k : string) c x :
  ids_match s -> ids_match (fst (Manipulacion1.actualizar_producto k c x s)).
Proof.
  intros Hi. destruct (dict_get k (productos (self s))) as [l|] eqn:E.
  - destruct (actualizar1_frame s k c x l E) as (Hl & Hother & Hself).
    intros k' l' Hin. rewrite Hself in Hin.
    destruct (decide (l' = l)) as [->|Hne].
    + rewrite Hl, asignar_id. now apply Hi.
    + rewrite Hother by assumption. now apply Hi.
  - rewrite actualizar1_absent; [assumption|]. unfold dict_in. now rewrite E.
Qed.

End Ids.
Section Crash.
Context {F : Type} `{PyFloat F} `{JsonLib F}.

Lemma guardar_try_hasta : Manipulacion1.guardar_try (F := F) = Manipulacion1.guardar_hasta 3.
Proof. reflexivity. Qed.

(** The destination while [guardar_inventario] runs, with no failure: still
    the old text after the dump, absent after [os.remove], the new text
    after [os.rename]. *)
Lemma guardar_hasta_files (s : state F Manipulacion1.Msg) (old : string) :
  quiet s ->
  fs s !! archivo (self s) = Some old ->
  let a := archivo (self s) in
  let nuevo := json_dump (Manipulacion1.a_json s) in
  (fs (fst (Manipulacion1.guardar_hasta 1 s)) !! a = Some old
   /\ fs (fst (Manipulacion1.guardar_hasta 1 s)) !! (a ++ ".tmp") = Some nuevo)
  /\ (fs (fst (Manipulacion1.guardar_hasta 2 s)) !! a = None
      /\ fs (fst (Manipulacion1.guardar_hasta 2 s)) !! (a ++ ".tmp") = Some nuevo)
  /\ (fs (fst (Manipulacion1.guardar_hasta 3 s)) !! a = Some nuevo
      /\ fs (fst (Manipulacion1.guardar_hasta 3 s)) !! (a ++ ".tmp") = None).
Proof.
  intros Hq Hold. cbn zeta.
  pose proof (tmp_ne (archivo (self s))) as Hne.
  assert (Hne' : archivo (self s) <> archivo (self s) ++ ".tmp")
    by (intros E; now apply Hne).
  unfold Manipulacion1.guardar_hasta, Manipulacion1.pasos_de_guardar,
    Manipulacion1.escribir_temporal, Manipulacion1.quitar_destino,
    Manipulacion1.renombrar, for_each, bind, gets, write_file,
    os_path_exists, os_remove, os_rename, ret, set_fs.
  repeat first
    [ rewrite Hq
    | rewrite lookup_insert_eq
    | rewrite lookup_delete_eq
    | rewrite lookup_insert_ne by assumption
    | rewrite lookup_delete_ne by assumption
    | rewrite Hold
    | progress cbn ].
  now repeat split.
Qed.
End Crash.

(* ===================================================================== *)
(** * The properties of the store *)
(* ===================================================================== *)

Section Durable.
Context {F : Type} `{PyFloat F} `{JsonLib F}.

(** What [agregar_producto] saved is what a constructor finds. *)
Lemma agregar1_durable (s : state F Manipulacion1.Msg) (l : loc) :
  dict_wf (productos (self s)) -> quiet s ->
  dict_in (id (objs s l)) (productos (self s)) = false ->
  exists s' s2,
    Manipulacion1.agregar_producto l s = (s', Ok true)
    /\ Manipulacion1.__init__ (archivo (self s)) s' = (s2, Ok tt)
    /\ records s2 = records s'.
Proof.
  intros Hwf Hq Hk. rewrite agregar1_new by assumption. cbn zeta.
  set (s1 := con_productos (dict_set (id (objs s l)) l (productos (self s))) s).
  destruct (json_round_trip s1) as (s' & s2 & Hg & Hi & Hr);
    [now apply dict_wf_set | exact Hq |].
  rewrite Hg. cbn [fst snd]. exists s', s2. split; [reflexivity|]. split; [exact Hi|].
  rewrite Hr. symmetry. apply same_mem_records.
  pose proof (guardar1_keeps_mem s1) as Hm. now rewrite Hg in Hm.
Qed.

Lemma agregar_durable (s : state F Manipulacion.Msg) (l : loc) :
  dict_wf (productos (self s)) -> ids_match s ->
  (forall k' l', (k', l') ∈ productos (self s) -> escribible (objs s l')) ->
  escribible (objs s l) -> quiet s ->
  dict_in (id (objs s l)) (productos (self s)) = false ->
  exists s' s2,
    Manipulacion.agregar_producto l s = (s', Ok true)
    /\ Manipulacion.__init__ (archivo (self s)) s' = (s2, Ok tt)
    /\ records s2 = records s'.
Proof.
  intros Hwf Hids Hesc Hl Hq Hk. rewrite agregar_new by assumption. cbn zeta.
  set (s1 := con_productos (dict_set (id (objs s l)) l (productos (self s))) s).
  destruct (delimited_round_trip s1) as (s' & s2 & Hg & Hi & Hr).
  - now apply dict_wf_set.
  - now apply ids_match_set.
  - intros k' l' Hin. cbn in Hin.
    apply dict_set_elem in Hin as [Hin | [= -> ->]]; [now apply (Hesc k') | exact Hl].
  - exact Hq.
  - rewrite Hg. cbn [fst snd]. exists s', s2. split; [reflexivity|]. split; [exact Hi|].
    rewrite Hr. symmetry. apply same_mem_records.
    pose proof (guardar_keeps_mem s1) as Hm. now rewrite Hg in Hm.
Qed.

End Durable.

Section Properties.
Context {F : Type} `{PyFloat F} `{JsonLib F}.

(** C1, as amended. A store that is saved and constructed again from its
    file has the same records, field for field, when no file operation
    fails: with the JSON codec for every dictionary; with the delimited codec
    when every key is the id of its record, no id and no name holds a bar or
    a line end, and no id starts with white space. *)
Theorem codec_round_trip :
  (forall s : state F Manipulacion1.Msg,
      dict_wf (productos (self s)) -> quiet s ->
      exists s1 s2,
        Manipulacion1.guardar_inventario s = (s1, Ok tt)
        /\ Manipulacion1.__init__ (archivo (self s)) s1 = (s2, Ok tt)
        /\ records s2 = records s)
  /\ (forall s : state F Manipulacion.Msg,
        dict_wf (productos (self s)) -> ids_match s ->
        (forall k l, (k, l) ∈ productos (self s) -> escribible (objs s l)) ->
        quiet s ->
        exists s1 s2,
          Manipulacion.guardar_inventario s = (s1, Ok tt)
          /\ Manipulacion.__init__ (archivo (self s)) s1 = (s2, Ok tt)
          /\ records s2 = records s).
Proof.
  split.
  - intros s Hwf Hq. now apply json_round_trip.
  - intros s Hwf Hids Hesc Hq. now apply delimited_round_trip.
Qed.

(** C2, as amended. In [Manipulación1.py], when the save that follows the
    change of add, remove or update raises [e], the operation does not raise:
    it prints the error and returns [False]; the store keeps the change (the
    entry added, the entry removed, the attributes assigned), and the backing
    file was not written: it holds what it held before the call, or it is
    gone. *)
Theorem save_failure_returns_false :
  (forall (s : state F Manipulacion1.Msg) (l : loc) (e : exn),
      let k := id (objs s l) in
      let s1 := con_productos (dict_set k l (productos (self s))) s in
      dict_in k (productos (self s)) = false ->
      snd (Manipulacion1.guardar_inventario s1) = Raise e ->
      exists s', Manipulacion1.agregar_producto l s = (s', Ok false)
                 /\ same_mem s1 s'
                 /\ last (out s') = Some (Manipulacion1.Error_al_agregar e)
                 /\ sin_guardar s s')
  /\ (forall (s : state F Manipulacion1.Msg) (k : string) (e : exn),
        let s1 := con_productos (dict_del k (productos (self s))) s in
        dict_in k (productos (self s)) = true ->
        snd (Manipulacion1.guardar_inventario s1) = Raise e ->
        exists s', Manipulacion1.eliminar_producto k s = (s', Ok false)
                   /\ same_mem s1 s'
                   /\ last (out s') = Some (Manipulacion1.Error_al_eliminar e)
                   /\ sin_guardar s s')
  /\ (forall (s : state F Manipulacion1.Msg) (k : string) (c : option Z) (x : option F)
             (l : loc) (e : exn),
        let s1 := asignado l c x s in
        dict_get k (productos (self s)) = Some l ->
        snd (Manipulacion1.guardar_inventario s1) = Raise e ->
        exists s', Manipulacion1.actualizar_producto k c x s = (s', Ok false)
                   /\ same_mem s1 s'
                   /\ objs s' l = asignar c x (objs s l)
                   /\ last (out s') = Some (Manipulacion1.Error_al_actualizar e)
                   /\ sin_guardar s s').
Proof.
  split; [|split].
  - intros s l e. apply agregar1_save_fails.
  - intros s k e. apply eliminar1_save_fails.
  - intros s k c x l e. apply actualizar1_save_fails.
Qed.

(** C3, as amended. In [Manipulación.py], on a backing file with a
    malformed line, [ValueError] leaves [cargar_inventario] and the
    constructor, and nothing is printed; at that point [self.productos] holds
    the records of the lines before the malformed one, each put under its
    id. *)
Theorem load_malformed_line_raises :
  forall (s : state F Manipulacion.Msg) (a text : string)
         (buenas resto : list string) (mala : string),
    fs s !! a = Some text ->
    fault s (SysOpenRead a) = None ->
    readlines text = (buenas ++ mala :: resto)%list ->
    Forall (fun linea => ~ malformed (F := F) linea) buenas ->
    malformed (F := F) mala ->
    exists s' ps,
      Manipulacion.__init__ a s = (s', Raise ValueError)
      /\ out s' = out s /\ fs s' = fs s
      /\ Forall2 (fun linea p => leer_linea linea = Ok p) buenas ps
      /\ records s' = fold_left poner (map (fun p => (id p, p)) ps) [].
Proof. intros s a text buenas resto mala. apply init_malformed. Qed.

(** C4, on the code. With no failure and a destination that exists, after
    the first two statements of the [try] block of [guardar_inventario] (the
    dump and [os.remove]) and before the third ([os.rename]) the destination
    is absent, and the new text is in the temporary file alone. *)
Theorem save_killed_before_rename :
  forall (s : state F Manipulacion1.Msg) (old : string),
    quiet s ->
    fs s !! archivo (self s) = Some old ->
    fs (fst (Manipulacion1.guardar_hasta 2 s)) !! archivo (self s) = None
    /\ fs (fst (Manipulacion1.guardar_hasta 2 s)) !! (archivo (self s) ++ ".tmp")
       = Some (json_dump (Manipulacion1.a_json s)).
Proof.
  intros s old Hq Hold.
  exact (proj1 (proj2 (guardar_hasta_files s old Hq Hold))).
Qed.

(** C5, as amended. [agregar_producto] with an id that is present returns
    [False] and leaves the store, its objects and the files as they were, in
    every environment. With a new id, when no system call of the save fails,
    it returns [True], the record is the last entry, and the backing file
    holds the whole store: its text is the one the save writes for the store
    after the call, and a constructor run on it finds the records of that
    store (with the delimited file, when the records can be written: see C1).
    A second add with the same id then returns [False], and the first record
    stays. *)
Theorem agregar_producto_contract :
  (forall (s : state F Manipulacion.Msg) (l : loc),
      let k := id (objs s l) in
      (dict_in k (productos (self s)) = true ->
       exists s', Manipulacion.agregar_producto l s = (s', Ok false)
                  /\ same_mem s s' /\ fs s' = fs s)
      /\ (dict_in k (productos (self s)) = false -> quiet s ->
          exists s', Manipulacion.agregar_producto l s = (s', Ok true)
            /\ productos (self s') = (productos (self s) ++ [(k, l)])%list
            /\ objs s' = objs s
            /\ fs s' !! archivo (self s) = Some (Manipulacion.texto s')
            /\ (dict_wf (productos (self s)) -> ids_match s ->
                (forall k' l', (k', l') ∈ productos (self s) -> escribible (objs s l')) ->
                escribible (objs s l) ->
                exists s2, Manipulacion.__init__ (archivo (self s)) s' = (s2, Ok tt)
                           /\ records s2 = records s')
            /\ forall l2, id (objs s l2) = k ->
                 exists s'', Manipulacion.agregar_producto l2 s' = (s'', Ok false)
                   /\ dict_get k (productos (self s'')) = Some l
                   /\ objs s'' l = objs s l))
  /\ (forall (s : state F Manipulacion1.Msg) (l : loc),
        let k := id (objs s l) in
        (dict_in k (productos (self s)) = true ->
         exists s', Manipulacion1.agregar_producto l s = (s', Ok false)
                    /\ same_mem s s' /\ fs s' = fs s)
        /\ (dict_in k (productos (self s)) = false -> quiet s ->
            exists s', Manipulacion1.agregar_producto l s = (s', Ok true)
              /\ productos (self s') = (productos (self s) ++ [(k, l)])%list
              /\ objs s' = objs s
              /\ fs s' !! archivo (self s) = Some (json_dump (Manipulacion1.a_json s'))
              /\ (dict_wf (productos (self s)) ->
                  exists s2, Manipulacion1.__init__ (archivo (self s)) s' = (s2, Ok tt)
                             /\ records s2 = records s')
              /\ forall l2, id (objs s l2) = k ->
                   exists s'', Manipulacion1.agregar_producto l2 s' = (s'', Ok false)
                     /\ dict_get k (productos (self s'')) = Some l
                     /\ objs s'' l = objs s l)).
Proof.
  split.
  - intros s l k. destruct (agregar_contract s l) as [Hdup Hnew]. fold k in Hdup, Hnew.
    split.
    + intros Hk. exists s. split; [now apply Hdup|]. split; [apply same_mem_refl | reflexivity].
    + intros Hk Hq. destruct (Hnew Hk Hq) as (s' & Hr & Hp & Ha & Ho & Hfs & Hin).
      exists s'. split; [exact Hr|]. split; [exact Hp|]. split; [exact Ho|].
      split; [exact Hfs|]. split.
      * intros Hwf Hids Hesc Hl.
        destruct (agregar_durable s l Hwf Hids Hesc Hl Hq Hk) as (s1 & s2 & Hr1 & Hi & Hrec).
        rewrite Hr in Hr1. injection Hr1 as <-. now exists s2.
      * intros l2 Hl2. exists s'. split.
        -- apply agregar_dup. now rewrite Ho, Hl2.
        -- split; [|now rewrite Ho].
           rewrite Hp. rewrite <- (dict_set_fresh k l) by assumption. apply dict_get_set.
  - intros s l k. destruct (agregar1_contract s l) as [Hdup Hnew]. fold k in Hdup, Hnew.
    split; [exact Hdup|].
    intros Hk Hq. destruct (Hnew Hk Hq) as (s' & Hr & Hp & Ha & Ho & Hfs & Hin).
    exists s'. split; [exact Hr|]. split; [exact Hp|]. split; [exact Ho|].
    split; [exact Hfs|]. split.
    + intros Hwf.
      destruct (agregar1_durable s l Hwf Hq Hk) as (s1 & s2 & Hr1 & Hi & Hrec).
      rewrite Hr in Hr1. injection Hr1 as <-. now exists s2.
    + intros l2 Hl2. eexists. split.
      * apply agregar1_dup. now rewrite Ho, Hl2.
      * cbn. split; [|now rewrite Ho].
        rewrite Hp. rewrite <- (dict_set_fresh k l) by assumption. apply dict_get_set.
Qed.


(** C6. [actualizar_producto] with a quantity and no price, on an id that
    is present, sets the quantity of that record and leaves its price, name
    and id, every other object and the dictionary as they were; the same
    with a price and no quantity. On an id that is absent it returns
    [False] and leaves the store, the objects and the files as they were. *)
Theorem actualizar_producto_partial :
  (forall (s : state F Manipulacion.Msg) (k : string),
      (forall l, dict_get k (productos (self s)) = Some l ->
         (forall q, let s' := fst (Manipulacion.actualizar_producto k (Some q) None s) in
            cantidad (objs s' l) = q /\ precio (objs s' l) = precio (objs s l)
            /\ nombre (objs s' l) = nombre (objs s l) /\ id (objs s' l) = id (objs s l)
            /\ (forall l', l' <> l -> objs s' l' = objs s l') /\ self s' = self s)
         /\ (forall x, let s' := fst (Manipulacion.actualizar_producto k None (Some x) s) in
              precio (objs s' l) = x /\ cantidad (objs s' l) = cantidad (objs s l)
              /\ nombre (objs s' l) = nombre (objs s l) /\ id (objs s' l) = id (objs s l)
              /\ (forall l', l' <> l -> objs s' l' = objs s l') /\ self s' = self s))
      /\ (dict_in k (productos (self s)) = false ->
          forall c x, exists s',
            Manipulacion.actualizar_producto k c x s = (s', Ok false)
            /\ same_mem s s' /\ fs s' = fs s))
  /\ (forall (s : state F Manipulacion1.Msg) (k : string),
        (forall l, dict_get k (productos (self s)) = Some l ->
           (forall q, let s' := fst (Manipulacion1.actualizar_producto k (Some q) None s) in
              cantidad (objs s' l) = q /\ precio (objs s' l) = precio (objs s l)
              /\ nombre (objs s' l) = nombre (objs s l) /\ id (objs s' l) = id (objs s l)
              /\ (forall l', l' <> l -> objs s' l' = objs s l') /\ self s' = self s)
           /\ (forall x, let s' := fst (Manipulacion1.actualizar_producto k None (Some x) s) in
                precio (objs s' l) = x /\ cantidad (objs s' l) = cantidad (objs s l)
                /\ nombre (objs s' l) = nombre (objs s l) /\ id (objs s' l) = id (objs s l)
                /\ (forall l', l' <> l -> objs s' l' = objs s l') /\ self s' = self s))
        /\ (dict_in k (productos (self s)) = false ->
            forall c x, exists s',
              Manipulacion1.actualizar_producto k c x s = (s', Ok false)
              /\ same_mem s s' /\ fs s' = fs s)).
Proof.
  split; intros s k; (split; [intros l Hl; split |]).
  - intros q. destruct (actualizar_frame s k (Some q) None l Hl) as (Ho & Hother & Hself).
    cbn zeta. rewrite Ho. now repeat split.
  - intros x. destruct (actualizar_frame s k None (Some x) l Hl) as (Ho & Hother & Hself).
    cbn zeta. rewrite Ho. now repeat split.
  - intros Hk c x. exists s. rewrite actualizar_absent by assumption.
    split; [reflexivity|]. split; [apply same_mem_refl | reflexivity].
  - intros q. destruct (actualizar1_frame s k (Some q) None l Hl) as (Ho & Hother & Hself).
    cbn zeta. rewrite Ho. now repeat split.
  - intros x. destruct (actualizar1_frame s k None (Some x) l Hl) as (Ho & Hother & Hself).
    cbn zeta. rewrite Ho. now repeat split.
  - intros Hk c x. rewrite actualizar1_absent by assumption.
    eexists. split; [reflexivity|]. now repeat split.
Qed.

(** C7, as amended. The constructor of [Manipulación1.py] returns with an
    empty dictionary when the backing file is absent, when its text is no
    JSON, and when the [try] block of the load raises anything but
    [PermissionError]; a [PermissionError] of the read is printed and leaves
    the constructor. *)
Theorem load_failure_degrades :
  forall (s : state F Manipulacion1.Msg) (a : string),
    (fs s !! a = None ->
     exists s', Manipulacion1.__init__ a s = (s', Ok tt) /\ productos (self s') = [])
    /\ (forall text, fs s !! a = Some text -> fault s (SysOpenRead a) = None ->
                     json_load text = None ->
         exists s', Manipulacion1.__init__ a s = (s', Ok tt) /\ productos (self s') = [])
    /\ (forall s1 e,
          Manipulacion1.cargar_try a (set_self (mkInventario [] a) s) = (s1, Raise e) ->
          e <> PermissionError ->
          exists s', Manipulacion1.__init__ a s = (s', Ok tt) /\ productos (self s') = [])
    /\ (is_Some (fs s !! a) -> fault s (SysOpenRead a) = Some PermissionError ->
        exists s', Manipulacion1.__init__ a s = (s', Raise PermissionError)
                   /\ out s' = (out s ++ [Manipulacion1.Error_de_permisos_al_leer
                                            a PermissionError])%list).
Proof.
  intros s a. split; [|split; [|split]].
  - intros Hfs. rewrite init1_absent by assumption. eexists. split; reflexivity.
  - intros text Hfs Hf Hj.
    destruct (init1_degrade a s (set_self (mkInventario [] a) s) JSONDecodeError)
      as (s' & Hr & Hp & _); [|discriminate|eauto].
    now apply (cargar_try_corrupt a text).
  - intros s1 e Ht He. destruct (init1_degrade a s s1 e Ht He) as (s' & Hr & Hp & _). eauto.
  - intros Hfs Hf.
    apply (init1_permission a s (set_self (mkInventario [] a) s)).
    now apply cargar_try_fault.
Qed.



(** C10. When the key of every entry is the id of its record, it is so
    after [agregar_producto], [eliminar_producto] and [actualizar_producto],
    whatever their arguments, in both files. *)
Theorem ids_match_preserved :
  (forall s : state F Manipulacion.Msg,
      ids_match s ->
      (forall l, ids_match (fst (Manipulacion.agregar_producto l s)))
      /\ (forall k, ids_match (fst (Manipulacion.eliminar_producto k s)))
      /\ (forall k c x, ids_match (fst (Manipulacion.actualizar_producto k c x s))))
  /\ (forall s : state F Manipulacion1.Msg,
        ids_match s ->
        (forall l, ids_match (fst (Manipulacion1.agregar_producto l s)))
        /\ (forall k, ids_match (fst (Manipulacion1.eliminar_producto k s)))
        /\ (forall k c x, ids_match (fst (Manipulacion1.actualizar_producto k c x s)))).
Proof.
  split; intros s Hi; (split; [|split]).
  - intros l. now apply agregar_ids.
  - intros k. now apply eliminar_ids.
  - intros k c x. now apply actualizar_ids.
  - intros l. now apply agregar1_ids.
  - intros k. now apply eliminar1_ids.
  - intros k c x. now apply actualizar1_ids.
Qed.

End Properties.

(* ===================================================================== *)
(** * The properties on the concrete stores *)
(* ===================================================================== *)

Ltac entradas Hin :=
  repeat (apply elem_of_cons in Hin as [Hin|Hin]; [injection Hin as -> ->|]);
  [.. | now apply elem_of_nil in Hin].

Lemma dos_wf : dict_wf (productos (self dos)).
Proof. apply (bool_decide_unpack _). vm_compute. reflexivity. Defined.

(** C1: a name with a bar, and a name with a line end, are written by the
    delimited save and make the constructor raise [ValueError] on the file
    that was written. *)
Lemma codec_round_trip_bar_in_name :
  (snd (Manipulacion.guardar_inventario barra) = Ok tt
   /\ snd (Manipulacion.__init__ "inventario.txt"
             (fst (Manipulacion.guardar_inventario barra))) = Raise ValueError)
  /\ (snd (Manipulacion.guardar_inventario salto) = Ok tt
      /\ snd (Manipulacion.__init__ "inventario.txt"
                (fst (Manipulacion.guardar_inventario salto))) = Raise ValueError).
Proof. vm_compute. repeat split. Qed.

Lemma codec_round_trip_witness :
  (exists s1 s2,
      Manipulacion1.guardar_inventario dos1 = (s1, Ok tt)
      /\ Manipulacion1.__init__ "inventario.json" s1 = (s2, Ok tt)
      /\ records s2 = records dos1)
  /\ (exists s1 s2,
        Manipulacion.guardar_inventario dos = (s1, Ok tt)
        /\ Manipulacion.__init__ "inventario.txt" s1 = (s2, Ok tt)
        /\ records s2 = records dos).
Proof.
  split.
  - apply (proj1 (codec_round_trip (F := Z)) dos1).
    + exact dos_wf.
    + intros c. reflexivity.
  - apply (proj2 (codec_round_trip (F := Z)) dos).
    + exact dos_wf.
    + intros k l Hin. entradas Hin; reflexivity.
    + intros k l Hin. entradas Hin; repeat split.
    + intros c. reflexivity.
Defined.

(** C2: in a directory where the temporary file cannot be created the save
    raises [PermissionError], and [agregar_producto] returns [False] with
    the record in the store and no file written. *)
Lemma save_failure_not_propagated :
  snd (Manipulacion1.guardar_inventario (con_productos [("P1", 0%nat)] sin_permiso))
  = Raise PermissionError
  /\ snd (Manipulacion1.agregar_producto 0%nat sin_permiso) = Ok false
  /\ productos (self (fst (Manipulacion1.agregar_producto 0%nat sin_permiso)))
     = [("P1", 0%nat)]
  /\ fs (fst (Manipulacion1.agregar_producto 0%nat sin_permiso)) !! "inventario.json" = None.
Proof. vm_compute. repeat split. Qed.

Lemma save_failure_returns_false_witness :
  (exists s', Manipulacion1.agregar_producto 0%nat sin_permiso = (s', Ok false)
              /\ same_mem (con_productos [("P1", 0%nat)] sin_permiso) s'
              /\ last (out s') = Some (Manipulacion1.Error_al_agregar PermissionError)
              /\ sin_guardar sin_permiso s')
  /\ (exists s', Manipulacion1.actualizar_producto "W1" (Some 9) None dos1_sin_permiso
                 = (s', Ok false)
                 /\ same_mem (asignado 1%nat (Some 9) None dos1_sin_permiso) s'
                 /\ objs s' 1%nat = mkProducto "W1" "Widget A" 9 2
                 /\ last (out s') = Some (Manipulacion1.Error_al_actualizar PermissionError)
                 /\ sin_guardar dos1_sin_permiso s').
Proof.
  split.
  - apply (proj1 (save_failure_returns_false (F := Z)) sin_permiso 0%nat PermissionError).
    + reflexivity.
    + vm_compute. reflexivity.
  - apply (proj2 (proj2 (save_failure_returns_false (F := Z)))
             dos1_sin_permiso "W1" (Some 9) None 1%nat PermissionError).
    + reflexivity.
    + vm_compute. reflexivity.
Defined.

(** C3: on a file whose second line has a quantity that is no integer the
    constructor raises [ValueError], and nothing was printed. *)
Lemma load_malformed_line_escapes :
  snd (Manipulacion.__init__ "inventario.txt" mala_linea) = Raise ValueError
  /\ out (fst (Manipulacion.__init__ "inventario.txt" mala_linea)) = [].
Proof. vm_compute. split; reflexivity. Qed.

Lemma load_malformed_line_raises_witness :
  exists s' ps,
    Manipulacion.__init__ "inventario.txt" mala_linea = (s', Raise ValueError)
    /\ out s' = out mala_linea /\ fs s' = fs mala_linea
    /\ Forall2 (fun linea p => leer_linea linea = Ok p)
               ["P1|Bolt|10|5.0" ++ newline] ps
    /\ records s' = fold_left poner (map (fun p => (id p, p)) ps) [].
Proof.
  apply (load_malformed_line_raises (F := Z) mala_linea "inventario.txt"
           ("P1|Bolt|10|5.0" ++ newline ++ "P2|Nut|x|1.0" ++ newline)
           ["P1|Bolt|10|5.0" ++ newline] [] ("P2|Nut|x|1.0" ++ newline)).
  - vm_compute. reflexivity.
  - reflexivity.
  - vm_compute. reflexivity.
  - constructor; [|constructor]. intros Hm.
    apply leer_linea_malformed in Hm. vm_compute in Hm. discriminate.
  - apply leer_linea_malformed. vm_compute. reflexivity.
Defined.

Lemma save_killed_before_rename_witness :
  fs guardada !! "inventario.json" = Some "{}"
  /\ fs (fst (Manipulacion1.guardar_hasta 2 guardada)) !! "inventario.json" = None
  /\ fs (fst (Manipulacion1.guardar_hasta 2 guardada)) !! "inventario.json.tmp"
     = Some (json_dump (Manipulacion1.a_json guardada)).
Proof.
  split; [vm_compute; reflexivity|].
  apply (save_killed_before_rename (F := Z) guardada "{}").
  - intros c. reflexivity.
  - vm_compute. reflexivity.
Defined.

(** C5: with a new id and a save that fails, [agregar_producto] of
    [Manipulación1.py] returns [False]; that of [Manipulación.py] returns
    [True] and no file holds the store. *)
Lemma agregar_producto_save_fails :
  (dict_in "P1" (productos (self sin_permiso)) = false
   /\ snd (Manipulacion1.agregar_producto 0%nat sin_permiso) = Ok false
   /\ fs (fst (Manipulacion1.agregar_producto 0%nat sin_permiso)) = ∅)
  /\ (dict_in "G1" (productos (self solo_lectura)) = false
      /\ snd (Manipulacion.agregar_producto 2%nat solo_lectura) = Ok true
      /\ fs (fst (Manipulacion.agregar_producto 2%nat solo_lectura)) = ∅).
Proof. vm_compute. repeat split. Qed.

Lemma agregar_producto_contract_witness :
  (exists s', Manipulacion.agregar_producto 2%nat dos = (s', Ok true)
     /\ productos (self s') = [("P1", 0%nat); ("W1", 1%nat); ("G1", 2%nat)]
     /\ fs s' !! "inventario.txt" = Some (Manipulacion.texto s')
     /\ exists s2, Manipulacion.__init__ "inventario.txt" s' = (s2, Ok tt)
                   /\ records s2 = records s')
  /\ (exists s', Manipulacion1.agregar_producto 0%nat dos1 = (s', Ok false)
        /\ same_mem dos1 s' /\ fs s' = fs dos1).
Proof.
  split.
  - destruct (proj2 (proj1 (agregar_producto_contract (F := Z)) dos 2%nat))
      as (s' & Hr & Hp & _ & Hfs & Hre & _).
    + reflexivity.
    + intros c. reflexivity.
    + exists s'. split; [exact Hr|]. split; [exact Hp|]. split; [exact Hfs|].
      apply Hre.
      * exact dos_wf.
      * intros k l Hin. entradas Hin; reflexivity.
      * intros k l Hin. entradas Hin; repeat split.
      * repeat split.
  - apply (proj1 (proj2 (agregar_producto_contract (F := Z)) dos1 0%nat)). reflexivity.
Defined.

Lemma actualizar_producto_partial_witness :
  cantidad (objs (fst (Manipulacion.actualizar_producto "P1" (Some 20) None dos)) 0%nat) = 20
  /\ precio (objs (fst (Manipulacion.actualizar_producto "P1" (Some 20) None dos)) 0%nat) = 5
  /\ exists s', Manipulacion1.actualizar_producto "P9" (Some 20) None dos1 = (s', Ok false)
                /\ same_mem dos1 s' /\ fs s' = fs dos1.
Proof.
  destruct (proj1 (proj1 (actualizar_producto_partial (F := Z)) dos "P1") 0%nat eq_refl)
    as [Hq _].
  destruct (Hq 20) as (Hc & Hp & _).
  split; [exact Hc|]. split; [exact Hp|].
  apply (proj2 (proj2 (actualizar_producto_partial (F := Z)) dos1 "P9")). reflexivity.
Defined.

(** C7: a [PermissionError] of the read leaves the constructor. *)
Lemma load_permission_error_escapes :
  snd (Manipulacion1.__init__ "inventario.json" sin_lectura) = Raise PermissionError.
Proof. vm_compute. reflexivity. Qed.

Lemma load_failure_degrades_witness :
  exists s', Manipulacion1.__init__ "inventario.json" corrupto = (s', Ok tt)
             /\ productos (self s') = [].
Proof.
  apply (proj1 (proj2 (load_failure_degrades (F := Z) corrupto "inventario.json")) "{").
  - vm_compute. reflexivity.
  - reflexivity.
  - vm_compute. reflexivity.
Defined.



Lemma dos_ids : ids_match dos.
Proof. intros k l Hin. entradas Hin; reflexivity. Defined.

Lemma ids_match_preserved_witness :
  ids_match (fst (Manipulacion.agregar_producto 2%nat dos))
  /\ ids_match (fst (Manipulacion.eliminar_producto "P1" dos))
  /\ ids_match (fst (Manipulacion.actualizar_producto "W1" (Some 0) (Some 9) dos)).
Proof.
  destruct (proj1 (ids_match_preserved (F := Z)) dos dos_ids) as (Ha & He & Hu).
  split; [apply Ha | split; [apply He | apply Hu]].
Defined.

(* ===================================================================== *)
(** * Further facts about the store *)
(* ===================================================================== *)

(** ** The save, case by case *)

Ltac casos :=
  repeat (match goal with
          | |- context [match ?x with _ => _ end] =>
              lazymatch x with
              | context [match _ with _ => _ end] => fail
              | _ => destruct x eqn:?
              end
          | |- context [if ?x then _ else _] =>
              lazymatch x with
              | context [match _ with _ => _ end] => fail
              | _ => destruct x eqn:?
              end
          end; cbn).

Ltac abre_guardar1 :=
  unfold Manipulacion1.guardar_inventario, Manipulacion1.guardar_try,
    Manipulacion1.guardar_except, Manipulacion1.pasos_de_guardar,
    Manipulacion1.escribir_temporal, Manipulacion1.quitar_destino,
    Manipulacion1.renombrar, try_except, for_each, bind, gets, write_file,
    os_path_exists, os_remove, os_rename, ret, print, modify, raise, set_fs;
  cbn.


Section SaveCases.
Context {F : Type} `{PyFloat F} `{JsonLib F}.

Lemma guardar_open_fails (s : state F Manipulacion.Msg) (e : exn) :
  fault s (SysOpenWrite (archivo (self s))) = Some e ->
  Manipulacion.guardar_inventario s
  = if is_OSError e then (fst (print (Manipulacion.Error_al_guardar e) s), Ok tt)
    else (s, Raise e).
Proof.
  intros Hf. unfold Manipulacion.guardar_inventario, try_except, bind, gets, write_file.
  cbn. rewrite Hf. cbn. now destruct (is_OSError e).
Qed.

Lemma guardar_write_fails (s : state F Manipulacion.Msg) (e : exn) :
  fault s (SysOpenWrite (archivo (self s))) = None ->
  fault s (SysWrite (archivo (self s))) = Some e ->
  let s1 := set_fs (<[archivo (self s) :=
                       string_of_list_ascii
                         (take (torn s) (list_ascii_of_string (Manipulacion.texto s)))]>
                      (fs s)) s in
  Manipulacion.guardar_inventario s
  = if is_OSError e then (fst (print (Manipulacion.Error_al_guardar e) s1), Ok tt)
    else (s1, Raise e).
Proof.
  intros Hf Hw. unfold Manipulacion.guardar_inventario, try_except, bind, gets, write_file.
  cbn. rewrite Hf, Hw. cbn. now destruct (is_OSError e).
Qed.

Lemma guardar_fs_frame (s : state F Manipulacion.Msg) (p : string) :
  p <> archivo (self s) ->
  fs (fst (Manipulacion.guardar_inventario s)) !! p = fs s !! p.
Proof.
  intros Hp. unfold Manipulacion.guardar_inventario, try_except, bind, gets, write_file.
  cbn.
  destruct (fault s (SysOpenWrite _)) as [e|]; [now destruct (is_OSError e)|].
  destruct (fault s (SysWrite _)) as [e|]; [destruct (is_OSError e)|];
    cbn; now rewrite lookup_insert_ne by congruence.
Qed.

Lemma guardar_env (s : state F Manipulacion.Msg) :
  fault (fst (Manipulacion.guardar_inventario s)) = fault s
  /\ torn (fst (Manipulacion.guardar_inventario s)) = torn s.
Proof.
  unfold Manipulacion.guardar_inventario, try_except, bind, gets, write_file.
  cbn.
  destruct (fault s (SysOpenWrite _)) as [e|]; [now destruct (is_OSError e)|].
  destruct (fault s (SysWrite _)) as [e|]; [destruct (is_OSError e)|]; now cbn.
Qed.

Lemma guardar1_fs_frame (s : state F Manipulacion1.Msg) (p : string) :
  p <> archivo (self s) -> p <> archivo (self s) ++ ".tmp" ->
  fs (fst (Manipulacion1.guardar_inventario s)) !! p = fs s !! p.
Proof.
  intros Hp Ht. abre_guardar1. casos;
    rewrite ?lookup_delete_ne, ?lookup_insert_ne, ?lookup_delete_ne, ?lookup_insert_ne
      by congruence; reflexivity.
Qed.

Lemma guardar1_env (s : state F Manipulacion1.Msg) :
  fault (fst (Manipulacion1.guardar_inventario s)) = fault s
  /\ torn (fst (Manipulacion1.guardar_inventario s)) = torn s.
Proof. abre_guardar1. casos; now split. Qed.

End SaveCases.

Ltac archivos :=
  repeat first
    [ rewrite lookup_insert_eq
    | rewrite lookup_delete_eq
    | rewrite lookup_insert_ne by congruence
    | rewrite lookup_delete_ne by congruence
    | match goal with
      | Hx : fault _ _ = _ |- _ => rewrite Hx
      | Hx : fs _ !! _ = _ |- _ => rewrite Hx
      end
    | progress cbn ].

Section SaveFailures.
Context {F : Type} `{PyFloat F} `{JsonLib F}.

Lemma guardar1_early_failure (s : state F Manipulacion1.Msg) (e : exn) :
  let a := archivo (self s) in
  fault s (SysOpenWrite (a ++ ".tmp")) = Some e
  \/ (fault s (SysOpenWrite (a ++ ".tmp")) = None
      /\ fault s (SysWrite (a ++ ".tmp")) = Some e)
  \/ (fault s (SysOpenWrite (a ++ ".tmp")) = None
      /\ fault s (SysWrite (a ++ ".tmp")) = None
      /\ is_Some (fs s !! a) /\ fault s (SysRemove a) = Some e) ->
  exists s' e',
    Manipulacion1.guardar_inventario s = (s', Raise e')
    /\ (forall p, p <> a ++ ".tmp" -> fs s' !! p = fs s !! p)
    /\ (fault s (SysRemove (a ++ ".tmp")) = None ->
        e' = e /\ fs s' !! (a ++ ".tmp") = None).
Proof.
  intros a Hcase. unfold a in *; clear a.
  assert (Hne : archivo (self s) <> archivo (self s) ++ ".tmp")
    by (intros E; symmetry in E; now apply tmp_ne in E).
  abre_guardar1.
  destruct Hcase as [Ho | [(Ho & Hw) | (Ho & Hw & [old Hold] & Hr)]].
  - rewrite Ho. cbn.
    case_bool_decide as Hex; cbn.
    + destruct (fault s (SysRemove (archivo (self s) ++ ".tmp"))) as [e2|] eqn:Hrt; cbn.
      * eexists _, _. split; [reflexivity|]. split; [reflexivity | discriminate].
      * destruct Hex as [t Ht]. rewrite Ht. cbn.
        eexists _, _. split; [reflexivity|]. split.
        -- intros p Hp. now archivos.
        -- intros _. split; [reflexivity | now archivos].
    + eexists _, _. split; [reflexivity|]. split; [reflexivity|].
      intros _. split; [reflexivity|]. cbn.
      destruct (fs s !! (archivo (self s) ++ ".tmp")) eqn:E; [|reflexivity].
      exfalso. apply Hex. eauto.
  - archivos.
    destruct (fault s (SysRemove (archivo (self s) ++ ".tmp"))) as [e2|] eqn:Hrt; archivos.
    + eexists _, _. split; [reflexivity|]. split; [|discriminate].
      intros p Hp. now archivos.
    + eexists _, _. split; [reflexivity|]. split.
      * intros p Hp. now archivos.
      * intros _. split; [reflexivity | now archivos].
  - archivos.
    destruct (fault s (SysRemove (archivo (self s) ++ ".tmp"))) as [e2|] eqn:Hrt; archivos.
    + eexists _, _. split; [reflexivity|]. split; [|discriminate].
      intros p Hp. now archivos.
    + eexists _, _. split; [reflexivity|]. split.
      * intros p Hp. now archivos.
      * intros _. split; [reflexivity | now archivos].
Qed.

Lemma guardar1_rename_fails (s : state F Manipulacion1.Msg) (e : exn) :
  let a := archivo (self s) in
  fault s (SysOpenWrite (a ++ ".tmp")) = None ->
  fault s (SysWrite (a ++ ".tmp")) = None ->
  fault s (SysRemove a) = None ->
  fault s (SysRemove (a ++ ".tmp")) = None ->
  fault s (SysRename (a ++ ".tmp") a) = Some e ->
  exists s',
    Manipulacion1.guardar_inventario s = (s', Raise e)
    /\ fs s' !! a = None /\ fs s' !! (a ++ ".tmp") = None
    /\ (forall p, p <> a -> p <> a ++ ".tmp" -> fs s' !! p = fs s !! p).
Proof.
  intros a Ho Hw Hr Hrt Hn. unfold a in *; clear a.
  assert (Hne : archivo (self s) <> archivo (self s) ++ ".tmp")
    by (intros E; symmetry in E; now apply tmp_ne in E).
  abre_guardar1. archivos.
  case_bool_decide as Hex; archivos.
  - destruct Hex as [old Hold]. archivos.
    eexists. split; [reflexivity|]. repeat split; try (intros p Hp Hpt); now archivos.
  - eexists. split; [reflexivity|]. repeat split; try (intros p Hp Hpt); archivos;
      try reflexivity.
    destruct (fs s !! archivo (self s)) eqn:E; [|reflexivity]. exfalso. apply Hex. eauto.
Qed.

End SaveFailures.

(** ** Dictionaries *)

Section DictRemoval.
Context {V : Type}.
Implicit Types (d : dict V) (k : string).

Lemma dict_get_notin k d : k ∉ dict_keys d -> dict_get k d = None.
Proof.
  induction d as [|[k' v'] d IH]; [reflexivity|]. simpl. intros Hn.
  rewrite not_elem_of_cons in Hn. destruct Hn as [Hne Hn].
  rewrite decide_False by assumption. now apply IH.
Qed.

Lemma dict_get_del k d : dict_wf d -> dict_get k (dict_del k d) = None.
Proof.
  unfold dict_wf. induction d as [|[k' v'] d IH]; [reflexivity|]. simpl.
  intros Hnd. apply NoDup_cons in Hnd as [Hk' Hnd].
  destruct (decide (k = k')) as [->|Hne].
  - now apply dict_get_notin.
  - simpl. rewrite decide_False by assumption. now apply IH.
Qed.

Lemma dict_get_del_ne k k' d : k' <> k -> dict_get k' (dict_del k d) = dict_get k' d.
Proof.
  intros Hne. induction d as [|[k0 v0] d IH]; [reflexivity|]. simpl.
  destruct (decide (k = k0)) as [->|Hk].
  - now rewrite decide_False by assumption.
  - simpl. destruct (decide (k' = k0)); [reflexivity | exact IH].
Qed.

Lemma dict_del_filter k d :
  dict_wf d -> dict_del k d = filter (fun kv => fst kv <> k) (d : list (string * V)).
Proof.
  unfold dict_wf. induction d as [|[k' v'] d IH]; [reflexivity|].
  cbn [dict_del dict_keys map fst]. intros Hnd. apply NoDup_cons in Hnd as [Hk' Hnd].
  rewrite filter_cons. cbn [fst].
  destruct (decide (k = k')) as [->|Hne].
  - rewrite decide_False by (intros Hc; now apply Hc).
    clear IH Hnd. induction d as [|[k0 v0] d IH]; [reflexivity|].
    cbn [dict_keys map fst] in Hk'. rewrite not_elem_of_cons in Hk'. destruct Hk' as [Hne Hk'].
    rewrite filter_cons. cbn [fst]. rewrite decide_True by congruence.
    f_equal. now apply IH.
  - rewrite decide_True by congruence. f_equal. now apply IH.
Qed.

Lemma dict_in_del k d : dict_wf d -> dict_in k (dict_del k d) = false.
Proof. intros Hwf. unfold dict_in. now rewrite dict_get_del. Qed.

Lemma dict_del_set_fresh k (v : V) d : dict_in k d = false -> dict_del k (dict_set k v d) = d.
Proof.
  unfold dict_in. induction d as [|[k' v'] d IH]; simpl.
  - intros _. now rewrite decide_True.
  - destruct (decide (k = k')) as [->|Hne]; [discriminate|].
    intros Hd. simpl. rewrite decide_False by assumption. f_equal. now apply IH.
Qed.

Lemma dict_get_values k (v : V) d : dict_get k d = Some v -> v ∈ dict_values d.
Proof.
  intros Hg. apply dict_get_elem in Hg. unfold dict_values.
  apply list_elem_of_In, in_map_iff. exists (k, v). split; [reflexivity|].
  now apply list_elem_of_In.
Qed.

End DictRemoval.

(** ** The store after an operation *)

Section Membership.
Context {F : Type} `{PyFloat F} `{JsonLib F}.

Lemma agregar_mem (s : state F Manipulacion.Msg) (l : loc) :
  same_mem (if dict_in (id (objs s l)) (productos (self s)) then s
            else con_productos (dict_set (id (objs s l)) l (productos (self s))) s)
           (fst (Manipulacion.agregar_producto l s)).
Proof.
  destruct (dict_in _ _) eqn:E.
  - rewrite agregar_dup by assumption. apply same_mem_refl.
  - rewrite agregar_new by assumption. cbn zeta. cbn [fst]. apply guardar_keeps_mem.
Qed.

Lemma agregar1_mem (s : state F Manipulacion1.Msg) (l : loc) :
  same_mem (if dict_in (id (objs s l)) (productos (self s)) then s
            else con_productos (dict_set (id (objs s l)) l (productos (self s))) s)
           (fst (Manipulacion1.agregar_producto l s)).
Proof.
  destruct (dict_in _ _) eqn:E.
  - rewrite agregar1_dup by assumption. now repeat split.
  - rewrite agregar1_new by assumption. cbn zeta.
    pose proof (guardar1_keeps_mem
                  (con_productos (dict_set (id (objs s l)) l (productos (self s))) s)) as Hg.
    destruct (snd (Manipulacion1.guardar_inventario _)); exact Hg.
Qed.

Lemma eliminar_mem (s : state F Manipulacion.Msg) (k : string) :
  same_mem (if dict_in k (productos (self s))
            then con_productos (dict_del k (productos (self s))) s else s)
           (fst (Manipulacion.eliminar_producto k s)).
Proof.
  destruct (dict_in _ _) eqn:E.
  - rewrite eliminar_present by assumption. cbn zeta. cbn [fst]. apply guardar_keeps_mem.
  - rewrite eliminar_absent by assumption. apply same_mem_refl.
Qed.

Lemma eliminar1_mem (s : state F Manipulacion1.Msg) (k : string) :
  same_mem (if dict_in k (productos (self s))
            then con_productos (dict_del k (productos (self s))) s else s)
           (fst (Manipulacion1.eliminar_producto k s)).
Proof.
  destruct (dict_in _ _) eqn:E.
  - rewrite eliminar1_present by assumption. cbn zeta.
    pose proof (guardar1_keeps_mem
                  (con_productos (dict_del k (productos (self s))) s)) as Hg.
    destruct (snd (Manipulacion1.guardar_inventario _)); exact Hg.
  - rewrite eliminar1_absent by assumption. now repeat split.
Qed.

Lemma actualizar_self (s : state F Manipulacion.Msg) (k : string) c x :
  self (fst (Manipulacion.actualizar_producto k c x s)) = self s.
Proof.
  destruct (dict_get k (productos (self s))) as [l|] eqn:E.
  - now destruct (actualizar_frame s k c x l E) as (_ & _ & Hs).
  - rewrite actualizar_absent; [reflexivity|]. unfold dict_in. now rewrite E.
Qed.

Lemma actualizar1_self (s : state F Manipulacion1.Msg) (k : string) c x :
  self (fst (Manipulacion1.actualizar_producto k c x s)) = self s.
Proof.
  destruct (dict_get k (productos (self s))) as [l|] eqn:E.
  - now destruct (actualizar1_frame s k c x l E) as (_ & _ & Hs).
  - rewrite actualizar1_absent; [reflexivity|]. unfold dict_in. now rewrite E.
Qed.

(** The dictionary after each operation, whatever the save did. *)
Lemma agregar_productos (s : state F Manipulacion.Msg) (l : loc) :
  productos (self (fst (Manipulacion.agregar_producto l s)))
  = if dict_in (id (objs s l)) (productos (self s)) then productos (self s)
    else dict_set (id (objs s l)) l (productos (self s)).
Proof.
  destruct (agregar_mem s l) as (Hs & _). rewrite Hs. now destruct (dict_in _ _).
Qed.

Lemma agregar1_productos (s : state F Manipulacion1.Msg) (l : loc) :
  productos (self (fst (Manipulacion1.agregar_producto l s)))
  = if dict_in (id (objs s l)) (productos (self s)) then productos (self s)
    else dict_set (id (objs s l)) l (productos (self s)).
Proof.
  destruct (agregar1_mem s l) as (Hs & _). rewrite Hs. now destruct (dict_in _ _).
Qed.

Lemma eliminar_productos (s : state F Manipulacion.Msg) (k : string) :
  productos (self (fst (Manipulacion.eliminar_producto k s)))
  = if dict_in k (productos (self s)) then dict_del k (productos (self s))
    else productos (self s).
Proof.
  destruct (eliminar_mem s k) as (Hs & _). rewrite Hs. now destruct (dict_in _ _).
Qed.

Lemma eliminar1_productos (s : state F Manipulacion1.Msg) (k : string) :
  productos (self (fst (Manipulacion1.eliminar_producto k s)))
  = if dict_in k (productos (self s)) then dict_del k (productos (self s))
    else productos (self s).
Proof.
  destruct (eliminar1_mem s k) as (Hs & _). rewrite Hs. now destruct (dict_in _ _).
Qed.

End Membership.

Section Removing.
Context {F : Type} `{PyFloat F} `{JsonLib F}.

Lemma eliminar_contract (s : state F Manipulacion.Msg) (k : string) :
  dict_in k (productos (self s)) = true -> dict_wf (productos (self s)) -> quiet s ->
  exists s', Manipulacion.eliminar_producto k s = (s', Ok true)
    /\ productos (self s') = filter (fun kl => fst kl <> k)
                                    (productos (self s) : list (string * loc))
    /\ objs s' = objs s
    /\ fs s' !! archivo (self s) = Some (Manipulacion.texto s')
    /\ Manipulacion.eliminar_producto k s' = (s', Ok false).
Proof.
  intros Hk Hwf Hq. rewrite eliminar_present by assumption.
  rewrite guardar_ok by apply Hq. cbn zeta. cbn [fst snd].
  eexists. split; [reflexivity|].
  split; [cbn; now rewrite <- dict_del_filter|].
  split; [reflexivity|]. split; [cbn; now rewrite lookup_insert_eq|].
  apply eliminar_absent. cbn. now apply dict_in_del.
Qed.

Lemma eliminar1_contract (s : state F Manipulacion1.Msg) (k : string) :
  dict_in k (productos (self s)) = true -> dict_wf (productos (self s)) -> quiet s ->
  exists s', Manipulacion1.eliminar_producto k s = (s', Ok true)
    /\ productos (self s') = filter (fun kl => fst kl <> k)
                                    (productos (self s) : list (string * loc))
    /\ objs s' = objs s
    /\ fs s' !! archivo (self s) = Some (json_dump (Manipulacion1.a_json s'))
    /\ out s' = out s
    /\ snd (Manipulacion1.eliminar_producto k s') = Ok false.
Proof.
  intros Hk Hwf Hq. rewrite eliminar1_present by assumption.
  rewrite guardar1_ok by apply Hq. cbn zeta. cbn [fst snd].
  eexists. split; [reflexivity|].
  split; [cbn; now rewrite <- dict_del_filter|].
  split; [reflexivity|]. split; [cbn; now rewrite lookup_insert_eq|].
  split; [reflexivity|].
  rewrite eliminar1_absent; [reflexivity|]. cbn. now apply dict_in_del.
Qed.

End Removing.

Section Writable.
Context {F : Type} `{PyFloat F} `{JsonLib F}.

Lemma escribible_asignar (c : option Z) (x : option F) (p : Producto F) :
  escribible p -> escribible (asignar c x p).
Proof. destruct c, x; exact (fun Hp => Hp). Qed.

End Writable.

Section FileFrames.
Context {F : Type} `{PyFloat F} `{JsonLib F}.

Lemma agregar_fs_frame (s : state F Manipulacion.Msg) (l : loc) (p : string) :
  p <> archivo (self s) ->
  fs (fst (Manipulacion.agregar_producto l s)) !! p = fs s !! p.
Proof.
  intros Hp. destruct (dict_in (id (objs s l)) (productos (self s))) eqn:E.
  - now rewrite agregar_dup.
  - rewrite agregar_new by assumption. cbn zeta. cbn [fst].
    now rewrite guardar_fs_frame.
Qed.

Lemma eliminar_fs_frame (s : state F Manipulacion.Msg) (k p : string) :
  p <> archivo (self s) ->
  fs (fst (Manipulacion.eliminar_producto k s)) !! p = fs s !! p.
Proof.
  intros Hp. destruct (dict_in k (productos (self s))) eqn:E.
  - rewrite eliminar_present by assumption. cbn zeta. cbn [fst].
    now rewrite guardar_fs_frame.
  - now rewrite eliminar_absent.
Qed.

Lemma actualizar_fs_frame (s : state F Manipulacion.Msg) (k p : string) c x :
  p <> archivo (self s) ->
  fs (fst (Manipulacion.actualizar_producto k c x s)) !! p = fs s !! p.
Proof.
  intros Hp. destruct (dict_get k (productos (self s))) as [l|] eqn:E.
  - destruct (actualizar_present s k c x l E)
      as (s1 & Hself & _ & Hfs & _ & _ & _ & _ & ->).
    cbn zeta. cbn [fst]. rewrite guardar_fs_frame by (now rewrite Hself).
    now rewrite Hfs.
  - rewrite actualizar_absent; [reflexivity|]. unfold dict_in. now rewrite E.
Qed.

Lemma agregar1_fs_frame (s : state F Manipulacion1.Msg) (l : loc) (p : string) :
  p <> archivo (self s) -> p <> archivo (self s) ++ ".tmp" ->
  fs (fst (Manipulacion1.agregar_producto l s)) !! p = fs s !! p.
Proof.
  intros Hp Ht. destruct (dict_in (id (objs s l)) (productos (self s))) eqn:E.
  - now rewrite agregar1_dup.
  - rewrite agregar1_new by assumption. cbn zeta.
    pose proof (guardar1_fs_frame
                  (con_productos (dict_set (id (objs s l)) l (productos (self s))) s)
                  p Hp Ht) as Hg.
    destruct (snd (Manipulacion1.guardar_inventario _)); exact Hg.
Qed.

Lemma eliminar1_fs_frame (s : state F Manipulacion1.Msg) (k p : string) :
  p <> archivo (self s) -> p <> archivo (self s) ++ ".tmp" ->
  fs (fst (Manipulacion1.eliminar_producto k s)) !! p = fs s !! p.
Proof.
  intros Hp Ht. destruct (dict_in k (productos (self s))) eqn:E.
  - rewrite eliminar1_present by assumption. cbn zeta.
    pose proof (guardar1_fs_frame
                  (con_productos (dict_del k (productos (self s))) s) p Hp Ht) as Hg.
    destruct (snd (Manipulacion1.guardar_inventario _)); exact Hg.
  - now rewrite eliminar1_absent.
Qed.

Lemma actualizar1_fs_frame (s : state F Manipulacion1.Msg) (k p : string) c x :
  p <> archivo (self s) -> p <> archivo (self s) ++ ".tmp" ->
  fs (fst (Manipulacion1.actualizar_producto k c x s)) !! p = fs s !! p.
Proof.
  intros Hp Ht. destruct (dict_get k (productos (self s))) as [l|] eqn:E.
  - destruct (actualizar1_present s k c x l E)
      as (s1 & Hself & _ & Hfs & _ & _ & _ & _ & ->).
    cbn zeta.
    assert (Hg : fs (fst (Manipulacion1.guardar_inventario s1)) !! p = fs s !! p).
    { rewrite guardar1_fs_frame by (now rewrite Hself). now rewrite Hfs. }
    destruct (snd (Manipulacion1.guardar_inventario s1)); exact Hg.
  - rewrite actualizar1_absent; [reflexivity|]. unfold dict_in. now rewrite E.
Qed.

End FileFrames.

Section Faults.
Context {F : Type} `{PyFloat F} `{JsonLib F}.

(** The operations leave the environment as it was. *)
Lemma agregar_fault (s : state F Manipulacion.Msg) (l : loc) :
  fault (fst (Manipulacion.agregar_producto l s)) = fault s.
Proof.
  destruct (dict_in (id (objs s l)) (productos (self s))) eqn:E.
  - now rewrite agregar_dup.
  - rewrite agregar_new by assumption. cbn zeta. cbn [fst].
    now destruct (guardar_env
                    (con_productos (dict_set (id (objs s l)) l (productos (self s))) s)).
Qed.

Lemma agregar1_fault (s : state F Manipulacion1.Msg) (l : loc) :
  fault (fst (Manipulacion1.agregar_producto l s)) = fault s.
Proof.
  destruct (dict_in (id (objs s l)) (productos (self s))) eqn:E.
  - now rewrite agregar1_dup.
  - rewrite agregar1_new by assumption. cbn zeta.
    destruct (guardar1_env
                (con_productos (dict_set (id (objs s l)) l (productos (self s))) s))
      as [Hf _].
    destruct (snd (Manipulacion1.guardar_inventario _)); exact Hf.
Qed.

End Faults.

Section UpdateSaves.
Context {F : Type} `{PyFloat F} `{JsonLib F}.

Lemma actualizar_saves (s : state F Manipulacion.Msg) (k : string) (c : option Z)
    (x : option F) (l : loc) :
  dict_get k (productos (self s)) = Some l -> quiet s ->
  exists s', Manipulacion.actualizar_producto k c x s = (s', Ok true)
    /\ self s' = self s /\ out s' = out s
    /\ (forall l', objs s' l'
                   = if decide (l' = l) then asignar c x (objs s l) else objs s l')
    /\ fs s' !! archivo (self s) = Some (Manipulacion.texto s').
Proof.
  intros Hl Hq.
  destruct (actualizar_present s k c x l Hl)
    as (s1 & Hself & _ & _ & Hfa & _ & Hout & Hobjs & ->).
  rewrite guardar_ok by (rewrite Hfa; apply Hq). cbn zeta. cbn [fst snd].
  eexists. split; [reflexivity|]. cbn. rewrite Hself. repeat split; try assumption.
  now rewrite lookup_insert_eq.
Qed.

Lemma actualizar1_saves (s : state F Manipulacion1.Msg) (k : string) (c : option Z)
    (x : option F) (l : loc) :
  dict_get k (productos (self s)) = Some l -> quiet s ->
  exists s', Manipulacion1.actualizar_producto k c x s = (s', Ok true)
    /\ self s' = self s /\ out s' = out s
    /\ (forall l', objs s' l'
                   = if decide (l' = l) then asignar c x (objs s l) else objs s l')
    /\ fs s' !! archivo (self s) = Some (json_dump (Manipulacion1.a_json s')).
Proof.
  intros Hl Hq.
  destruct (actualizar1_present s k c x l Hl)
    as (s1 & Hself & _ & _ & Hfa & _ & Hout & Hobjs & ->).
  rewrite guardar1_ok by (intros sc; rewrite Hfa; apply Hq). cbn zeta. cbn [fst snd].
  eexists. split; [reflexivity|]. cbn. rewrite Hself. repeat split; try assumption.
  now rewrite lookup_insert_eq.
Qed.

End UpdateSaves.

(** ** The constructors *)

Section DelimitedConstructor.
Context {F : Type} `{PyFloat F} `{JsonLib F}.

Lemma alojar_env {Msg : Type} (ps : list (Producto F)) (s : state F Msg) :
  self (alojar ps s) = self s /\ fs (alojar ps s) = fs s /\ out (alojar ps s) = out s
  /\ fault (alojar ps s) = fault s /\ torn (alojar ps s) = torn s.
Proof.
  revert s. induction ps as [|p ps IH]; intros s; [now repeat split|].
  exact (IH (alloc p s)).
Qed.

(** A line is read, or it raises [ValueError]: the lines of a file split
    into those before the first that raises, and the rest. *)
Lemma primera_mala (lineas : list string) :
  (exists ps : list (Producto F),
      Forall2 (fun linea p => leer_linea linea = Ok p) lineas ps)
  \/ (exists buenas mala resto (ps : list (Producto F)),
         lineas = (buenas ++ mala :: resto)%list
         /\ Forall2 (fun linea p => leer_linea linea = Ok p) buenas ps
         /\ leer_linea (F := F) mala = Raise ValueError).
Proof.
  induction lineas as [|linea lineas IH].
  - left. exists []. constructor.
  - destruct (leer_linea_cases (F := F) linea) as [[p Hp] | Hbad].
    + destruct IH as [[ps Hps] | (buenas & mala & resto & ps & -> & Hps & Hm)].
      * left. exists (p :: ps). now constructor.
      * right. exists (linea :: buenas), mala, resto, (p :: ps).
        split; [reflexivity|]. split; [now constructor | exact Hm].
    + right. exists [], linea, lineas, []. split; [reflexivity|].
      split; [constructor | exact Hbad].
Qed.

Lemma init_read (a text : string) (s : state F Manipulacion.Msg) :
  fs s !! a = Some text -> fault s (SysOpenRead a) = None ->
  Manipulacion.__init__ a s
  = for_each (readlines text) Manipulacion.cargar_linea (set_self (mkInventario [] a) s).
Proof.
  intros Hfs Hf.
  unfold Manipulacion.__init__, Manipulacion.cargar_inventario, bind, modify, gets,
    os_path_exists, try_except, read_file.
  cbn. rewrite Hfs. cbn. rewrite Hf, Hfs. cbn.
  destruct (for_each _ _ _) as [s' [[]|e|]] eqn:E; try reflexivity.
  (* an exception of the loop is a [ValueError]: the handler lets it go *)
  assert (He : e = ValueError).
  { destruct (primera_mala (readlines text))
      as [[ps Hps] | (buenas & mala & resto & ps & Hl & Hps & Hm)].
    - rewrite (for_each_cargar ps) in E by assumption. discriminate.
    - rewrite Hl, (for_each_cargar_bad ps _ _ _ ValueError) in E by assumption.
      now injection E as _ <-. }
  now subst e.
Qed.

Lemma fold_poner_ids (ps : list (Producto F)) :
  forall acc : dict (Producto F),
    (forall k p, (k, p) ∈ acc -> id p = k) ->
    forall k p, (k, p) ∈ fold_left poner (map (fun p => (id p, p)) ps) acc -> id p = k.
Proof.
  induction ps as [|q ps IH]; intros acc Hacc k p; [apply Hacc|].
  cbn [map fold_left]. apply IH. intros k' p' Hin.
  unfold poner in Hin. cbn [fst snd] in Hin.
  apply dict_set_elem in Hin as [Hin | [= -> ->]]; [now apply Hacc | reflexivity].
Qed.

Lemma fold_poner_wf {V : Type} (kvs : list (string * V)) :
  forall acc : dict V, dict_wf acc -> dict_wf (fold_left poner kvs acc).
Proof.
  induction kvs as [|kv kvs IH]; intros acc Hwf; [exact Hwf|].
  cbn [fold_left]. apply IH. now apply dict_wf_set.
Qed.

Lemma records_ids {Msg : Type} (s : state F Msg) :
  ids_match s <-> (forall k p, (k, p) ∈ records s -> id p = k).
Proof.
  unfold ids_match, records. split.
  - intros Hi k p Hin. apply list_elem_of_In, in_map_iff in Hin.
    destruct Hin as ([k' l] & [= <- <-] & Hin). apply Hi. now apply list_elem_of_In.
  - intros Hr k l Hin. apply (Hr k). apply list_elem_of_In, in_map_iff.
    exists (k, l). split; [reflexivity | now apply list_elem_of_In].
Qed.

Lemma records_wf {Msg : Type} (s : state F Msg) :
  dict_wf (records s) <-> dict_wf (productos (self s)).
Proof. unfold dict_wf, dict_keys, records. now rewrite map_map. Qed.

(** The constructor of [Manipulación.py] on a file all of whose lines are
    read. *)
Lemma init_ok (a text : string) (ps : list (Producto F)) (s : state F Manipulacion.Msg) :
  fs s !! a = Some text -> fault s (SysOpenRead a) = None ->
  Forall2 (fun linea p => leer_linea linea = Ok p) (readlines text) ps ->
  exists s', Manipulacion.__init__ a s = (s', Ok tt)
    /\ records s' = fold_left poner (map (fun p => (id p, p)) ps) []
    /\ archivo (self s') = a /\ fs s' = fs s /\ out s' = out s /\ fault s' = fault s.
Proof.
  intros Hfs Hf Hps. rewrite (init_read a text) by assumption.
  rewrite (for_each_cargar ps) by assumption.
  eexists. split; [reflexivity|].
  destruct (alojar_env ps (set_self (mkInventario [] a) s)) as (Hs & Hfs' & Ho & Hfa & _).
  split.
  - match goal with
    | |- records (con_productos _ (alojar ps ?S0)) = _ =>
        transitivity (fold_left poner (zip (map id ps) ps)
                        (map (fun kl => (fst kl, objs S0 (snd kl))) []));
        [ apply (records_cargados ps (map id ps) S0 []);
          [ now rewrite length_map | intros k l Hin; inversion Hin ] |]
    end.
    now rewrite zip_map_fst.
  - cbn. rewrite Hs, Hfs', Ho, Hfa. now repeat split.
Qed.

End DelimitedConstructor.

Section Constructors.
Context {F : Type} `{PyFloat F} `{JsonLib F}.

Lemma init_absent (a : string) (s : state F Manipulacion.Msg) :
  fs s !! a = None ->
  Manipulacion.__init__ a s = (set_self (mkInventario [] a) s, Ok tt).
Proof.
  intros Hfs. unfold Manipulacion.__init__, Manipulacion.cargar_inventario, bind, modify,
    gets, os_path_exists.
  cbn. rewrite Hfs. reflexivity.
Qed.

Lemma init_open_fails (a : string) (e : exn) (s : state F Manipulacion.Msg) :
  is_Some (fs s !! a) -> fault s (SysOpenRead a) = Some e ->
  Manipulacion.__init__ a s
  = match e with
    | FileNotFoundError | PermissionError =>
        (fst (print (Manipulacion.Error_al_cargar e) (set_self (mkInventario [] a) s)), Ok tt)
    | _ => (set_self (mkInventario [] a) s, Raise e)
    end.
Proof.
  intros [text Hfs] Hf.
  unfold Manipulacion.__init__, Manipulacion.cargar_inventario, bind, modify, gets,
    os_path_exists, try_except, read_file.
  cbn. rewrite Hfs. cbn. rewrite Hf. now destruct e.
Qed.

(** The constructors read: they leave every file as it was. *)
Lemma init_fs (a : string) (s : state F Manipulacion.Msg) :
  fs (fst (Manipulacion.__init__ a s)) = fs s.
Proof.
  destruct (fs s !! a) as [text|] eqn:Hfs; [|now rewrite init_absent].
  destruct (fault s (SysOpenRead a)) as [e|] eqn:Hf.
  - rewrite (init_open_fails a e) by eauto. now destruct e.
  - rewrite (init_read a text) by assumption.
    destruct (primera_mala (F := F) (readlines text))
      as [[ps Hps] | (buenas & mala & resto & ps & Hl & Hps & Hm)].
    + rewrite (for_each_cargar ps) by assumption. cbn.
      now destruct (alojar_env ps (set_self (mkInventario [] a) s)) as (_ & -> & _).
    + rewrite Hl, (for_each_cargar_bad ps _ _ _ ValueError) by assumption. cbn.
      now destruct (alojar_env ps (set_self (mkInventario [] a) s)) as (_ & -> & _).
Qed.

Lemma cargar_try_fs (a : string) (s : state F Manipulacion1.Msg) :
  fs (fst (Manipulacion1.cargar_try a s)) = fs s.
Proof.
  unfold Manipulacion1.cargar_try, bind, os_path_exists, gets, read_file, lift,
    json_loads, set_productos, modify, ret.
  cbn.
  case_bool_decide; [|reflexivity].
  destruct (fault s (SysOpenRead a)); [reflexivity|].
  destruct (fs s !! a); [|reflexivity].
  destruct (json_load _) as [data|]; [|reflexivity].
  destruct (items data) as [entradas| |]; [|reflexivity..].
  pose proof (comprension_self entradas [] s) as (_ & Hc & _).
  destruct (Manipulacion1.comprension entradas [] s) as [s2 [d| |]]; exact Hc.
Qed.

Lemma init1_fs (a : string) (s : state F Manipulacion1.Msg) :
  fs (fst (Manipulacion1.__init__ a s)) = fs s.
Proof.
  unfold Manipulacion1.__init__, Manipulacion1.cargar_inventario, bind, modify, gets,
    try_except.
  cbn -[Manipulacion1.cargar_try Manipulacion1.cargar_except].
  pose proof (cargar_try_fs a (set_self (mkInventario [] a) s)) as Ht.
  destruct (Manipulacion1.cargar_try a _) as [s1 [[]|e|]]; try exact Ht.
  cbn [fst] in Ht. destruct e; cbn; exact Ht.
Qed.

(** [from_dict] raises [TypeError] on a value that is no [dict] and
    [KeyError] on a [dict] without one of the four keys, and nothing
    else. *)
Lemma from_dict_raises (v : json F) (e : exn) :
  Manipulacion1.from_dict v = Raise e ->
  (e = TypeError /\ forall d, v <> JDict d)
  \/ (e = KeyError /\ exists d, v = JDict d
      /\ (dict_in "id" d && dict_in "nombre" d && dict_in "cantidad" d
          && dict_in "precio" d = false)).
Proof.
  unfold Manipulacion1.from_dict.
  destruct v as [| | | | | |d]; try (intros [= <-]; left; split; [reflexivity | discriminate]).
  unfold subscript.
  assert (Hno : forall k, dict_get k d = None -> dict_in k d = false)
    by (intros k Hk; unfold dict_in; now rewrite Hk).
  assert (Hsi : forall k v, dict_get k d = Some v -> dict_in k d = true)
    by (intros k v Hk; unfold dict_in; now rewrite Hk).
  destruct (dict_get "id" d) as [v1|] eqn:E1;
    [|intros [= <-]; right; split; [reflexivity|]; exists d; split; [reflexivity|];
      now rewrite (Hno _ E1)].
  destruct (dict_get "nombre" d) as [v2|] eqn:E2;
    [|intros [= <-]; right; split; [reflexivity|]; exists d; split; [reflexivity|];
      now rewrite (Hsi _ _ E1), (Hno _ E2)].
  destruct (dict_get "cantidad" d) as [v3|] eqn:E3;
    [|intros [= <-]; right; split; [reflexivity|]; exists d; split; [reflexivity|];
      now rewrite (Hsi _ _ E1), (Hsi _ _ E2), (Hno _ E3)].
  destruct (dict_get "precio" d) as [v4|] eqn:E4;
    [|intros [= <-]; right; split; [reflexivity|]; exists d; split; [reflexivity|];
      now rewrite (Hsi _ _ E1), (Hsi _ _ E2), (Hsi _ _ E3), (Hno _ E4)].
  destruct v1, v2, v3, v4; discriminate.
Qed.

(** The constructor of [Manipulación1.py] on a file whose text is an object
    of records. *)
Lemma init1_ok (a text : string) (entradas : dict (json F)) (ps : list (Producto F))
    (s : state F Manipulacion1.Msg) :
  fs s !! a = Some text -> fault s (SysOpenRead a) = None ->
  json_load text = Some (JDict entradas) ->
  Forall2 (fun kv p => Manipulacion1.from_dict (snd kv) = Ok p) entradas ps ->
  exists s', Manipulacion1.__init__ a s = (s', Ok tt)
    /\ records s' = fold_left poner (zip (map fst entradas) ps) []
    /\ archivo (self s') = a /\ fs s' = fs s /\ out s' = out s.
Proof.
  intros Hfs Hf Hj He.
  unfold Manipulacion1.__init__, Manipulacion1.cargar_inventario,
    Manipulacion1.cargar_try, bind, modify, gets,
    os_path_exists, try_except, read_file, lift, json_loads, set_productos.
  cbn. rewrite Hfs. cbn. rewrite Hf, Hfs, Hj. cbn.
  rewrite (comprension_ok ps) by exact He. cbn.
  eexists. split; [reflexivity|].
  destruct (alojar_env ps (set_self (mkInventario [] a) s)) as (Hs & Hfs' & Ho & _).
  split.
  - match goal with
    | |- records (set_self (mkInventario (indexar ?KS _ _) _) (alojar ?PS ?S0)) = _ =>
        transitivity (fold_left poner (zip KS PS)
                        (map (fun kl => (fst kl, objs S0 (snd kl))) []));
        [ apply (records_cargados PS KS S0 []);
          [ rewrite length_map; now apply Forall2_length in He
          | intros k l Hin; inversion Hin ] |]
    end.
    reflexivity.
  - cbn. rewrite Hs, Hfs', Ho. now repeat split.
Qed.

(** One entry that [from_dict] refuses, or a text that is no object: the
    store is empty, whatever the entries before it. *)
Lemma init1_bad_entry (a text : string) (entradas resto : dict (json F)) (k : string)
    (v : json F) (e : exn) (ps : list (Producto F)) (s : state F Manipulacion1.Msg) :
  fs s !! a = Some text -> fault s (SysOpenRead a) = None ->
  json_load text = Some (JDict (entradas ++ (k, v) :: resto)%list) ->
  Forall2 (fun kv p => Manipulacion1.from_dict (snd kv) = Ok p) entradas ps ->
  Manipulacion1.from_dict v = Raise e ->
  exists s', Manipulacion1.__init__ a s = (s', Ok tt)
    /\ productos (self s') = []
    /\ out s' = (out s ++ [Manipulacion1.Error_inesperado_al_cargar e])%list.
Proof.
  intros Hfs Hf Hj He Hv.
  destruct (comprension_bad ps entradas resto k v e [] (set_self (mkInventario [] a) s) He Hv)
    as (s1 & Hc & Hmem & Hfs1 & Hout & _).
  assert (Ht : Manipulacion1.cargar_try a (set_self (mkInventario [] a) s) = (s1, Raise e)).
  { unfold Manipulacion1.cargar_try, bind, gets, os_path_exists, read_file, lift, json_loads.
    cbn. rewrite Hfs. cbn. rewrite Hf, Hfs, Hj. cbn. now rewrite Hc. }
  rewrite (init1_raise _ _ _ _ Ht).
  apply from_dict_raises in Hv as [[-> _] | [-> _]]; cbn;
    (eexists; split; [reflexivity|]); cbn; rewrite Hout; now split.
Qed.

Lemma init1_no_object (a text : string) (j : json F) (s : state F Manipulacion1.Msg) :
  fs s !! a = Some text -> fault s (SysOpenRead a) = None ->
  json_load text = Some j -> (forall d, j <> JDict d) ->
  Manipulacion1.__init__ a s
  = (fst (print (Manipulacion1.Error_inesperado_al_cargar AttributeError)
            (set_self (mkInventario [] a) s)), Ok tt).
Proof.
  intros Hfs Hf Hj Hd.
  assert (Ht : Manipulacion1.cargar_try a (set_self (mkInventario [] a) s)
               = (set_self (mkInventario [] a) s, Raise AttributeError)).
  { unfold Manipulacion1.cargar_try, bind, gets, os_path_exists, read_file, lift, json_loads.
    cbn. rewrite Hfs. cbn. rewrite Hf, Hfs, Hj. cbn.
    destruct j; try reflexivity. now destruct (Hd d). }
  rewrite (init1_raise _ _ _ _ Ht). reflexivity.
Qed.

End Constructors.

Section BadLines.
Context {F : Type} `{PyFloat F} `{JsonLib F}.

Lemma fold_poner_get_id (k : string) (ps : list (Producto F)) :
  forall acc : dict (Producto F),
    dict_get k (fold_left poner (map (fun p => (id p, p)) ps) acc)
    = match last (filter (fun p => id p = k) ps) with
      | Some p => Some p
      | None => dict_get k acc
      end.
Proof.
  induction ps as [|q ps IH]; intros acc; [reflexivity|].
  cbn [map fold_left]. rewrite IH. rewrite filter_cons.
  destruct (decide (id q = k)) as [<-|Hne].
  - destruct (filter _ ps) as [|p0 rest] eqn:E.
    + cbn. unfold poner. cbn [fst snd]. apply dict_get_set.
    + rewrite last_cons_cons. destruct (last (p0 :: rest)) eqn:El; [reflexivity|].
      now rewrite last_None in El.
  - destruct (last (filter _ ps)); [reflexivity|].
    unfold poner. cbn [fst snd]. rewrite dict_get_set_ne by congruence. reflexivity.
Qed.

Lemma blank_malformed (linea : string) :
  strip linea = EmptyString -> malformed (F := F) linea.
Proof. intros Hs. left. rewrite Hs. cbn. lia. Qed.

Lemma init_bad_line (a text linea : string) (s : state F Manipulacion.Msg) :
  fs s !! a = Some text -> fault s (SysOpenRead a) = None ->
  linea ∈ readlines text -> malformed (F := F) linea ->
  exists s', Manipulacion.__init__ a s = (s', Raise ValueError).
Proof.
  intros Hfs Hf Hin Hm. rewrite (init_read a text) by assumption.
  destruct (primera_mala (F := F) (readlines text))
    as [[ps Hps] | (buenas & mala & resto & ps & Hl & Hps & Hbad)].
  - exfalso. apply leer_linea_malformed in Hm.
    apply list_elem_of_In in Hin. revert Hin.
    induction Hps as [|l0 p ls ps' Hp Hps' IH]; [intros []|].
    intros [-> | Hin]; [congruence | now apply IH].
  - rewrite Hl, (for_each_cargar_bad ps _ _ _ ValueError) by assumption. eauto.
Qed.

Lemma zip_ids (entradas : dict (json F)) (ps : list (Producto F)) :
  length entradas = length ps ->
  (forall k p, (k, p) ∈ zip (map fst entradas) ps -> id p = k)
  <-> Forall2 (fun kv p => fst kv = id p) entradas ps.
Proof.
  revert ps. induction entradas as [|[k v] entradas IH]; intros [|p ps] Hlen;
    try discriminate.
  - split; [constructor | intros _ k p Hin; inversion Hin].
  - simpl in Hlen. injection Hlen as Hlen. cbn [map fst zip zip_with]. split.
    + intros Hz. constructor.
      * cbn. symmetry. apply Hz. apply list_elem_of_here.
      * apply IH; [assumption|]. intros k' p' Hin. apply Hz. now apply list_elem_of_further.
    + intros Hf. inversion Hf as [|? ? ? ? Hk Hr]; subst. cbn in Hk.
      intros k' p' Hin. apply elem_of_cons in Hin as [[= -> ->] | Hin]; [now symmetry|].
      now apply (proj2 (IH ps Hlen) Hr).
Qed.

End BadLines.

(** ** What the calls return *)

Section Results.
Context {F : Type} `{PyFloat F} `{JsonLib F}.

(** An operation of [Manipulación1.py] returns a [bool]. *)
Lemma agregar1_returns (s : state F Manipulacion1.Msg) (l : loc) :
  exists b, snd (Manipulacion1.agregar_producto l s) = Ok b.
Proof.
  destruct (dict_in (id (objs s l)) (productos (self s))) eqn:E.
  - rewrite agregar1_dup by assumption. eauto.
  - rewrite agregar1_new by assumption. cbn zeta.
    pose proof (guardar1_result
                  (con_productos (dict_set (id (objs s l)) l (productos (self s))) s)) as Hr.
    destruct (snd (Manipulacion1.guardar_inventario _)); [eauto | eauto | now destruct Hr].
Qed.

Lemma eliminar1_returns (s : state F Manipulacion1.Msg) (k : string) :
  exists b, snd (Manipulacion1.eliminar_producto k s) = Ok b.
Proof.
  destruct (dict_in k (productos (self s))) eqn:E.
  - rewrite eliminar1_present by assumption. cbn zeta.
    pose proof (guardar1_result
                  (con_productos (dict_del k (productos (self s))) s)) as Hr.
    destruct (snd (Manipulacion1.guardar_inventario _)); [eauto | eauto | now destruct Hr].
  - rewrite eliminar1_absent by assumption. eauto.
Qed.

Lemma actualizar1_returns (s : state F Manipulacion1.Msg) (k : string) c x :
  exists b, snd (Manipulacion1.actualizar_producto k c x s) = Ok b.
Proof.
  destruct (dict_get k (productos (self s))) as [l|] eqn:E.
  - destruct (actualizar1_present s k c x l E) as (s1 & _ & _ & _ & _ & _ & _ & _ & ->).
    cbn zeta. pose proof (guardar1_result s1) as Hr.
    destruct (snd (Manipulacion1.guardar_inventario s1)); [eauto | eauto | now destruct Hr].
  - rewrite actualizar1_absent; [eauto|]. unfold dict_in. now rewrite E.
Qed.

Lemma init1_raises (a : string) (s : state F Manipulacion1.Msg) (e : exn) :
  snd (Manipulacion1.__init__ a s) = Raise e -> e = PermissionError.
Proof.
  unfold Manipulacion1.__init__, Manipulacion1.cargar_inventario, bind, modify, gets,
    try_except.
  cbn -[Manipulacion1.cargar_try Manipulacion1.cargar_except].
  destruct (Manipulacion1.cargar_try a _) as [s1 [[]|e'|]]; try discriminate.
  destruct e'; cbn; congruence.
Qed.

(** In an environment whose system calls raise [OSError]s only, the save
    of [Manipulación.py] returns. *)
Lemma guardar_returns (s : state F Manipulacion.Msg) :
  (forall c e, fault s c = Some e -> is_OSError e = true) ->
  snd (Manipulacion.guardar_inventario s) = Ok tt.
Proof.
  intros Hos. destruct (guardar_result s) as [Hr | (e & He & Hr)]; [exact Hr|].
  exfalso. revert Hr.
  unfold Manipulacion.guardar_inventario, try_except, bind, gets, write_file. cbn.
  destruct (fault s (SysOpenWrite _)) as [e1|] eqn:E1.
  - rewrite (Hos _ _ E1). discriminate.
  - destruct (fault s (SysWrite _)) as [e2|] eqn:E2; [|discriminate].
    rewrite (Hos _ _ E2). discriminate.
Qed.

Lemma agregar_returns (s : state F Manipulacion.Msg) (l : loc) :
  (forall c e, fault s c = Some e -> is_OSError e = true) ->
  exists b, snd (Manipulacion.agregar_producto l s) = Ok b.
Proof.
  intros Hos. destruct (dict_in (id (objs s l)) (productos (self s))) eqn:E.
  - rewrite agregar_dup by assumption. eauto.
  - rewrite agregar_new by assumption. cbn zeta. cbn [snd].
    rewrite guardar_returns by exact Hos. eauto.
Qed.

Lemma eliminar_returns (s : state F Manipulacion.Msg) (k : string) :
  (forall c e, fault s c = Some e -> is_OSError e = true) ->
  exists b, snd (Manipulacion.eliminar_producto k s) = Ok b.
Proof.
  intros Hos. destruct (dict_in k (productos (self s))) eqn:E.
  - rewrite eliminar_present by assumption. cbn zeta. cbn [snd].
    rewrite guardar_returns by exact Hos. eauto.
  - rewrite eliminar_absent by assumption. eauto.
Qed.

Lemma actualizar_returns (s : state F Manipulacion.Msg) (k : string) c x :
  (forall c e, fault s c = Some e -> is_OSError e = true) ->
  exists b, snd (Manipulacion.actualizar_producto k c x s) = Ok b.
Proof.
  intros Hos. destruct (dict_get k (productos (self s))) as [l|] eqn:E.
  - destruct (actualizar_present s k c x l E) as (s1 & _ & _ & _ & Hf & _ & _ & _ & ->).
    cbn zeta. cbn [snd]. rewrite guardar_returns; [eauto|]. now rewrite Hf.
  - rewrite actualizar_absent; [eauto|]. unfold dict_in. now rewrite E.
Qed.

Lemma init_raises (a : string) (s : state F Manipulacion.Msg) (e : exn) :
  snd (Manipulacion.__init__ a s) = Raise e ->
  e = ValueError
  \/ (fault s (SysOpenRead a) = Some e /\ e <> FileNotFoundError /\ e <> PermissionError).
Proof.
  destruct (fs s !! a) as [text|] eqn:Hfs; [|now rewrite init_absent].
  destruct (fault s (SysOpenRead a)) as [e1|] eqn:Hf.
  - rewrite (init_open_fails a e1) by eauto.
    destruct e1; cbn; try discriminate; intros [= <-]; right; repeat split; discriminate.
  - rewrite (init_read a text) by assumption.
    destruct (primera_mala (F := F) (readlines text))
      as [[ps Hps] | (buenas & mala & resto & ps & Hl & Hps & Hm)].
    + rewrite (for_each_cargar ps) by assumption. discriminate.
    + rewrite Hl, (for_each_cargar_bad ps _ _ _ ValueError) by assumption.
      intros [= <-]. now left.
Qed.

End Results.

Lemma contains_trans (a b c : string) :
  contains a b = true -> contains b c = true -> contains a c = true.
Proof.
  rewrite !contains_spec. intros (p1 & q1 & ->) (p2 & q2 & ->).
  exists (p2 ++ p1), (q1 ++ q2). now rewrite !append_assoc.
Qed.

Lemma sublist_filter_impl {A : Type} (P Q : A -> Prop)
    `{forall x, Decision (P x)} `{forall x, Decision (Q x)} (l : list A) :
  (forall x, P x -> Q x) -> sublist (filter P l) (filter Q l).
Proof.
  intros HPQ. induction l as [|x l IH]; [constructor|].
  rewrite !filter_cons. destruct (decide (P x)) as [HP|HP].
  - rewrite decide_True by now apply HPQ. now constructor.
  - destruct (decide (Q x)); [now constructor | exact IH].
Qed.

Lemma filter_ext_in {A : Type} (P Q : A -> Prop)
    `{forall x, Decision (P x)} `{forall x, Decision (Q x)} (l : list A) :
  (forall x, P x <-> Q x) -> filter P l = filter Q l.
Proof.
  intros HPQ. induction l as [|x l IH]; [reflexivity|].
  rewrite !filter_cons, IH. destruct (decide (P x)) as [HP|HP].
  - now rewrite decide_True by now apply HPQ.
  - rewrite decide_False; [reflexivity|]. intros HQ. now apply HP, HPQ.
Qed.

(** ** Texts of any code points, and those below 256 *)

Section UnicodeFacts.
Context `{Unicode.Database}.
Import Unicode.

Lemma starts_with_spec (a b : str) :
  starts_with a b = true <-> exists post, b = (a ++ post)%list.
Proof.
  revert b. induction a as [|c a IH]; intros b; cbn.
  - split; [intros _; now exists b | reflexivity].
  - destruct b as [|c' b].
    + split; [discriminate | intros [post Hp]; discriminate].
    + rewrite andb_true_iff, N.eqb_eq, IH. split.
      * intros [-> [post ->]]. now exists post.
      * intros [post [= -> ->]]. split; [reflexivity | now exists post].
Qed.

Lemma ucontains_spec (needle hay : str) :
  Unicode.contains needle hay = true <-> exists pre post, hay = (pre ++ needle ++ post)%list.
Proof.
  induction hay as [|c hay IH].
  - cbn [Unicode.contains]. rewrite orb_false_r, starts_with_spec. split.
    + intros [post Hp]. now exists [], post.
    + intros (pre & post & Hp). exists post.
      destruct pre; cbn in Hp; [assumption | discriminate].
  - cbn [Unicode.contains]. rewrite orb_true_iff, starts_with_spec, IH. split.
    + intros [[post Hp] | (pre & post & Hp)].
      * now exists [], post.
      * exists (c :: pre), post. cbn. now rewrite Hp.
    + intros (pre & post & Hp). destruct pre as [|c' pre]; cbn in Hp.
      * left. now exists post.
      * right. exists pre, post. congruence.
Qed.

Lemma ucontains_trans (a b c : str) :
  Unicode.contains a b = true -> Unicode.contains b c = true -> Unicode.contains a c = true.
Proof.
  rewrite !ucontains_spec. intros (p1 & q1 & ->) (p2 & q2 & ->).
  exists (p2 ++ p1)%list, (q1 ++ q2)%list. now rewrite <- !app_assoc.
Qed.

Lemma N_of_ascii_lt (c : ascii) : (N_of_ascii c < 256)%N.
Proof. apply N_ascii_bounded. Qed.

Lemma lower_desde_latin1 (antes : str) (s : string) :
  con_latin1 -> lower_desde antes (de_latin1 s) = de_latin1 (Py.lower s).
Proof.
  intros Hdb. revert antes. induction s as [|c s IH]; intros antes; [reflexivity|].
  cbn [de_latin1 list_ascii_of_string map lower_desde Py.lower string_map].
  assert (Hc : (N_of_ascii c =? capital_sigma)%N = false).
  { apply N.eqb_neq. pose proof (N_of_ascii_lt c). unfold capital_sigma. lia. }
  rewrite Hc, Hdb. cbn [app]. f_equal. apply IH.
Qed.

Lemma lower_latin1 (s : string) :
  con_latin1 -> Unicode.lower (de_latin1 s) = de_latin1 (Py.lower s).
Proof. apply lower_desde_latin1. Qed.

Lemma starts_with_latin1 (a b : string) :
  starts_with (de_latin1 a) (de_latin1 b) = String.prefix a b.
Proof.
  revert b. induction a as [|c a IH]; intros [|c' b]; cbn; try reflexivity.
  fold (de_latin1 a). fold (de_latin1 b). rewrite IH.
  destruct (ascii_dec c c') as [->|Hne]; [now rewrite N.eqb_refl|].
  destruct (N.eqb_spec (N_of_ascii c) (N_of_ascii c')) as [E|E]; [|reflexivity].
  apply (f_equal ascii_of_N) in E. rewrite !ascii_N_embedding in E. contradiction.
Qed.

Lemma contains_latin1 (a b : string) :
  Unicode.contains (de_latin1 a) (de_latin1 b) = Py.contains a b.
Proof.
  induction b as [|c b IH].
  - cbn [de_latin1 list_ascii_of_string map Unicode.contains Py.contains].
    now rewrite <- (starts_with_latin1 a "").
  - change (Py.contains a (String c b))
      with (String.prefix a (String c b) || Py.contains a b).
    rewrite <- IH, <- starts_with_latin1. reflexivity.
Qed.

End UnicodeFacts.

Section Latin1.
Context {F : Type} `{PyFloat F}.

(** On the texts of code points below 256, the search of the two files is
    the search on texts of any code points. *)
Lemma buscar_por_nombre_latin1 {Msg : Type} `{Unicode.Database} (s : state F Msg)
    (n : string) :
  con_latin1 ->
  filter (fun p => contains (lower n) (lower (nombre (objs s p))) = true)
         (dict_values (productos (self s)))
  = BuscarUnicode.buscar_por_nombre (fun l => Unicode.de_latin1 (nombre (objs s l)))
      (dict_values (productos (self s))) (Unicode.de_latin1 n).
Proof.
  intros Hdb. unfold BuscarUnicode.buscar_por_nombre. cbn zeta.
  apply filter_ext_in. intros l.
  now rewrite !lower_latin1, contains_latin1 by assumption.
Qed.

End Latin1.

(* ===================================================================== *)
(** * Facts about the console programs *)
(* ===================================================================== *)

Import Consola.

Section Loops.
Context {F Msg : Type} `{PyFloat F} `{PyFloatConsole F} `{Almacen F Msg}.

Lemma mientras_fuel {A : Type} (cuerpo : U (F := F) (Msg := Msg) (option A)) :
  lee cuerpo ->
  forall n m t, (length (entrada t) < n)%nat -> (length (entrada t) < m)%nat ->
                mientras n cuerpo t = mientras m cuerpo t.
Proof.
  intros Hlee. induction n as [|n IH]; intros m t Hn Hm; [lia|].
  destruct m as [|m]; [lia|]. cbn [mientras]. unfold luego.
  destruct (cuerpo t) as [t1 [[a|]|e| |]] eqn:E; try reflexivity.
  apply Hlee in E. apply IH; lia.
Qed.

(** [bucle] is the loop: a turn, and the loop again when the body asks for
    it. *)
Lemma bucle_eq {A : Type} (cuerpo : U (F := F) (Msg := Msg) (option A)) (t : sesion F Msg) :
  lee cuerpo ->
  bucle cuerpo t
  = match cuerpo t with
    | (t1, Da (Some a)) => (t1, Da a)
    | (t1, Da None) => bucle cuerpo t1
    | (t1, Lanza e) => (t1, Lanza e)
    | (t1, Sin_tipo) => (t1, Sin_tipo)
    | (t1, Agotado) => (t1, Agotado)
    end.
Proof.
  intros Hlee. unfold bucle at 1. cbn [mientras]. unfold luego at 1.
  destruct (cuerpo t) as [t1 [[a|]|e| |]] eqn:E; try reflexivity.
  apply Hlee in E. unfold bucle. apply mientras_fuel; [assumption | lia | lia].
Qed.

(** What holds of each turn holds of the loop. *)
Lemma bucle_ind {A : Type} (cuerpo : U (F := F) (Msg := Msg) (option A))
    (P : sesion F Msg -> sesion F Msg * fin A -> Prop) :
  lee cuerpo ->
  (forall t t1 a, cuerpo t = (t1, Da (Some a)) -> P t (t1, Da a)) ->
  (forall t t1 e, cuerpo t = (t1, Lanza e) -> P t (t1, Lanza e)) ->
  (forall t t1, cuerpo t = (t1, Sin_tipo) -> P t (t1, Sin_tipo)) ->
  (forall t t1, cuerpo t = (t1, Agotado) -> P t (t1, Agotado)) ->
  (forall t t1 r, cuerpo t = (t1, Da None) -> P t1 r -> P t r) ->
  forall t, P t (bucle cuerpo t).
Proof.
  intros Hlee Hsome Hlanza Hsin Hago Hnone t.
  remember (length (entrada t)) as n eqn:Hn. revert t Hn.
  induction n as [n IH] using lt_wf_ind. intros t Hn.
  rewrite bucle_eq by assumption.
  destruct (cuerpo t) as [t1 [[a|]|e| |]] eqn:E.
  - now apply Hsome.
  - apply (Hnone t t1 _ E). apply (IH (length (entrada t1))); [|reflexivity].
    apply Hlee in E. lia.
  - now apply Hlanza.
  - now apply Hsin.
  - now apply Hago.
Qed.

End Loops.

(** ** The lines [solicitar_datos_producto] reads *)

Section Asking.
Context {F Msg : Type} `{PyFloat F} `{PyFloatConsole F} `{Almacen F Msg}.

(** A loop whose body reads a line, and takes it or complains. *)
Lemma bucle_lineas {A : Type} (cuerpo : U (F := F) (Msg := Msg) (option A)) (p : Prompt)
    (valor : string -> option A) (queja : string -> Linea Msg) :
  (forall t,
      cuerpo t
      = match entrada t with
        | [] => (mkSesion (estado t) [] (pantalla t ++ [Pide p]), Lanza EOFError)
        | x :: r =>
            match valor x with
            | Some a => (mkSesion (estado t) r (pantalla t ++ [Pide p]), Da (Some a))
            | None => (mkSesion (estado t) r (pantalla t ++ [Pide p; queja x]), Da None)
            end
        end) ->
  (forall pre x r a t,
      entrada t = (pre ++ x :: r)%list ->
      Forall (fun y => valor y = None) pre -> valor x = Some a ->
      bucle cuerpo t
      = (mkSesion (estado t) r (pantalla t ++ rechazos p queja pre ++ [Pide p]), Da a))
  /\ (forall t,
         Forall (fun y => valor y = None) (entrada t) ->
         bucle cuerpo t
         = (mkSesion (estado t) [] (pantalla t ++ rechazos p queja (entrada t) ++ [Pide p]),
            Lanza EOFError)).
Proof.
  intros Hc.
  assert (Hlee : lee cuerpo).
  { intros t t' E. rewrite Hc in E. destruct (entrada t) as [|x r]; [discriminate|].
    destruct (valor x); [discriminate|]. injection E as <-. cbn. lia. }
  split.
  - intros pre. induction pre as [|y pre IH]; intros x r a t He Hpre Hx.
    + rewrite bucle_eq, Hc, He by assumption. cbn [app]. now rewrite Hx.
    + inversion Hpre as [|? ? Hy Hpre']; subst.
      rewrite bucle_eq, Hc, He by assumption. cbn [app]. rewrite Hy.
      rewrite (IH x r a) by (try reflexivity; assumption).
      cbn [estado pantalla rechazos flat_map app]. now rewrite <- app_assoc.
  - intros t. remember (entrada t) as l eqn:He. revert t He.
    induction l as [|y l IH]; intros t He Hall.
    + rewrite bucle_eq, Hc, <- He by assumption. reflexivity.
    + inversion Hall as [|? ? Hy Hall']; subst.
      rewrite bucle_eq, Hc, <- He by assumption. rewrite Hy.
      rewrite (IH (mkSesion (estado t) l (pantalla t ++ [Pide p; queja y])) eq_refl)
        by assumption.
      cbn [estado pantalla entrada rechazos flat_map app]. now rewrite <- app_assoc.
Qed.

Lemma pedir_id_eq (t : sesion F Msg) :
  pedir_id t
  = match entrada t with
    | [] => (mkSesion (estado t) [] (pantalla t ++ [Pide ID_del_producto]), Lanza EOFError)
    | x :: r =>
        match (if is_empty (strip x) then None else Some (strip x)) with
        | Some a => (mkSesion (estado t) r (pantalla t ++ [Pide ID_del_producto]), Da (Some a))
        | None => (mkSesion (estado t) r
                     (pantalla t ++ [Pide ID_del_producto; El_ID_no_puede_estar_vacio]),
                   Da None)
        end
    end.
Proof.
  unfold pedir_id, luego, input, mostrar, da.
  destruct (entrada t) as [|x r]; [reflexivity|].
  destruct (is_empty (strip x)); cbn; [|reflexivity].
  now rewrite <- app_assoc.
Qed.

Lemma pedir_cantidad_eq (t : sesion F Msg) :
  pedir_cantidad t
  = match entrada t with
    | [] => (mkSesion (estado t) [] (pantalla t ++ [Pide Cantidad_en_inventario]),
             Lanza EOFError)
    | x :: r =>
        match cantidad_valida x with
        | Some a => (mkSesion (estado t) r (pantalla t ++ [Pide Cantidad_en_inventario]),
                     Da (Some a))
        | None => (mkSesion (estado t) r
                     (pantalla t ++ [Pide Cantidad_en_inventario; queja_cantidad x]),
                   Da None)
        end
    end.
Proof.
  unfold pedir_cantidad, salvo_ValueError, luego, input, mostrar, da, de_resultado,
    cantidad_valida, queja_cantidad.
  destruct (entrada t) as [|x r]; [reflexivity|].
  destruct (int_parse_cases x) as [[c ->] | ->]; cbn.
  - destruct (0 <=? c); cbn; [reflexivity | now rewrite <- app_assoc].
  - now rewrite <- app_assoc.
Qed.

Lemma pedir_precio_eq (t : sesion F Msg) :
  pedir_precio t
  = match entrada t with
    | [] => (mkSesion (estado t) [] (pantalla t ++ [Pide Precio_unitario]), Lanza EOFError)
    | x :: r =>
        match precio_valido x with
        | Some a => (mkSesion (estado t) r (pantalla t ++ [Pide Precio_unitario]),
                     Da (Some a))
        | None => (mkSesion (estado t) r
                     (pantalla t ++ [Pide Precio_unitario; queja_precio x]),
                   Da None)
        end
    end.
Proof.
  unfold pedir_precio, salvo_ValueError, luego, input, mostrar, da, de_resultado,
    precio_valido, queja_precio, float_of_str.
  destruct (entrada t) as [|x r]; [reflexivity|].
  destruct (float_parse x) as [p|]; cbn.
  - destruct (float_ge_0 p); cbn; [reflexivity | now rewrite <- app_assoc].
  - now rewrite <- app_assoc.
Qed.

End Asking.

Lemma rstrip_idem (s : string) : rstrip (rstrip s) = rstrip s.
Proof.
  induction s as [|c s IH]; [reflexivity|]. cbn [rstrip]. cbn zeta.
  destruct (is_empty (rstrip s) && is_space c) eqn:E; [reflexivity|].
  cbn [rstrip]. cbn zeta. now rewrite IH, E.
Qed.

Lemma lstrip_head (s : string) :
  lstrip s = EmptyString \/ exists c r, lstrip s = String c r /\ is_space c = false.
Proof.
  induction s as [|c s IH]; [now left|]. cbn [lstrip].
  destruct (is_space c) eqn:E; [exact IH | right; eauto].
Qed.

Lemma strip_idem (s : string) : strip (strip s) = strip s.
Proof.
  unfold strip. destruct (lstrip_head s) as [-> | (c & r & -> & Hc)]; [reflexivity|].
  cbn [rstrip]. cbn zeta. rewrite Hc, andb_false_r.
  cbn [lstrip]. rewrite Hc. cbn [rstrip]. cbn zeta.
  now rewrite rstrip_idem, Hc, andb_false_r.
Qed.

Lemma is_empty_spec (s : string) : is_empty s = true <-> s = EmptyString.
Proof. destruct s; split; intros Hs; try reflexivity; discriminate. Qed.

Lemma primer_valido {A : Type} (valor : string -> option A) (l : list string) :
  Forall (fun y => valor y = None) l
  \/ exists pre x r a, l = (pre ++ x :: r)%list
                       /\ Forall (fun y => valor y = None) pre /\ valor x = Some a.
Proof.
  induction l as [|y l IH]; [left; constructor|].
  destruct (valor y) as [a|] eqn:E.
  - right. exists [], y, l, a. split; [reflexivity|]. split; [constructor | exact E].
  - destruct IH as [IH | (pre & x & r & a & -> & Hpre & Hx)].
    + left. now constructor.
    + right. exists (y :: pre), x, r, a. split; [reflexivity|]. split; [now constructor | exact Hx].
Qed.

Section Validation.
Context {F Msg : Type} `{PyFloat F} `{PyFloatConsole F} `{Almacen F Msg}.

Lemma pedir_id_eq' (t : sesion F Msg) :
  pedir_id t
  = match entrada t with
    | [] => (mkSesion (estado t) [] (pantalla t ++ [Pide ID_del_producto]), Lanza EOFError)
    | x :: r =>
        match id_valido x with
        | Some a => (mkSesion (estado t) r (pantalla t ++ [Pide ID_del_producto]), Da (Some a))
        | None => (mkSesion (estado t) r
                     (pantalla t ++ [Pide ID_del_producto; El_ID_no_puede_estar_vacio]),
                   Da None)
        end
    end.
Proof. apply pedir_id_eq. Qed.

(** [solicitar_datos_producto] on lines that hold all it asks for. *)
Lemma solicitar_run (t : sesion F Msg) (blancos malas_c malas_p resto : list string)
    (i n c p : string) (vi : string) (cv : Z) (pv : F) :
  entrada t = (blancos ++ i :: n :: malas_c ++ c :: malas_p ++ p :: resto)%list ->
  Forall (fun x => id_valido x = None) blancos -> id_valido i = Some vi ->
  Forall (fun x => cantidad_valida x = None) malas_c -> cantidad_valida c = Some cv ->
  Forall (fun x => precio_valido x = None) malas_p -> precio_valido p = Some pv ->
  solicitar_datos_producto t
  = (mkSesion (fst (new_Producto (mkProducto vi (strip n) cv pv) (estado t))) resto
       (pantalla t ++ [Ingreso_de_nuevo_producto]
        ++ rechazos ID_del_producto (fun _ => El_ID_no_puede_estar_vacio) blancos
        ++ [Pide ID_del_producto; Pide Nombre_del_producto]
        ++ rechazos Cantidad_en_inventario queja_cantidad malas_c
        ++ [Pide Cantidad_en_inventario]
        ++ rechazos Precio_unitario queja_precio malas_p
        ++ [Pide Precio_unitario]),
     Da (next (estado t))).
Proof.
  intros He Hb Hi Hmc Hc Hmp Hp.
  destruct (bucle_lineas (F := F) (Msg := Msg) pedir_id ID_del_producto id_valido
              (fun _ => El_ID_no_puede_estar_vacio) pedir_id_eq') as [Hid _].
  destruct (bucle_lineas (F := F) (Msg := Msg) pedir_cantidad Cantidad_en_inventario cantidad_valida
              queja_cantidad pedir_cantidad_eq) as [Hcant _].
  destruct (bucle_lineas (F := F) (Msg := Msg) pedir_precio Precio_unitario precio_valido
              queja_precio pedir_precio_eq) as [Hprec _].
  unfold solicitar_datos_producto.
  unfold luego at 1. cbn [mostrar].
  unfold luego at 1.
  rewrite (Hid blancos i (n :: malas_c ++ c :: malas_p ++ p :: resto)%list vi)
    by (try exact He; assumption).
  unfold luego at 1. cbn [input entrada estado pantalla].
  unfold luego at 1.
  rewrite (Hcant malas_c c (malas_p ++ p :: resto)%list cv)
    by (try reflexivity; assumption).
  unfold luego at 1.
  rewrite (Hprec malas_p p resto pv) by (try reflexivity; assumption).
  unfold correr. cbn [estado entrada pantalla new_Producto fst snd out].
  rewrite drop_all. cbn [map]. rewrite app_nil_r.
  do 2 f_equal. rewrite <- !app_assoc. reflexivity.
Qed.

(** [solicitar_datos_producto] raises [EOFError], or the lines hold all it
    asks for. *)
Lemma solicitar_cases (t : sesion F Msg) :
  (exists t', solicitar_datos_producto t = (t', Lanza EOFError)
              /\ estado t' = estado t /\ entrada t' = [])
  \/ exists blancos malas_c malas_p resto i n c p vi cv pv,
       entrada t = (blancos ++ i :: n :: malas_c ++ c :: malas_p ++ p :: resto)%list
       /\ Forall (fun x => id_valido x = None) blancos /\ id_valido i = Some vi
       /\ Forall (fun x => cantidad_valida x = None) malas_c /\ cantidad_valida c = Some cv
       /\ Forall (fun x => precio_valido (F := F) x = None) malas_p
       /\ precio_valido p = Some pv.
Proof.
  destruct (bucle_lineas (F := F) (Msg := Msg) pedir_id ID_del_producto id_valido
              (fun _ => El_ID_no_puede_estar_vacio) pedir_id_eq') as [Hid Hid0].
  destruct (bucle_lineas (F := F) (Msg := Msg) pedir_cantidad Cantidad_en_inventario cantidad_valida
              queja_cantidad pedir_cantidad_eq) as [Hcant Hcant0].
  destruct (bucle_lineas (F := F) (Msg := Msg) pedir_precio Precio_unitario precio_valido
              queja_precio pedir_precio_eq) as [Hprec Hprec0].
  unfold solicitar_datos_producto.
  destruct (primer_valido id_valido (entrada t))
    as [Hall | (blancos & i & r1 & vi & He & Hb & Hi)].
  { left. unfold luego at 1. cbn [mostrar]. unfold luego at 1.
    rewrite Hid0 by exact Hall. eexists. split; [reflexivity|]. now split. }
  destruct r1 as [|n r2].
  { left. unfold luego at 1. cbn [mostrar]. unfold luego at 1.
    rewrite (Hid blancos i [] vi) by (try exact He; assumption).
    unfold luego at 1. cbn [input entrada].
    eexists. split; [reflexivity|]. now split. }
  destruct (primer_valido cantidad_valida r2)
    as [Hall | (malas_c & c & r3 & cv & -> & Hmc & Hc)].
  { left. unfold luego at 1. cbn [mostrar]. unfold luego at 1.
    rewrite (Hid blancos i (n :: r2) vi) by (try exact He; assumption).
    unfold luego at 1. cbn [input entrada estado pantalla]. unfold luego at 1.
    rewrite Hcant0 by exact Hall. eexists. split; [reflexivity|]. now split. }
  destruct (primer_valido (precio_valido (F := F)) r3)
    as [Hall | (malas_p & p & resto & pv & -> & Hmp & Hp)].
  { left. unfold luego at 1. cbn [mostrar]. unfold luego at 1.
    rewrite (Hid blancos i (n :: malas_c ++ c :: r3)%list vi) by (try exact He; assumption).
    unfold luego at 1. cbn [input entrada estado pantalla]. unfold luego at 1.
    rewrite (Hcant malas_c c r3 cv) by (try reflexivity; assumption).
    unfold luego at 1.
    rewrite Hprec0 by exact Hall. eexists. split; [reflexivity|]. now split. }
  right. exists blancos, malas_c, malas_p, resto, i, n, c, p, vi, cv, pv.
  now repeat split.
Qed.

Lemma id_valido_spec (x vi : string) :
  id_valido x = Some vi <-> vi = strip x /\ strip x <> EmptyString.
Proof.
  unfold id_valido. destruct (is_empty (strip x)) eqn:E.
  - apply is_empty_spec in E. split; [discriminate | intros [_ Hn]; contradiction].
  - split.
    + intros [= <-]. split; [reflexivity|]. intros Hs. rewrite Hs in E. discriminate.
    + intros [-> _]. reflexivity.
Qed.

Lemma id_valido_none (x : string) : id_valido x = None <-> strip x = EmptyString.
Proof.
  unfold id_valido. destruct (is_empty (strip x)) eqn:E.
  - apply is_empty_spec in E. now split.
  - split; [discriminate|]. intros Hs. rewrite Hs in E. discriminate.
Qed.

Lemma cantidad_valida_spec (x : string) (cv : Z) :
  cantidad_valida x = Some cv <-> int_parse x = Ok cv /\ 0 <= cv.
Proof.
  unfold cantidad_valida. destruct (int_parse x) as [c|e|].
  - destruct (Z.leb_spec 0 c).
    + split; [intros [= <-]; now split | intros [[= <-] _]; reflexivity].
    + split; [discriminate | intros [[= <-] Hc]; lia].
  - split; [discriminate | intros [Hc _]; discriminate].
  - split; [discriminate | intros [Hc _]; discriminate].
Qed.

Lemma precio_valido_spec (x : string) (pv : F) :
  precio_valido x = Some pv <-> float_parse x = Some pv /\ float_ge_0 pv = true.
Proof.
  unfold precio_valido. destruct (float_parse x) as [p|].
  - destruct (float_ge_0 p) eqn:E.
    + split; [intros [= <-]; now split | intros [[= <-] _]; reflexivity].
    + split; [discriminate | intros [[= <-] Hc]; congruence].
  - split; [discriminate | intros [Hc _]; discriminate].
Qed.


End Validation.

(** ** Calls that read from the front and end *)

Section Tame.
Context {F Msg : Type} `{PyFloat F} `{PyFloatConsole F} `{Almacen F Msg}.

Lemma mansa_da {A : Type} (a : A) : mansa (F := F) (Msg := Msg) (da a).
Proof. intros t. split; [reflexivity | discriminate]. Qed.

Lemma mansa_mostrar (l : Linea Msg) : mansa (F := F) (mostrar l).
Proof. intros t. split; [reflexivity | discriminate]. Qed.

Lemma mansa_input (p : Prompt) : mansa (F := F) (Msg := Msg) (input p).
Proof.
  intros t. unfold input. destruct (entrada t) as [|x r]; cbn.
  - split; [reflexivity | discriminate].
  - split; [now exists [x] | discriminate].
Qed.

Lemma mansa_correr {A : Type} (m : M (F := F) (Msg := Msg) A) : mansa (correr m).
Proof.
  intros t. unfold correr. cbn. split; [reflexivity|]. now destruct (snd (m (estado t))).
Qed.

Lemma mansa_de_resultado {A : Type} (r : result A) :
  mansa (F := F) (Msg := Msg) (de_resultado r).
Proof. intros t. split; [reflexivity | now destruct r]. Qed.

Lemma mansa_str (l : loc) : mansa (F := F) (Msg := Msg) (str l).
Proof. intros t. split; [reflexivity | discriminate]. Qed.

Lemma mansa_luego {A B : Type} (m : U (F := F) (Msg := Msg) A) (k : A -> U B) :
  mansa m -> (forall a, mansa (k a)) -> mansa (luego m k).
Proof.
  intros Hm Hk t. unfold luego. destruct (Hm t) as [Hs Ha].
  destruct (m t) as [t1 [a|e| |]]; cbn in *; try (split; [assumption | discriminate]).
  - destruct (Hk a t1) as [Hs' Ha']. split; [|assumption]. now transitivity (entrada t1).
  - now destruct Ha.
Qed.

Lemma mansa_salvo {A : Type} (c h : U (F := F) (Msg := Msg) A) :
  mansa c -> mansa h -> mansa (salvo_ValueError c h).
Proof.
  intros Hc Hh t. unfold salvo_ValueError. destruct (Hc t) as [Hs Ha].
  destruct (c t) as [t1 [a|e| |]]; cbn in *; try (split; assumption).
  destruct (is_ValueError e); [|split; [assumption | discriminate]].
  destruct (Hh t1) as [Hs' Ha']. split; [|assumption]. now transitivity (entrada t1).
Qed.

Lemma mansa_para_cada {A : Type} (xs : list A) (cuerpo : A -> U (F := F) (Msg := Msg) unit) :
  (forall x, mansa (cuerpo x)) -> mansa (para_cada xs cuerpo).
Proof.
  intros Hc. induction xs as [|x xs IH]; cbn [para_cada].
  - apply mansa_da.
  - apply mansa_luego; [apply Hc | intros _; exact IH].
Qed.

Lemma mansa_bucle {A : Type} (cuerpo : U (F := F) (Msg := Msg) (option A)) :
  lee cuerpo -> mansa cuerpo -> mansa (bucle cuerpo).
Proof.
  intros Hlee Hm t.
  apply (bucle_ind cuerpo
           (fun t r => suffix (entrada (fst r)) (entrada t) /\ snd r <> Agotado) Hlee).
  - intros t0 t1 a E. destruct (Hm t0) as [Hs _]. rewrite E in Hs. split; [exact Hs | discriminate].
  - intros t0 t1 e E. destruct (Hm t0) as [Hs _]. rewrite E in Hs. split; [exact Hs | discriminate].
  - intros t0 t1 E. destruct (Hm t0) as [Hs _]. rewrite E in Hs. split; [exact Hs | discriminate].
  - intros t0 t1 E. destruct (Hm t0) as [_ Ha]. rewrite E in Ha. now destruct Ha.
  - intros t0 t1 r E [Hs Ha]. destruct (Hm t0) as [Hs0 _]. rewrite E in Hs0.
    split; [now transitivity (entrada t1) | exact Ha].
Qed.

Lemma mansa_solicitar : mansa (solicitar_datos_producto (F := F) (Msg := Msg)).
Proof.
  intros t.
  destruct (solicitar_cases t)
    as [(t' & -> & _ & He)
       | (blancos & malas_c & malas_p & resto & i & n & c & p & vi & cv & pv
          & He & Hb & Hi & Hmc & Hc & Hmp & Hp)].
  - cbn. rewrite He. split; [apply suffix_nil | discriminate].
  - rewrite (solicitar_run t blancos malas_c malas_p resto i n c p vi cv pv)
      by assumption.
    cbn. split; [|discriminate]. rewrite He.
    exists (blancos ++ i :: n :: malas_c ++ c :: malas_p ++ [p])%list.
    repeat (rewrite <- app_assoc; cbn [app]). reflexivity.
Qed.

End Tame.

Create HintDb mansas.

#[local] Hint Resolve mansa_da mansa_mostrar mansa_input mansa_correr mansa_de_resultado
  mansa_str mansa_solicitar : mansas.

Ltac mansas :=
  repeat first
    [ assumption
    | solve [auto with mansas]
    | apply mansa_luego; [|intros ?]
    | apply mansa_salvo
    | apply mansa_para_cada; intros ?
    | match goal with
      | |- mansa (match ?e with _ => _ end) => destruct e
      | |- mansa (if ?e then _ else _) => destruct e
      end ].

Section MainLoop.
Context {F Msg : Type} `{PyFloat F} `{PyFloatConsole F} `{Almacen F Msg}.

Lemma mansa_pausa : mansa (pausa (F := F) (Msg := Msg)).
Proof. unfold pausa. mansas. Qed.

Lemma mansa_mostrar_menu : mansa (mostrar_menu (F := F) (Msg := Msg)).
Proof. unfold mostrar_menu. mansas. Qed.

Lemma mansa_opcion_1 : mansa (opcion_1 (F := F) (Msg := Msg)).
Proof. unfold opcion_1. mansas. Qed.

Lemma mansa_opcion_2 : mansa (opcion_2 (F := F) (Msg := Msg)).
Proof. unfold opcion_2. mansas. Qed.

Lemma mansa_opcion_3 : mansa (opcion_3 (F := F) (Msg := Msg)).
Proof. unfold opcion_3. mansas. Qed.

Lemma mansa_opcion_4 : mansa (opcion_4 (F := F) (Msg := Msg)).
Proof. unfold opcion_4. mansas. Qed.

Lemma mansa_opcion_5 : mansa (opcion_5 (F := F) (Msg := Msg)).
Proof. unfold opcion_5. mansas. Qed.

Lemma mansa_opcion_6 : mansa (opcion_6 (F := F) (Msg := Msg)).
Proof. unfold opcion_6. mansas. Qed.

Lemma mansa_rama (opcion : string) : mansa (rama opcion).
Proof.
  unfold rama.
  pose proof mansa_pausa. pose proof mansa_opcion_1. pose proof mansa_opcion_2.
  pose proof mansa_opcion_3. pose proof mansa_opcion_4. pose proof mansa_opcion_5.
  pose proof mansa_opcion_6.
  mansas.
Qed.

Lemma mansa_turno : mansa (turno (F := F) (Msg := Msg)).
Proof.
  unfold turno. apply mansa_luego; [apply mansa_mostrar_menu | intros _].
  apply mansa_luego; [apply mansa_input | apply mansa_rama].
Qed.

Lemma mostrar_menu_eq (t : sesion F Msg) :
  mostrar_menu t
  = (mkSesion (estado t) (entrada t)
       (pantalla t ++ Titulo_del_menu :: map Opcion_del_menu [1; 2; 3; 4; 5; 6; 7]%nat),
     Da tt).
Proof.
  unfold mostrar_menu, luego, mostrar. cbn. repeat rewrite <- app_assoc. reflexivity.
Qed.

Lemma lee_turno : lee (turno (F := F) (Msg := Msg)).
Proof.
  intros t t' E. unfold turno in E. unfold luego at 1 in E.
  rewrite mostrar_menu_eq in E. unfold luego at 1, input in E. cbn [entrada estado pantalla] in E.
  destruct (entrada t) as [|x r] eqn:He; [discriminate|].
  match type of E with rama x ?T = _ => destruct (mansa_rama x T) as [Hs _] end.
  rewrite E in Hs. cbn in Hs. apply suffix_length in Hs. cbn. lia.
Qed.

(** A turn leaves the loop on the option 7 only. *)
Lemma turno_sale (t t' : sesion F Msg) (a : unit) :
  turno t = (t', Da (Some a)) ->
  exists r, entrada t = "7" :: r /\ entrada t' = r /\ estado t' = estado t.
Proof.
  intros E. unfold turno in E. unfold luego at 1 in E.
  rewrite mostrar_menu_eq in E. unfold luego at 1, input in E. cbn [entrada estado pantalla] in E.
  destruct (entrada t) as [|x r] eqn:He; [discriminate|].
  assert (Hp : forall (m : U (F := F) (Msg := Msg) unit) t0 t1 b,
             luego m (fun _ => pausa) t0 <> (t1, Da (Some b))).
  { intros m t0 t1 b. unfold luego at 1. destruct (m t0) as [t2 [[]|e| |]]; try discriminate.
    unfold pausa, luego, input, da. destruct (entrada t2); discriminate. }
  unfold rama in E.
  repeat (match type of E with
          | (if String.eqb x ?o then _ else _) _ = _ =>
              destruct (String.eqb x o) eqn:?;
              [first [ now apply Hp in E | idtac ] |]
          end).
  - apply String.eqb_eq in Heqb5. subst x. unfold luego, mostrar, da in E.
    injection E as <- _. exists r. now repeat split.
  - now apply Hp in E.
Qed.

End MainLoop.

(** ** The exceptions a call lets out *)

Section Only.
Context {F Msg : Type} `{PyFloat F} `{PyFloatConsole F} `{Almacen F Msg}.

Lemma solo_impl {A : Type} (P Q : exn -> Prop) (m : U (F := F) (Msg := Msg) A) :
  (forall e, P e -> Q e) -> solo P m -> solo Q m.
Proof. intros HPQ Hm t e E. apply HPQ. now apply (Hm t). Qed.

Lemma solo_da {A : Type} (P : exn -> Prop) (a : A) : solo (F := F) (Msg := Msg) P (da a).
Proof. intros t e E. discriminate. Qed.

Lemma solo_mostrar (P : exn -> Prop) (l : Linea Msg) : solo (F := F) P (mostrar l).
Proof. intros t e E. discriminate. Qed.

Lemma solo_str (P : exn -> Prop) (l : loc) : solo (F := F) (Msg := Msg) P (str l).
Proof. intros t e E. discriminate. Qed.

Lemma solo_input (P : exn -> Prop) (p : Prompt) : solo (F := F) (Msg := Msg) P (input p).
Proof. intros t e E. unfold input in E. destruct (entrada t); discriminate. Qed.

Lemma solo_de_resultado {A : Type} (P : exn -> Prop) (r : result A) :
  (forall e, r = Raise e -> P e) -> solo (F := F) (Msg := Msg) P (de_resultado r).
Proof. intros Hr t e E. destruct r; try discriminate. injection E as <-. now apply Hr. Qed.

Lemma solo_correr {A : Type} (P : exn -> Prop) (m : M (F := F) (Msg := Msg) A) :
  (forall s e, snd (m s) = Raise e -> P e) -> solo P (correr m).
Proof.
  intros Hm t e E. unfold correr in E. cbn in E.
  destruct (snd (m (estado t))) eqn:Er; try discriminate. injection E as <-.
  now apply (Hm (estado t)).
Qed.

Lemma solo_luego {A B : Type} (P : exn -> Prop) (m : U (F := F) (Msg := Msg) A)
    (k : A -> U B) :
  solo P m -> (forall a, solo P (k a)) -> solo P (luego m k).
Proof.
  intros Hm Hk t e. unfold luego. specialize (Hm t).
  destruct (m t) as [t1 [a|e1| |]]; cbn in *; try discriminate.
  - apply Hk.
  - intros [= ->]. now apply Hm.
Qed.

Lemma solo_salvo {A : Type} (P Q : exn -> Prop) (c h : U (F := F) (Msg := Msg) A) :
  solo Q c -> (forall e, Q e -> P e \/ is_ValueError (De e) = true) -> solo P h ->
  solo P (salvo_ValueError c h).
Proof.
  intros Hc HQ Hh t e. unfold salvo_ValueError. specialize (Hc t).
  destruct (c t) as [t1 [a|e1| |]]; cbn in *; try discriminate.
  destruct (is_ValueError e1) eqn:Ev; [apply Hh|].
  intros [= ->]. destruct (HQ e (Hc e eq_refl)) as [HP | Hv]; [exact HP|].
  cbn in Ev. rewrite Hv in Ev. discriminate.
Qed.

Lemma solo_para_cada {A : Type} (P : exn -> Prop) (xs : list A)
    (cuerpo : A -> U (F := F) (Msg := Msg) unit) :
  (forall x, solo P (cuerpo x)) -> solo P (para_cada xs cuerpo).
Proof.
  intros Hc. induction xs as [|x xs IH]; cbn [para_cada].
  - apply solo_da.
  - apply solo_luego; [apply Hc | intros _; exact IH].
Qed.

Lemma solo_bucle {A : Type} (P : exn -> Prop) (cuerpo : U (F := F) (Msg := Msg) (option A)) :
  lee cuerpo -> solo P cuerpo -> solo P (bucle cuerpo).
Proof.
  intros Hlee Hc t e.
  apply (bucle_ind cuerpo (fun t r => snd r = Lanza (De e) -> P e) Hlee);
    try (intros; discriminate).
  - intros t0 t1 e1 E [= ->]. apply (Hc t0). now rewrite E.
  - intros t0 t1 r E IH. exact IH.
Qed.

Lemma solo_solicitar (P : exn -> Prop) :
  solo P (solicitar_datos_producto (F := F) (Msg := Msg)).
Proof.
  intros t e E.
  destruct (solicitar_cases t)
    as [(t1 & Hr & _)
       | (blancos & malas_c & malas_p & resto & i & n & c & p & vi & cv & pv
          & He & Hb & Hi & Hmc & Hc & Hmp & Hp)].
  - rewrite Hr in E. discriminate.
  - rewrite (solicitar_run t blancos malas_c malas_p resto i n c p vi cv pv) in E
      by assumption.
    discriminate.
Qed.

End Only.

Create HintDb solos.

#[local] Hint Resolve solo_da solo_mostrar solo_str solo_input solo_solicitar : solos.

Ltac solos :=
  repeat first
    [ assumption
    | solve [auto with solos]
    | apply solo_luego; [|intros ?]
    | apply solo_para_cada; intros ?
    | match goal with
      | |- solo _ (match ?e with _ => _ end) => destruct e
      | |- solo _ (if ?e then _ else _) => destruct e
      end ].

Section JsonConsole.
Context {F : Type} `{PyFloat F} `{PyFloatConsole F} `{JsonLib F}.


Lemma solo_gets {A : Type} (P : exn -> Prop) (f : state F Manipulacion1.Msg -> A) :
  solo P (correr (gets f)).
Proof. apply solo_correr. intros s e E. discriminate. Qed.

Lemma solo_agregar1 (P : exn -> Prop) (l : loc) :
  solo P (correr (Manipulacion1.agregar_producto (F := F) l)).
Proof.
  apply solo_correr. intros s e E. destruct (agregar1_returns s l) as [b Hb]. congruence.
Qed.

Lemma solo_eliminar1 (P : exn -> Prop) (k : string) :
  solo P (correr (Manipulacion1.eliminar_producto (F := F) k)).
Proof.
  apply solo_correr. intros s e E. destruct (eliminar1_returns s k) as [b Hb]. congruence.
Qed.

Lemma solo_actualizar1 (P : exn -> Prop) (k : string) c x :
  solo P (correr (Manipulacion1.actualizar_producto (F := F) k c x)).
Proof.
  apply solo_correr. intros s e E. destruct (actualizar1_returns s k c x) as [b Hb].
  congruence.
Qed.

Lemma solo_int (x : string) :
  solo (F := F) (Msg := Manipulacion1.Msg) (fun e => e = ValueError)
       (de_resultado (int_parse x)).
Proof.
  apply solo_de_resultado. intros e E.
  destruct (int_parse_cases x) as [[n Hn] | Hn]; congruence.
Qed.

Lemma solo_float (x : string) :
  solo (F := F) (Msg := Manipulacion1.Msg) (fun e => e = ValueError)
       (de_resultado (float_of_str (F := F) x)).
Proof.
  apply solo_de_resultado. intros e. unfold float_of_str.
  destruct (float_parse x); [discriminate | congruence].
Qed.

Lemma solo_turno1 : solo (fun _ => False) (turno (F := F) (Msg := Manipulacion1.Msg)).
Proof.
  unfold turno.
  apply solo_luego; [unfold mostrar_menu; solos | intros _].
  apply solo_luego; [solos | intros opcion]. unfold rama.
  repeat match goal with
         | |- solo _ (if ?e then _ else _) => destruct e
         end;
    (apply solo_luego; [|intros ?; unfold pausa; solos]).
  - unfold opcion_1. cbn [agregar Almacen_json].
    apply solo_luego; [solos | intros l].
    apply solo_luego; [apply solo_agregar1 | intros ok; solos].
  - unfold opcion_2. cbn [eliminar Almacen_json].
    apply solo_luego; [solos | intros k].
    apply solo_luego; [apply solo_eliminar1 | intros ok; solos].
  - unfold opcion_3. cbn [actualizar por_id Almacen_json].
    apply solo_luego; [solos | intros k].
    apply solo_luego; [apply solo_gets | intros [l|]; [|solos]].
    apply solo_luego; [solos | intros texto].
    apply solo_luego; [solos | intros _].
    apply (solo_salvo _ (fun e => e = ValueError)); [|intros e ->; now right | solos].
    apply solo_luego; [solos | intros nc].
    apply solo_luego.
    { destruct (negb (is_empty nc)); [|solos].
      apply solo_luego; [apply solo_int | intros n; solos]. }
    intros c. apply solo_luego; [solos | intros np].
    apply solo_luego.
    { destruct (negb (is_empty np)); [|solos].
      apply solo_luego; [apply solo_float | intros x; solos]. }
    intros x. apply solo_luego; [apply solo_actualizar1 | intros ok; solos].
  - unfold opcion_4. cbn [por_id Almacen_json].
    apply solo_luego; [solos | intros k].
    apply solo_luego; [apply solo_gets | intros [l|]; solos].
  - unfold opcion_5. cbn [por_nombre Almacen_json].
    apply solo_luego; [solos | intros k].
    apply solo_luego; [apply solo_gets | intros [|l ls]; solos].
  - unfold opcion_6. cbn [todos Almacen_json].
    apply solo_luego; [apply solo_gets | intros [|l ls]; solos].
  - solos.
  - solos.
Qed.

End JsonConsole.

(** ** The options 1 and 3 *)

Section MenuRuns.
Context {F Msg : Type} `{PyFloat F} `{PyFloatConsole F} `{Almacen F Msg}.

Lemma correr_quieto {A : Type} (m : M (F := F) (Msg := Msg) A) (a : A) (t : sesion F Msg) :
  m (estado t) = (estado t, Ok a) -> correr m t = (t, Da a).
Proof.
  intros Hm. unfold correr. rewrite Hm. cbn. rewrite drop_all. cbn. rewrite app_nil_r.
  now destruct t.
Qed.

(** The option 3 of [main], when the id is found, both lines are taken
    and [actualizar_producto] returns. *)
Lemma opcion_3_run (t : sesion F Msg) (k nc np : string) (r : list string) (l : loc)
    (c : option Z) (x : option F) (s' : state F Msg) (ok : bool) :
  entrada t = k :: nc :: np :: r ->
  por_id k (estado t) = (estado t, Ok (Some l)) ->
  entero_o_nada nc = Some c -> numero_o_nada np = Some x ->
  actualizar k c x (estado t) = (s', Ok ok) ->
  opcion_3 t
  = (mkSesion s' r
       (pantalla t ++ [Pide ID_a_actualizar;
                       Producto_actual (__str__ (objs (estado t) l));
                       Pide Nueva_cantidad; Pide Nuevo_precio]
        ++ map Del_inventario (drop (length (out (estado t))) (out s'))
        ++ [if ok then Producto_actualizado else Error_al_actualizar_el_producto]),
     Da tt).
Proof.
  intros He Hk Hc Hx Ha. unfold opcion_3.
  unfold luego at 1, input. rewrite He.
  unfold luego at 1. rewrite (correr_quieto _ (Some l)) by exact Hk.
  unfold luego at 1, str. cbn [estado].
  unfold luego at 1, mostrar. cbn [estado entrada pantalla].
  unfold salvo_ValueError.
  unfold luego at 1, input. cbn [estado entrada pantalla].
  unfold entero_o_nada in Hc. unfold numero_o_nada in Hx.
  assert (Hcq : forall t0 : sesion F Msg,
             (if negb (is_empty nc)
              then luego (de_resultado (int_parse nc)) (fun n => da (Some n))
              else da None) t0 = (t0, Da c)).
  { intros t0. destruct (is_empty nc); cbn [negb].
    - now injection Hc as <-.
    - unfold luego, de_resultado. destruct (int_parse nc); try discriminate.
      now injection Hc as <-. }
  assert (Hxq : forall t0 : sesion F Msg,
             (if negb (is_empty np)
              then luego (de_resultado (float_of_str np)) (fun p => da (Some p))
              else da None) t0 = (t0, Da x)).
  { intros t0. destruct (is_empty np); cbn [negb].
    - now injection Hx as <-.
    - unfold luego, de_resultado, float_of_str. destruct (float_parse np); try discriminate.
      now injection Hx as <-. }
  unfold luego at 1. rewrite Hcq.
  unfold luego at 1, input. cbn [estado entrada pantalla].
  unfold luego at 1. rewrite Hxq.
  unfold luego, correr. cbn [estado entrada pantalla]. rewrite Ha. cbn [fst snd].
  destruct ok; cbn; repeat rewrite <- app_assoc; reflexivity.
Qed.

(** A quantity that is no integer: the price is not asked for, and the
    store is not called. *)
Lemma opcion_3_mala (t : sesion F Msg) (k nc : string) (r : list string) (l : loc) :
  entrada t = k :: nc :: r ->
  por_id k (estado t) = (estado t, Ok (Some l)) ->
  nc <> EmptyString -> int_parse nc = Raise ValueError ->
  opcion_3 t
  = (mkSesion (estado t) r
       (pantalla t ++ [Pide ID_a_actualizar;
                       Producto_actual (__str__ (objs (estado t) l));
                       Pide Nueva_cantidad; Ingrese_valores_numericos_validos]),
     Da tt).
Proof.
  intros He Hk Hnc Hc. unfold opcion_3.
  unfold luego at 1, input. rewrite He.
  unfold luego at 1. rewrite (correr_quieto _ (Some l)) by exact Hk.
  unfold luego at 1, str. cbn [estado].
  unfold luego at 1, mostrar. cbn [estado entrada pantalla].
  unfold salvo_ValueError.
  unfold luego at 1, input. cbn [estado entrada pantalla].
  assert (He0 : is_empty nc = false) by (destruct nc; [contradiction | reflexivity]).
  rewrite He0. cbn [negb]. unfold luego, de_resultado. rewrite Hc. cbn.
  repeat rewrite <- app_assoc. reflexivity.
Qed.

Lemma opcion_3_ausente (t : sesion F Msg) (k : string) (r : list string) :
  entrada t = k :: r ->
  por_id k (estado t) = (estado t, Ok None) ->
  opcion_3 t
  = (mkSesion (estado t) r
       (pantalla t ++ [Pide ID_a_actualizar; Error_producto_no_encontrado]),
     Da tt).
Proof.
  intros He Hk. unfold opcion_3.
  unfold luego at 1, input. rewrite He.
  unfold luego at 1. rewrite (correr_quieto _ None) by exact Hk.
  unfold mostrar. cbn. repeat rewrite <- app_assoc. reflexivity.
Qed.

(** The option 1 of [main], on lines that hold all that is asked for, when
    [agregar_producto] returns. *)
Lemma opcion_1_run (t : sesion F Msg) (blancos malas_c malas_p resto : list string)
    (i n c p : string) (vi : string) (cv : Z) (pv : F) (s' : state F Msg) (ok : bool) :
  entrada t = (blancos ++ i :: n :: malas_c ++ c :: malas_p ++ p :: resto)%list ->
  Forall (fun x => id_valido x = None) blancos -> id_valido i = Some vi ->
  Forall (fun x => cantidad_valida x = None) malas_c -> cantidad_valida c = Some cv ->
  Forall (fun x => precio_valido x = None) malas_p -> precio_valido p = Some pv ->
  agregar (next (estado t))
          (fst (new_Producto (mkProducto vi (strip n) cv pv) (estado t))) = (s', Ok ok) ->
  exists t', opcion_1 t = (t', Da tt)
    /\ estado t' = s' /\ entrada t' = resto
    /\ last (pantalla t')
       = Some (if ok then Producto_agregado else Ya_existe_un_producto_con_ese_ID).
Proof.
  intros He Hb Hi Hmc Hc Hmp Hp Ha. unfold opcion_1.
  unfold luego at 1.
  rewrite (solicitar_run t blancos malas_c malas_p resto i n c p vi cv pv) by assumption.
  unfold luego, correr. cbn [estado entrada pantalla]. rewrite Ha. cbn [fst snd].
  destruct ok; cbn; (eexists; split; [reflexivity|]); cbn;
    (split; [reflexivity|]); (split; [reflexivity|]); apply last_snoc.
Qed.

End MenuRuns.

(* ===================================================================== *)
(** * Further properties of the store *)
(* ===================================================================== *)

Section StoreContracts.
Context {F : Type} `{PyFloat F} `{JsonLib F}.

(** X1. [eliminar_producto] with an id that is absent returns [False] and
    leaves the store, its objects and the files as they were. With an id
    that is present, and no failure of the save, it returns [True], the
    entry of that id is gone and the others stay in their order, no object
    changes, and the file holds the text of what is left; a second removal
    of the same id returns [False]. *)
Theorem eliminar_producto_contract :
  (forall (s : state F Manipulacion.Msg) (k : string),
      (dict_in k (productos (self s)) = false ->
       Manipulacion.eliminar_producto k s = (s, Ok false))
      /\ (dict_in k (productos (self s)) = true ->
          dict_wf (productos (self s)) -> quiet s ->
          exists s', Manipulacion.eliminar_producto k s = (s', Ok true)
            /\ productos (self s') = filter (fun kl => fst kl <> k)
                                            (productos (self s) : list (string * loc))
            /\ objs s' = objs s
            /\ fs s' !! archivo (self s) = Some (Manipulacion.texto s')
            /\ Manipulacion.eliminar_producto k s' = (s', Ok false)))
  /\ (forall (s : state F Manipulacion1.Msg) (k : string),
        (dict_in k (productos (self s)) = false ->
         exists s', Manipulacion1.eliminar_producto k s = (s', Ok false)
                    /\ same_mem s s' /\ fs s' = fs s)
        /\ (dict_in k (productos (self s)) = true ->
            dict_wf (productos (self s)) -> quiet s ->
            exists s', Manipulacion1.eliminar_producto k s = (s', Ok true)
              /\ productos (self s') = filter (fun kl => fst kl <> k)
                                              (productos (self s) : list (string * loc))
              /\ objs s' = objs s
              /\ fs s' !! archivo (self s) = Some (json_dump (Manipulacion1.a_json s'))
              /\ snd (Manipulacion1.eliminar_producto k s') = Ok false)).
Proof.
  split; intros s k; split.
  - apply eliminar_absent.
  - apply eliminar_contract.
  - intros Hk. rewrite eliminar1_absent by assumption.
    eexists. split; [reflexivity|]. now repeat split.
  - intros Hk Hwf Hq.
    destruct (eliminar1_contract s k Hk Hwf Hq) as (s' & Hr & Hp & Ho & Hfs & _ & H2).
    exists s'. now repeat split.
Qed.

(** X2. Looking up an id after a change of the store, whatever the save
    did: after [agregar_producto] of an object with a new id,
    [buscar_por_id] of that id returns the object; with an id that is
    present it returns the object that was there. After
    [eliminar_producto] of an id, [buscar_por_id] of it returns [None]. The
    entries of the other ids are as before, and [actualizar_producto]
    changes the result of no lookup. *)
Theorem buscar_por_id_after_changes :
  (forall (s : state F Manipulacion.Msg) (l : loc) (k' : string),
      let s' := fst (Manipulacion.agregar_producto l s) in
      snd (Manipulacion.buscar_por_id k' s')
      = Ok (if decide (k' = id (objs s l))
            then (if dict_in k' (productos (self s))
                  then dict_get k' (productos (self s)) else Some l)
            else dict_get k' (productos (self s))))
  /\ (forall (s : state F Manipulacion.Msg) (k k' : string),
        dict_wf (productos (self s)) ->
        let s' := fst (Manipulacion.eliminar_producto k s) in
        snd (Manipulacion.buscar_por_id k' s')
        = Ok (if decide (k' = k) then None else dict_get k' (productos (self s))))
  /\ (forall (s : state F Manipulacion.Msg) (k k' : string) c x,
        let s' := fst (Manipulacion.actualizar_producto k c x s) in
        snd (Manipulacion.buscar_por_id k' s') = snd (Manipulacion.buscar_por_id k' s))
  /\ (forall (s : state F Manipulacion1.Msg) (l : loc) (k' : string),
        let s' := fst (Manipulacion1.agregar_producto l s) in
        snd (Manipulacion1.buscar_por_id k' s')
        = Ok (if decide (k' = id (objs s l))
              then (if dict_in k' (productos (self s))
                    then dict_get k' (productos (self s)) else Some l)
              else dict_get k' (productos (self s))))
  /\ (forall (s : state F Manipulacion1.Msg) (k k' : string),
        dict_wf (productos (self s)) ->
        let s' := fst (Manipulacion1.eliminar_producto k s) in
        snd (Manipulacion1.buscar_por_id k' s')
        = Ok (if decide (k' = k) then None else dict_get k' (productos (self s))))
  /\ (forall (s : state F Manipulacion1.Msg) (k k' : string) c x,
        let s' := fst (Manipulacion1.actualizar_producto k c x s) in
        snd (Manipulacion1.buscar_por_id k' s') = snd (Manipulacion1.buscar_por_id k' s)).
Proof.
  assert (Hset : forall (d : dict loc) (k k' : string) (l : loc),
             dict_get k' (if dict_in k d then d else dict_set k l d)
             = if decide (k' = k)
               then (if dict_in k' d then dict_get k' d else Some l)
               else dict_get k' d).
  { intros d k k' l. destruct (decide (k' = k)) as [->|Hne].
    - destruct (dict_in k d); [reflexivity | apply dict_get_set].
    - destruct (dict_in k d); [reflexivity | now apply dict_get_set_ne]. }
  assert (Hdel : forall (d : dict loc) (k k' : string), dict_wf d ->
             dict_get k' (if dict_in k d then dict_del k d else d)
             = if decide (k' = k) then None else dict_get k' d).
  { intros d k k' Hwf. destruct (decide (k' = k)) as [->|Hne].
    - destruct (dict_in k d) eqn:E; [now apply dict_get_del|].
      unfold dict_in in E. now destruct (dict_get k d).
    - destruct (dict_in k d); [now apply dict_get_del_ne | reflexivity]. }
  repeat split.
  - intros s l k'. cbn zeta. unfold Manipulacion.buscar_por_id, gets. cbn [snd].
    rewrite agregar_productos. now rewrite Hset.
  - intros s k k' Hwf. cbn zeta. unfold Manipulacion.buscar_por_id, gets. cbn [snd].
    rewrite eliminar_productos. now rewrite Hdel.
  - intros s k k' c x. cbn zeta. unfold Manipulacion.buscar_por_id, gets. cbn [snd].
    now rewrite actualizar_self.
  - intros s l k'. cbn zeta. unfold Manipulacion1.buscar_por_id, gets. cbn [snd].
    rewrite agregar1_productos. now rewrite Hset.
  - intros s k k' Hwf. cbn zeta. unfold Manipulacion1.buscar_por_id, gets. cbn [snd].
    rewrite eliminar1_productos. now rewrite Hdel.
  - intros s k k' c x. cbn zeta. unfold Manipulacion1.buscar_por_id, gets. cbn [snd].
    now rewrite actualizar1_self.
Qed.

End StoreContracts.

Section StoreFiles.
Context {F : Type} `{PyFloat F} `{JsonLib F}.

(** X3. The three queries agree. With no key twice in the dictionary, the
    objects [obtener_todos] lists are those [buscar_por_id] returns for some
    id; when the key of every entry is the id of its record, each object
    listed is the one [buscar_por_id] returns for its own id. *)
Theorem queries_agree :
  (forall (s : state F Manipulacion.Msg) (l : loc),
      dict_wf (productos (self s)) ->
      exists todos, Manipulacion.obtener_todos s = (s, Ok todos)
        /\ (l ∈ todos <-> exists k, Manipulacion.buscar_por_id k s = (s, Ok (Some l)))
        /\ (ids_match s -> l ∈ todos ->
            Manipulacion.buscar_por_id (id (objs s l)) s = (s, Ok (Some l))))
  /\ (forall (s : state F Manipulacion1.Msg) (l : loc),
        dict_wf (productos (self s)) ->
        exists todos, Manipulacion1.obtener_todos s = (s, Ok todos)
          /\ (l ∈ todos <-> exists k, Manipulacion1.buscar_por_id k s = (s, Ok (Some l)))
          /\ (ids_match s -> l ∈ todos ->
              Manipulacion1.buscar_por_id (id (objs s l)) s = (s, Ok (Some l)))).
Proof.
  assert (Hval : forall (d : dict loc) (l : loc), dict_wf d ->
             l ∈ dict_values d -> exists k, (k, l) ∈ d /\ dict_get k d = Some l).
  { intros d l Hwf Hl. unfold dict_values in Hl.
    apply list_elem_of_In, in_map_iff in Hl. destruct Hl as ([k l'] & Hl' & Hin).
    simpl in Hl'. subst l'. apply list_elem_of_In in Hin.
    exists k. split; [exact Hin | now apply dict_elem_get]. }
  split; intros s l Hwf; (eexists; split; [reflexivity|]); split.
  - split.
    + intros Hl. destruct (Hval _ _ Hwf Hl) as (k & _ & Hg). exists k.
      unfold Manipulacion.buscar_por_id, gets. now rewrite Hg.
    + intros [k Hk]. unfold Manipulacion.buscar_por_id, gets in Hk.
      injection Hk as Hk. now apply dict_get_values in Hk.
  - intros Hi Hl. destruct (Hval _ _ Hwf Hl) as (k & Hin & Hg).
    unfold Manipulacion.buscar_por_id, gets. now rewrite (Hi k l Hin), Hg.
  - split.
    + intros Hl. destruct (Hval _ _ Hwf Hl) as (k & _ & Hg). exists k.
      unfold Manipulacion1.buscar_por_id, gets. now rewrite Hg.
    + intros [k Hk]. unfold Manipulacion1.buscar_por_id, gets in Hk.
      injection Hk as Hk. now apply dict_get_values in Hk.
  - intros Hi Hl. destruct (Hval _ _ Hwf Hl) as (k & Hin & Hg).
    unfold Manipulacion1.buscar_por_id, gets. now rewrite (Hi k l Hin), Hg.
Qed.

(** X4. In [Manipulación.py] an [OSError] of the save is printed and goes
    no further: when opening the file for writing raises it, or the write
    does, [agregar_producto] with a new id, [eliminar_producto] and
    [actualizar_producto] with an id that is present still return [True] and
    keep their change in memory. In the first case no file has changed; in the
    second the backing file holds only the characters that had been
    written. *)
Theorem delimited_save_failure_is_silent :
  forall (s : state F Manipulacion.Msg) (e : exn),
    let a := archivo (self s) in
    is_OSError e = true ->
    fault s (SysOpenWrite a) = Some e
    \/ (fault s (SysOpenWrite a) = None /\ fault s (SysWrite a) = Some e) ->
    (forall l, dict_in (id (objs s l)) (productos (self s)) = false ->
       exists s', Manipulacion.agregar_producto l s = (s', Ok true)
         /\ productos (self s') = (productos (self s) ++ [(id (objs s l), l)])%list
         /\ objs s' = objs s
         /\ out s' = (out s ++ [Manipulacion.Error_al_guardar e])%list
         /\ (fault s (SysOpenWrite a) = Some e -> fs s' = fs s)
         /\ (fault s (SysOpenWrite a) = None ->
             fs s' !! a = Some (primeros (torn s) (Manipulacion.texto s'))))
    /\ (forall k, dict_in k (productos (self s)) = true ->
          exists s', Manipulacion.eliminar_producto k s = (s', Ok true)
            /\ productos (self s') = dict_del k (productos (self s))
            /\ objs s' = objs s
            /\ out s' = (out s ++ [Manipulacion.Error_al_guardar e])%list
            /\ (fault s (SysOpenWrite a) = Some e -> fs s' = fs s)
            /\ (fault s (SysOpenWrite a) = None ->
                fs s' !! a = Some (primeros (torn s) (Manipulacion.texto s'))))
    /\ (forall k c x l, dict_get k (productos (self s)) = Some l ->
          exists s', Manipulacion.actualizar_producto k c x s = (s', Ok true)
            /\ productos (self s') = productos (self s)
            /\ objs s' l = asignar c x (objs s l)
            /\ out s' = (out s ++ [Manipulacion.Error_al_guardar e])%list
            /\ (fault s (SysOpenWrite a) = Some e -> fs s' = fs s)
            /\ (fault s (SysOpenWrite a) = None ->
                fs s' !! a = Some (primeros (torn s) (Manipulacion.texto s')))).
Proof.
  intros s e a He Hcase.
  (* the save, on any state with the path and the environment of [s] *)
  assert (Hg : forall s1 : state F Manipulacion.Msg,
             archivo (self s1) = a -> fault s1 = fault s -> torn s1 = torn s ->
             exists s', Manipulacion.guardar_inventario s1 = (s', Ok tt)
               /\ self s' = self s1 /\ objs s' = objs s1
               /\ out s' = (out s1 ++ [Manipulacion.Error_al_guardar e])%list
               /\ (fault s (SysOpenWrite a) = Some e -> fs s' = fs s1)
               /\ (fault s (SysOpenWrite a) = None ->
                   fs s' !! a = Some (primeros (torn s) (Manipulacion.texto s')))).
  { intros s1 Ha Hf Ht. destruct Hcase as [Ho | [Ho Hw]].
    - rewrite (guardar_open_fails s1 e) by (now rewrite Ha, Hf). rewrite He.
      eexists. split; [reflexivity|]. repeat split. intros Hn. congruence.
    - rewrite (guardar_write_fails s1 e) by (now rewrite Ha, Hf). cbn zeta. rewrite He.
      eexists. split; [reflexivity|]. repeat split; [intros Hn; congruence|].
      intros _. cbn. rewrite Ha, lookup_insert_eq, Ht. reflexivity. }
  split; [|split].
  - intros l Hk. rewrite agregar_new by assumption. cbn zeta.
    destruct (Hg (con_productos (dict_set (id (objs s l)) l (productos (self s))) s))
      as (s' & -> & Hs & Ho & Hout & H1 & H2); try reflexivity.
    exists s'. cbn [fst snd]. split; [reflexivity|]. rewrite Hs, Ho, Hout. cbn.
    rewrite dict_set_fresh by assumption. now repeat split.
  - intros k Hk. rewrite eliminar_present by assumption. cbn zeta.
    destruct (Hg (con_productos (dict_del k (productos (self s))) s))
      as (s' & -> & Hs & Ho & Hout & H1 & H2); try reflexivity.
    exists s'. cbn [fst snd]. split; [reflexivity|]. rewrite Hs, Ho, Hout. cbn.
    now repeat split.
  - intros k c x l Hk.
    destruct (actualizar_present s k c x l Hk)
      as (s1 & Hself & _ & Hfs & Hfa & Hto & Hout1 & Hobjs & ->).
    cbn zeta.
    destruct (Hg s1) as (s' & -> & Hs & Ho & Hout & H1 & H2);
      [now rewrite Hself | assumption | assumption |].
    exists s'. cbn [fst snd]. split; [reflexivity|]. rewrite Hs, Ho, Hout, Hself, Hout1.
    repeat split.
    + rewrite Hobjs. now rewrite decide_True.
    + intros Hn. now rewrite (H1 Hn).
    + exact H2.
Qed.

(** X5. In [Manipulación1.py] a save that fails before the destination is
    removed leaves it as it was: when opening the temporary file, writing it,
    or removing the destination raises, [guardar_inventario] raises, the store
    in memory and every file but the temporary one are as before; and when
    the temporary file can be removed, the exception is the one that was
    raised and no temporary file is left. *)
Theorem json_save_failure_keeps_destination :
  forall (s : state F Manipulacion1.Msg) (e : exn),
    let a := archivo (self s) in
    fault s (SysOpenWrite (a ++ ".tmp")) = Some e
    \/ (fault s (SysOpenWrite (a ++ ".tmp")) = None
        /\ fault s (SysWrite (a ++ ".tmp")) = Some e)
    \/ (fault s (SysOpenWrite (a ++ ".tmp")) = None
        /\ fault s (SysWrite (a ++ ".tmp")) = None
        /\ is_Some (fs s !! a) /\ fault s (SysRemove a) = Some e) ->
    exists s' e',
      Manipulacion1.guardar_inventario s = (s', Raise e')
      /\ same_mem s s'
      /\ (forall p, p <> a ++ ".tmp" -> fs s' !! p = fs s !! p)
      /\ (fault s (SysRemove (a ++ ".tmp")) = None ->
          e' = e /\ fs s' !! (a ++ ".tmp") = None).
Proof.
  intros s e a Hcase.
  destruct (guardar1_early_failure s e Hcase) as (s' & e' & Hr & Hfr & Hcl).
  exists s', e'. split; [exact Hr|]. split; [|now split].
  pose proof (guardar1_keeps_mem s) as Hm. now rewrite Hr in Hm.
Qed.

(** X6. In [Manipulación1.py], when the temporary file is written and the
    destination removed but [os.rename] raises, the handler removes the
    temporary file: [guardar_inventario] raises, neither file is left, and a
    constructor that runs next on that path finds no record, while the store
    in memory still has its records. *)
Theorem json_rename_failure_loses_file :
  forall (s : state F Manipulacion1.Msg) (e : exn),
    let a := archivo (self s) in
    fault s (SysOpenWrite (a ++ ".tmp")) = None ->
    fault s (SysWrite (a ++ ".tmp")) = None ->
    fault s (SysRemove a) = None ->
    fault s (SysRemove (a ++ ".tmp")) = None ->
    fault s (SysRename (a ++ ".tmp") a) = Some e ->
    exists s' s2,
      Manipulacion1.guardar_inventario s = (s', Raise e)
      /\ fs s' !! a = None /\ fs s' !! (a ++ ".tmp") = None
      /\ records s' = records s
      /\ Manipulacion1.__init__ a s' = (s2, Ok tt)
      /\ productos (self s2) = [].
Proof.
  intros s e a Ho Hw Hr Hrt Hn.
  destruct (guardar1_rename_fails s e Ho Hw Hr Hrt Hn) as (s' & Hg & Ha & Ht & _).
  exists s'. eexists. split; [exact Hg|]. split; [exact Ha|]. split; [exact Ht|].
  split.
  - apply same_mem_records. pose proof (guardar1_keeps_mem s) as Hm. now rewrite Hg in Hm.
  - rewrite init1_absent by exact Ha. split; reflexivity.
Qed.

(** X7. The constructors only read: whatever the file holds and whatever
    the environment answers, [Inventario(archivo)] leaves every file as it
    was, in both programs. *)
Theorem constructor_writes_nothing :
  (forall (s : state F Manipulacion.Msg) (a : string),
      fs (fst (Manipulacion.__init__ a s)) = fs s)
  /\ (forall (s : state F Manipulacion1.Msg) (a : string),
        fs (fst (Manipulacion1.__init__ a s)) = fs s).
Proof. split; intros s a; [apply init_fs | apply init1_fs]. Qed.

(** X8. The operations touch only the files of the store: after
    [guardar_inventario], [agregar_producto], [eliminar_producto] and
    [actualizar_producto], whatever their arguments and whatever fails, every
    path but [archivo] (and, in [Manipulación1.py], [archivo + '.tmp']) holds
    what it held. *)
Theorem operations_touch_own_files_only :
  (forall (s : state F Manipulacion.Msg) (p : string),
      p <> archivo (self s) ->
      fs (fst (Manipulacion.guardar_inventario s)) !! p = fs s !! p
      /\ (forall l, fs (fst (Manipulacion.agregar_producto l s)) !! p = fs s !! p)
      /\ (forall k, fs (fst (Manipulacion.eliminar_producto k s)) !! p = fs s !! p)
      /\ (forall k c x,
             fs (fst (Manipulacion.actualizar_producto k c x s)) !! p = fs s !! p))
  /\ (forall (s : state F Manipulacion1.Msg) (p : string),
        p <> archivo (self s) -> p <> archivo (self s) ++ ".tmp" ->
        fs (fst (Manipulacion1.guardar_inventario s)) !! p = fs s !! p
        /\ (forall l, fs (fst (Manipulacion1.agregar_producto l s)) !! p = fs s !! p)
        /\ (forall k, fs (fst (Manipulacion1.eliminar_producto k s)) !! p = fs s !! p)
        /\ (forall k c x,
               fs (fst (Manipulacion1.actualizar_producto k c x s)) !! p = fs s !! p)).
Proof.
  split.
  - intros s p Hp. split; [now apply guardar_fs_frame|]. split; [|split].
    + intros l. now apply agregar_fs_frame.
    + intros k. now apply eliminar_fs_frame.
    + intros k c x. now apply actualizar_fs_frame.
  - intros s p Hp Ht. split; [now apply guardar1_fs_frame|]. split; [|split].
    + intros l. now apply agregar1_fs_frame.
    + intros k. now apply eliminar1_fs_frame.
    + intros k c x. now apply actualizar1_fs_frame.
Qed.

End StoreFiles.

Section StoreLoading.
Context {F : Type} `{PyFloat F} `{JsonLib F}.

(** X9. The constructor of [Manipulación.py] at the edges: without the
    file, and with an empty file, the store is empty and nothing is printed;
    when the file is there and opening it raises [FileNotFoundError] or
    [PermissionError], the error is printed and the constructor returns with
    an empty store; any other exception of the opening (the path is a
    directory, say) leaves the constructor. *)
Theorem delimited_load_edge_cases :
  forall (s : state F Manipulacion.Msg) (a : string),
    (fs s !! a = None ->
     exists s', Manipulacion.__init__ a s = (s', Ok tt)
                /\ self s' = mkInventario [] a /\ out s' = out s)
    /\ (fs s !! a = Some EmptyString -> fault s (SysOpenRead a) = None ->
        exists s', Manipulacion.__init__ a s = (s', Ok tt)
                   /\ self s' = mkInventario [] a /\ out s' = out s)
    /\ (forall e, is_Some (fs s !! a) -> fault s (SysOpenRead a) = Some e ->
          e = FileNotFoundError \/ e = PermissionError ->
          exists s', Manipulacion.__init__ a s = (s', Ok tt)
                     /\ self s' = mkInventario [] a
                     /\ out s' = (out s ++ [Manipulacion.Error_al_cargar e])%list)
    /\ (forall e, is_Some (fs s !! a) -> fault s (SysOpenRead a) = Some e ->
          e <> FileNotFoundError -> e <> PermissionError ->
          exists s', Manipulacion.__init__ a s = (s', Raise e) /\ out s' = out s).
Proof.
  intros s a. split; [|split; [|split]].
  - intros Hfs. rewrite init_absent by assumption. eexists. split; [reflexivity|]. now split.
  - intros Hfs Hf. rewrite (init_read a EmptyString) by assumption.
    eexists. split; [reflexivity|]. now split.
  - intros e Hfs Hf He. rewrite (init_open_fails a e) by assumption.
    destruct He as [-> | ->]; (eexists; split; [reflexivity|]); now split.
  - intros e Hfs Hf H1 H2. rewrite (init_open_fails a e) by assumption.
    destruct e; try contradiction; (eexists; split; reflexivity).
Qed.

(** X10. The constructor of [Manipulación.py] on a file all of whose lines
    are read: it returns and prints nothing; the key of every entry is the id
    of its record and no key occurs twice; the record found under an id is
    the one of the last line with that id; and when no id occurs on two
    lines, the store holds the records of the lines, in their order. *)
Theorem delimited_load_result :
  forall (s : state F Manipulacion.Msg) (a text : string) (ps : list (Producto F)),
    fs s !! a = Some text -> fault s (SysOpenRead a) = None ->
    Forall2 (fun linea p => leer_linea linea = Ok p) (readlines text) ps ->
    exists s', Manipulacion.__init__ a s = (s', Ok tt)
      /\ out s' = out s
      /\ ids_match s' /\ dict_wf (productos (self s'))
      /\ (forall k, dict_get k (records s') = last (filter (fun p => id p = k) ps))
      /\ (NoDup (map id ps) -> records s' = map (fun p => (id p, p)) ps).
Proof.
  intros s a text ps Hfs Hf Hps.
  destruct (init_ok a text ps s Hfs Hf Hps) as (s' & Hr & Hrec & _ & _ & Hout & _).
  exists s'. split; [exact Hr|]. split; [exact Hout|]. split; [|split; [|split]].
  - apply records_ids. rewrite Hrec. apply fold_poner_ids. intros k p Hin. inversion Hin.
  - apply records_wf. rewrite Hrec. apply fold_poner_wf. apply NoDup_nil. exact I.
  - intros k. rewrite Hrec, fold_poner_get_id. now destruct (last _).
  - intros Hnd. rewrite Hrec. rewrite fold_poner_fresh; [reflexivity|].
    cbn [app]. now rewrite map_map.
Qed.

(** X11. The constructor of [Manipulación.py] on a file that can be read
    returns exactly when no line is malformed, and raises [ValueError]
    otherwise, wherever the malformed line stands. A blank line is
    malformed: a file with an empty line, or one of white space, makes the
    constructor raise. *)
Theorem delimited_load_succeeds_iff :
  forall (s : state F Manipulacion.Msg) (a text : string),
    fs s !! a = Some text -> fault s (SysOpenRead a) = None ->
    ((exists s', Manipulacion.__init__ a s = (s', Ok tt))
     <-> Forall (fun linea => ~ malformed (F := F) linea) (readlines text))
    /\ ((exists s', Manipulacion.__init__ a s = (s', Raise ValueError))
        <-> Exists (fun linea => malformed (F := F) linea) (readlines text))
    /\ (forall linea, linea ∈ readlines text -> strip linea = EmptyString ->
          exists s', Manipulacion.__init__ a s = (s', Raise ValueError)).
Proof.
  intros s a text Hfs Hf.
  assert (Hbad : Exists (fun linea => malformed (F := F) linea) (readlines text) ->
                 exists s', Manipulacion.__init__ a s = (s', Raise ValueError)).
  { intros Hex. apply Exists_exists in Hex as (linea & Hin & Hm).
    now apply (init_bad_line a text linea). }
  assert (Hgood : Forall (fun linea => ~ malformed (F := F) linea) (readlines text) ->
                  exists s', Manipulacion.__init__ a s = (s', Ok tt)).
  { intros Hall. destruct (leer_linea_wellformed _ Hall) as [ps Hps].
    destruct (init_ok a text ps s Hfs Hf Hps) as (s' & Hr & _). eauto. }
  assert (Hdec : forall ls, Forall (fun linea => ~ malformed (F := F) linea) ls
                            \/ Exists (fun linea => malformed (F := F) linea) ls).
  { clear. intros ls. induction ls as [|linea ls IH]; [left; constructor|].
    destruct (leer_linea_cases (F := F) linea) as [[p Hp] | Hp].
    - destruct IH as [IH | IH]; [left | right; now apply Exists_cons_tl].
      constructor; [|exact IH]. intros Hm. apply leer_linea_malformed in Hm. congruence.
    - right. apply Exists_cons_hd. now apply leer_linea_malformed. }
  split; [|split].
  - split; [|exact Hgood]. intros [s' Hr].
    destruct (Hdec (readlines text)) as [Hall | Hex]; [exact Hall|].
    destruct (Hbad Hex) as [s2 Hr2]. congruence.
  - split; [|exact Hbad]. intros [s' Hr].
    destruct (Hdec (readlines text)) as [Hall | Hex]; [|exact Hex].
    destruct (Hgood Hall) as [s2 Hr2]. congruence.
  - intros linea Hin Hs. apply (init_bad_line a text linea); try assumption.
    now apply blank_malformed.
Qed.

(** X12. The constructor of [Manipulación1.py] files each record under the
    key it has in the JSON object, whatever its id: on a file whose text is
    an object of records, the store holds them under the keys of the file, in
    their order; the key of every entry is the id of its record exactly when
    that is so in the file. *)
Theorem json_load_keeps_keys :
  forall (s : state F Manipulacion1.Msg) (a text : string)
         (entradas : dict (json F)) (ps : list (Producto F)),
    fs s !! a = Some text -> fault s (SysOpenRead a) = None ->
    json_load text = Some (JDict entradas) -> dict_wf entradas ->
    Forall2 (fun kv p => Manipulacion1.from_dict (snd kv) = Ok p) entradas ps ->
    exists s', Manipulacion1.__init__ a s = (s', Ok tt)
      /\ out s' = out s
      /\ records s' = zip (map fst entradas) ps
      /\ (ids_match s' <-> Forall2 (fun kv p => fst kv = id p) entradas ps).
Proof.
  intros s a text entradas ps Hfs Hf Hj Hwf He.
  destruct (init1_ok a text entradas ps s Hfs Hf Hj He) as (s' & Hr & Hrec & _ & _ & Hout).
  assert (Hlen : length entradas = length ps) by now apply Forall2_length in He.
  assert (Hz : records s' = zip (map fst entradas) ps).
  { rewrite Hrec. rewrite fold_poner_fresh; [reflexivity|]. cbn [app].
    rewrite fst_zip; [exact Hwf | rewrite length_map; lia]. }
  exists s'. split; [exact Hr|]. split; [exact Hout|]. split; [exact Hz|].
  rewrite records_ids, Hz. now apply zip_ids.
Qed.

(** X13. The load of [Manipulación1.py] keeps all the entries or none: on a
    text that is JSON but no object, and on an object one of whose entries
    [from_dict] refuses (no [dict], or a key is missing), the constructor
    prints the error and returns with an empty store; the entries before the
    one refused are not kept. *)
Theorem json_load_all_or_nothing :
  forall (s : state F Manipulacion1.Msg) (a text : string),
    fs s !! a = Some text -> fault s (SysOpenRead a) = None ->
    (forall j, json_load text = Some j -> (forall d, j <> JDict d) ->
       exists s', Manipulacion1.__init__ a s = (s', Ok tt)
         /\ productos (self s') = []
         /\ out s' = (out s ++ [Manipulacion1.Error_inesperado_al_cargar AttributeError])%list)
    /\ (forall entradas resto k v e (ps : list (Producto F)),
          json_load text = Some (JDict (entradas ++ (k, v) :: resto)%list) ->
          Forall2 (fun kv p => Manipulacion1.from_dict (snd kv) = Ok p) entradas ps ->
          Manipulacion1.from_dict v = Raise e ->
          (e = TypeError \/ e = KeyError)
          /\ exists s', Manipulacion1.__init__ a s = (s', Ok tt)
               /\ productos (self s') = []
               /\ out s' = (out s ++ [Manipulacion1.Error_inesperado_al_cargar e])%list).
Proof.
  intros s a text Hfs Hf. split.
  - intros j Hj Hd. rewrite (init1_no_object a text j) by assumption.
    eexists. split; [reflexivity|]. now split.
  - intros entradas resto k v e ps Hj He Hv. split.
    + apply from_dict_raises in Hv as [[-> _] | [-> _]]; [now left | now right].
    + now apply (init1_bad_entry a text entradas resto k v e ps).
Qed.

(** X14. [Producto.from_dict] undoes [Producto.to_dict]; it reads the four
    keys only, so two dictionaries that agree on them give the same
    outcome; it raises [TypeError] on a value that is no dictionary and
    [KeyError] on a dictionary without one of the four keys, and raises in no
    other case. *)
Theorem from_dict_to_dict_round_trip :
  (forall p : Producto F, Manipulacion1.from_dict (Manipulacion1.to_dict p) = Ok p)
  /\ (forall d d' : dict (json F),
        (forall k, k ∈ ["id"; "nombre"; "cantidad"; "precio"] ->
                   dict_get k d = dict_get k d') ->
        Manipulacion1.from_dict (JDict d) = Manipulacion1.from_dict (JDict d'))
  /\ (forall (v : json F) (e : exn),
        Manipulacion1.from_dict v = Raise e <->
        (e = TypeError /\ forall d, v <> JDict d)
        \/ (e = KeyError /\ exists d, v = JDict d
            /\ (dict_in "id" d && dict_in "nombre" d && dict_in "cantidad" d
                && dict_in "precio" d = false))).
Proof.
  split; [exact from_dict_to_dict|]. split.
  - intros d d' Hk. unfold Manipulacion1.from_dict, subscript.
    rewrite <- !Hk by (rewrite !elem_of_cons; tauto). reflexivity.
  - intros v e. split; [apply from_dict_raises|].
    intros [[-> Hd] | (-> & d & -> & Hin)].
    + destruct v; try reflexivity. now destruct (Hd d).
    + unfold Manipulacion1.from_dict, subscript. unfold dict_in in Hin.
      destruct (dict_get "id" d); [|reflexivity].
      destruct (dict_get "nombre" d); [|reflexivity].
      destruct (dict_get "cantidad" d); [|reflexivity].
      destruct (dict_get "precio" d); [discriminate | reflexivity].
Qed.

End StoreLoading.

Section StoreDurability.
Context {F : Type} `{PyFloat F} `{JsonLib F}.

(** X15. What an operation saved is what the next run finds: when
    [agregar_producto], [eliminar_producto] or [actualizar_producto] changes
    the store and no system call fails, it returns [True], and the
    constructor on the same path then returns with the records the store has
    after the operation. In [Manipulación.py] this is so when the key of
    every entry is the id of its record and the ids and names can be written
    (no bar, no line end, no white space at the start of an id). *)
Theorem successful_change_is_durable :
  (forall s : state F Manipulacion1.Msg,
      dict_wf (productos (self s)) -> quiet s ->
      (forall l, dict_in (id (objs s l)) (productos (self s)) = false ->
         exists s' s2,
           Manipulacion1.agregar_producto l s = (s', Ok true)
           /\ Manipulacion1.__init__ (archivo (self s)) s' = (s2, Ok tt)
           /\ records s2 = records s')
      /\ (forall k, dict_in k (productos (self s)) = true ->
            exists s' s2,
              Manipulacion1.eliminar_producto k s = (s', Ok true)
              /\ Manipulacion1.__init__ (archivo (self s)) s' = (s2, Ok tt)
              /\ records s2 = records s')
      /\ (forall k c x, dict_in k (productos (self s)) = true ->
            exists s' s2,
              Manipulacion1.actualizar_producto k c x s = (s', Ok true)
              /\ Manipulacion1.__init__ (archivo (self s)) s' = (s2, Ok tt)
              /\ records s2 = records s'))
  /\ (forall s : state F Manipulacion.Msg,
        dict_wf (productos (self s)) -> ids_match s ->
        (forall k l, (k, l) ∈ productos (self s) -> escribible (objs s l)) ->
        quiet s ->
        (forall l, dict_in (id (objs s l)) (productos (self s)) = false ->
           escribible (objs s l) ->
           exists s' s2,
             Manipulacion.agregar_producto l s = (s', Ok true)
             /\ Manipulacion.__init__ (archivo (self s)) s' = (s2, Ok tt)
             /\ records s2 = records s')
        /\ (forall k, dict_in k (productos (self s)) = true ->
              exists s' s2,
                Manipulacion.eliminar_producto k s = (s', Ok true)
                /\ Manipulacion.__init__ (archivo (self s)) s' = (s2, Ok tt)
                /\ records s2 = records s')
        /\ (forall k c x, dict_in k (productos (self s)) = true ->
              exists s' s2,
                Manipulacion.actualizar_producto k c x s = (s', Ok true)
                /\ Manipulacion.__init__ (archivo (self s)) s' = (s2, Ok tt)
                /\ records s2 = records s')).
Proof.
  split.
  - intros s Hwf Hq.
    assert (Hsave : forall s1 : state F Manipulacion1.Msg,
               dict_wf (productos (self s1)) -> quiet s1 ->
               exists s' s2,
                 Manipulacion1.guardar_inventario s1 = (s', Ok tt)
                 /\ Manipulacion1.__init__ (archivo (self s1)) s' = (s2, Ok tt)
                 /\ records s2 = records s').
    { intros s1 Hwf1 Hq1. destruct (json_round_trip s1 Hwf1 Hq1) as (s' & s2 & Hg & Hi & Hr).
      exists s', s2. split; [exact Hg|]. split; [exact Hi|]. rewrite Hr. symmetry.
      apply same_mem_records. pose proof (guardar1_keeps_mem s1) as Hm. now rewrite Hg in Hm. }
    split; [|split].
    + intros l Hk. rewrite agregar1_new by assumption. cbn zeta.
      destruct (Hsave (con_productos (dict_set (id (objs s l)) l (productos (self s))) s))
        as (s' & s2 & Hg & Hi & Hr); [now apply dict_wf_set | exact Hq |].
      rewrite Hg. cbn [fst snd]. now exists s', s2.
    + intros k Hk. rewrite eliminar1_present by assumption. cbn zeta.
      destruct (Hsave (con_productos (dict_del k (productos (self s))) s))
        as (s' & s2 & Hg & Hi & Hr); [now apply dict_wf_del | exact Hq |].
      rewrite Hg. cbn [fst snd]. now exists s', s2.
    + intros k c x Hk. apply dict_in_get in Hk as [l Hl].
      destruct (actualizar1_present s k c x l Hl)
        as (s1 & Hself & _ & _ & Hfa & _ & _ & _ & ->).
      cbn zeta.
      destruct (Hsave s1) as (s' & s2 & Hg & Hi & Hr);
        [now rewrite Hself | intros sc; now rewrite Hfa |].
      rewrite Hg. cbn [fst snd]. rewrite Hself in Hi. now exists s', s2.
  - intros s Hwf Hids Hesc Hq.
    assert (Hsave : forall s1 : state F Manipulacion.Msg,
               dict_wf (productos (self s1)) -> ids_match s1 ->
               (forall k l, (k, l) ∈ productos (self s1) -> escribible (objs s1 l)) ->
               quiet s1 ->
               exists s' s2,
                 Manipulacion.guardar_inventario s1 = (s', Ok tt)
                 /\ Manipulacion.__init__ (archivo (self s1)) s' = (s2, Ok tt)
                 /\ records s2 = records s').
    { intros s1 Hwf1 Hids1 Hesc1 Hq1.
      destruct (delimited_round_trip s1 Hwf1 Hids1 Hesc1 Hq1) as (s' & s2 & Hg & Hi & Hr).
      exists s', s2. split; [exact Hg|]. split; [exact Hi|]. rewrite Hr. symmetry.
      apply same_mem_records. pose proof (guardar_keeps_mem s1) as Hm. now rewrite Hg in Hm. }
    split; [|split].
    + intros l Hk Hl. rewrite agregar_new by assumption. cbn zeta.
      destruct (Hsave (con_productos (dict_set (id (objs s l)) l (productos (self s))) s))
        as (s' & s2 & Hg & Hi & Hr).
      * now apply dict_wf_set.
      * now apply ids_match_set.
      * intros k' l' Hin. cbn in Hin.
        apply dict_set_elem in Hin as [Hin | [= -> ->]]; [now apply (Hesc k') | exact Hl].
      * exact Hq.
      * rewrite Hg. cbn [fst snd]. now exists s', s2.
    + intros k Hk. rewrite eliminar_present by assumption. cbn zeta.
      destruct (Hsave (con_productos (dict_del k (productos (self s))) s))
        as (s' & s2 & Hg & Hi & Hr).
      * now apply dict_wf_del.
      * now apply ids_match_del.
      * intros k' l' Hin. cbn in Hin. apply dict_del_elem in Hin. now apply (Hesc k').
      * exact Hq.
      * rewrite Hg. cbn [fst snd]. now exists s', s2.
    + intros k c x Hk. apply dict_in_get in Hk as [l Hl].
      destruct (actualizar_present s k c x l Hl)
        as (s1 & Hself & _ & _ & Hfa & _ & _ & Hobjs & ->).
      cbn zeta.
      destruct (Hsave s1) as (s' & s2 & Hg & Hi & Hr).
      * now rewrite Hself.
      * intros k' l' Hin. rewrite Hself in Hin. rewrite Hobjs.
        destruct (decide (l' = l)) as [->|Hne]; [|now apply Hids].
        rewrite asignar_id. now apply Hids.
      * intros k' l' Hin. rewrite Hself in Hin. rewrite Hobjs.
        destruct (decide (l' = l)) as [->|Hne]; [|now apply (Hesc k')].
        apply escribible_asignar. now apply (Hesc k').
      * intros sc. now rewrite Hfa.
      * rewrite Hg. cbn [fst snd]. rewrite Hself in Hi. now exists s', s2.
Qed.

(** X16. Adding an object with a new id and then removing that id gives
    back the dictionary and the objects there were, whatever the saves did;
    when no system call fails both calls return [True] and the file holds
    the text of the store there was. Removing an id and adding its object
    again puts its entry last. *)
Theorem agregar_then_eliminar :
  (forall (s : state F Manipulacion.Msg) (l : loc),
      let k := id (objs s l) in
      dict_in k (productos (self s)) = false ->
      let s1 := fst (Manipulacion.agregar_producto l s) in
      let s2 := fst (Manipulacion.eliminar_producto k s1) in
      self s2 = self s /\ objs s2 = objs s
      /\ (quiet s ->
          snd (Manipulacion.agregar_producto l s) = Ok true
          /\ snd (Manipulacion.eliminar_producto k s1) = Ok true
          /\ fs s2 !! archivo (self s) = Some (Manipulacion.texto s)))
  /\ (forall (s : state F Manipulacion1.Msg) (l : loc),
        let k := id (objs s l) in
        dict_in k (productos (self s)) = false ->
        let s1 := fst (Manipulacion1.agregar_producto l s) in
        let s2 := fst (Manipulacion1.eliminar_producto k s1) in
        self s2 = self s /\ objs s2 = objs s
        /\ (quiet s ->
            snd (Manipulacion1.agregar_producto l s) = Ok true
            /\ snd (Manipulacion1.eliminar_producto k s1) = Ok true
            /\ fs s2 !! archivo (self s) = Some (json_dump (Manipulacion1.a_json s))))
  /\ (forall (s : state F Manipulacion.Msg) (k : string) (l : loc),
        dict_wf (productos (self s)) -> ids_match s ->
        dict_get k (productos (self s)) = Some l ->
        let s1 := fst (Manipulacion.eliminar_producto k s) in
        let s2 := fst (Manipulacion.agregar_producto l s1) in
        productos (self s2)
        = (filter (fun kl => fst kl <> k) (productos (self s) : list (string * loc))
           ++ [(k, l)])%list)
  /\ (forall (s : state F Manipulacion1.Msg) (k : string) (l : loc),
        dict_wf (productos (self s)) -> ids_match s ->
        dict_get k (productos (self s)) = Some l ->
        let s1 := fst (Manipulacion1.eliminar_producto k s) in
        let s2 := fst (Manipulacion1.agregar_producto l s1) in
        productos (self s2)
        = (filter (fun kl => fst kl <> k) (productos (self s) : list (string * loc))
           ++ [(k, l)])%list).
Proof.
  split; [|split; [|split]].
  - intros s l k Hk s1 s2.
    destruct (agregar_mem s l) as (Hs1 & Ho1 & _). fold k in Hs1, Ho1. rewrite Hk in Hs1, Ho1.
    fold s1 in Hs1, Ho1.
    assert (Hin1 : dict_in k (productos (self s1)) = true).
    { rewrite Hs1. cbn. apply dict_in_set. }
    destruct (eliminar_mem s1 k) as (Hs2 & Ho2 & _). rewrite Hin1 in Hs2, Ho2.
    fold s2 in Hs2, Ho2.
    assert (Hself : self s2 = self s).
    { rewrite Hs2. cbn. rewrite Hs1. cbn. rewrite dict_del_set_fresh by assumption.
      now destruct (self s). }
    split; [exact Hself|]. split; [now rewrite Ho2|].
    intros Hq. unfold s2, s1. clear Hs1 Ho1 Hin1 Hs2 Ho2 Hself s2 s1.
    destruct (agregar_contract s l) as [_ Hnew]. fold k in Hnew.
    destruct (Hnew Hk Hq) as (s' & Hr & Hp & Ha & Ho & Hfs & Hin). rewrite Hr. cbn [fst snd].
    split; [reflexivity|].
    assert (Hq' : quiet s').
    { intros sc. pose proof (agregar_fault s l) as Hf. rewrite Hr in Hf. cbn [fst] in Hf.
      rewrite Hf. apply Hq. }
    rewrite eliminar_present by assumption. rewrite guardar_ok by apply Hq'.
    cbn. split; [reflexivity|].
    rewrite Ha, lookup_insert_eq. f_equal. unfold Manipulacion.texto. cbn.
    rewrite Hp, Ho. rewrite <- (dict_set_fresh k l) by assumption.
    now rewrite dict_del_set_fresh.
  - intros s l k Hk s1 s2.
    destruct (agregar1_mem s l) as (Hs1 & Ho1 & _). fold k in Hs1, Ho1. rewrite Hk in Hs1, Ho1.
    fold s1 in Hs1, Ho1.
    assert (Hin1 : dict_in k (productos (self s1)) = true).
    { rewrite Hs1. cbn. apply dict_in_set. }
    destruct (eliminar1_mem s1 k) as (Hs2 & Ho2 & _). rewrite Hin1 in Hs2, Ho2.
    fold s2 in Hs2, Ho2.
    assert (Hself : self s2 = self s).
    { rewrite Hs2. cbn. rewrite Hs1. cbn. rewrite dict_del_set_fresh by assumption.
      now destruct (self s). }
    split; [exact Hself|]. split; [now rewrite Ho2|].
    intros Hq. unfold s2, s1. clear Hs1 Ho1 Hin1 Hs2 Ho2 Hself s2 s1.
    destruct (agregar1_contract s l) as [_ Hnew]. fold k in Hnew.
    destruct (Hnew Hk Hq) as (s' & Hr & Hp & Ha & Ho & Hfs & Hin). rewrite Hr. cbn [fst snd].
    split; [reflexivity|].
    assert (Hq' : quiet s').
    { intros sc. pose proof (agregar1_fault s l) as Hf. rewrite Hr in Hf. cbn [fst] in Hf.
      rewrite Hf. apply Hq. }
    rewrite eliminar1_present by assumption. rewrite guardar1_ok by apply Hq'.
    cbn. split; [reflexivity|].
    rewrite Ha, lookup_insert_eq. f_equal. unfold Manipulacion1.a_json. cbn.
    rewrite Hp, Ho. rewrite <- (dict_set_fresh k l) by assumption.
    now rewrite dict_del_set_fresh.
  - intros s k l Hwf Hids Hl s1 s2.
    assert (Hin : dict_in k (productos (self s)) = true) by (apply dict_in_get; eauto).
    destruct (eliminar_mem s k) as (Hs1 & Ho1 & _). rewrite Hin in Hs1, Ho1.
    fold s1 in Hs1, Ho1.
    assert (Hid : id (objs s1 l) = k).
    { rewrite Ho1. cbn. apply Hids. now apply dict_get_elem. }
    unfold s2. rewrite agregar_productos, Hid, Hs1. cbn.
    rewrite dict_in_del by assumption. rewrite dict_set_fresh by now apply dict_in_del.
    now rewrite dict_del_filter.
  - intros s k l Hwf Hids Hl s1 s2.
    assert (Hin : dict_in k (productos (self s)) = true) by (apply dict_in_get; eauto).
    destruct (eliminar1_mem s k) as (Hs1 & Ho1 & _). rewrite Hin in Hs1, Ho1.
    fold s1 in Hs1, Ho1.
    assert (Hid : id (objs s1 l) = k).
    { rewrite Ho1. cbn. apply Hids. now apply dict_get_elem. }
    unfold s2. rewrite agregar1_productos, Hid, Hs1. cbn.
    rewrite dict_in_del by assumption. rewrite dict_set_fresh by now apply dict_in_del.
    now rewrite dict_del_filter.
Qed.

End StoreDurability.

Section StoreRaises.
Context {F : Type} `{PyFloat F} `{JsonLib F}.

(** X17. [actualizar_producto] with an id that is present, when no system
    call fails: it returns [True] and prints nothing, the object of that id
    has the quantity and the price that were given (each one kept when
    [None] was given), every other object and the dictionary are as before,
    and the file holds the text of the store after the call; with no
    quantity and no price nothing changes in memory and the file is written
    all the same. *)
Theorem actualizar_producto_saves :
  (forall (s : state F Manipulacion.Msg) (k : string) (c : option Z) (x : option F) (l : loc),
      dict_get k (productos (self s)) = Some l -> quiet s ->
      exists s', Manipulacion.actualizar_producto k c x s = (s', Ok true)
        /\ self s' = self s /\ out s' = out s
        /\ (forall l', objs s' l'
                       = if decide (l' = l) then asignar c x (objs s l) else objs s l')
        /\ fs s' !! archivo (self s) = Some (Manipulacion.texto s')
        /\ (c = None -> x = None -> forall l', objs s' l' = objs s l'))
  /\ (forall (s : state F Manipulacion1.Msg) (k : string) (c : option Z) (x : option F)
             (l : loc),
        dict_get k (productos (self s)) = Some l -> quiet s ->
        exists s', Manipulacion1.actualizar_producto k c x s = (s', Ok true)
          /\ self s' = self s /\ out s' = out s
          /\ (forall l', objs s' l'
                         = if decide (l' = l) then asignar c x (objs s l) else objs s l')
          /\ fs s' !! archivo (self s) = Some (json_dump (Manipulacion1.a_json s'))
          /\ (c = None -> x = None -> forall l', objs s' l' = objs s l')).
Proof.
  split.
  - intros s k c x l Hl Hq.
    destruct (actualizar_saves s k c x l Hl Hq) as (s' & Hr & Hs & Ho & Hobjs & Hfs).
    exists s'. repeat split; try assumption.
    intros -> -> l'. rewrite Hobjs. now destruct (decide (l' = l)) as [->|].
  - intros s k c x l Hl Hq.
    destruct (actualizar1_saves s k c x l Hl Hq) as (s' & Hr & Hs & Ho & Hobjs & Hfs).
    exists s'. repeat split; try assumption.
    intros -> -> l'. rewrite Hobjs. now destruct (decide (l' = l)) as [->|].
Qed.

(** X18. What can leave the calls. In [Manipulación1.py] the three
    operations return a [bool] in every state and every environment, and the
    only exception that leaves the constructor is [PermissionError]. In
    [Manipulación.py], when the system calls raise [OSError]s only, the save
    returns and the three operations return a [bool]; the constructor raises
    nothing but [ValueError], or what the opening of the file raised when
    that is neither [FileNotFoundError] nor [PermissionError]. *)
Theorem what_the_calls_raise :
  (forall s : state F Manipulacion1.Msg,
      (forall l, exists b, snd (Manipulacion1.agregar_producto l s) = Ok b)
      /\ (forall k, exists b, snd (Manipulacion1.eliminar_producto k s) = Ok b)
      /\ (forall k c x, exists b, snd (Manipulacion1.actualizar_producto k c x s) = Ok b)
      /\ (forall a e, snd (Manipulacion1.__init__ a s) = Raise e -> e = PermissionError))
  /\ (forall s : state F Manipulacion.Msg,
        (forall a e, snd (Manipulacion.__init__ a s) = Raise e ->
           e = ValueError
           \/ (fault s (SysOpenRead a) = Some e
               /\ e <> FileNotFoundError /\ e <> PermissionError))
        /\ ((forall c e, fault s c = Some e -> is_OSError e = true) ->
            snd (Manipulacion.guardar_inventario s) = Ok tt
            /\ (forall l, exists b, snd (Manipulacion.agregar_producto l s) = Ok b)
            /\ (forall k, exists b, snd (Manipulacion.eliminar_producto k s) = Ok b)
            /\ (forall k c x,
                   exists b, snd (Manipulacion.actualizar_producto k c x s) = Ok b))).
Proof.
  split; intros s.
  - split; [|split; [|split]].
    + apply agregar1_returns.
    + apply eliminar1_returns.
    + apply actualizar1_returns.
    + intros a e. apply init1_raises.
  - split.
    + intros a e. apply init_raises.
    + intros Hos. split; [now apply guardar_returns|]. split; [|split].
      * intros l. now apply agregar_returns.
      * intros k. now apply eliminar_returns.
      * intros k c x. now apply actualizar_returns.
Qed.

(** X19. [buscar_por_nombre] compares the lower case of the text that is
    searched with that of the names. On texts of any code points: two texts
    with the same lower case find the same objects, and when the lower case of
    [n] occurs in that of [n'], what [n'] finds is among what [n] finds, in
    the same order. On the texts of code points below 256 the function is the
    one of the two files, and there the first holds of two texts that differ
    in the case of their letters only, the second when [n] occurs in [n'],
    the case of the letters apart. *)
Theorem buscar_por_nombre_case_and_narrowing :
  (forall (db : Unicode.Database) (P : Type) (nombre : P -> Unicode.str) (values : list P)
          (n n' : Unicode.str),
      (Unicode.lower n = Unicode.lower n' ->
       BuscarUnicode.buscar_por_nombre nombre values n
       = BuscarUnicode.buscar_por_nombre nombre values n')
      /\ (Unicode.contains (Unicode.lower n) (Unicode.lower n') = true ->
          sublist (BuscarUnicode.buscar_por_nombre nombre values n')
                  (BuscarUnicode.buscar_por_nombre nombre values n)))
  /\ (forall db : Unicode.Database, con_latin1 ->
        (forall (s : state F Manipulacion.Msg) (n : string),
            Manipulacion.buscar_por_nombre n s
            = (s, Ok (BuscarUnicode.buscar_por_nombre
                        (fun l => Unicode.de_latin1 (nombre (objs s l)))
                        (dict_values (productos (self s))) (Unicode.de_latin1 n))))
        /\ (forall (s : state F Manipulacion1.Msg) (n : string),
              Manipulacion1.buscar_por_nombre n s
              = (s, Ok (BuscarUnicode.buscar_por_nombre
                          (fun l => Unicode.de_latin1 (nombre (objs s l)))
                          (dict_values (productos (self s))) (Unicode.de_latin1 n)))))
  /\ (forall (s : state F Manipulacion.Msg) (n n' : string),
      (eq_ignore_case n n' ->
       Manipulacion.buscar_por_nombre n s = Manipulacion.buscar_por_nombre n' s)
      /\ (ci_occurs n n' ->
          exists r r', Manipulacion.buscar_por_nombre n s = (s, Ok r)
                       /\ Manipulacion.buscar_por_nombre n' s = (s, Ok r')
                       /\ sublist r' r))
  /\ (forall (s : state F Manipulacion1.Msg) (n n' : string),
        (eq_ignore_case n n' ->
         Manipulacion1.buscar_por_nombre n s = Manipulacion1.buscar_por_nombre n' s)
        /\ (ci_occurs n n' ->
            exists r r', Manipulacion1.buscar_por_nombre n s = (s, Ok r)
                         /\ Manipulacion1.buscar_por_nombre n' s = (s, Ok r')
                         /\ sublist r' r)).
Proof.
  split; [|split; [|split; intros s n n'; split]].
  - intros db P nombre values n n'. unfold BuscarUnicode.buscar_por_nombre. cbn zeta. split.
    + now intros ->.
    + intros Hn. apply sublist_filter_impl. intros p Hp.
      now apply (ucontains_trans _ (Unicode.lower n')).
  - intros db Hdb. split; intros s n.
    + unfold Manipulacion.buscar_por_nombre, gets. do 2 f_equal.
      now apply buscar_por_nombre_latin1.
    + unfold Manipulacion1.buscar_por_nombre, gets. do 2 f_equal.
      now apply buscar_por_nombre_latin1.
  - intros Hn. apply eq_ignore_case_lower in Hn.
    unfold Manipulacion.buscar_por_nombre. now rewrite Hn.
  - intros Hn. apply contains_lower in Hn.
    eexists _, _. split; [reflexivity|]. split; [reflexivity|].
    apply sublist_filter_impl. intros l Hl. now apply (contains_trans _ (lower n')).
  - intros Hn. apply eq_ignore_case_lower in Hn.
    unfold Manipulacion1.buscar_por_nombre. now rewrite Hn.
  - intros Hn. apply contains_lower in Hn.
    eexists _, _. split; [reflexivity|]. split; [reflexivity|].
    apply sublist_filter_impl. intros l Hl. now apply (contains_trans _ (lower n')).
Qed.

End StoreRaises.

(* ===================================================================== *)
(** * Properties of the console programs *)
(* ===================================================================== *)

Section ConsoleProperties.
Context {F Msg : Type} `{PyFloat F} `{PyFloatConsole F} `{Almacen F Msg}.

(** X20. [solicitar_datos_producto] returns a new object or raises
    [EOFError] (the lines ran out), and nothing else. The object it returns
    has an id that is not empty and has no white space around it, a name
    without white space around it, a quantity that is not below zero and a
    price for which [precio >= 0] holds; the dictionary, the files, the other
    objects and what the store has printed are as before. *)
Theorem solicitar_datos_producto_validates :
  forall t : sesion F Msg,
    (snd (solicitar_datos_producto t) = Lanza EOFError
     \/ exists l, snd (solicitar_datos_producto t) = Da l)
    /\ (forall t' l, solicitar_datos_producto t = (t', Da l) ->
          let p := objs (estado t') l in
          l = next (estado t)
          /\ id p <> EmptyString /\ strip (id p) = id p /\ strip (nombre p) = nombre p
          /\ 0 <= cantidad p /\ float_ge_0 (precio p) = true
          /\ self (estado t') = self (estado t) /\ fs (estado t') = fs (estado t)
          /\ out (estado t') = out (estado t)
          /\ (forall l', l' <> l -> objs (estado t') l' = objs (estado t) l')).
Proof.
  intros t.
  destruct (solicitar_cases t)
    as [(t1 & Hr & _)
       | (blancos & malas_c & malas_p & resto & i & n & c & p & vi & cv & pv
          & He & Hb & Hi & Hmc & Hc & Hmp & Hp)].
  - rewrite Hr. split; [now left | discriminate].
  - rewrite (solicitar_run t blancos malas_c malas_p resto i n c p vi cv pv) by assumption.
    split; [right; eauto|].
    intros t' l [= <- <-]. cbn.
    apply id_valido_spec in Hi as [-> Hi].
    apply cantidad_valida_spec in Hc as [_ Hc].
    apply precio_valido_spec in Hp as [_ Hp].
    rewrite decide_True by reflexivity. cbn.
    repeat split; try assumption; try apply strip_idem.
    intros l' Hne. now rewrite decide_False.
Qed.

(** X21. What [solicitar_datos_producto] reads. It skips the lines that
    are blank while it asks for the id, takes the next line as the id and the
    following one as the name, both without the white space around them;
    then it skips the lines that are no integer or are below zero and takes
    the first quantity that is left, and the same for the price; the lines
    after that price stay to be read. The console shows the title, and for
    each line skipped the prompt and the complaint. *)
Theorem solicitar_datos_producto_reads :
  forall (t : sesion F Msg) (blancos malas_c malas_p resto : list string)
         (i n c p : string) (cv : Z) (pv : F),
    entrada t = (blancos ++ i :: n :: malas_c ++ c :: malas_p ++ p :: resto)%list ->
    Forall (fun x => strip x = EmptyString) blancos -> strip i <> EmptyString ->
    Forall (fun x => cantidad_valida x = None) malas_c ->
    int_parse c = Ok cv -> 0 <= cv ->
    Forall (fun x => precio_valido (F := F) x = None) malas_p ->
    float_parse p = Some pv -> float_ge_0 pv = true ->
    exists t',
      solicitar_datos_producto t = (t', Da (next (estado t)))
      /\ objs (estado t') (next (estado t)) = mkProducto (strip i) (strip n) cv pv
      /\ entrada t' = resto
      /\ pantalla t'
         = (pantalla t ++ [Ingreso_de_nuevo_producto]
            ++ rechazos ID_del_producto (fun _ => El_ID_no_puede_estar_vacio) blancos
            ++ [Pide ID_del_producto; Pide Nombre_del_producto]
            ++ rechazos Cantidad_en_inventario queja_cantidad malas_c
            ++ [Pide Cantidad_en_inventario]
            ++ rechazos Precio_unitario queja_precio malas_p
            ++ [Pide Precio_unitario])%list.
Proof.
  intros t blancos malas_c malas_p resto i n c p cv pv He Hb Hi Hmc Hc Hcv Hmp Hp Hpv.
  rewrite (solicitar_run t blancos malas_c malas_p resto i n c p (strip i) cv pv).
  - eexists. split; [reflexivity|]. cbn. rewrite decide_True by reflexivity. now repeat split.
  - exact He.
  - eapply Forall_impl; [exact Hb|]. intros x Hx. now apply id_valido_none.
  - now apply id_valido_spec.
  - exact Hmc.
  - now apply cantidad_valida_spec.
  - exact Hmp.
  - now apply precio_valido_spec.
Qed.

(** X22. [main] ends on every input: none of its loops is short of turns;
    it reads the lines from the front, in their order; it returns only when
    the option 7 was typed, so that the line 7 is among those given; and when
    the first line is 7 and the constructor returns, [main] returns at once,
    with the store as the constructor left it and the other lines unread. *)
Theorem main_ends :
  forall t : sesion F Msg,
    snd (main t) <> Agotado
    /\ suffix (entrada (fst (main t))) (entrada t)
    /\ (snd (main t) = Da tt -> "7" ∈ entrada t)
    /\ (forall r s', entrada t = "7" :: r ->
          nuevo_Inventario archivo_por_defecto (estado t) = (s', Ok tt) ->
          exists t', main t = (t', Da tt) /\ estado t' = s' /\ entrada t' = r).
Proof.
  intros t.
  assert (Hm : mansa (main (F := F) (Msg := Msg))).
  { unfold main. apply mansa_luego; [apply mansa_correr | intros _].
    apply mansa_bucle; [apply lee_turno | apply mansa_turno]. }
  destruct (Hm t) as [Hs Ha]. split; [exact Ha|]. split; [exact Hs|]. split.
  - assert (Hloop : forall t0 : sesion F Msg,
               snd (bucle turno t0) = Da tt -> "7" ∈ entrada t0).
    { intros t0.
      apply (bucle_ind turno (fun t0 r => snd r = Da tt -> "7" ∈ entrada t0) lee_turno);
        try (intros; discriminate).
      - intros t1 t2 a E _. apply turno_sale in E as (r & -> & _). apply list_elem_of_here.
      - intros t1 t2 r E IH Hr. destruct (mansa_turno t1) as [[k Hk] _]. rewrite E in Hk.
        cbn in Hk. rewrite Hk. apply elem_of_app. right. now apply IH. }
    unfold main, luego, correr. cbn [fst snd].
    destruct (snd (nuevo_Inventario archivo_por_defecto (estado t))) as [[]|e|];
      try discriminate.
    intros Hr. apply Hloop in Hr. exact Hr.
  - intros r s' He Hn. unfold main, luego at 1, correr. rewrite Hn. cbn [fst snd].
    rewrite bucle_eq by apply lee_turno.
    unfold turno. unfold luego at 1. rewrite mostrar_menu_eq.
    unfold luego at 1, input. cbn [entrada estado pantalla]. rewrite He.
    unfold rama. cbn. eexists. split; [reflexivity|]. now split.
Qed.

End ConsoleProperties.

Section ConsoleStores.
Context {F : Type} `{PyFloat F} `{PyFloatConsole F} `{JsonLib F}.

(** X23. The [main] of [Manipulación1.py] raises nothing but [EOFError]
    (the lines ran out) and the [PermissionError] of the constructor: no
    text typed at the console, and no failure of a save, makes it raise
    anything else. *)
Theorem main_json_raises :
  forall (t : sesion F Manipulacion1.Msg) (e : error),
    snd (main t) = Lanza e -> e = EOFError \/ e = De PermissionError.
Proof.
  intros t e E. destruct e as [e|]; [right | now left]. f_equal.
  assert (Hm : solo (fun e => e = PermissionError) (main (F := F) (Msg := Manipulacion1.Msg))).
  { unfold main. apply solo_luego.
    - apply solo_correr. intros s e0. cbn [nuevo_Inventario Almacen_json]. apply init1_raises.
    - intros _. apply (solo_impl (fun _ => False)); [intros e0 []|].
      apply solo_bucle; [apply lee_turno | apply solo_turno1]. }
  now apply (Hm t).
Qed.

(** X24. The option 3 of [main] on an id that is present. A line that is
    an integer, followed by an empty line for the price, sets the quantity to
    that integer, below zero or not, keeps the price and shows that the
    product was updated (no system call failing). A line that is not empty
    and is no integer shows the line on numeric values: the store is not
    touched and the price is not asked for, so the line typed next is not
    read by this option. On an id that is absent the option shows that the
    product was not found and reads nothing more. In both programs. *)
Theorem menu_update :
  ((forall (t : sesion F Manipulacion1.Msg) (k nc : string) (r : list string) (l : loc),
       dict_get k (productos (self (estado t))) = Some l ->
       (forall n, entrada t = k :: nc :: EmptyString :: r -> int_parse nc = Ok n ->
                  quiet (estado t) ->
          exists t', opcion_3 t = (t', Da tt) /\ entrada t' = r
            /\ cantidad (objs (estado t') l) = n
            /\ precio (objs (estado t') l) = precio (objs (estado t) l)
            /\ last (pantalla t') = Some Producto_actualizado)
       /\ (entrada t = k :: nc :: r -> nc <> EmptyString -> int_parse nc = Raise ValueError ->
           exists t', opcion_3 t = (t', Da tt) /\ entrada t' = r /\ estado t' = estado t
             /\ last (pantalla t') = Some Ingrese_valores_numericos_validos))
   /\ (forall (t : sesion F Manipulacion1.Msg) (k : string) (r : list string),
         entrada t = k :: r -> dict_get k (productos (self (estado t))) = None ->
         exists t', opcion_3 t = (t', Da tt) /\ entrada t' = r /\ estado t' = estado t
           /\ last (pantalla t') = Some Error_producto_no_encontrado))
  /\ ((forall (t : sesion F Manipulacion.Msg) (k nc : string) (r : list string) (l : loc),
         dict_get k (productos (self (estado t))) = Some l ->
         (forall n, entrada t = k :: nc :: EmptyString :: r -> int_parse nc = Ok n ->
                    quiet (estado t) ->
            exists t', opcion_3 t = (t', Da tt) /\ entrada t' = r
              /\ cantidad (objs (estado t') l) = n
              /\ precio (objs (estado t') l) = precio (objs (estado t) l)
              /\ last (pantalla t') = Some Producto_actualizado)
         /\ (entrada t = k :: nc :: r -> nc <> EmptyString ->
             int_parse nc = Raise ValueError ->
             exists t', opcion_3 t = (t', Da tt) /\ entrada t' = r /\ estado t' = estado t
               /\ last (pantalla t') = Some Ingrese_valores_numericos_validos))
      /\ (forall (t : sesion F Manipulacion.Msg) (k : string) (r : list string),
            entrada t = k :: r -> dict_get k (productos (self (estado t))) = None ->
            exists t', opcion_3 t = (t', Da tt) /\ entrada t' = r /\ estado t' = estado t
              /\ last (pantalla t') = Some Error_producto_no_encontrado)).
Proof.
  assert (Hnc : forall nc n, int_parse nc = Ok n -> entero_o_nada nc = Some (Some n)).
  { intros nc n Hn. unfold entero_o_nada. destruct nc; [discriminate|]. cbn [is_empty].
    now rewrite Hn. }
  split; split.
  - intros t k nc r l Hl. split.
    + intros n He Hn Hq.
      destruct (actualizar1_saves (estado t) k (Some n) None l Hl Hq)
        as (s' & Ha & _ & _ & Hobjs & _).
      rewrite (opcion_3_run t k nc EmptyString r l (Some n) None s' true);
        try assumption; try reflexivity.
      * eexists. split; [reflexivity|]. cbn [entrada estado pantalla].
        split; [reflexivity|]. rewrite Hobjs, decide_True by reflexivity.
        split; [reflexivity|]. split; [reflexivity|].
        rewrite !last_app. reflexivity.
      * cbn [por_id Almacen_json]. unfold Manipulacion1.buscar_por_id, gets. now rewrite Hl.
      * now apply Hnc.
    + intros He Hne Hn. rewrite (opcion_3_mala t k nc r l); try assumption.
      * eexists. split; [reflexivity|]. cbn. repeat split.
        rewrite last_app. reflexivity.
      * cbn [por_id Almacen_json]. unfold Manipulacion1.buscar_por_id, gets. now rewrite Hl.
  - intros t k r He Hl. rewrite (opcion_3_ausente t k r); try assumption.
    + eexists. split; [reflexivity|]. cbn. repeat split. rewrite last_app. reflexivity.
    + cbn [por_id Almacen_json]. unfold Manipulacion1.buscar_por_id, gets. now rewrite Hl.
  - intros t k nc r l Hl. split.
    + intros n He Hn Hq.
      destruct (actualizar_saves (estado t) k (Some n) None l Hl Hq)
        as (s' & Ha & _ & _ & Hobjs & _).
      rewrite (opcion_3_run t k nc EmptyString r l (Some n) None s' true);
        try assumption; try reflexivity.
      * eexists. split; [reflexivity|]. cbn [entrada estado pantalla].
        split; [reflexivity|]. rewrite Hobjs, decide_True by reflexivity.
        split; [reflexivity|]. split; [reflexivity|].
        rewrite !last_app. reflexivity.
      * cbn [por_id Almacen_txt]. unfold Manipulacion.buscar_por_id, gets. now rewrite Hl.
      * now apply Hnc.
    + intros He Hne Hn. rewrite (opcion_3_mala t k nc r l); try assumption.
      * eexists. split; [reflexivity|]. cbn. repeat split.
        rewrite last_app. reflexivity.
      * cbn [por_id Almacen_txt]. unfold Manipulacion.buscar_por_id, gets. now rewrite Hl.
  - intros t k r He Hl. rewrite (opcion_3_ausente t k r); try assumption.
    + eexists. split; [reflexivity|]. cbn. repeat split. rewrite last_app. reflexivity.
    + cbn [por_id Almacen_txt]. unfold Manipulacion.buscar_por_id, gets. now rewrite Hl.
Qed.

(** [Producto(...)] leaves the objects of the store as they are. *)
Lemma alloc_old {Msg : Type} (p : Producto F) (s : state F Msg) (k : string) (l : loc) :
  alojados s -> (k, l) ∈ productos (self s) ->
  objs (fst (new_Producto p s)) l = objs s l.
Proof.
  intros Ha Hin. cbn. rewrite decide_False; [reflexivity|].
  specialize (Ha k l Hin). lia.
Qed.

(** X25. The option 1 of [main] on four lines that are taken (an id that
    is not blank, a name, a quantity that is not below zero, a price that is
    not below zero), when no system call fails. With an id that is new, the
    record with the id and the name without the white space around them is
    the last entry of the store, the file holds the text the save writes for
    the store, a constructor run on the file finds the records of the store
    (with the delimited file, when the records can be written), and the
    console shows that the product was added. With an id that is present,
    the dictionary and the files stay as they were and the console shows that
    the id exists. In both programs. *)
Theorem menu_add :
  (forall (t : sesion F Manipulacion1.Msg) (i n c p : string) (resto : list string)
          (cv : Z) (pv : F),
      entrada t = i :: n :: c :: p :: resto ->
      strip i <> EmptyString -> int_parse c = Ok cv -> 0 <= cv ->
      float_parse p = Some pv -> float_ge_0 pv = true ->
      quiet (estado t) ->
      let l := next (estado t) in
      (dict_in (strip i) (productos (self (estado t))) = false ->
       exists t', opcion_1 t = (t', Da tt) /\ entrada t' = resto
         /\ productos (self (estado t'))
            = (productos (self (estado t)) ++ [(strip i, l)])%list
         /\ objs (estado t') l = mkProducto (strip i) (strip n) cv pv
         /\ fs (estado t') !! archivo (self (estado t))
            = Some (json_dump (Manipulacion1.a_json (estado t')))
         /\ (dict_wf (productos (self (estado t))) ->
             exists s2, Manipulacion1.__init__ (archivo (self (estado t))) (estado t')
                        = (s2, Ok tt)
                        /\ records s2 = records (estado t'))
         /\ last (pantalla t') = Some Producto_agregado)
      /\ (dict_in (strip i) (productos (self (estado t))) = true ->
          exists t', opcion_1 t = (t', Da tt) /\ entrada t' = resto
            /\ self (estado t') = self (estado t) /\ fs (estado t') = fs (estado t)
            /\ last (pantalla t') = Some Ya_existe_un_producto_con_ese_ID))
  /\ (forall (t : sesion F Manipulacion.Msg) (i n c p : string) (resto : list string)
             (cv : Z) (pv : F),
        entrada t = i :: n :: c :: p :: resto ->
        strip i <> EmptyString -> int_parse c = Ok cv -> 0 <= cv ->
        float_parse p = Some pv -> float_ge_0 pv = true ->
        quiet (estado t) ->
        let l := next (estado t) in
        (dict_in (strip i) (productos (self (estado t))) = false ->
         exists t', opcion_1 t = (t', Da tt) /\ entrada t' = resto
           /\ productos (self (estado t'))
              = (productos (self (estado t)) ++ [(strip i, l)])%list
           /\ objs (estado t') l = mkProducto (strip i) (strip n) cv pv
           /\ fs (estado t') !! archivo (self (estado t))
              = Some (Manipulacion.texto (estado t'))
           /\ (dict_wf (productos (self (estado t))) -> ids_match (estado t) ->
               alojados (estado t) ->
               (forall k' l', (k', l') ∈ productos (self (estado t)) ->
                              escribible (objs (estado t) l')) ->
               escribible (mkProducto (strip i) (strip n) cv pv) ->
               exists s2, Manipulacion.__init__ (archivo (self (estado t))) (estado t')
                          = (s2, Ok tt)
                          /\ records s2 = records (estado t'))
           /\ last (pantalla t') = Some Producto_agregado)
        /\ (dict_in (strip i) (productos (self (estado t))) = true ->
            exists t', opcion_1 t = (t', Da tt) /\ entrada t' = resto
              /\ self (estado t') = self (estado t) /\ fs (estado t') = fs (estado t)
              /\ last (pantalla t') = Some Ya_existe_un_producto_con_ese_ID)).
Proof.
  split.
  - intros t i n c p resto cv pv He Hi Hc Hcv Hp Hpv Hq l.
    set (s1 := fst (new_Producto (mkProducto (strip i) (strip n) cv pv) (estado t))).
    assert (Hobj : objs s1 l = mkProducto (strip i) (strip n) cv pv)
      by (cbn; now rewrite decide_True).
    assert (Hrun : forall s' ok,
               Manipulacion1.agregar_producto l s1 = (s', Ok ok) ->
               exists t', opcion_1 t = (t', Da tt) /\ estado t' = s' /\ entrada t' = resto
                 /\ last (pantalla t')
                    = Some (if ok then Producto_agregado
                            else Ya_existe_un_producto_con_ese_ID)).
    { intros s' ok Ha.
      apply (opcion_1_run t [] [] [] resto i n c p (strip i) cv pv s' ok);
        try constructor; try assumption.
      - now apply id_valido_spec.
      - now apply cantidad_valida_spec.
      - now apply precio_valido_spec. }
    destruct (agregar1_contract s1 l) as [Hdup Hnew]. rewrite Hobj in Hdup, Hnew.
    cbn [id] in Hdup, Hnew. split.
    + intros Hk. destruct (Hnew Hk Hq) as (s' & Ha & Hp' & _ & Ho & Hfs & _).
      destruct (Hrun s' true Ha) as (t' & Hr & Ht & He' & Hlast).
      exists t'. rewrite Ht.
      split; [exact Hr|]. split; [exact He'|]. split; [exact Hp'|].
      split; [now rewrite Ho|]. split; [exact Hfs|]. split; [|exact Hlast].
      intros Hwf.
      destruct (agregar1_durable s1 l) as (s'' & s2 & Ha' & Hi2 & Hrec);
        [exact Hwf | exact Hq | now rewrite Hobj |].
      rewrite Ha in Ha'. injection Ha' as <-. now exists s2.
    + intros Hk. destruct (Hdup Hk) as (s' & Ha & (Hs & _) & Hfs).
      destruct (Hrun s' false Ha) as (t' & Hr & Ht & He' & Hlast).
      exists t'. rewrite Ht. repeat split; assumption.
  - intros t i n c p resto cv pv He Hi Hc Hcv Hp Hpv Hq l.
    set (s1 := fst (new_Producto (mkProducto (strip i) (strip n) cv pv) (estado t))).
    assert (Hobj : objs s1 l = mkProducto (strip i) (strip n) cv pv)
      by (cbn; now rewrite decide_True).
    assert (Hrun : forall s' ok,
               Manipulacion.agregar_producto l s1 = (s', Ok ok) ->
               exists t', opcion_1 t = (t', Da tt) /\ estado t' = s' /\ entrada t' = resto
                 /\ last (pantalla t')
                    = Some (if ok then Producto_agregado
                            else Ya_existe_un_producto_con_ese_ID)).
    { intros s' ok Ha.
      apply (opcion_1_run t [] [] [] resto i n c p (strip i) cv pv s' ok);
        try constructor; try assumption.
      - now apply id_valido_spec.
      - now apply cantidad_valida_spec.
      - now apply precio_valido_spec. }
    destruct (agregar_contract s1 l) as [Hdup Hnew]. rewrite Hobj in Hdup, Hnew.
    cbn [id] in Hdup, Hnew. split.
    + intros Hk. destruct (Hnew Hk Hq) as (s' & Ha & Hp' & _ & Ho & Hfs & _).
      destruct (Hrun s' true Ha) as (t' & Hr & Ht & He' & Hlast).
      exists t'. rewrite Ht.
      split; [exact Hr|]. split; [exact He'|]. split; [exact Hp'|].
      split; [now rewrite Ho|]. split; [exact Hfs|]. split; [|exact Hlast].
      intros Hwf Hids Hal Hesc Hnew'.
      destruct (agregar_durable s1 l) as (s'' & s2 & Ha' & Hi2 & Hrec).
      * exact Hwf.
      * intros k' l' Hin. unfold s1. rewrite (alloc_old _ _ k' l' Hal Hin). now apply Hids.
      * intros k' l' Hin. unfold s1. rewrite (alloc_old _ _ k' l' Hal Hin).
        now apply (Hesc k').
      * now rewrite Hobj.
      * exact Hq.
      * now rewrite Hobj.
      * rewrite Ha in Ha'. injection Ha' as <-. now exists s2.
    + intros Hk. specialize (Hdup Hk).
      destruct (Hrun s1 false Hdup) as (t' & Hr & Ht & He' & Hlast).
      exists t'. rewrite Ht. repeat split; assumption.
Qed.

End ConsoleStores.

(* ===================================================================== *)
(** * The further properties on the concrete stores *)
(* ===================================================================== *)

Lemma dos1_wf : dict_wf (productos (self dos1)).
Proof. apply (bool_decide_unpack _). vm_compute. reflexivity. Defined.

Lemma eliminar_producto_contract_witness :
  (exists s', Manipulacion.eliminar_producto "P1" dos = (s', Ok true)
     /\ productos (self s') = [("W1", 1%nat)]
     /\ fs s' !! "inventario.txt" = Some (Manipulacion.texto s'))
  /\ Manipulacion.eliminar_producto "P9" dos = (dos, Ok false).
Proof.
  split.
  - destruct (proj2 (proj1 (eliminar_producto_contract (F := Z)) dos "P1"))
      as (s' & Hr & Hp & _ & Hfs & _).
    + reflexivity.
    + exact dos_wf.
    + intros c. reflexivity.
    + exists s'. repeat split; assumption.
  - apply (proj1 (proj1 (eliminar_producto_contract (F := Z)) dos "P9")). reflexivity.
Defined.

Lemma buscar_por_id_after_changes_witness :
  snd (Manipulacion.buscar_por_id "P1" (fst (Manipulacion.eliminar_producto "P1" dos)))
  = Ok None
  /\ snd (Manipulacion1.buscar_por_id "W1" (fst (Manipulacion1.eliminar_producto "P1" dos1)))
     = Ok (Some 1%nat).
Proof.
  split.
  - apply (proj1 (proj2 (buscar_por_id_after_changes (F := Z))) dos "P1" "P1"). exact dos_wf.
  - apply (proj1 (proj2 (proj2 (proj2 (proj2 (buscar_por_id_after_changes (F := Z))))))
             dos1 "P1" "W1").
    exact dos1_wf.
Defined.

Lemma queries_agree_witness :
  exists todos, Manipulacion.obtener_todos dos = (dos, Ok todos)
    /\ (1%nat ∈ todos <-> exists k, Manipulacion.buscar_por_id k dos = (dos, Ok (Some 1%nat)))
    /\ (ids_match dos -> 1%nat ∈ todos ->
        Manipulacion.buscar_por_id (id (objs dos 1%nat)) dos = (dos, Ok (Some 1%nat))).
Proof. apply (proj1 (queries_agree (F := Z)) dos 1%nat). exact dos_wf. Defined.

Lemma delimited_save_failure_is_silent_witness :
  exists s', Manipulacion.agregar_producto 2%nat solo_lectura = (s', Ok true)
    /\ productos (self s') = [("P1", 0%nat); ("W1", 1%nat); ("G1", 2%nat)]
    /\ out s' = [Manipulacion.Error_al_guardar PermissionError]
    /\ fs s' = fs solo_lectura.
Proof.
  destruct (proj1 (delimited_save_failure_is_silent (F := Z) solo_lectura PermissionError
                     eq_refl (or_introl eq_refl)) 2%nat eq_refl)
    as (s' & Hr & Hp & _ & Hout & Hfs & _).
  exists s'. repeat split; try assumption. now apply Hfs.
Defined.

Lemma json_save_failure_keeps_destination_witness :
  exists s' e',
    Manipulacion1.guardar_inventario sin_permiso = (s', Raise e')
    /\ same_mem sin_permiso s'
    /\ (forall p, p <> "inventario.json.tmp" -> fs s' !! p = fs sin_permiso !! p)
    /\ (fault sin_permiso (SysRemove "inventario.json.tmp") = None ->
        e' = PermissionError /\ fs s' !! "inventario.json.tmp" = None).
Proof.
  apply (json_save_failure_keeps_destination (F := Z) sin_permiso PermissionError).
  left. reflexivity.
Defined.

Lemma json_rename_failure_loses_file_witness :
  fs sin_renombrar !! "inventario.json" = Some "{}"
  /\ exists s' s2,
       Manipulacion1.guardar_inventario sin_renombrar = (s', Raise OSError)
       /\ fs s' !! "inventario.json" = None /\ fs s' !! "inventario.json.tmp" = None
       /\ records s' = records sin_renombrar
       /\ Manipulacion1.__init__ "inventario.json" s' = (s2, Ok tt)
       /\ productos (self s2) = [].
Proof.
  split; [vm_compute; reflexivity|].
  apply (json_rename_failure_loses_file (F := Z) sin_renombrar OSError); reflexivity.
Defined.

Lemma operations_touch_own_files_only_witness :
  fs (fst (Manipulacion.guardar_inventario dos)) !! "otro.txt" = fs dos !! "otro.txt"
  /\ fs (fst (Manipulacion1.agregar_producto 2%nat dos1)) !! "otro.txt" = fs dos1 !! "otro.txt".
Proof.
  split.
  - apply (proj1 (operations_touch_own_files_only (F := Z)) dos "otro.txt"). discriminate.
  - apply (proj2 (operations_touch_own_files_only (F := Z)) dos1 "otro.txt"); discriminate.
Defined.

Lemma delimited_load_edge_cases_witness :
  exists s', Manipulacion.__init__ "inventario.txt" dos = (s', Ok tt)
             /\ self s' = mkInventario [] "inventario.txt" /\ out s' = out dos.
Proof.
  apply (proj1 (delimited_load_edge_cases (F := Z) dos "inventario.txt")). reflexivity.
Defined.

Lemma delimited_load_result_witness :
  exists s', Manipulacion.__init__ "inventario.txt" repetida = (s', Ok tt)
    /\ out s' = out repetida
    /\ ids_match s' /\ dict_wf (productos (self s'))
    /\ (forall k, dict_get k (records s') = last (filter (fun p => id p = k) [bolt; nut]))
    /\ (NoDup (map id [bolt; nut]) -> records s' = map (fun p => (id p, p)) [bolt; nut]).
Proof.
  apply (delimited_load_result (F := Z) repetida "inventario.txt"
           ("P1|Bolt|10|5.0" ++ newline ++ "P1|Nut|3|1.0" ++ newline) [bolt; nut]).
  - vm_compute. reflexivity.
  - reflexivity.
  - vm_compute. repeat constructor.
Defined.

Lemma delimited_load_succeeds_iff_witness :
  exists s', Manipulacion.__init__ "inventario.txt" en_blanco = (s', Raise ValueError).
Proof.
  apply (proj2 (proj2 (delimited_load_succeeds_iff (F := Z) en_blanco "inventario.txt"
                         ("P1|Bolt|10|5.0" ++ newline ++ newline)
                         ltac:(vm_compute; reflexivity) eq_refl)) newline).
  - vm_compute. apply list_elem_of_further, list_elem_of_here.
  - reflexivity.
Defined.

Lemma json_load_keeps_keys_witness :
  exists s', Manipulacion1.__init__ "inventario.json" otra_clave = (s', Ok tt)
    /\ out s' = out otra_clave
    /\ records s' = [("X", bolt)]
    /\ (ids_match s'
        <-> Forall2 (fun kv p => fst kv = id p) [("X", Manipulacion1.to_dict bolt)] [bolt]).
Proof.
  apply (json_load_keeps_keys (F := Z) otra_clave "inventario.json"
           (JsonZ.dump (JDict [("X", Manipulacion1.to_dict bolt)]))
           [("X", Manipulacion1.to_dict bolt)] [bolt]).
  - vm_compute. reflexivity.
  - reflexivity.
  - vm_compute. reflexivity.
  - apply (bool_decide_unpack _). vm_compute. reflexivity.
  - repeat constructor.
Defined.

Lemma json_load_all_or_nothing_witness :
  exists s', Manipulacion1.__init__ "inventario.json" lista = (s', Ok tt)
    /\ productos (self s') = []
    /\ out s' = [Manipulacion1.Error_inesperado_al_cargar AttributeError].
Proof.
  apply (proj1 (json_load_all_or_nothing (F := Z) lista "inventario.json" "[]"
                  ltac:(vm_compute; reflexivity) eq_refl) (JList [])).
  - vm_compute. reflexivity.
  - discriminate.
Defined.

Lemma from_dict_to_dict_round_trip_witness :
  (TypeError = TypeError /\ forall d, JStr "P1" <> JDict (F := Z) d)
  \/ (TypeError = KeyError /\ exists d, JStr "P1" = JDict (F := Z) d
      /\ (dict_in "id" d && dict_in "nombre" d && dict_in "cantidad" d
          && dict_in "precio" d = false)).
Proof.
  apply (proj1 (proj2 (proj2 (from_dict_to_dict_round_trip (F := Z))) (JStr "P1") TypeError)).
  reflexivity.
Defined.

Lemma successful_change_is_durable_witness :
  (exists s' s2,
      Manipulacion1.agregar_producto 2%nat dos1 = (s', Ok true)
      /\ Manipulacion1.__init__ "inventario.json" s' = (s2, Ok tt)
      /\ records s2 = records s')
  /\ (exists s' s2,
        Manipulacion.actualizar_producto "P1" (Some 20) None dos = (s', Ok true)
        /\ Manipulacion.__init__ "inventario.txt" s' = (s2, Ok tt)
        /\ records s2 = records s').
Proof.
  split.
  - apply (proj1 (proj1 (successful_change_is_durable (F := Z)) dos1 dos1_wf
                    (fun c => eq_refl)) 2%nat).
    reflexivity.
  - refine (proj2 (proj2 (proj2 (successful_change_is_durable (F := Z)) dos dos_wf dos_ids _
                             (fun c => eq_refl))) "P1" (Some 20) None eq_refl).
    intros k l Hin. entradas Hin; repeat split.
Defined.

Lemma agregar_then_eliminar_witness :
  let s1 := fst (Manipulacion.agregar_producto 2%nat dos) in
  let s2 := fst (Manipulacion.eliminar_producto "G1" s1) in
  self s2 = self dos /\ objs s2 = objs dos
  /\ (quiet dos ->
      snd (Manipulacion.agregar_producto 2%nat dos) = Ok true
      /\ snd (Manipulacion.eliminar_producto "G1" s1) = Ok true
      /\ fs s2 !! "inventario.txt" = Some (Manipulacion.texto dos)).
Proof. apply (proj1 (agregar_then_eliminar (F := Z)) dos 2%nat). reflexivity. Defined.

Lemma actualizar_producto_saves_witness :
  exists s', Manipulacion.actualizar_producto "P1" None None dos = (s', Ok true)
    /\ self s' = self dos
    /\ fs s' !! "inventario.txt" = Some (Manipulacion.texto s')
    /\ (forall l', objs s' l' = objs dos l').
Proof.
  destruct (proj1 (actualizar_producto_saves (F := Z)) dos "P1" None None 0%nat eq_refl
              (fun c => eq_refl))
    as (s' & Hr & Hs & _ & _ & Hfs & Hno).
  exists s'. repeat split; try assumption. now apply Hno.
Defined.

Lemma what_the_calls_raise_witness :
  snd (Manipulacion.guardar_inventario solo_lectura) = Ok tt
  /\ (forall l, exists b, snd (Manipulacion.agregar_producto l solo_lectura) = Ok b)
  /\ (forall k, exists b, snd (Manipulacion.eliminar_producto k solo_lectura) = Ok b)
  /\ (forall k c x,
         exists b, snd (Manipulacion.actualizar_producto k c x solo_lectura) = Ok b).
Proof.
  apply (proj2 (proj2 (what_the_calls_raise (F := Z)) solo_lectura)).
  intros c e. destruct c as [p|p|p|p|p q]; try discriminate.
  change (fault solo_lectura (SysOpenWrite p))
    with (if String.eqb "inventario.txt" p then Some PermissionError else None).
  destruct (String.eqb "inventario.txt" p); [intros [= <-]; reflexivity | discriminate].
Defined.

Lemma Griego_latin1 : con_latin1 (H := Database_Griego).
Proof.
  intros c. cbn. unfold Griego.to_lower_full.
  pose proof (N_of_ascii_lt c) as Hc. apply N.ltb_lt in Hc. rewrite Hc.
  now rewrite ascii_N_embedding.
Qed.

Lemma buscar_por_nombre_case_and_narrowing_witness :
  (Manipulacion.buscar_por_nombre "WIDGET" wg = Manipulacion.buscar_por_nombre "widget" wg
   /\ exists r r', Manipulacion1.buscar_por_nombre "get" wg1 = (wg1, Ok r)
                   /\ Manipulacion1.buscar_por_nombre "Widget" wg1 = (wg1, Ok r')
                   /\ sublist r' r)
  /\ sublist (BuscarUnicode.buscar_por_nombre (fun p : Unicode.str => p)
                [[913; 931]; [914]]%N [913; 931]%N)
             (BuscarUnicode.buscar_por_nombre (fun p : Unicode.str => p)
                [[913; 931]; [914]]%N [913]%N)
  /\ Manipulacion.buscar_por_nombre "widget" wg
     = (wg, Ok (BuscarUnicode.buscar_por_nombre
                  (fun l => Unicode.de_latin1 (nombre (objs wg l)))
                  (dict_values (productos (self wg))) (Unicode.de_latin1 "widget"))).
Proof.
  split; [split|split].
  - apply (proj1 (proj1 (proj2 (proj2 (buscar_por_nombre_case_and_narrowing (F := Z))))
                    wg "WIDGET" "widget")).
    apply eq_ignore_case_lower. reflexivity.
  - apply (proj2 (proj2 (proj2 (proj2 (buscar_por_nombre_case_and_narrowing (F := Z))))
                    wg1 "get" "Widget")).
    exists "Wid", "get", "". split; [reflexivity|]. apply eq_ignore_case_lower. reflexivity.
  - apply (proj2 (proj1 (buscar_por_nombre_case_and_narrowing (F := Z))
                    Database_Griego _ (fun p => p) [[913; 931]; [914]]%N [913]%N [913; 931]%N)).
    vm_compute. reflexivity.
  - apply (proj1 (proj1 (proj2 (buscar_por_nombre_case_and_narrowing (F := Z)))
                    Database_Griego Griego_latin1) wg "widget").
Defined.

Lemma solicitar_datos_producto_validates_witness :
  let t := consola dos [" "; " P9 "; "Nut"; "-1"; "4"; "2.0"] in
  let t' := fst (solicitar_datos_producto t) in
  let p := objs (estado t') 3%nat in
  3%nat = next (estado t)
  /\ id p <> EmptyString /\ strip (id p) = id p /\ strip (nombre p) = nombre p
  /\ 0 <= cantidad p /\ float_ge_0 (precio p) = true
  /\ self (estado t') = self (estado t) /\ fs (estado t') = fs (estado t)
  /\ out (estado t') = out (estado t)
  /\ (forall l', l' <> 3%nat -> objs (estado t') l' = objs (estado t) l').
Proof.
  intros t t'.
  apply (proj2 (solicitar_datos_producto_validates (F := Z) (Msg := Manipulacion.Msg) t)
           t' 3%nat).
  vm_compute. reflexivity.
Defined.

Lemma solicitar_datos_producto_reads_witness :
  exists t',
    solicitar_datos_producto (consola dos [" "; " P9 "; "Nut"; "-1"; "4"; "2.0"; "7"])
    = (t', Da 3%nat)
    /\ objs (estado t') 3%nat = mkProducto "P9" "Nut" 4 2
    /\ entrada t' = ["7"]
    /\ pantalla t'
       = [Ingreso_de_nuevo_producto;
          Pide ID_del_producto; El_ID_no_puede_estar_vacio;
          Pide ID_del_producto; Pide Nombre_del_producto;
          Pide Cantidad_en_inventario; La_cantidad_debe_ser_0_o_mayor;
          Pide Cantidad_en_inventario; Pide Precio_unitario].
Proof.
  apply (solicitar_datos_producto_reads (F := Z) (Msg := Manipulacion.Msg)
           (consola dos [" "; " P9 "; "Nut"; "-1"; "4"; "2.0"; "7"])
           [" "] ["-1"] [] ["7"] " P9 " "Nut" "4" "2.0" 4 2).
  - reflexivity.
  - repeat constructor.
  - discriminate.
  - repeat constructor.
  - reflexivity.
  - lia.
  - constructor.
  - vm_compute. reflexivity.
  - reflexivity.
Defined.

Lemma main_ends_witness :
  exists t', main (consola dos ["7"; "1"]) = (t', Da tt)
             /\ estado t' = fst (Manipulacion.__init__ "inventario.txt" dos)
             /\ entrada t' = ["1"].
Proof.
  apply (proj2 (proj2 (proj2 (main_ends (F := Z) (Msg := Manipulacion.Msg)
                                (consola dos ["7"; "1"]))))
           ["1"] (fst (Manipulacion.__init__ "inventario.txt" dos)) eq_refl).
  vm_compute. reflexivity.
Defined.

Lemma main_json_raises_witness :
  De PermissionError = EOFError \/ De PermissionError = De PermissionError.
Proof.
  apply (main_json_raises (F := Z) (consola sin_lectura ["7"])).
  vm_compute. reflexivity.
Defined.

Lemma menu_update_witness :
  exists t', opcion_3 (consola dos1 ["P1"; "-5"; ""; "7"]) = (t', Da tt)
    /\ entrada t' = ["7"]
    /\ cantidad (objs (estado t') 0%nat) = -5
    /\ precio (objs (estado t') 0%nat) = 5
    /\ last (pantalla t') = Some Producto_actualizado.
Proof.
  apply (proj1 (proj1 (proj1 (menu_update (F := Z)))
                  (consola dos1 ["P1"; "-5"; ""; "7"]) "P1" "-5" ["7"] 0%nat eq_refl) (-5)).
  - reflexivity.
  - vm_compute. reflexivity.
  - intros c. reflexivity.
Defined.

Lemma menu_add_witness :
  exists t', opcion_1 (consola dos [" P9 "; "Nut"; "4"; "2.0"; "7"]) = (t', Da tt)
    /\ entrada t' = ["7"]
    /\ productos (self (estado t')) = [("P1", 0%nat); ("W1", 1%nat); ("P9", 3%nat)]
    /\ objs (estado t') 3%nat = mkProducto "P9" "Nut" 4 2
    /\ fs (estado t') !! "inventario.txt" = Some (Manipulacion.texto (estado t'))
    /\ (exists s2, Manipulacion.__init__ "inventario.txt" (estado t') = (s2, Ok tt)
                   /\ records s2 = records (estado t'))
    /\ last (pantalla t') = Some Producto_agregado.
Proof.
  destruct (proj1 (proj2 (menu_add (F := Z)) (consola dos [" P9 "; "Nut"; "4"; "2.0"; "7"])
                     " P9 " "Nut" "4" "2.0" ["7"] 4 2 eq_refl
                     ltac:(discriminate) eq_refl ltac:(lia) ltac:(vm_compute; reflexivity)
                     eq_refl (fun c => eq_refl)) eq_refl)
    as (t' & Hr & He & Hp & Ho & Hfs & Hre & Hl).
  exists t'. split; [exact Hr|]. split; [exact He|]. split; [exact Hp|].
  split; [exact Ho|]. split; [exact Hfs|]. split; [|exact Hl].
  apply Hre.
  - exact dos_wf.
  - exact dos_ids.
  - intros k l Hin. entradas Hin; cbn; lia.
  - intros k l Hin. entradas Hin; repeat split.
  - repeat split.
Defined.
